(* ===== verification/_CoqProject ===== *)
-Q . S2P
Prelude.v
JsString.v
Csv.v
Domain.v
JsDate.v
JsNumber.v
FieldParse.v
RowMapper.v
ImportFlow.v
Export.v
DemoAuth.v
Access.v
MultiSelect.v
ResourceForm.v
ResourceList.v
ImportModal.v
ImportPreview.v
ResourcesPage.v
Queries.v
Dashboard.v
DashboardWidgets.v
Timesheets.v
Projects.v
Login.v
AccessDenied.v
LayoutView.v
Router.v
Reports.v
ResourceTable.v
