(* ===== verification/Prelude.v ===== *)
(** * TeamTrack front end: a verification development

    The program is the TeamTrack front end under [src/frontend/src]: a single-page
    application that keeps employee records ("resources"), projects and timesheets
    in a backend actor and offers role-gated pages.  Its parts and how they
    interact:
    - the data hooks of [hooks/useQueries.ts] read and write the backend actor
      through React Query's cache; every page gets its data from them;
    - the resources page ([pages/ResourcesPage.tsx]) lists, filters and sorts
      resources ([components/ResourceTableView.tsx]) and mounts three dialogs:
      the resource form ([components/ResourceFormModal.tsx], with the skill
      pickers of [hooks/useMultiSelectDropdown.ts]), the bulk import
      ([components/ResourceImportModal.tsx]: CSV or spreadsheet -> header/rows ->
      one [ParsedRow] per row -> one bulk call) and a delete confirmation;
    - the CSV export of [utils/exportUtils.ts] writes the import's 21-column
      layout;
    - the dashboard ([pages/DashboardPage.tsx], [components/DashboardDateFilter.tsx])
      filters everything by a month or a day and shows counts, hours per
      project and an activity feed; the timesheets page ([pages/TimesheetsPage.tsx],
      [components/WeeklyTimesheetView.tsx]) lays out the current week;
    - [App.tsx], [components/Layout.tsx] and [pages/ReportsPage.tsx] decide which
      pages a user sees, with the demo session of [hooks/useDemoAuth.ts];
    - the projects page ([pages/ProjectsPage.tsx]) shows a board of status
      columns with a form, a detail dialog and a milestone checklist;
    - the login page ([components/LoginPage.tsx]) signs a user in, in demo
      mode or with Internet Identity, and lets a new identity save its profile;
    - the reports page shows the Power BI report whose URL admins set in
      [components/PowerBIConfigModal.tsx].

    ** Files, in dependency order
    - [Prelude]    (this file) notation scope [tt_scope], the [tt] hint databases,
                   the development's tactics and the generic list lemmas.
    - [JsString]   the JavaScript string built-ins the code calls ([trim],
                   [toLowerCase], [split], [join], [includes], [replace(/\s+/g,'')],
                   [split(/\r?\n/)]) over strings as [list ascii]; library
                   semantics, not code of the repository.
    - [Csv]        [parseCSVLine], [parseCSV] and the CSV cell escape.
    - [Domain]     the data of [backend.d.ts] with decidable equality.
    - [JsDate]     [Class JsDate]: the three [Date] services the code uses, with
                   a fixed-offset instance ([fixed_offset_date], [utc_date]).
    - [JsNumber]   [Number] of a [bigint]: rounding to a double ([double_round]),
                   quotients ([round_div]), [Math.round] and [Math.floor]
                   ([js_floor_div], exact below 2^53).
    - [FieldParse] the import's field parsers ([parseNonBillableStatus] and the
                   others), with the inherited members of [Object.prototype].
    - [RowMapper]  [mapRowToResource].
    - [ImportFlow] the import dialog's state and its handlers [processFile] and
                   [handleImport], each split at its [await]; [Class BackendActor].
    - [Export]     the export's formatters, [resourceToRow], the CSV text and the
                   export->import round trip.
    - [DemoAuth]   [useDemoAuth]: the demo profile and its [localStorage] entry.
    - [Access]     [ROLE_ACCESS], [RouteGuard], the sidebar filter, [ReportsPage].
    - [MultiSelect] [useMultiSelectDropdown]: handlers against the rendered and
                   the pending state ([ms_handle], [ms_batch]).
    - [ResourceForm] the form's state, [form_edit], the e-mail pattern,
                   [handleSubmit], the dialog's open/submit cycle.
    - [ResourceList] the page's filters and the table's sort, with
                   [localeCompare] as [Class Collator].
    - [ImportModal] the import dialog as a transition system: user steps
                   ([msys_user]) and settle steps of pending promises
                   ([msys_settle]), tagged with the mount generation.
    - [ImportPreview] what the import dialog's body displays: the summary,
                   the preview rows and the Import button's count.
    - [ResourcesPage] the page's [useState]s and one step per control or
                   dialog callback ([page_step]); [Class ResourceBackend].
    - [Queries]    every query and mutation hook, React Query's cache and its
                   invalidation; [Class Actor], whose instances discharge
                   [BackendActor] and [ResourceBackend].
    - [Dashboard]  the period filter, the counts, [hoursPerProject] with plain
                   object semantics, the activity feed, [formatPeriodLabel].
    - [DashboardWidgets] the dashboard's render: [SummaryCard], [HoursChart]
                   (axis labels), [ActivityFeed] ([timeAgo] in doubles) and
                   the filter bar [DashboardDateFilter] with its [dateInput]
                   state and its effect ([df_step]).
    - [Timesheets] the timesheets page, the weekly view ([getWeekStart], the
                   day columns, the header totals) and the entry form with
                   [parseInt].
    - [Projects]   the projects page ([pp_step]), the board's columns and cards,
                   the project form with [toggleResource], the detail dialog,
                   [MilestoneChecklist], [formatCurrency] and [formatDate].
    - [Login]      [LoginPage]: its state, view and handlers, the profile
                   mutation, and React keeping or remounting the page as
                   [RootLayout] switches between its two [LoginPage] returns;
                   sessions as a step relation ([sess_reachable]).
    - [AccessDenied] [AccessDeniedScreen]: its role line, Go back and its
                   logout, which reads the demo context.
    - [LayoutView] [Layout]: the sidebar's state, entries and highlight, the
                   top bar's title, the demo badges.
    - [Router]     the route tree of [App.tsx] and what the outlet shows.
    - [Reports]    [ReportsPage] below its access checks and
                   [PowerBIConfigModal]: the URL query, Refresh, the dialog's
                   effect on [[open, currentUrl]] and [handleSave].
    - [ResourceTable] what the resource table and a resource card display,
                   cell by cell, and the callbacks of their buttons.

    ** What the theorems show
    - CSV and fields: parsing a line of escaped cells gives the cells back; a
      file's rows are its non-blank lines; each label the export prints parses
      back to its value.
    - Row mapping and import: a row carries a [Resource] exactly when its error
      list is empty; [processFile] on each branch, its preview rows being the
      non-blank data rows numbered from 2; the summary counts add up
      and the bulk call receives exactly the valid rows' resources.
    - Import dialog (ImportModal): an invariant of every reachable state, by
      induction on the step relation; the pending jobs can all settle and the
      spinner then stops; [handleImport] is a run of the machine; the races
      of Cancel and Close during an import.
    - Import preview: the count on the Import button is the number of
      records submitted and reported.
    - Export/import: re-importing an export gives back every record under
      stated conditions.
    - Form, page and picker: a submitted resource meets the record invariants; the page
      keeps at most one dialog open; editing without change saves the same
      resource; the picker's duplicate under batched events.
    - Table and numbers: a sort is a permutation in the order the column
      promises (dates by time value, text by the collator, reversed when
      descending) and is stable; the date columns keep
      the exact order below 2^62 ns; the dashboard's hour sum is exact up to
      2^53.
    - Query hooks: the cache stays coherent with the backend under any sequence
      of reads and mutations, given each actor method's frame.
    - Dashboard: a chosen day syncs the month and year; the selects are ignored
      while a day is chosen; the chart adds up to the total unless a project is
      named after an [Object.prototype] member; the feed is at most eight events,
      newest first.
    - Dashboard widgets: [timeAgo] floors exactly for ages below 2^53 ms; the filter bar's date input
      shows the chosen day, and a day more than two years away leaves the
      year select on a value it does not list.
    - Timesheets: [getWeekStart] is a Monday's local midnight before now; the
      day columns and the entries outside the week add up to the header's
      total; a submitted entry has 1 to 24 hours as [parseInt] reads them.
    - Projects: the board's columns partition the projects; the milestone
      progress in doubles is the exact rounded percentage up to 39 milestones
      (23 of 40 shows 57); toggling a resource twice restores the selection;
      the page's dialog invariant, and the detail dialog left open under the
      form.
    - Access: the sidebar never offers a page the guard refuses, and the
      findings on the Dashboard entry, Reports and demo logout.
    - Login: the role select only ever holds a [UserRole] (an invariant of
      every reachable session, by rule induction); any new Internet Identity
      user can save an admin profile and reach Reports.
    - Reports: only admins change the embed URL; a save stores the trimmed
      URL and shows it; a rejected save changes nothing but the toasts; a
      URL typed before the first fetch completes is overwritten.
    - Access-denied screen: its Go back leads to a page the guard admits;
      its logout, unlike the sidebar's, leaves a demo session.
    - Router: a page renders only at a path its user's role lists; the
      index route lands a settled user on a page that renders.
    - Layout: at most one sidebar entry is highlighted and the title is its
      label; under [RootLayout] no demo badge ever shows.
    - Resource views: the table's rows are the resources, reordered, with
      one Edit and one Delete each; exactly the sorted column shows an
      arrow; an imported resource shows no skills on its card.

    ** Modelling choices and bounds
    - Strings are [list ascii] read as Latin-1 code units; JavaScript's
      whitespace restricted to that range is {9,10,11,12,13,32,160}.  Text the
      code writes outside Latin-1 (the feed's em dash) is kept as the
      template's parts ([EventDesc]).
    - [Date] is an interface; the fixed-offset instance used for concrete runs
      parses [YYYY-MM-DD] as UTC and [YYYY-MM-DDTHH:mm:ss] as local time.  The
      week arithmetic of [Timesheets] needs local midnight and the weekday,
      which the interface lacks: it is stated for a fixed-offset engine.
    - Doubles appear as [Number] of integers ([double_round]: 53 significant
      bits, ties to even), as the quotient of two integers ([round_div]) and
      through [Math.round]; every theorem that needs exactness states its
      bound (2^53 for sums, 2^62 ns for dates, 39 milestones).
    - No definition uses fuel: the loops are structural recursions or folds,
      and the import dialog's pending jobs are proved able to settle.
    - Asynchrony is explicit: an async handler is two steps split at its
      [await], and the promises in flight are a list of jobs.
    - Generated ids are an input function; the backend actor and the network
      are interfaces whose methods return a settled outcome.

    ** Not modelled
    Styling (class names, icons, the [components/ui] primitives) and the
    parts of the JSX no theorem reads (the rest is a view record), the
    router's mechanics, the identity provider (its outcome is an event),
    SheetJS's decoder (its output rows are an input), the pending state of
    mutations (a save is one step), and the presentational components
    (charts, cards, skeletons). *)

From stdpp Require Export base list gmap strings.
From Stdlib Require Export Ascii ZArith Lia.
From Stdlib Require String.

Declare Scope tt_scope.
Delimit Scope tt_scope with tt.

(** JavaScript strings of the model: sequences of 8-bit code units. *)
Abbreviation jstr := (list ascii).

(** A literal of the source, as a [jstr]. *)
Definition str (s : String.string) : jstr := String.list_ascii_of_string s.
Arguments str : simpl never.

(** [o ?? d]: JavaScript's nullish coalescing on an optional value. *)
Notation "o ?? d" := (default d o) (at level 40, left associativity) : tt_scope.

(** [v || d] on a string: the empty string is falsy. *)
Definition js_or (v d : jstr) : jstr :=
  match v with [] => d | _ => v end.

(** [table[k]] on an object literal whose keys are listed in [l] and whose
    key [k] names no member of [Object.prototype]: the first entry's value. *)
Definition assoc {K V} `{EqDecision K} (k : K) (l : list (K * V)) : option V :=
  (fun p : nat * (K * V) => p.2.2) <$> list_find (fun kv => kv.1 = k) l.

Open Scope tt_scope.

Create HintDb tt discriminated.
Create Rewrite HintDb tt_rw.

Ltac invc H := inversion H; subst; clear H.

(** Case on the first boolean test of the goal, keeping its equation. *)
Ltac case_if :=
  match goal with
  | |- context [if ?b then _ else _] =>
      lazymatch b with
      | context [if _ then _ else _] => fail
      | _ => destruct b eqn:?
      end
  end.

(** Close a goal that holds by evaluation of closed terms. *)
Ltac by_eval := solve [vm_compute; repeat split].

(** Close a decidable proposition on closed terms by running its decision. *)
Ltac by_decide := apply (bool_decide_unpack _); vm_compute; reflexivity.

Lemma js_or_nonempty (v d : jstr) : v <> [] -> js_or v d = v.
Proof. by destruct v. Qed.

Lemma js_or_empty (d : jstr) : js_or [] d = d.
Proof. done. Qed.

Lemma js_or_default_nonempty (v d : jstr) : d <> [] -> js_or v d <> [].
Proof. by destruct v. Qed.

#[export] Hint Resolve js_or_nonempty js_or_default_nonempty : tt.
#[export] Hint Rewrite js_or_empty : tt_rw.

(** [filter] keeps the order and length bound of its input. *)
(** Filtering the images is filtering by the image. *)
Lemma filter_fmap_comm {A B} (P : B -> Prop) `{!forall x, Decision (P x)} (f : A -> B) (l : list A) :
  filter P (f <$> l) = f <$> filter (fun x => P (f x)) l.
Proof. induction l as [|x l IH]; [done|]. rewrite fmap_cons, !filter_cons. case_decide; cbn; by rewrite IH. Qed.

Lemma filter_length_le {A} (P : A -> Prop) `{!forall x, Decision (P x)} (l : list A) :
  length (filter P l) <= length l.
Proof.
  induction l as [|x l IH]; [done|]. rewrite filter_cons.
  case_decide; simpl; lia.
Qed.

(** The two halves of a partition by a predicate add up to the list. *)
Lemma filter_partition_length {A} (P : A -> Prop) `{!forall x, Decision (P x)} (l : list A) :
  length (filter P l) + length (filter (fun x => ~ P x) l) = length l.
Proof.
  induction l as [|x l IH]; [done|]. rewrite !filter_cons.
  repeat case_decide; simpl; tauto || lia.
Qed.

(** [filter] keeps a list whose elements all pass. *)
Lemma filter_all {A} (P : A -> Prop) `{!forall x, Decision (P x)} (l : list A) :
  Forall P l -> filter P l = l.
Proof.
  induction 1 as [|x l Hx _ IH]; [done|]. rewrite filter_cons_True by done. by f_equal.
Qed.

(** Two predicates that agree on the elements of a list filter it alike. *)
Lemma filter_ext_Forall {A} (P1 P2 : A -> Prop)
    `{!forall x, Decision (P1 x), !forall x, Decision (P2 x)} (l : list A) :
  Forall (fun x => P1 x <-> P2 x) l -> filter P1 l = filter P2 l.
Proof.
  induction 1 as [|x l Hx _ IH]; [done|]. rewrite !filter_cons.
  repeat case_decide; try tauto; by f_equal.
Qed.

#[export] Hint Resolve filter_length_le : tt.

(** What holds of every element still holds after a [filter]. *)
Lemma Forall_filter_keep {A} (P Q : A -> Prop) `{!forall x, Decision (P x)} (l : list A) :
  Forall Q l -> Forall Q (filter P l).
Proof.
  rewrite !Forall_forall. intros HQ x Hx. apply list_elem_of_filter in Hx as [_ Hx]. auto.
Qed.

(** An element of [removelast l] is one with something after it in [l]. *)
Lemma elem_of_removelast {A} (x : A) (l : list A) :
  x ∈ removelast l <-> exists l1 l2, l = l1 ++ x :: l2 /\ l2 <> [].
Proof.
  induction l as [|a [|b t] IH]; simpl.
  - split; [set_solver|]. intros (l1 & l2 & H & _). by destruct l1.
  - split; [set_solver|]. intros ([|? [|]] & l2 & H & Hne); simplify_list_eq; done.
  - rewrite elem_of_cons, IH. split.
    + intros [->|(l1 & l2 & -> & Hne)]; [by exists [], (b :: t)|by exists (a :: l1), l2].
    + intros ([|a' l1] & l2 & H & Hne); simplify_list_eq; [by left|right; eauto].
Qed.

(** Removing one element [x] from the middle of a list, as a settled promise
    leaves the queue of pending continuations. *)
Lemma Forall_remove {A} (P : A -> Prop) (l1 l2 : list A) (x : A) :
  Forall P (l1 ++ x :: l2) -> P x /\ Forall P (l1 ++ l2).
Proof. rewrite !Forall_app, Forall_cons. tauto. Qed.

Lemma elem_of_remove_ne {A} (y x : A) (l1 l2 : list A) :
  y ∈ l1 ++ x :: l2 -> y <> x -> y ∈ l1 ++ l2.
Proof. rewrite !elem_of_app, elem_of_cons. tauto. Qed.

Lemma elem_of_remove {A} (y x : A) (l1 l2 : list A) :
  y ∈ l1 ++ l2 -> y ∈ l1 ++ x :: l2.
Proof. rewrite !elem_of_app, elem_of_cons. tauto. Qed.

Lemma filter_remove_length {A} (P : A -> Prop) `{!forall x, Decision (P x)} (l1 l2 : list A) x :
  length (filter P (l1 ++ l2)) <= length (filter P (l1 ++ x :: l2)).
Proof. rewrite !filter_app, !length_app, filter_cons. case_decide; simpl; lia. Qed.

#[export] Hint Resolve elem_of_remove filter_remove_length : tt.
