(* ===== verification/JsString.v ===== *)
(** * JavaScript string built-ins used by the TeamTrack front end

    Strings are [jstr] ([list ascii]), read as Latin-1 code units.  This file
    gives the semantics of the built-ins the source calls ([trim],
    [toLowerCase], [replace(/\s+/g, '')], [split] with a one-character
    separator, [split(/\r?\n/)], [Array.prototype.join], [includes]) and the
    algebra the other files need: split/join round trips and the
    characterisation of blank strings.  None of it is code of the repository:
    it is the library the code calls, modelled from the ECMAScript rules
    restricted to the Latin-1 range. *)

From S2P Require Import Prelude.

Definition LF : ascii := "010"%char.
Definition CR : ascii := "013"%char.

(** [WhiteSpace] and [LineTerminator] of ECMAScript in the Latin-1 range:
    TAB, LF, VT, FF, CR, SPACE, NBSP.  [trim] and the class [\s] use this set. *)
Definition is_ws (c : ascii) : bool :=
  bool_decide (N_of_ascii c ∈ [9; 10; 11; 12; 13; 32; 160]%N).

Fixpoint trim_start (s : jstr) : jstr :=
  match s with
  | [] => []
  | c :: r => if is_ws c then trim_start r else s
  end.

(** Trailing whitespace removed. *)
Fixpoint trim_end (s : jstr) : jstr :=
  match s with
  | [] => []
  | c :: r =>
      match trim_end r with
      | [] => if is_ws c then [] else [c]
      | r' => c :: r'
      end
  end.

(** [String.prototype.trim]. *)
Definition trim (s : jstr) : jstr := trim_end (trim_start s).

(** [String.prototype.toLowerCase] on Latin-1: A-Z and U+00C0..U+00DE except
    U+00D7 move up by 32. *)
Definition to_lower_char (c : ascii) : ascii :=
  let n := N_of_ascii c in
  if bool_decide ((65 <= n <= 90)%N \/ ((192 <= n <= 222)%N /\ n <> 215%N))
  then ascii_of_N (n + 32) else c.

Definition to_lower (s : jstr) : jstr := map to_lower_char s.

(** [s.replace(/\s+/g, '')]: every run of whitespace removed. *)
Definition remove_ws (s : jstr) : jstr := filter (fun c => is_ws c = false) s.

(** Put a character in front of the first piece of a split. *)
Definition cons_head (c : ascii) (ws : list jstr) : list jstr :=
  match ws with
  | [] => [[c]]
  | w :: ws' => (c :: w) :: ws'
  end.

(** [s.split(sep)] for a one-character separator: never an empty array. *)
Fixpoint split_on (sep : ascii) (s : jstr) : list jstr :=
  match s with
  | [] => [[]]
  | c :: r => if decide (c = sep) then [] :: split_on sep r else cons_head c (split_on sep r)
  end.

(** [s.split(/\r?\n/)]: at each position the leftmost match is an LF, or a CR
    directly followed by an LF. *)
Fixpoint split_lines (s : jstr) : list jstr :=
  match s with
  | [] => [[]]
  | c :: r =>
      if decide (c = LF) then [] :: split_lines r
      else if decide (c = CR) then
        match r with
        | c' :: r' => if decide (c' = LF) then [] :: split_lines r'
                      else cons_head c (split_lines r)
        | [] => cons_head c (split_lines r)
        end
      else cons_head c (split_lines r)
  end.

(** [Array.prototype.join(sep)] on an array of strings. *)
Fixpoint join (sep : jstr) (l : list jstr) : jstr :=
  match l with
  | [] => []
  | [x] => x
  | x :: xs => x ++ sep ++ join sep xs
  end.

(** [s.includes(c)] for a one-character needle. *)
Definition includes (s : jstr) (c : ascii) : bool := bool_decide (c ∈ s).

(** [s.includes(q)] for a string needle: [q] occurs at some position. *)
Fixpoint str_includes (s q : jstr) : bool :=
  bool_decide (q `prefix_of` s) ||
  match s with [] => false | _ :: s' => str_includes s' q end.

(** ** Lemmas *)

Lemma is_ws_LF : is_ws LF = true.
Proof. by_eval. Qed.

Lemma is_ws_CR : is_ws CR = true.
Proof. by_eval. Qed.

#[export] Hint Rewrite is_ws_LF is_ws_CR : tt_rw.

Lemma cons_head_nonempty c ws : cons_head c ws <> [].
Proof. by destruct ws. Qed.

Lemma split_on_nonempty sep s : split_on sep s <> [].
Proof. destruct s; simpl; [done|]. case_decide; [done|]. apply cons_head_nonempty. Qed.

Lemma split_lines_nonempty s : split_lines s <> [].
Proof.
  destruct s as [|c r]; simpl; [done|].
  repeat case_decide; try done; destruct r; try apply cons_head_nonempty.
  case_decide; [done|apply cons_head_nonempty].
Qed.

(** Splitting a separator-free prefix glues it to the first piece. *)
Lemma split_on_app sep w s :
  sep ∉ w ->
  split_on sep (w ++ s) =
  match split_on sep s with [] => [w] | h :: t => (w ++ h) :: t end.
Proof.
  intros Hw. induction w as [|c w IH]; simpl.
  - by destruct (split_on sep s) eqn:E; [destruct (split_on_nonempty sep s)|].
  - rewrite elem_of_cons in Hw. case_decide; [subst; tauto|].
    rewrite IH by tauto. by destruct (split_on sep s).
Qed.

Lemma split_on_free sep w : sep ∉ w -> split_on sep w = [w].
Proof.
  intros Hw. pose proof (split_on_app sep w [] Hw) as H. rewrite app_nil_r in H.
  rewrite H. simpl. by rewrite app_nil_r.
Qed.

(** split inverts join when no piece contains the separator. *)
Theorem split_on_join sep (l : list jstr) :
  l <> [] -> Forall (fun w => sep ∉ w) l -> split_on sep (join [sep] l) = l.
Proof.
  induction l as [|w l IH]; [done|]. intros _ Hf. apply Forall_cons in Hf as [Hw Hf].
  destruct l as [|w' l]; [by apply split_on_free|].
  change (join [sep] (w :: w' :: l)) with (w ++ sep :: join [sep] (w' :: l)).
  rewrite split_on_app by done. cbn [split_on]. rewrite decide_True by done.
  rewrite IH by done. by rewrite app_nil_r.
Qed.

(** join inverts split. *)
Lemma join_split_on sep s : join [sep] (split_on sep s) = s.
Proof.
  induction s as [|c s IH]; simpl; [done|].
  destruct (split_on sep s) as [|w ws] eqn:E; [by destruct (split_on_nonempty sep s)|].
  rewrite <- IH. case_decide as Hc; [by subst c|]. by destruct ws.
Qed.

Lemma split_on_no_sep sep s : Forall (fun w => sep ∉ w) (split_on sep s).
Proof.
  induction s as [|c s IH]; simpl; [repeat constructor; set_solver|].
  case_decide; [by constructor; [set_solver|]|].
  destruct (split_on sep s) as [|w ws]; simpl; [repeat constructor; set_solver|].
  apply Forall_cons in IH as [Hw Hws]. constructor; [|done]. set_solver.
Qed.

(** A line that ends neither in CR nor contains LF. *)
Definition line_ok (w : jstr) : Prop := (LF ∉ w) /\ (last w <> Some CR).

Lemma split_lines_app w s :
  line_ok w -> split_lines (w ++ LF :: s) = w :: split_lines s.
Proof.
  intros [Hlf Hcr]. induction w as [|c w IH]; simpl; [done|].
  rewrite elem_of_cons in Hlf. rewrite decide_False by (intros ->; tauto).
  assert (Hw : last w <> Some CR -> split_lines (w ++ LF :: s) = w :: split_lines s)
    by (intros; apply IH; tauto).
  assert (Hlast : last w <> Some CR) by (destruct w; [done|exact Hcr]).
  case_decide as Hc; [|by rewrite Hw].
  subst c. destruct w as [|c' w]; [done|]. cbn [app].
  rewrite elem_of_cons in Hlf. rewrite decide_False by (intros ->; tauto).
  change (c' :: w ++ LF :: s) with ((c' :: w) ++ LF :: s). by rewrite Hw.
Qed.

Lemma split_lines_free w : LF ∉ w -> split_lines w = [w].
Proof.
  intros Hlf. induction w as [|c w IH]; simpl; [done|].
  rewrite elem_of_cons in Hlf. rewrite decide_False by (intros ->; tauto).
  rewrite IH by tauto. case_decide; [|done]. destruct w as [|c' w]; [done|].
  rewrite elem_of_cons in Hlf. rewrite decide_False by (intros ->; tauto). done.
Qed.

(** The line split inverts the join with LF on well-formed lines. *)
Theorem split_lines_join (ls : list jstr) :
  ls <> [] -> Forall line_ok ls -> split_lines (join [LF] ls) = ls.
Proof.
  induction ls as [|w ls IH]; [done|]. intros _ Hf. apply Forall_cons in Hf as [Hw Hf].
  destruct ls as [|w' ls]; [apply split_lines_free, Hw|].
  change (join [LF] (w :: w' :: ls)) with (w ++ LF :: join [LF] (w' :: ls)).
  rewrite split_lines_app by done. by rewrite IH.
Qed.

(** A string trims to nothing exactly when it is all whitespace. *)
Lemma trim_start_nil s : trim_start s = [] <-> Forall (fun c => is_ws c = true) s.
Proof.
  induction s as [|c s IH]; simpl; [split; auto|].
  rewrite Forall_cons. destruct (is_ws c) eqn:E; [rewrite IH; naive_solver|].
  split; [done|]. intros [? _]; congruence.
Qed.

Lemma trim_end_nil s : trim_end s = [] <-> Forall (fun c => is_ws c = true) s.
Proof.
  induction s as [|c s IH]; simpl; [done|]. rewrite Forall_cons, <- IH.
  destruct (trim_end s); [|naive_solver]. destruct (is_ws c); naive_solver.
Qed.

Lemma trim_start_Forall s :
  Forall (fun c => is_ws c = true) (trim_start s) <-> Forall (fun c => is_ws c = true) s.
Proof.
  induction s as [|c s IH]; simpl; [done|].
  destruct (is_ws c) eqn:E; [|done]. rewrite Forall_cons, IH. naive_solver.
Qed.

Lemma trim_nil s : trim s = [] <-> Forall (fun c => is_ws c = true) s.
Proof. unfold trim. by rewrite trim_end_nil, trim_start_Forall. Qed.

Lemma trim_start_idem s : trim_start (trim_start s) = trim_start s.
Proof. induction s as [|c s IH]; simpl; [done|]. destruct (is_ws c) eqn:E; simpl; by rewrite ?E. Qed.

Lemma trim_end_idem s : trim_end (trim_end s) = trim_end s.
Proof.
  induction s as [|c s IH]; simpl; [done|].
  destruct (trim_end s) as [|c' s'] eqn:E.
  - destruct (is_ws c) eqn:Ec; simpl; by rewrite ?Ec.
  -
    change (trim_end (c :: c' :: s')) with
      (match trim_end (c' :: s') with [] => if is_ws c then [] else [c] | r' => c :: r' end).
    by rewrite IH.
Qed.

(** [trim_end] keeps a leading non-whitespace character in front. *)
Lemma trim_end_keeps_head c s :
  is_ws c = false -> exists r, trim_end (c :: s) = c :: r.
Proof. intros Hc. simpl. destruct (trim_end s); [rewrite Hc|]; eauto. Qed.

Lemma trim_start_head s c r : trim_start s = c :: r -> is_ws c = false.
Proof.
  induction s as [|c' s IH]; simpl; [done|].
  destruct (is_ws c') eqn:E; [apply IH|]. by intros [= -> _].
Qed.

Lemma trim_start_trim_end s :
  trim_start (trim_end (trim_start s)) = trim_end (trim_start s).
Proof.
  destruct (trim_start s) as [|c r] eqn:E; [done|].
  destruct (trim_end_keeps_head c r) as [r' Hr']; [by eapply trim_start_head|].
  rewrite Hr'. simpl. by rewrite (trim_start_head _ _ _ E).
Qed.

Lemma trim_start_elem c s : c ∈ trim_start s -> c ∈ s.
Proof. induction s as [|c' s IH]; simpl; [done|]. case_match; set_solver. Qed.

Lemma trim_end_elem c s : c ∈ trim_end s -> c ∈ s.
Proof. induction s as [|c' s IH]; simpl; [done|]. repeat case_match; set_solver. Qed.

(** [trim] only removes characters. *)
Lemma trim_elem c s : c ∈ trim s -> c ∈ s.
Proof. intros H. by apply trim_start_elem, trim_end_elem. Qed.

(** [trim] is idempotent. *)
Lemma trim_idem s : trim (trim s) = trim s.
Proof. unfold trim. by rewrite trim_start_trim_end, trim_end_idem. Qed.

(** A string containing a non-whitespace character is not blank. *)
Lemma trim_not_nil s c : c ∈ s -> is_ws c = false -> trim s <> [].
Proof.
  intros Hc Hws Ht. apply trim_nil in Ht. rewrite Forall_forall in Ht.
  specialize (Ht c Hc). congruence.
Qed.

(** ** Strings that [trim] leaves alone *)

Lemma trim_start_length s : length (trim_start s) <= length s.
Proof. induction s as [|c s IH]; simpl; [done|]. case_match; simpl; lia. Qed.

Lemma trim_end_length s : length (trim_end s) <= length s.
Proof.
  induction s as [|c s IH]; simpl; [done|].
  destruct (trim_end s) eqn:E; [case_match|]; simpl in *; lia.
Qed.

Lemma trim_start_ws_head s c :
  head s = Some c -> is_ws c = true -> length (trim_start s) < length s.
Proof.
  destruct s as [|c' s]; [done|]. intros [= ->] Hc. simpl. rewrite Hc.
  pose proof (trim_start_length s). lia.
Qed.

Lemma trim_end_ws_last s c :
  last s = Some c -> is_ws c = true -> length (trim_end s) < length s.
Proof.
  induction s as [|c' s IH]; [done|]. intros Hl Hc.
  destruct s as [|c'' s].
  - simpl in Hl. injection Hl as ->. simpl. rewrite Hc. simpl. lia.
  - rewrite last_cons_cons in Hl. specialize (IH Hl Hc).
    change (trim_end (c' :: c'' :: s)) with
      (match trim_end (c'' :: s) with [] => if is_ws c' then [] else [c'] | r' => c' :: r' end).
    destruct (trim_end (c'' :: s)); [case_match|]; simpl in *; lia.
Qed.

(** A string [trim] leaves unchanged starts and ends with a non-blank. *)
Lemma trim_fixed_head s c : trim s = s -> head s = Some c -> is_ws c = false.
Proof.
  intros Ht Hh. destruct (is_ws c) eqn:Hc; [|done]. exfalso.
  pose proof (trim_start_ws_head s c Hh Hc). pose proof (trim_end_length (trim_start s)).
  apply (f_equal length) in Ht. unfold trim in Ht. lia.
Qed.

Lemma trim_fixed_last s c : trim s = s -> last s = Some c -> is_ws c = false.
Proof.
  intros Ht Hl. destruct (is_ws c) eqn:Hc; [|done]. exfalso.
  pose proof (trim_start_length s) as H1.
  assert (Hend : trim_start s = s \/ length (trim_start s) < length s).
  { destruct s as [|c' s']; [by left|]. simpl. destruct (is_ws c'); [right|by left].
    pose proof (trim_start_length s'). simpl. lia. }
  destruct Hend as [Hs|Hs].
  - pose proof (trim_end_ws_last s c Hl Hc). apply (f_equal length) in Ht.
    unfold trim in Ht. rewrite Hs in Ht. lia.
  - pose proof (trim_end_length (trim_start s)). apply (f_equal length) in Ht.
    unfold trim in Ht. lia.
Qed.

Lemma trim_end_fixed s : (forall c, last s = Some c -> is_ws c = false) -> trim_end s = s.
Proof.
  induction s as [|c s IH]; intros Hl; [done|]. destruct s as [|c' s].
  - simpl. by rewrite (Hl c).
  - change (trim_end (c :: c' :: s)) with
      (match trim_end (c' :: s) with [] => if is_ws c then [] else [c] | r' => c :: r' end).
    rewrite IH; [done|]. intros x Hx. apply Hl. by rewrite last_cons_cons.
Qed.

(** A string that starts and ends with a non-blank is its own trim. *)
Lemma trim_fixed s :
  (forall c, head s = Some c -> is_ws c = false) ->
  (forall c, last s = Some c -> is_ws c = false) -> trim s = s.
Proof.
  intros Hh Hl. unfold trim. destruct s as [|c s]; [done|].
  simpl. rewrite (Hh c) by done. by apply trim_end_fixed.
Qed.

(** A string without whitespace is its own trim. *)
Lemma trim_no_ws s : Forall (fun c => is_ws c = false) s -> trim s = s.
Proof.
  intros Hs. rewrite Forall_forall in Hs. apply trim_fixed.
  - intros c Hc. apply Hs. destruct s; simpl in Hc; [done|]. injection Hc as ->. set_solver.
  - intros c Hc. apply Hs. apply last_Some in Hc as [l' ->]. set_solver.
Qed.

Lemma join_head sep s l : s <> [] -> head (join sep (s :: l)) = head s.
Proof. intros Hs. destruct l; [done|]. simpl. by destruct s. Qed.

Lemma join_last sep s l : s <> [] -> last (join sep (l ++ [s])) = last s.
Proof.
  intros Hs. induction l as [|x l IH]; [done|]. simpl.
  destruct (l ++ [s]) eqn:E; [by destruct l|].
  rewrite <- E in *. rewrite !app_assoc, last_app, IH.
  by destruct (last s) eqn:Hls; [|apply last_None in Hls].
Qed.

Lemma str_includes_spec s q : str_includes s q = true <-> exists a b, s = a ++ q ++ b.
Proof.
  induction s as [|c s IH]; simpl.
  - rewrite orb_false_r. case_bool_decide as H; split; try done.
    + intros _. apply prefix_nil_inv in H as ->. by exists [], [].
    + intros (a & b & Hab). destruct a, q; try discriminate. by exfalso; apply H.
  - rewrite orb_true_iff, IH, bool_decide_eq_true. split.
    + intros [[b ->]|(a & b & ->)]; [by exists [], b|by exists (c :: a), b].
    + intros ([|c' a] & b & Hab); [left; exists b; by rewrite Hab|].
      injection Hab as <- ->. right. eauto.
Qed.

Lemma str_includes_nil s : str_includes s [] = true.
Proof. apply str_includes_spec. by exists [], s. Qed.

(** A split into exactly two pieces: one separator in the string. *)
Lemma split_on_two sep s a d :
  split_on sep s = [a; d] <-> s = a ++ sep :: d /\ sep ∉ a /\ sep ∉ d.
Proof.
  split.
  - intros H. pose proof (join_split_on sep s) as Hj. pose proof (split_on_no_sep sep s) as Hn.
    rewrite H in Hj, Hn. apply Forall_cons in Hn as [Ha Hn]. apply Forall_cons in Hn as [Hd _].
    simpl in Hj. split_and!; [|done|done]. by rewrite <- Hj.
  - intros (-> & Ha & Hd). rewrite split_on_app by done. cbn [split_on].
    rewrite decide_True by done. rewrite split_on_free by done. by rewrite app_nil_r.
Qed.
