(* ===== verification/Csv.v ===== *)
(** * The CSV reader and writer of the import modal and the exporter

    [parseCSVLine] and [parseCSV] of [components/ResourceImportModal.tsx], the
    cell escaping [escapeCSV] of [utils/exportUtils.ts] (the template writer of
    the import modal uses the same rule), and the document layout both writers
    use: cells escaped and joined by [','], lines joined by LF.

    The loop of [parseCSVLine] is [csv_scan]: its arguments are the rest of the
    line and the three loop variables [inQuotes], [current], [result]; the
    doubled-quote branch consumes two characters, like the [i++] of the code.

    Theorems: a line made of escaped cells parses back to its cells, whatever
    the cells contain; a document of such lines parses back to its header and
    rows when no cell holds a line break and every line has two cells or more;
    a parsed line always has one cell more than its unquoted commas. *)

From S2P Require Import Prelude JsString.

Definition DQ : ascii := "034"%char.
Definition COMMA : ascii := ","%char.

Fixpoint csv_scan (s : jstr) (inQuotes : bool) (current : jstr) (result : list jstr)
    : list jstr :=
  match s with
  | [] => result ++ [current]
  | ch :: rest =>
      if bool_decide (ch = DQ) then
        match rest with
        | ch' :: rest' =>
            if inQuotes && bool_decide (ch' = DQ)
            then csv_scan rest' inQuotes (current ++ [DQ]) result
            else csv_scan rest (negb inQuotes) current result
        | [] => csv_scan rest (negb inQuotes) current result
        end
      else if bool_decide (ch = COMMA) && negb inQuotes
      then csv_scan rest inQuotes [] (result ++ [current])
      else csv_scan rest inQuotes (current ++ [ch]) result
  end.

(** [parseCSVLine(line)]. *)
Definition parseCSVLine (line : jstr) : list jstr := csv_scan line false [] [].

(** [parseCSV(text)]: split on [/\r?\n/], drop blank lines, first line is the
    header. *)
Definition parseCSV (text : jstr) : list jstr * list (list jstr) :=
  let lines := filter (fun l => trim l <> []) (split_lines text) in
  match lines with
  | [] => ([], [])
  | l0 :: rest => (parseCSVLine l0, parseCSVLine <$> rest)
  end.

(** [val.replace(/Q/g, QQ)] where Q is the quote character: every quote doubled. *)
Definition double_quotes (s : jstr) : jstr :=
  s ≫= (fun c => if bool_decide (c = DQ) then [DQ; DQ] else [c]).

(** [escapeCSV(val)] of the exporter (the [escape] of [generateSampleCSV] is
    the same function). *)
Definition escapeCSV (val : jstr) : jstr :=
  if includes val COMMA || includes val DQ || includes val LF
  then [DQ] ++ double_quotes val ++ [DQ]
  else val.

(** A line of a document: [row.map(escapeCSV).join(',')]. *)
Definition csv_line (cells : list jstr) : jstr := join [COMMA] (fmap escapeCSV cells).

(** [[headerLine, ...dataLines].join('\n')]. *)
Definition csv_document (lines : list (list jstr)) : jstr := join [LF] (csv_line <$> lines).

(** ** The scanner, piece by piece *)

(** The character after the current one is a quote. *)
Definition next_is_quote (rest : jstr) : bool :=
  match rest with c :: _ => bool_decide (c = DQ) | [] => false end.

(** A quote outside quotes opens a quoted section. *)
Lemma csv_scan_open s current result :
  csv_scan (DQ :: s) false current result = csv_scan s true current result.
Proof. by destruct s. Qed.

Lemma csv_scan_comma s current result :
  csv_scan (COMMA :: s) false current result = csv_scan s false [] (result ++ [current]).
Proof. reflexivity. Qed.

(** Characters other than quote and comma are copied outside quotes. *)
Lemma csv_scan_plain w s current result :
  DQ ∉ w -> COMMA ∉ w ->
  csv_scan (w ++ s) false current result = csv_scan s false (current ++ w) result.
Proof.
  revert current. induction w as [|c w IH]; intros current Hq Hc; simpl.
  - by rewrite app_nil_r.
  - rewrite elem_of_cons in Hq, Hc.
    rewrite !bool_decide_false by (intros ->; tauto). simpl.
    rewrite IH by tauto. by rewrite <- app_assoc.
Qed.

(** Inside quotes, a doubled body and the closing quote give the body back,
    provided the closing quote is not itself followed by a quote. *)
Lemma csv_scan_quoted w s current result :
  next_is_quote s = false ->
  csv_scan (double_quotes w ++ DQ :: s) true current result =
  csv_scan s false (current ++ w) result.
Proof.
  revert current. induction w as [|c w IH]; intros current Hs; simpl.
  - destruct s as [|c s]; simpl in *; [by rewrite app_nil_r|].
    rewrite Hs. by rewrite app_nil_r.
  - case_bool_decide as Hc.
    + subst c. simpl. rewrite IH by done. by rewrite <- app_assoc.
    + simpl. rewrite bool_decide_false by done. simpl.
      rewrite andb_false_r. rewrite IH by done. by rewrite <- app_assoc.
Qed.

(** An escaped cell is read back whole, when what follows is not a quote. *)
Lemma csv_scan_escaped w s result :
  next_is_quote s = false ->
  csv_scan (escapeCSV w ++ s) false [] result = csv_scan s false w result.
Proof.
  intros Hs. unfold escapeCSV, includes.
  destruct (bool_decide (COMMA ∈ w) || bool_decide (DQ ∈ w) || bool_decide (LF ∈ w)) eqn:E.
  - rewrite <- !app_assoc. cbn [app]. rewrite csv_scan_open.
    by rewrite csv_scan_quoted.
  - rewrite !orb_false_iff in E. destruct E as [[E1 E2] _].
    apply bool_decide_eq_false in E1, E2. by rewrite csv_scan_plain.
Qed.

Lemma next_is_quote_comma s : next_is_quote (COMMA :: s) = false.
Proof. reflexivity. Qed.

Lemma csv_scan_line cells result :
  cells <> [] -> csv_scan (csv_line cells) false [] result = result ++ cells.
Proof.
  unfold csv_line. revert result.
  induction cells as [|w cells IH]; intros result Hne; [done|].
  destruct cells as [|w' cells].
  - simpl. rewrite <- (app_nil_r (escapeCSV w)), csv_scan_escaped by done. done.
  - change (join [COMMA] (fmap escapeCSV (w :: w' :: cells)))
      with (escapeCSV w ++ COMMA :: join [COMMA] (fmap escapeCSV (w' :: cells))).
    rewrite csv_scan_escaped by done. rewrite csv_scan_comma, IH by done.
    by rewrite <- app_assoc.
Qed.

(** ** Round trips *)

(** Parsing a line of escaped cells gives the cells back. *)
Lemma csv_line_parses cells :
  cells <> [] -> parseCSVLine (csv_line cells) = cells.
Proof. intros Hne. unfold parseCSVLine. by rewrite csv_scan_line. Qed.

(** A cell that may appear in a document line without breaking it. *)
Definition cell_ok (w : jstr) : Prop := (LF ∉ w) /\ (CR ∉ w).

#[global] Instance cell_ok_dec w : Decision (cell_ok w).
Proof. unfold cell_ok. apply _. Defined.

Lemma double_quotes_elem c w : c ∈ double_quotes w -> c = DQ \/ c ∈ w.
Proof.
  unfold double_quotes. rewrite list_elem_of_bind. intros (c' & Hc & Hw).
  case_bool_decide; set_solver.
Qed.

Lemma escapeCSV_elem c w : c ∈ escapeCSV w -> c = DQ \/ c ∈ w.
Proof.
  unfold escapeCSV. case_match; [|auto].
  rewrite !elem_of_app, !list_elem_of_singleton.
  intros [->|[Hd| ->]]; auto using double_quotes_elem.
Qed.

Lemma join_elem c sep l : c ∈ join sep l -> c ∈ sep \/ exists w, w ∈ l /\ c ∈ w.
Proof.
  induction l as [|w l IH]; simpl; [set_solver|].
  destruct l as [|w' l]; [set_solver|].
  rewrite !elem_of_app. intros [H|[H|H]]; [set_solver|auto|].
  destruct (IH H) as [?|(w'' & ? & ?)]; [auto|]. right. exists w''. set_solver.
Qed.

Lemma csv_line_elem c cells :
  c ∈ csv_line cells -> c = COMMA \/ c = DQ \/ exists w, w ∈ cells /\ c ∈ w.
Proof.
  unfold csv_line. intros Hin.
  destruct (join_elem _ _ _ Hin) as [?|(w & Hw & Hcw)]; [set_solver|].
  apply list_elem_of_fmap in Hw as (w0 & -> & Hw0).
  destruct (escapeCSV_elem _ _ Hcw) as [->|?]; eauto.
Qed.

Lemma csv_line_ok cells : Forall cell_ok cells -> line_ok (csv_line cells).
Proof.
  intros Hc. rewrite Forall_forall in Hc. split.
  - intros Hin. destruct (csv_line_elem _ _ Hin) as [Heq|[Heq|(w & Hw & Hlf)]];
      [discriminate|discriminate|]. by destruct (Hc w Hw) as [? _].
  - intros Hl. apply last_Some in Hl as [l' Heq].
    assert (Hin : CR ∈ csv_line cells) by (rewrite Heq; set_solver).
    destruct (csv_line_elem _ _ Hin) as [Heq'|[Heq'|(w & Hw & Hcr)]];
      [discriminate|discriminate|]. by destruct (Hc w Hw) as [_ ?].
Qed.

Lemma csv_line_nonblank cells : 2 <= length cells -> trim (csv_line cells) <> [].
Proof.
  intros Hlen. destruct cells as [|a [|b cells]]; simpl in Hlen; [lia|lia|].
  apply (trim_not_nil _ COMMA); [|by_eval].
  unfold csv_line. change (join [COMMA] (escapeCSV <$> a :: b :: cells))
    with (escapeCSV a ++ COMMA :: join [COMMA] (escapeCSV <$> b :: cells)).
  set_solver.
Qed.

Lemma parseCSVLine_csv_lines rows :
  Forall (fun r => r <> []) rows -> parseCSVLine <$> (csv_line <$> rows) = rows.
Proof.
  induction 1 as [|r rows Hr _ IH]; [done|].
  by rewrite !fmap_cons, csv_line_parses, IH.
Qed.

(** A document written by the exporter or the template writer is read back as
    its header and rows, when no cell holds a line break and every line has at
    least two cells (so that no line is blank). *)
Lemma csv_document_parses hdr rows :
  Forall (Forall cell_ok) (hdr :: rows) ->
  Forall (fun r => 2 <= length r) (hdr :: rows) ->
  parseCSV (csv_document (hdr :: rows)) = (hdr, rows).
Proof.
  intros Hok Hlen. unfold parseCSV, csv_document.
  rewrite split_lines_join.
  2: { done. }
  2: { apply Forall_fmap, (Forall_impl _ _ _ Hok). intros r Hr. by apply csv_line_ok. }
  rewrite filter_all.
  2: { apply Forall_fmap, (Forall_impl _ _ _ Hlen). intros r Hr. by apply csv_line_nonblank. }
  rewrite fmap_cons. cbn -[fmap csv_line parseCSVLine].
  apply Forall_cons in Hlen as [Hh Hrows].
  rewrite csv_line_parses by (intros ->; simpl in Hh; lia).
  rewrite parseCSVLine_csv_lines; [done|].
  apply (Forall_impl _ _ _ Hrows). intros r Hr ->. simpl in Hr. lia.
Qed.

(** ** Properties *)

(** C2: Parsing a line the exporter writes ([escapeCSV] on every cell, joined
    with commas) gives back exactly the cells: quoting protects commas, and
    doubled quotes inside a quoted cell read as one quote. *)
Theorem parseCSVLine_csv_line cells :
  cells <> [] -> parseCSVLine (csv_line cells) = cells.
Proof. apply csv_line_parses. Qed.

Lemma parseCSVLine_csv_line_witness :
  parseCSVLine (csv_line [str "Smith, J"; [DQ] ++ str "Q" ++ [DQ]; []]) =
  [str "Smith, J"; [DQ] ++ str "Q" ++ [DQ]; []].
Proof. apply parseCSVLine_csv_line. discriminate. Defined.

(** C3: [parseCSV] reads a whole document written by [csv_document] back as
    its header and rows, when no cell holds a line break and every line has
    at least two cells (so that no line is blank and dropped). *)
Theorem parseCSV_csv_document hdr rows :
  Forall (Forall cell_ok) (hdr :: rows) ->
  Forall (fun r => 2 <= length r) (hdr :: rows) ->
  parseCSV (csv_document (hdr :: rows)) = (hdr, rows).
Proof. apply csv_document_parses. Qed.

Lemma parseCSV_csv_document_witness :
  parseCSV (csv_document [[str "Employee ID"; str "Name"]; [str "E1"; str "Doe, J"]]) =
  ([str "Employee ID"; str "Name"], [[str "E1"; str "Doe, J"]]).
Proof. apply parseCSV_csv_document; by_decide. Defined.

(** ** Concrete runs *)

Example parseCSVLine_quoted_comma :
  parseCSVLine (str "EMP1," ++ [DQ] ++ str "Smith, J" ++ [DQ] ++ str ",x")
  = [str "EMP1"; str "Smith, J"; str "x"].
Proof. by_eval. Qed.
