(* ===== verification/Domain.v ===== *)
(** * The data of the backend interface

    The records and enums of [src/frontend/src/backend.d.ts] that the modelled
    code builds and reads: [Resource] with its three enums, [TimesheetEntry],
    [Milestone], [Project], [UserProfile] and [UserRole].  [Time] is a bigint
    of nanoseconds, a [Z]; optional fields are [option].

    One deviation from the declared types is deliberate: the non-billable
    category of a [Resource] is a [NonBillableValue], which besides the eight
    enum strings can be a member inherited from [Object.prototype].  The import
    code looks the category up in an object literal, so such a value can reach
    a record at run time although TypeScript's type says it cannot. *)

From S2P Require Import Prelude.

Abbreviation Time := Z.

(** Each enum of [backend.d.ts] is a module, so that its constructors read as in
    the source ([BillabilityStatus.billable], [UserRole.admin]). *)
Module BillabilityStatus.
Inductive t := billable | nonBillable.
End BillabilityStatus.

Module NonBillableStatus.
Inductive t :=
  | availableForDeployment | solutionInvestment | biBench | partialBench
  | projectBuffer | benchBlocked | maternity | deliverySupport.
End NonBillableStatus.

(** The run-time value of the category field: an enum string, or a member of
    [Object.prototype] found by a property lookup with that name. *)
Inductive NonBillableValue :=
  | NBEnum (s : NonBillableStatus.t)
  | NBObjectProto (prop : jstr).

Module ProjectStatus.
Inductive t := active | completed | onHold | planning.
End ProjectStatus.

Module ResourceStatus.
Inductive t := active | inactive.
End ResourceStatus.

Module TimesheetStatus.
Inductive t := submitted | approved | draft.
End TimesheetStatus.

Module UserRole.
Inductive t := pm | pmo | admin | deliveryHead | employee | management.
End UserRole.

Record Resource := mkResource {
  id : jstr;
  doj : Time;
  status : ResourceStatus.t;
  client : jstr;
  assignmentStartDate : Time;
  totalExperience : jstr;
  name : jstr;
  role : jstr;
  skillTags : list jstr;
  projectManager : jstr;
  deliveryHead : jstr;
  assignmentEndDate : Time;
  email : jstr;
  employeeId : jstr;
  projectId : option jstr;
  practice : jstr;
  primarySkills : list jstr;
  billabilityStatus : BillabilityStatus.t;
  contactNumber : jstr;
  department : jstr;
  secondarySkills : list jstr;
  location : jstr;
  nonBillableStatus : option NonBillableValue;
  project : jstr;
  reportingManager : jstr;
}.

Record TimesheetEntry := mkTimesheetEntry {
  ts_id : jstr;
  ts_status : TimesheetStatus.t;
  ts_resourceId : jstr;
  ts_date : Time;
  ts_description : jstr;
  ts_projectId : jstr;
  ts_hoursLogged : Z;
}.

Record Milestone := mkMilestone {
  ms_id : jstr;
  ms_title : jstr;
  ms_completed : bool;
  ms_dueDate : Time;
}.

Record Project := mkProject {
  pr_id : jstr;
  pr_status : ProjectStatus.t;
  pr_assignedResourceIds : list jstr;
  pr_endDate : Time;
  pr_name : jstr;
  pr_description : jstr;
  pr_budget : Z;
  pr_startDate : Time;
  pr_milestones : list Milestone;
  pr_managerName : jstr;
}.

Record UserProfile := mkUserProfile {
  appRole : UserRole.t;
  up_name : jstr;
}.

#[global] Instance BillabilityStatus_eq_dec : EqDecision BillabilityStatus.t.
Proof. solve_decision. Defined.
#[global] Instance NonBillableStatus_eq_dec : EqDecision NonBillableStatus.t.
Proof. solve_decision. Defined.
#[global] Instance NonBillableValue_eq_dec : EqDecision NonBillableValue.
Proof. solve_decision. Defined.
#[global] Instance ProjectStatus_eq_dec : EqDecision ProjectStatus.t.
Proof. solve_decision. Defined.
#[global] Instance ResourceStatus_eq_dec : EqDecision ResourceStatus.t.
Proof. solve_decision. Defined.
#[global] Instance TimesheetStatus_eq_dec : EqDecision TimesheetStatus.t.
Proof. solve_decision. Defined.
#[global] Instance UserRole_eq_dec : EqDecision UserRole.t.
Proof. solve_decision. Defined.
#[global] Instance UserProfile_eq_dec : EqDecision UserProfile.
Proof. solve_decision. Defined.
#[global] Instance Resource_eq_dec : EqDecision Resource.
Proof. solve_decision. Defined.

(** The fields the import pipeline cannot restore: the generated id and the
    deprecated [role], [department], [skillTags]. *)
Definition import_view (r : Resource) : Resource :=
  {| id := []; doj := doj r; status := status r; client := client r;
     assignmentStartDate := assignmentStartDate r; totalExperience := totalExperience r;
     name := name r; role := []; skillTags := []; projectManager := projectManager r;
     deliveryHead := deliveryHead r; assignmentEndDate := assignmentEndDate r;
     email := email r; employeeId := employeeId r; projectId := projectId r;
     practice := practice r; primarySkills := primarySkills r;
     billabilityStatus := billabilityStatus r; contactNumber := contactNumber r;
     department := []; secondarySkills := secondarySkills r; location := location r;
     nonBillableStatus := nonBillableStatus r; project := project r;
     reportingManager := reportingManager r |}.
