(* ===== verification/JsDate.v ===== *)
(** * The [Date] services the code relies on

    The import parses dates with [new Date(text).getTime()]; the exporter turns
    a nanosecond [bigint] back into a [Date] with [new Date(Number(t) / 1e6)]
    and prints [getFullYear()], [getMonth() + 1] and [getDate()], which read
    the local time zone.  [Class JsDate] states these three services; the code
    of [FieldParse] and [Export] is written against it.

    The instance [fixed_offset_date off] is an engine whose local time is UTC
    shifted by [off] milliseconds.  Its parser accepts the ISO date-only form
    [YYYY-MM-DD] (which ECMAScript reads as UTC midnight) and the date-time
    form [YYYY-MM-DDTHH:mm:ss] (read as local time) and returns [None]
    (NaN) for any other text; engines accept more formats, which the class
    leaves open.  Its conversion of nanoseconds truncates toward zero, the
    [ToIntegerOrInfinity] of the [Date] constructor, with the TimeClip range
    check; the rounding of [Number(t)] to a double is not modelled.
    The calendar arithmetic is the days-from-civil algorithm on [Z]. *)

From S2P Require Import Prelude.
From Stdlib Require Import DecimalString DecimalPos DecimalZ.

Class JsDate := {
  (** [new Date(s).getTime()]; [None] for an invalid date. *)
  date_parse : jstr -> option Z;
  (** [new Date(Number(t) / 1_000_000).getTime()] for [t] in nanoseconds. *)
  date_of_ns : Z -> option Z;
  (** [getFullYear()], [getMonth() + 1], [getDate()] of a time value. *)
  local_ymd : Z -> Z * Z * Z;
}.

Definition ms_per_day : Z := 86400000.

(** Days since 1970-01-01 of a proleptic Gregorian date. *)
Definition days_from_civil (y m d : Z) : Z :=
  let y' := if (m <=? 2)%Z then (y - 1)%Z else y in
  let era := (y' / 400)%Z in
  let yoe := (y' - era * 400)%Z in
  let mp := if (m >? 2)%Z then (m - 3)%Z else (m + 9)%Z in
  let doy := ((153 * mp + 2) / 5 + d - 1)%Z in
  let doe := (yoe * 365 + yoe / 4 - yoe / 100 + doy)%Z in
  (era * 146097 + doe - 719468)%Z.

(** The date of a day number. *)
Definition civil_from_days (z : Z) : Z * Z * Z :=
  let z' := (z + 719468)%Z in
  let era := (z' / 146097)%Z in
  let doe := (z' - era * 146097)%Z in
  let yoe := ((doe - doe / 1460 + doe / 36524 - doe / 146096) / 365)%Z in
  let doy := (doe - (365 * yoe + yoe / 4 - yoe / 100))%Z in
  let mp := ((5 * doy + 2) / 153)%Z in
  let d := (doy - (153 * mp + 2) / 5 + 1)%Z in
  let m := if (mp <? 10)%Z then (mp + 3)%Z else (mp - 9)%Z in
  let y := (yoe + era * 400)%Z in
  (if (m <=? 2)%Z then (y + 1)%Z else y, m, d).

Definition is_leap (y : Z) : bool :=
  ((y mod 4 =? 0) && negb (y mod 100 =? 0) || (y mod 400 =? 0))%Z.

Definition days_in_month (y m : Z) : Z :=
  if (m =? 2)%Z then (if is_leap y then 29 else 28)%Z
  else if bool_decide (m ∈ [4; 6; 9; 11]%Z) then 30%Z else 31%Z.

Definition digit_value (c : ascii) : option Z :=
  let n := N_of_ascii c in
  if bool_decide (48 <= n <= 57)%N then Some (Z.of_N (n - 48)) else None.

Fixpoint digits_value (acc : Z) (s : jstr) : option Z :=
  match s with
  | [] => Some acc
  | c :: r => d ← digit_value c; digits_value (acc * 10 + d)%Z r
  end.

(** The ISO date-only form [YYYY-MM-DD], read as UTC midnight. *)
Definition parse_iso_date (s : jstr) : option Z :=
  match s with
  | [y1; y2; y3; y4; h1; m1; m2; h2; d1; d2] =>
      if bool_decide (h1 = "-"%char /\ h2 = "-"%char) then
        y ← digits_value 0 [y1; y2; y3; y4];
        m ← digits_value 0 [m1; m2];
        d ← digits_value 0 [d1; d2];
        if bool_decide ((1 <= m <= 12)%Z /\ (1 <= d <= days_in_month y m)%Z)
        then Some (days_from_civil y m d * ms_per_day)%Z else None
      else None
  | _ => None
  end.

(** The date-time form [YYYY-MM-DDTHH:mm:ss] without an offset, which
    ECMAScript reads as local time: the UTC value is the local one minus the
    offset [off]. *)
Definition parse_local_datetime (off : Z) (s : jstr) : option Z :=
  match s with
  | [y1; y2; y3; y4; h1; m1; m2; h2; d1; d2; t; a1; a2; c1; b1; b2; c2; e1; e2] =>
      if bool_decide (t = "T"%char /\ c1 = ":"%char /\ c2 = ":"%char) then
        day ← parse_iso_date [y1; y2; y3; y4; h1; m1; m2; h2; d1; d2];
        hh ← digits_value 0 [a1; a2];
        mm ← digits_value 0 [b1; b2];
        ss ← digits_value 0 [e1; e2];
        if bool_decide (hh < 24 /\ mm < 60 /\ ss < 60)%Z
        then Some (day + ((hh * 60 + mm) * 60 + ss) * 1000 - off)%Z else None
      else None
  | _ => None
  end.

(** [new Date(s).getTime()] of the engine: the date-only form as UTC, the
    date-time form as local time, anything else invalid. *)
Definition parse_js_date (off : Z) (s : jstr) : option Z :=
  match parse_iso_date s with
  | Some ms => Some ms
  | None => parse_local_datetime off s
  end.

(** TimeClip: time values beyond 8.64e15 ms are invalid. *)
Definition time_clip (ms : Z) : option Z :=
  if (Z.abs ms <=? 8640000000000000)%Z then Some ms else None.

Definition fixed_offset_date (off : Z) : JsDate := {|
  date_parse := parse_js_date off;
  date_of_ns t := time_clip (Z.quot t 1000000);
  local_ymd ms := civil_from_days ((ms + off) / ms_per_day);
|}.

(** The engine of a user whose clock runs on UTC. *)
Definition utc_date : JsDate := fixed_offset_date 0.

(** [String(n)] of an integral number. *)
Definition js_int_to_string (z : Z) : jstr :=
  str (NilZero.string_of_int (Z.to_int z)).

(** [s.padStart(2, '0')]. *)
Definition pad2 (s : jstr) : jstr :=
  match s with
  | [] => str "00"
  | [c] => "0"%char :: [c]
  | _ => s
  end.

(** [s.padStart(n, '0')]. *)
Definition pad_start (n : nat) (s : jstr) : jstr := replicate (n - length s) "0"%char ++ s.

(** The date part of [toISOString()] of a time value: the UTC calendar date,
    the year on four digits in 0..9999 and signed on six digits outside. *)
Definition iso_date (ms : Z) : jstr :=
  let '(y, m, d) := civil_from_days (ms / ms_per_day) in
  let yyyy := if bool_decide (0 <= y <= 9999)%Z then pad_start 4 (js_int_to_string y)
              else (if bool_decide (y < 0)%Z then str "-" else str "+") ++
                   pad_start 6 (js_int_to_string (Z.abs y)) in
  yyyy ++ str "-" ++ pad2 (js_int_to_string m) ++ str "-" ++ pad2 (js_int_to_string d).

(** The characters [String(n)] and [padStart] can produce. *)
Definition numeral_char (c : ascii) : bool := bool_decide (c ∈ str "-0123456789").

Lemma string_of_uint_chars d :
  Forall (fun c => numeral_char c = true)
    (String.list_ascii_of_string (NilEmpty.string_of_uint d)).
Proof. induction d; simpl; try constructor; done. Qed.

Lemma js_int_to_string_chars z : Forall (fun c => numeral_char c = true) (js_int_to_string z).
Proof.
  unfold js_int_to_string, str, NilZero.string_of_int, NilZero.string_of_uint.
  destruct (Z.to_int z) as [d|d]; simpl; [|constructor; [done|]];
    destruct d; try apply string_of_uint_chars; by repeat constructor.
Qed.

Lemma to_int_nonnil z : Z.to_int z <> Decimal.Pos Decimal.Nil /\ Z.to_int z <> Decimal.Neg Decimal.Nil.
Proof.
  destruct z as [|p|p]; cbn; split; try discriminate;
    intros [= H]; by apply (DecimalPos.Unsigned.to_uint_nonnil p).
Qed.

(** [String(n)] tells integers apart. *)
Lemma js_int_to_string_inj z1 z2 : js_int_to_string z1 = js_int_to_string z2 -> z1 = z2.
Proof.
  unfold js_int_to_string, str. intros H.
  apply (f_equal String.string_of_list_ascii) in H. rewrite !String.string_of_list_ascii_of_string in H.
  apply (f_equal NilZero.int_of_string) in H.
  destruct (to_int_nonnil z1), (to_int_nonnil z2).
  rewrite !NilZero.isi in H by done. injection H as H.
  by rewrite <- (DecimalZ.of_to z1), <- (DecimalZ.of_to z2), H.
Qed.

Lemma pad2_chars s :
  Forall (fun c => numeral_char c = true) s -> Forall (fun c => numeral_char c = true) (pad2 s).
Proof.
  intros Hs. destruct s as [|c [|c' s]]; simpl; [by_decide| |done].
  apply Forall_cons in Hs as [Hc _]. by repeat constructor.
Qed.

Example days_from_civil_2024 : days_from_civil 2024 1 1 = 19723%Z.
Proof. by_eval. Qed.

Example civil_from_days_2024 : civil_from_days 19723 = (2024, 1, 1)%Z.
Proof. by_eval. Qed.
