(* ===== verification/JsNumber.v ===== *)
(** * [Number] of a [bigint]: rounding to a double

    The code turns nanosecond [bigint]s and hour counts into [Number]s
    ([Number(a[sortKey] ?? 0n)] in the table sort, [Number(t.hoursLogged)]
    on the dashboard).  A double holds an integer exactly up to 2^53; above,
    [Number] rounds to the nearest multiple of the spacing 2^(e) of the
    binade, ties to even ([double_round]).  Integer-valued doubles are added
    exactly and the sum rounded the same way.  The quotient of two positive
    integers is rounded the same way in the normal range ([round_div], a
    double as a mantissa and an exponent), a double times an integer by
    rounding the exact product ([dbl_mul_int]), and [Math.round] rounds half
    up ([math_round]).  A value that rounds to 2^1024 or more is Infinity,
    which callers test for where the code can reach it.

    [Math.floor] of a quotient floors the rounded double ([js_floor_div]).

    Theorems: rounding is the identity up to 2^53; it moves a
    value below 2^62 by at most 2^8, so two such values more than 2^9 apart
    keep their order; and flooring the rounded quotient [a / b] gives the
    integer quotient for [0 <= a < 2^53]. *)

From S2P Require Import Prelude.

Local Open Scope Z_scope.

(** The exponent of the spacing of the doubles around a magnitude [a]. *)
Definition spacing_exp (a : Z) : Z := Z.max 0 (Z.log2 a - 52).

(** Round a non-negative integer to 53 significant bits, ties to even. *)
Definition round_pos (a : Z) : Z :=
  let e := spacing_exp a in
  let q := a / 2 ^ e in
  let r := a mod 2 ^ e in
  if (2 * r <? 2 ^ e)%Z then q * 2 ^ e
  else if (2 ^ e <? 2 * r)%Z then (q + 1) * 2 ^ e
  else if Z.even q then q * 2 ^ e else (q + 1) * 2 ^ e.

(** [Number(n)] of a [bigint] [n]. *)
Definition double_round (z : Z) : Z := Z.sgn z * round_pos (Z.abs z).

(** ** Lemmas *)

Lemma spacing_exp_small a : (a < 2 ^ 53)%Z -> spacing_exp a = 0%Z.
Proof.
  intros Ha. unfold spacing_exp. destruct (Z.le_gt_cases a 0) as [Hn|Hp].
  - rewrite Z.log2_nonpos by done. lia.
  - assert (Z.log2 a < 53)%Z by (apply Z.log2_lt_pow2; lia). lia.
Qed.

Lemma round_pos_small a : (a <= 2 ^ 53)%Z -> round_pos a = a.
Proof.
  intros Ha. destruct (Z.eq_dec a (2 ^ 53)) as [->|Hne]; [reflexivity|].
  unfold round_pos. rewrite spacing_exp_small by lia.
  rewrite Z.pow_0_r, Z.div_1_r, Z.mod_1_r, Z.mul_1_r. done.
Qed.

(** Up to 2^53 every integer is a double. *)
Lemma double_round_small z : (Z.abs z <= 2 ^ 53)%Z -> double_round z = z.
Proof.
  intros Hz. unfold double_round. rewrite round_pos_small by done.
  rewrite Z.mul_comm. apply Z.abs_sgn.
Qed.

(** Rounding moves a non-negative value by at most half a spacing. *)
Lemma round_pos_close a :
  (0 <= a)%Z -> (Z.abs (round_pos a - a) * 2 <= 2 ^ spacing_exp a)%Z.
Proof.
  intros Ha. unfold round_pos. set (e := spacing_exp a).
  assert (He : (0 < 2 ^ e)%Z) by (apply Z.pow_pos_nonneg; [lia|apply Z.le_max_l]).
  pose proof (Z.div_mod a (2 ^ e) ltac:(lia)) as Hdm.
  pose proof (Z.mod_pos_bound a (2 ^ e) He) as Hr.
  set (q := a / 2 ^ e) in *. set (r := a mod 2 ^ e) in *.
  destruct (2 * r <? 2 ^ e)%Z eqn:E1; [apply Z.ltb_lt in E1|apply Z.ltb_ge in E1].
  - rewrite Hdm. lia.
  - destruct (2 ^ e <? 2 * r)%Z eqn:E2; [apply Z.ltb_lt in E2|apply Z.ltb_ge in E2].
    + rewrite Hdm. lia.
    + destruct (Z.even q); rewrite Hdm; lia.
Qed.

Lemma spacing_exp_mono a : (0 < a < 2 ^ 62)%Z -> (spacing_exp a <= 9)%Z.
Proof.
  intros Ha. unfold spacing_exp.
  assert (Z.log2 a < 62)%Z by (apply Z.log2_lt_pow2; lia). lia.
Qed.

(** Below 2^62 rounding moves a value by at most 2^8. *)
Lemma round_pos_close_62 a : (0 <= a < 2 ^ 62)%Z -> (Z.abs (round_pos a - a) <= 2 ^ 8)%Z.
Proof.
  intros Ha. destruct (Z.eq_dec a 0) as [->|Hnz]; [vm_compute; discriminate|].
  pose proof (round_pos_close a ltac:(lia)) as Hc.
  pose proof (spacing_exp_mono a ltac:(lia)) as He.
  assert (H2 : (2 ^ spacing_exp a <= 2 ^ 9)%Z)
    by (apply Z.pow_le_mono_r; [lia|done]).
  change (2 ^ 9)%Z with (2 * 2 ^ 8)%Z in H2. lia.
Qed.

Lemma double_round_close_62 z : (Z.abs z < 2 ^ 62)%Z -> (Z.abs (double_round z - z) <= 2 ^ 8)%Z.
Proof.
  intros Hz. unfold double_round.
  pose proof (round_pos_close_62 (Z.abs z) ltac:(lia)) as Hc.
  destruct (Z.sgn_spec z) as [[Hp ->]|[[H0 ->]|[Hn ->]]].
  - rewrite (Z.abs_eq z) in * by lia. lia.
  - subst. vm_compute. discriminate.
  - rewrite (Z.abs_neq z) in * by lia. lia.
Qed.

(** Two values below 2^62 in magnitude and more than 2^9 apart compare the
    same as doubles. *)
Lemma double_round_compare z1 z2 :
  (Z.abs z1 < 2 ^ 62)%Z -> (Z.abs z2 < 2 ^ 62)%Z -> (2 ^ 9 < Z.abs (z1 - z2))%Z ->
  Z.compare (double_round z1) (double_round z2) = Z.compare z1 z2.
Proof.
  intros H1 H2 Hd.
  pose proof (double_round_close_62 z1 H1) as C1.
  pose proof (double_round_close_62 z2 H2) as C2.
  change (2 ^ 9)%Z with 512%Z in Hd. change (2 ^ 8)%Z with 256%Z in C1, C2.
  destruct (Z.compare_spec z1 z2); [lia| |]; apply Z.compare_lt_iff || apply Z.compare_gt_iff; lia.
Qed.

(** ** Division and [Math.round] *)

(** A finite double as [m * 2 ^ e]. *)
Definition dbl := (Z * Z)%type.

(** [n / (d * 2^e)] as a fraction with integer parts. *)
Definition div_scaled (n d e : Z) : Z * Z :=
  if (0 <=? e)%Z then (n, d * 2 ^ e) else (n * 2 ^ (- e), d).

(** [n / d] rounded to the nearest integer, ties to even. *)
Definition round_step (n d : Z) : Z :=
  if (2 * (n mod d) <? d)%Z then n / d
  else if (d <? 2 * (n mod d))%Z then n / d + 1
  else if Z.even (n / d) then n / d else n / d + 1.

(** The double nearest to [a / b] for [0 < a] and [0 < b] (ties to even), for
    quotients in the normal range: 53 significant bits [n / d] scaled by
    [2 ^ e]. *)
Definition round_div (a b : Z) : dbl :=
  let e0 := Z.log2 a - Z.log2 b - 53 in
  let e := let '(n, d) := div_scaled a b e0 in if (2 ^ 53 <=? n / d)%Z then e0 + 1 else e0 in
  let '(n, d) := div_scaled a b e in
  (round_step n d, e).

(** [x * k] for a double [x] and an integer [k]: the exact product rounded. *)
Definition dbl_mul_int (x : dbl) (k : Z) : dbl := (double_round (x.1 * k), x.2).

(** [Math.round(x)]: the integer nearest to [x], ties towards +Infinity. *)
Definition math_round (x : dbl) : Z :=
  let '(m, e) := x in
  if (0 <=? e)%Z then m * 2 ^ e else (2 * m + 2 ^ (- e)) / 2 ^ (1 - e).

(** [Math.floor(x)] and [Math.ceil(x)]. *)
Definition math_floor (x : dbl) : Z :=
  let '(m, e) := x in if (0 <=? e)%Z then m * 2 ^ e else m / 2 ^ (- e).

Definition math_ceil (x : dbl) : Z :=
  let '(m, e) := x in if (0 <=? e)%Z then m * 2 ^ e else - ((- m) / 2 ^ (- e)).

(** [Math.floor(a / b)] for integral [a] and [0 < b]: the quotient is rounded
    to a double, symmetrically about 0, and then floored. *)
Definition js_floor_div (a b : Z) : Z :=
  if (a =? 0)%Z then 0
  else if (0 <? a)%Z then math_floor (round_div a b)
  else - math_ceil (round_div (- a) b).

(** ** Flooring a rounded quotient *)

Lemma round_step_cases n d :
  round_step n d = n / d \/ (round_step n d = n / d + 1 /\ d <= 2 * (n mod d)).
Proof.
  unfold round_step. destruct (2 * (n mod d) <? d) eqn:H1; [by left|].
  apply Z.ltb_ge in H1. destruct (d <? 2 * (n mod d)); [by right|].
  destruct (Z.even (n / d)); [by left|by right].
Qed.

(** Rounding [a * 2^k / b] to an integer and dividing by [2^k] floors
    [a / b] when the quotient has 53 significant bits and [a < 2^53]. *)
Lemma floor_round_core a b k :
  0 < a < 2 ^ 53 -> 0 < b -> 1 <= k -> 2 ^ 52 * b <= a * 2 ^ k ->
  round_step (a * 2 ^ k) b / 2 ^ k = a / b.
Proof.
  intros Ha Hb Hk Hlo.
  assert (0 < 2 ^ k) as Hpk by (apply Z.pow_pos_nonneg; lia).
  assert (Hq : a * 2 ^ k / b / 2 ^ k = a / b).
  { rewrite Z.div_div by lia. apply Z.div_mul_cancel_r; lia. }
  destruct (round_step_cases (a * 2 ^ k) b) as [-> | [-> Hr]]; [done|].
  rewrite <- Hq. set (q := a * 2 ^ k / b). set (r := a * 2 ^ k mod b).
  pose proof (Z.div_mod (a * 2 ^ k) b ltac:(lia)) as Hn. fold q r in Hn.
  pose proof (Z.mod_pos_bound (a * 2 ^ k) b Hb) as Hrb. fold r in Hrb, Hr.
  pose proof (Z.div_mod q (2 ^ k) ltac:(lia)) as Hqm.
  pose proof (Z.mod_pos_bound q (2 ^ k) Hpk) as Hs.
  set (m := q / 2 ^ k) in *. set (s := q mod 2 ^ k) in *.
  destruct (decide (s + 1 < 2 ^ k)) as [Hs1|Hs1].
  - symmetry. apply (Z.div_unique_pos _ _ m (s + 1)); lia.
  - exfalso. assert (s = 2 ^ k - 1) as Es by lia.
    assert (Hx : 2 ^ k * ((m + 1) * b - a) = b - r) by nia.
    assert (1 <= (m + 1) * b - a) by nia.
    assert (2 ^ k <= b - r) by nia.
    assert (Hlt : 2 ^ 52 * b < 2 ^ 53 * 2 ^ k) by nia.
    nia.
Qed.

Lemma math_floor_neg m e : e < 0 -> math_floor (m, e) = m / 2 ^ (- e).
Proof. intros He. unfold math_floor. by rewrite (proj2 (Z.leb_gt 0 e)). Qed.

(** Flooring the double nearest to [a / b] gives [a / b] when [a < 2^53]. *)
Lemma floor_round_div a b : 0 < a < 2 ^ 53 -> 0 < b -> math_floor (round_div a b) = a / b.
Proof.
  intros Ha Hb.
  pose proof (Z.log2_spec a ltac:(lia)) as [Hla1 Hla2].
  pose proof (Z.log2_spec b Hb) as [Hlb1 Hlb2].
  assert (Z.log2 a < 53) by (apply Z.log2_lt_pow2; lia).
  pose proof (Z.log2_nonneg b). pose proof (Z.log2_nonneg a).
  unfold round_div.
  set (k0 := 53 + Z.log2 b - Z.log2 a).
  assert (Ek0 : Z.log2 a - Z.log2 b - 53 = - k0) by (unfold k0; lia).
  rewrite Ek0. assert (1 <= k0) by (unfold k0; lia).
  assert (Hds : forall k, 1 <= k -> div_scaled a b (- k) = (a * 2 ^ k, b)).
  { intros k Hk. unfold div_scaled. rewrite (proj2 (Z.leb_gt 0 (- k))) by lia. by rewrite Z.opp_involutive. }
  rewrite (Hds k0) by done. cbn beta iota zeta.
  assert (Hlo : 2 ^ 52 * b <= a * 2 ^ k0).
  { assert (2 ^ Z.log2 a * 2 ^ k0 = 2 ^ 52 * 2 ^ (Z.log2 b + 1)) as E.
    { rewrite <- !Z.pow_add_r by lia. f_equal. unfold k0. lia. }
    assert (2 ^ Z.log2 a * 2 ^ k0 <= a * 2 ^ k0) by (apply Z.mul_le_mono_nonneg_r; [apply Z.pow_nonneg|]; lia).
    nia. }
  destruct (2 ^ 53 <=? a * 2 ^ k0 / b) eqn:Hc.
  - apply Z.leb_le in Hc.
    assert (H53 : 2 ^ 53 * b <= a * 2 ^ k0).
    { pose proof (Z.mul_div_le (a * 2 ^ k0) b Hb). nia. }
    destruct (decide (k0 = 1)) as [Hk1|Hk0].
    + rewrite Hk1 in H53 |- *. rewrite Z.pow_1_r in H53.
      assert (b < 2) by (apply (Z.mul_lt_mono_pos_l (2 ^ 53)); lia).
      assert (b = 1) as -> by lia. replace (- (1) + 1) with 0 by lia.
      unfold div_scaled, math_floor, round_step. cbn. rewrite Z.mod_1_r, Z.div_1_r.
      rewrite (proj2 (Z.ltb_lt (2 * 0) (1 * 2 ^ 0))) by reflexivity.
      by rewrite Z.pow_0_r, Z.mul_1_r, Z.div_1_r.
    + replace (- k0 + 1) with (- (k0 - 1)) by lia. rewrite (Hds (k0 - 1)) by lia. cbn beta iota zeta.
      rewrite math_floor_neg, Z.opp_involutive by lia. apply floor_round_core; try lia.
      assert (2 ^ k0 = 2 * 2 ^ (k0 - 1)) by (rewrite <- Z.pow_succ_r by lia; f_equal; lia). nia.
  - cbn iota. rewrite (Hds k0) by done. cbn beta iota zeta.
    rewrite math_floor_neg, Z.opp_involutive by lia. by apply floor_round_core.
Qed.

(** [Math.floor(a / b)] in doubles is the integer quotient for
    [0 <= a < 2^53]. *)
Lemma js_floor_div_exact a b : 0 <= a < 2 ^ 53 -> 0 < b -> js_floor_div a b = a / b.
Proof.
  intros Ha Hb. unfold js_floor_div. destruct (Z.eqb_spec a 0) as [->|Ha0].
  - by rewrite Z.div_0_l by lia.
  - rewrite (proj2 (Z.ltb_lt 0 a)) by lia. apply floor_round_div; lia.
Qed.
