(* ===== verification/FieldParse.v ===== *)
(** * Cell parsers of the import modal

    The five total functions of [components/ResourceImportModal.tsx] that turn
    one trimmed cell into a typed field: [parseBillabilityStatus],
    [parseNonBillableStatus], [parseResourceStatus], [parseDateToTime] and
    [parseSkills].  The lenient defaults of the code are explicit branches.

    [parseNonBillableStatus] indexes an object literal with the normalised
    text, so a text naming a member of [Object.prototype] finds that member
    (the field then holds a function or an object, [NBObjectProto]).

    Theorems: the exact shape of each parser's result, the skill-list round
    trip with [join(';')], and the behaviour on the inherited names. *)

From S2P Require Import Prelude JsString Domain JsDate.

(** [parseBillabilityStatus(val)]: only the text [billable], in any case and
    with surrounding blanks, is billable. *)
Definition parseBillabilityStatus (val : jstr) : BillabilityStatus.t :=
  if decide (to_lower (trim val) = str "billable")
  then BillabilityStatus.billable else BillabilityStatus.nonBillable.

(** The object literal [map] of [parseNonBillableStatus], in source order. *)
Definition nonBillableTable : list (jstr * NonBillableStatus.t) :=
  [(str "availablefordeployment", NonBillableStatus.availableForDeployment);
   (str "bibench", NonBillableStatus.biBench);
   (str "partialbench", NonBillableStatus.partialBench);
   (str "benchblocked", NonBillableStatus.benchBlocked);
   (str "maternity", NonBillableStatus.maternity);
   (str "solutioninvestment", NonBillableStatus.solutionInvestment);
   (str "deliverysupport", NonBillableStatus.deliverySupport);
   (str "projectbuffer", NonBillableStatus.projectBuffer)].

(** The properties every object literal inherits from [Object.prototype]. *)
Definition objectPrototypeProps : list jstr :=
  [str "constructor"; str "__defineGetter__"; str "__defineSetter__";
   str "hasOwnProperty"; str "__lookupGetter__"; str "__lookupSetter__";
   str "isPrototypeOf"; str "propertyIsEnumerable"; str "toString";
   str "valueOf"; str "__proto__"; str "toLocaleString"].

(** [map[v]] on the object literal: an own property, else an inherited one,
    else [undefined]. *)
Definition object_lookup (v : jstr) : option NonBillableValue :=
  match list_find (fun kv => kv.1 = v) nonBillableTable with
  | Some (_, (_, s)) => Some (NBEnum s)
  | None => if decide (v ∈ objectPrototypeProps) then Some (NBObjectProto v) else None
  end.

(** [parseNonBillableStatus(val)]: trim, lower-case, drop all whitespace, look
    up. *)
Definition parseNonBillableStatus (val : jstr) : option NonBillableValue :=
  object_lookup (remove_ws (to_lower (trim val))).

(** [parseResourceStatus(val)]: only [inactive] is inactive. *)
Definition parseResourceStatus (val : jstr) : ResourceStatus.t :=
  if decide (to_lower (trim val) = str "inactive")
  then ResourceStatus.inactive else ResourceStatus.active.

Section Dates.
Context `{D : JsDate}.

(** [parseDateToTime(val)]: blank or unparsable text is the time 0. *)
Definition parseDateToTime (val : jstr) : Time :=
  if decide (trim val = []) then 0%Z
  else match date_parse (trim val) with
       | None => 0%Z
       | Some ms => (ms * 1000000)%Z
       end.

Lemma parseDateToTime_blank val : trim val = [] -> parseDateToTime val = 0%Z.
Proof. intros H. unfold parseDateToTime. by rewrite decide_True. Qed.

Lemma parseDateToTime_ok val ms :
  trim val <> [] -> date_parse (trim val) = Some ms -> parseDateToTime val = (ms * 1000000)%Z.
Proof. intros H1 H2. unfold parseDateToTime. rewrite decide_False by done. by rewrite H2. Qed.
End Dates.

(** [parseSkills(val)]: split on [';'], trim the pieces, drop the empty ones. *)
Definition parseSkills (val : jstr) : list jstr :=
  if decide (trim val = []) then []
  else filter (fun s => s <> []) (trim <$> split_on ";"%char val).

(** A skill the exporter can write and the importer read back unchanged. *)
Definition skill_ok (s : jstr) : Prop := s <> [] /\ trim s = s /\ ";"%char ∉ s.

(** ** Lemmas *)

Lemma parseBillabilityStatus_billable val :
  parseBillabilityStatus val = BillabilityStatus.billable <-> to_lower (trim val) = str "billable".
Proof. unfold parseBillabilityStatus. case_decide; naive_solver. Qed.

Lemma parseResourceStatus_inactive val :
  parseResourceStatus val = ResourceStatus.inactive <-> to_lower (trim val) = str "inactive".
Proof. unfold parseResourceStatus. case_decide; naive_solver. Qed.

Lemma trim_app_nonblank s r : trim s <> [] -> trim (s ++ r) <> [].
Proof.
  rewrite !trim_nil. intros Hs Hsr. apply Hs. by apply Forall_app in Hsr as [? _].
Qed.

(** Skill lists survive [join(';')] followed by [parseSkills]. *)
Lemma parseSkills_join_skills (l : list jstr) :
  Forall skill_ok l -> parseSkills (join [";"%char] l) = l.
Proof.
  intros Hl. unfold parseSkills.
  destruct l as [|s l]; [done|].
  rewrite decide_False.
  2: { apply Forall_cons in Hl as [(Hne & Htr & _) _].
       destruct l; simpl; [by rewrite Htr|]. apply trim_app_nonblank. by rewrite Htr. }
  rewrite split_on_join by (done || (eapply Forall_impl; [exact Hl|]; by intros ? (_ & _ & ?))).
  rewrite (Forall_fmap_ext_1 trim Datatypes.id); [rewrite list_fmap_id|].
  - apply filter_all. eapply Forall_impl; [exact Hl|]. by intros ? (? & _ & _).
  - eapply Forall_impl; [exact Hl|]. by intros ? (_ & ? & _).
Qed.

(** Every skill [parseSkills] returns is non-empty, trimmed and free of [';']. *)
Theorem parseSkills_items val : Forall skill_ok (parseSkills val).
Proof.
  unfold parseSkills. case_decide; [done|].
  apply Forall_forall. intros s Hs. apply list_elem_of_filter in Hs as [Hne Hs].
  apply list_elem_of_fmap in Hs as (w & -> & Hw). split_and!; [done|apply trim_idem|].
  pose proof (split_on_no_sep ";"%char val) as Hno. rewrite Forall_forall in Hno.
  intros Hin. by apply (Hno w Hw), trim_elem.
Qed.

(** A list of skills written with [join(';')] is read back by
    [parseSkills] as the same list, when each skill is non-empty, trimmed and
    free of [';']. *)
Theorem parseSkills_join (l : list jstr) :
  Forall skill_ok l -> parseSkills (join [";"%char] l) = l.
Proof. apply parseSkills_join_skills. Qed.

Lemma parseSkills_join_witness :
  parseSkills (join [";"%char] [str "React"; str "Node JS"]) = [str "React"; str "Node JS"].
Proof. apply parseSkills_join. by_decide. Defined.

(** The category lookup is a plain JavaScript object, so a category cell
    naming a member of [Object.prototype] is not rejected: [Constructor]
    (lower-cased, spaces removed: [constructor]) yields the inherited
    function instead of [undefined]. *)
Theorem parseNonBillableStatus_prototype :
  parseNonBillableStatus (str " Constructor ") = Some (NBObjectProto (str "constructor")) /\
  parseNonBillableStatus (str "__proto__") = Some (NBObjectProto (str "__proto__")) /\
  parseNonBillableStatus (str "Bogus Value") = None.
Proof. by_eval. Qed.
