(* ===== verification/RowMapper.v ===== *)
(** * One row of the import: [mapRowToResource]

    [mapRowToResource(headers, row, rowIndex)] of
    [components/ResourceImportModal.tsx] builds the object [data] from the
    trimmed headers to the trimmed cells (a [gmap]: a later column with the
    same header overwrites an earlier one), checks the three required fields,
    derives the typed fields with the parsers of [FieldParse], and returns a
    [ParsedRow] that carries the [Resource] only when no error was found.
    [generateId()] is the argument [newId].

    Theorems: the lookup law of [data]; a row carries a resource exactly when
    its error list is empty; the error list is exactly the required fields
    whose cell is blank, in the order of the code; a carried resource has
    non-empty employee id, name and email, and no category when billable; a
    blank billability cell yields a billable resource. *)

From S2P Require Import Prelude JsString Domain JsDate FieldParse.

Record ParsedRow := mkParsedRow {
  index : nat;
  data : gmap jstr jstr;
  errors : list jstr;
  resource : option Resource;
}.

(** [headers.forEach((h, i) => { data[h.trim()] = (row[i] ?? '').trim(); })]. *)
Fixpoint fill_data (headers row : list jstr) (data : gmap jstr jstr) : gmap jstr jstr :=
  match headers with
  | [] => data
  | h :: hs => fill_data hs (tail row) (<[trim h := trim (head row ?? [])]> data)
  end.

(** [data[k] || ''] *)
Definition cell (data : gmap jstr jstr) (k : jstr) : jstr := data !! k ?? [].

(** The three required-field checks, in the order of the code. *)
Definition required_errors (employeeId name email : jstr) : list jstr :=
  (if decide (employeeId = []) then [str "Employee ID is required"] else []) ++
  (if decide (name = []) then [str "Name is required"] else []) ++
  (if decide (email = []) then [str "Email ID is required"] else []).

(** The position of the last header that trims to [k]: the column whose cell
    [data[k]] ends up holding. *)
Fixpoint last_header_index (headers : list jstr) (k : jstr) : option nat :=
  match headers with
  | [] => None
  | h :: hs =>
      match last_header_index hs k with
      | Some i => Some (S i)
      | None => if decide (trim h = k) then Some 0 else None
      end
  end.

(** The cell a header [k] gets from a row, when some header trims to [k]. *)
Definition header_cell (headers row : list jstr) (k : jstr) : option jstr :=
  (fun i => trim (row !! i ?? [])) <$> last_header_index headers k.

(** The lookup law of [data]: the last column with header [k] wins, and keys
    no header names keep their old value. *)
Lemma fill_data_lookup headers row m k :
  fill_data headers row m !! k =
  match last_header_index headers k with
  | Some i => Some (trim (row !! i ?? []))
  | None => m !! k
  end.
Proof.
  revert row m. induction headers as [|h hs IH]; intros row m; simpl; [done|].
  rewrite IH. destruct (last_header_index hs k) as [i|].
  - by destruct row.
  - case_decide as Hk; [subst k; rewrite lookup_insert_eq; by destruct row|].
    by rewrite lookup_insert_ne.
Qed.

Lemma cell_fill_data headers row k :
  cell (fill_data headers row ∅) k = header_cell headers row k ?? [].
Proof.
  unfold cell, header_cell. rewrite fill_data_lookup.
  by destruct (last_header_index headers k).
Qed.

Lemma last_header_index_None headers k :
  last_header_index headers k = None <-> Forall (fun h => trim h <> k) headers.
Proof.
  induction headers as [|h hs IH]; simpl; [split; auto|]. rewrite Forall_cons, <- IH.
  destruct (last_header_index hs k); [naive_solver|]. case_decide; naive_solver.
Qed.

(** With distinct trimmed headers, the header at position [i] names column [i]. *)
Lemma last_header_index_at headers i h :
  NoDup (trim <$> headers) -> headers !! i = Some h -> last_header_index headers (trim h) = Some i.
Proof.
  revert i. induction headers as [|h' hs IH]; intros i Hnd Hi; [done|].
  rewrite fmap_cons in Hnd. apply NoDup_cons in Hnd as [Hnot Hnd]. simpl.
  destruct i as [|j]; simpl in Hi.
  - injection Hi as ->. rewrite (proj2 (last_header_index_None hs (trim h))).
    + by rewrite decide_True.
    + apply Forall_forall. intros x Hx Heq. apply Hnot. rewrite <- Heq.
      by apply list_elem_of_fmap_2.
  - by rewrite (IH j Hnd Hi).
Qed.

Lemma cell_at headers row i h :
  NoDup (trim <$> headers) -> headers !! i = Some h ->
  cell (fill_data headers row ∅) (trim h) = trim (row !! i ?? []).
Proof.
  intros Hnd Hi. rewrite cell_fill_data. unfold header_cell.
  by rewrite (last_header_index_at headers i h).
Qed.

(** The three required columns, in the order the code checks them. *)
Definition required_columns : list jstr := [str "Employee ID"; str "Name"; str "Email ID"].

(** Column [k] is present and its cell is not blank. *)
Definition required_cell_present (headers row : list jstr) (k : jstr) : Prop :=
  exists v, header_cell headers row k = Some v /\ v <> [].

Section Mapper.
Context `{D : JsDate}.

(** [mapRowToResource(headers, row, rowIndex)] with [generateId()] = [newId]. *)
Definition mapRowToResource (headers row : list jstr) (rowIndex : nat) (newId : jstr)
    : ParsedRow :=
  let data := fill_data headers row ∅ in
  let employeeId := cell data (str "Employee ID") in
  let name := cell data (str "Name") in
  let email := cell data (str "Email ID") in
  let errors := required_errors employeeId name email in
  let billabilityRaw := js_or (cell data (str "Billability Status")) (str "Billable") in
  let billabilityStatus := parseBillabilityStatus billabilityRaw in
  let nonBillableRaw := cell data (str "Non-Billable Category") in
  let nonBillableStatus :=
    if decide (billabilityStatus = BillabilityStatus.nonBillable)
    then parseNonBillableStatus nonBillableRaw else None in
  let resource := {|
    id := newId;
    employeeId := employeeId;
    name := name;
    email := email;
    contactNumber := cell data (str "Contact Number");
    location := cell data (str "Location");
    client := cell data (str "Client");
    project := cell data (str "Project");
    projectId := (let v := cell data (str "Project ID") in
                  if decide (v = []) then None else Some v);
    projectManager := cell data (str "Project Manager");
    reportingManager := cell data (str "Reporting Manager");
    deliveryHead := cell data (str "Delivery Head");
    billabilityStatus := billabilityStatus;
    nonBillableStatus := nonBillableStatus;
    totalExperience := cell data (str "Total Experience");
    doj := parseDateToTime (cell data (str "DOJ"));
    assignmentStartDate := parseDateToTime (cell data (str "Assignment Start Date"));
    assignmentEndDate := parseDateToTime (cell data (str "Assignment End Date"));
    practice := cell data (str "Practice");
    primarySkills := parseSkills (cell data (str "Primary Skills"));
    secondarySkills := parseSkills (cell data (str "Secondary Skills"));
    status := parseResourceStatus (js_or (cell data (str "Status")) (str "Active"));
    role := [];
    department := [];
    skillTags := [];
  |} in
  {| index := rowIndex; data := data; errors := errors;
     resource := if decide (errors = []) then Some resource else None |}.

(** ** Lemmas *)

Lemma required_errors_nil e n m :
  required_errors e n m = [] <-> e <> [] /\ n <> [] /\ m <> [].
Proof. unfold required_errors. repeat case_decide; naive_solver. Qed.

Lemma mapRowToResource_errors headers row i newId :
  errors (mapRowToResource headers row i newId) =
  required_errors (cell (fill_data headers row ∅) (str "Employee ID"))
                  (cell (fill_data headers row ∅) (str "Name"))
                  (cell (fill_data headers row ∅) (str "Email ID")).
Proof. reflexivity. Qed.

(** The ValidationOutcome invariant: a row carries its resource exactly when
    its error list is empty. *)
Lemma mapRowToResource_outcome headers row i newId :
  is_Some (resource (mapRowToResource headers row i newId)) <->
  errors (mapRowToResource headers row i newId) = [].
Proof.
  cbn [resource errors mapRowToResource]. case_decide as H; [|split; [by intros []|done]].
  split; [done|eauto].
Qed.

(** A carried resource has the three required fields non-empty. *)
Theorem mapRowToResource_required headers row i newId r :
  resource (mapRowToResource headers row i newId) = Some r ->
  employeeId r <> [] /\ name r <> [] /\ email r <> [].
Proof.
  cbn [resource mapRowToResource]. case_decide as H; [|done].
  intros [= <-]. by apply required_errors_nil in H.
Qed.

(** A billable resource never carries a non-billable category. *)
Theorem mapRowToResource_billable_no_category headers row i newId r :
  resource (mapRowToResource headers row i newId) = Some r ->
  billabilityStatus r = BillabilityStatus.billable -> nonBillableStatus r = None.
Proof.
  cbn [resource mapRowToResource]. case_decide; [|done]. intros [= <-].
  cbn [billabilityStatus nonBillableStatus]. intros ->. by rewrite decide_False.
Qed.

(** A blank (or absent) billability cell gives a billable resource: the code
    defaults the raw text to [Billable] before parsing it. *)
Theorem mapRowToResource_blank_billability headers row i newId r :
  cell (fill_data headers row ∅) (str "Billability Status") = [] ->
  resource (mapRowToResource headers row i newId) = Some r ->
  billabilityStatus r = BillabilityStatus.billable.
Proof.
  intros Hblank. cbn [resource mapRowToResource]. case_decide; [|done].
  intros [= <-]. cbn [billabilityStatus]. rewrite Hblank. by_eval.
Qed.

Lemma cell_nonempty_iff headers row k :
  cell (fill_data headers row ∅) k <> [] <-> required_cell_present headers row k.
Proof.
  rewrite cell_fill_data. unfold required_cell_present.
  destruct (header_cell headers row k); simpl; naive_solver.
Qed.

(** C5: A row passes validation exactly when each required column is present
    with a non-blank cell. *)
Theorem mapRowToResource_errors_nil headers row i newId :
  errors (mapRowToResource headers row i newId) = [] <->
  Forall (required_cell_present headers row) required_columns.
Proof.
  unfold required_columns. rewrite mapRowToResource_errors, required_errors_nil, !Forall_cons.
  pose proof (cell_nonempty_iff headers row (str "Employee ID")).
  pose proof (cell_nonempty_iff headers row (str "Name")).
  pose proof (cell_nonempty_iff headers row (str "Email ID")).
  split; [intros (? & ? & ?); split_and!; naive_solver|intros (? & ? & ? & _); naive_solver].
Qed.
End Mapper.

(** ** Concrete runs *)

Definition scenario_headers : list jstr :=
  [str "Employee ID"; str "Name"; str "Email ID"; str "Billability Status";
   str "Non-Billable Category"].

(** Spec scenario A: a billable row is valid and has no category. *)
Example mapRowToResource_scenario_A :
  let pr := mapRowToResource (D := utc_date) scenario_headers
              [str "EMP001"; str "John Smith"; str "john@x.com"; str "Billable"; []] 2 (str "res_1") in
  errors pr = [] /\
  option_map billabilityStatus (resource pr) = Some BillabilityStatus.billable /\
  option_map nonBillableStatus (resource pr) = Some None.
Proof. by_eval. Qed.


(** ** Properties *)

(** C4: The ValidationOutcome invariant of one row: [mapRowToResource]
    attaches a resource exactly when its error list is empty. *)
Theorem mapRowToResource_resource_iff `{D : JsDate} headers row i newId :
  is_Some (resource (mapRowToResource headers row i newId)) <->
  errors (mapRowToResource headers row i newId) = [].
Proof. apply mapRowToResource_outcome. Qed.

Definition scenario_A_row : list jstr :=
  [str "EMP001"; str "John Smith"; str "john@x.com"; str "Billable"; []].

Lemma mapRowToResource_required_witness :
  match resource (mapRowToResource (D := utc_date) scenario_headers scenario_A_row 2 (str "r1")) with
  | Some r => employeeId r <> [] /\ name r <> [] /\ email r <> []
  | None => False
  end.
Proof.
  destruct (resource (mapRowToResource (D := utc_date) scenario_headers scenario_A_row 2 (str "r1")))
    as [r|] eqn:E; [exact (mapRowToResource_required (D := utc_date) scenario_headers scenario_A_row 2 (str "r1") r E)|vm_compute in E; discriminate].
Defined.

Lemma mapRowToResource_blank_billability_witness :
  match resource (mapRowToResource (D := utc_date) [str "Employee ID"; str "Name"; str "Email ID"]
                    [str "E9"; str "Ann"; str "ann@x.com"] 2 (str "r1")) with
  | Some r => billabilityStatus r = BillabilityStatus.billable
  | None => False
  end.
Proof.
  destruct (resource (mapRowToResource (D := utc_date) [str "Employee ID"; str "Name"; str "Email ID"]
                    [str "E9"; str "Ann"; str "ann@x.com"] 2 (str "r1"))) as [r|] eqn:E;
    [|vm_compute in E; discriminate].
  apply (mapRowToResource_blank_billability (D := utc_date) [str "Employee ID"; str "Name"; str "Email ID"]
    [str "E9"; str "Ann"; str "ann@x.com"] 2 (str "r1") r); [vm_compute; reflexivity|exact E].
Defined.

Lemma mapRowToResource_billable_no_category_witness :
  match resource (mapRowToResource (D := utc_date) scenario_headers
                    [str "E1"; str "Jo"; str "jo@x.com"; str "billable"; str "Bench"] 2 (str "r1")) with
  | Some r => nonBillableStatus r = None
  | None => False
  end.
Proof.
  destruct (resource (mapRowToResource (D := utc_date) scenario_headers
              [str "E1"; str "Jo"; str "jo@x.com"; str "billable"; str "Bench"] 2 (str "r1")))
    as [r|] eqn:E; [|vm_compute in E; discriminate].
  apply (mapRowToResource_billable_no_category (D := utc_date) scenario_headers
    [str "E1"; str "Jo"; str "jo@x.com"; str "billable"; str "Bench"] 2 (str "r1") r E).
  revert E. vm_compute. intros [= <-]. reflexivity.
Defined.

(** Spec scenario B: a non-billable row whose category is not one of the
    eight known labels is not rejected: it validates with no error and the
    resource carries no category. *)
Theorem mapRowToResource_unknown_category :
  let pr := mapRowToResource (D := utc_date) scenario_headers
              [str "EMP002"; str "Jane Doe"; str "jane@x.com"; str "Non-Billable";
               str "Bogus Value"] 3 (str "r2") in
  errors pr = [] /\
  option_map billabilityStatus (resource pr) = Some BillabilityStatus.nonBillable /\
  option_map nonBillableStatus (resource pr) = Some None.
Proof. by_eval. Qed.
