(* ===== verification/ImportFlow.v ===== *)
(** * The import modal: [processFile], [handleImport] and the modal's state

    [ResourceImportModal] of [components/ResourceImportModal.tsx] keeps six
    [useState]s ([ImportState]).  Its two asynchronous handlers are each split
    at their [await] into a part that runs when the user acts and a part that
    runs when the promise settles:
    - [processFile f]: [processFile_begin] sets the file and clears the rest;
      [processFile_finish] applies the outcome of reading/decoding the file
      ([parse_upload]): a parse error, or the mapped rows.
    - [handleImport]: [handleImport_begin] computes the valid rows of the
      current render and, if any, yields the batch for the bulk call;
      [handleImport_finish] applies the settled call with the values the
      closure captured.
    [processFile] and [handleImport] are the two parts run back to back.

    The bulk call goes through [useBulkAddResources] ([hooks/useQueries.ts]):
    it throws [Actor not ready] without an actor, and otherwise calls the
    backend's [addBulkResources], an interface ([Class BackendActor]) whose
    implementation is not in the repository.

    Theorems: the outcome of [processFile] on each branch (empty input,
    missing columns, rows); the numbering of parsed rows; the summary counts of
    [handleImport] and the batch it submits; no submission without valid rows;
    a failed submission keeps the parsed rows for a retry. *)

From S2P Require Import Prelude JsString Csv Domain JsDate FieldParse RowMapper.

(** A promise that fulfils with a value or rejects with an error whose
    [message] is given (empty when the rejection carries no message). *)
Inductive Settled (A : Type) := Fulfilled (a : A) | Rejected (msg : jstr).
Arguments Fulfilled {A} a.
Arguments Rejected {A} msg.

(** The [File] the user picked, with the outcomes of the two ways the code
    reads it: [f.text()], and SheetJS's decoding of the first sheet
    ([sheet_to_json(sheet, { header: 1, defval: '' })], cells made strings),
    which includes loading SheetJS from its CDN. *)
Record UploadFile := mkUploadFile {
  fname : jstr;
  ftext : Settled jstr;
  fsheet : Settled (list (list jstr));
}.

Record ImportResult := mkImportResult {
  total : nat;
  success : nat;
  failed : nat;
  failedRows : list (nat * list jstr);
}.

Record ImportState := mkImportState {
  isDragging : bool;
  file : option UploadFile;
  parsedRows : list ParsedRow;
  parseError : option jstr;
  isParsing : bool;
  importResult : option ImportResult;
}.

Definition initialState : ImportState :=
  {| isDragging := false; file := None; parsedRows := []; parseError := None;
     isParsing := false; importResult := None |}.

(** [resetState()]; [handleClose] also calls it before closing the dialog. *)
Definition resetState (s : ImportState) : ImportState :=
  {| isDragging := isDragging s; file := None; parsedRows := []; parseError := None;
     isParsing := false; importResult := None |}.

(** [f.name.split('.').pop()?.toLowerCase()]. *)
Definition file_ext (n : jstr) : jstr := to_lower (last (split_on "."%char n) ?? []).

(** [parseXLSX(file)] after the decoder: first row is the header. *)
Definition parseXLSX (data : list (list jstr)) : list jstr * list (list jstr) :=
  match data with
  | [] => ([], [])
  | h :: rows => (h, rows)
  end.

(** The [try] block of [processFile] up to the rows: read the file by its
    extension and parse it. *)
Definition parse_upload (f : UploadFile) : Settled (list jstr * list (list jstr)) :=
  if decide (file_ext (fname f) = str "xlsx" \/ file_ext (fname f) = str "xls") then
    match fsheet f with
    | Fulfilled d => Fulfilled (parseXLSX d)
    | Rejected m => Rejected m
    end
  else
    match ftext f with
    | Fulfilled t => Fulfilled (parseCSV t)
    | Rejected m => Rejected m
    end.

(** [['Employee ID', 'Name', 'Email ID'].filter(col => !headers.map(h => h.trim()).includes(col))]. *)
Definition missing_columns (headers : list jstr) : list jstr :=
  filter (fun col => col ∉ trim <$> headers) required_columns.

(** [row.some((cell) => cell.trim() !== '')]. *)
Definition row_nonblank (row : list jstr) : Prop := Exists (fun c => trim c <> []) row.

Section Flow.
Context `{D : JsDate}.
(** [generateId()] for the [i]-th mapped row of a file. *)
Variable gen : nat -> jstr.

(** [rows.filter(nonblank).map((row, i) => mapRowToResource(headers, row, i + 2))]. *)
Definition map_rows (headers : list jstr) (rows : list (list jstr)) : list ParsedRow :=
  imap (fun i row => mapRowToResource headers row (i + 2) (gen i)) (filter row_nonblank rows).

(** The state updates after the [await]s of [processFile]; the [finally]
    clears [isParsing] on every path. *)
Definition processFile_finish (outcome : Settled (list jstr * list (list jstr)))
    (s : ImportState) : ImportState :=
  let fail msg := {| isDragging := isDragging s; file := file s; parsedRows := parsedRows s;
                     parseError := Some msg; isParsing := false;
                     importResult := importResult s |} in
  match outcome with
  | Rejected m => fail (js_or m (str "Failed to parse file. Please check the format."))
  | Fulfilled (headers, rows) =>
      if decide (headers = []) then fail (str "The file appears to be empty or has no headers.")
      else
        let missing := missing_columns headers in
        if decide (missing <> [])
        then fail (str "Missing required columns: " ++ join (str ", ") missing)
        else {| isDragging := isDragging s; file := file s;
                parsedRows := map_rows headers rows; parseError := parseError s;
                isParsing := false; importResult := importResult s |}
  end.

(** The state updates before the first [await] of [processFile]. *)
Definition processFile_begin (f : UploadFile) (s : ImportState) : ImportState :=
  {| isDragging := isDragging s; file := Some f; parsedRows := []; parseError := None;
     isParsing := true; importResult := None |}.

(** [processFile(f)] when nothing else runs between its two halves. *)
Definition processFile (f : UploadFile) (s : ImportState) : ImportState :=
  processFile_finish (parse_upload f) (processFile_begin f s).
End Flow.

(** ** The bulk submission *)

(** What the backend actor promises the front end: a bulk insert that either
    settles with the new store or rejects and leaves the store as it was. *)
Class BackendActor (S : Type) := {
  addBulkResources : list Resource -> S -> Settled S;
}.

(** [validRows] and [invalidRows] of the render. *)
Definition validRows (s : ImportState) : list ParsedRow :=
  filter (fun r => errors r = [] /\ is_Some (resource r)) (parsedRows s).

Definition invalidRows (s : ImportState) : list ParsedRow :=
  filter (fun r => errors r <> []) (parsedRows s).

(** The [ImportResult] [handleImport] builds from the values of its render. *)
Definition import_summary (s : ImportState) : ImportResult :=
  {| total := length (parsedRows s);
     success := length (validRows s);
     failed := length (invalidRows s);
     failedRows := (fun r => (index r, errors r)) <$> invalidRows s |}.

(** The part of [handleImport] before its [await]: nothing when there is no
    valid row, else the batch [validRows.map((r) => r.resource!)] and the
    summary the closure will set. *)
Definition handleImport_begin (s : ImportState) : option (list Resource * ImportResult) :=
  if decide (validRows s = []) then None
  else Some (omap resource (validRows s), import_summary s).

(** The part after the [await]: the captured summary on success, the error's
    message (or a default) on failure. *)
Definition handleImport_finish (summary : ImportResult) (outcome : Settled unit)
    (s : ImportState) : ImportState :=
  match outcome with
  | Fulfilled _ =>
      {| isDragging := isDragging s; file := file s; parsedRows := parsedRows s;
         parseError := parseError s; isParsing := isParsing s; importResult := Some summary |}
  | Rejected m =>
      {| isDragging := isDragging s; file := file s; parsedRows := parsedRows s;
         parseError := Some (js_or m (str "Import failed. Please try again."));
         isParsing := isParsing s; importResult := importResult s |}
  end.

Section Submit.
Context {S : Type} `{B : BackendActor S}.
(** Whether [useActor] has an actor: without one the mutation throws. *)
Variable actor_ready : bool.

(** The [mutationFn] of [useBulkAddResources]. *)
Definition bulkAdd (rs : list Resource) (st : S) : Settled S :=
  if actor_ready then addBulkResources rs st else Rejected (str "Actor not ready").

(** [handleImport()] when the call settles before anything else happens. *)
Definition handleImport (s : ImportState) (st : S) : ImportState * S :=
  match handleImport_begin s with
  | None => (s, st)
  | Some (rs, summary) =>
      match bulkAdd rs st with
      | Fulfilled st' => (handleImport_finish summary (Fulfilled tt) s, st')
      | Rejected m => (handleImport_finish summary (Rejected m) s, st)
      end
  end.
End Submit.

(** ** Lemmas on the rows *)

(** The ValidationOutcome invariant of one parsed row. *)
Definition row_consistent (r : ParsedRow) : Prop := is_Some (resource r) <-> errors r = [].

Lemma imap_index_seq {A} (f : nat -> A -> ParsedRow) (l : list A) k :
  (forall i x, index (f i x) = i + k) -> index <$> imap f l = seq k (length l).
Proof.
  revert f k. induction l as [|x l IH]; intros f k Hf; [done|].
  rewrite imap_cons, fmap_cons. simpl. rewrite (Hf 0 x). f_equal. apply IH.
  intros i y. unfold compose. rewrite Hf. lia.
Qed.

Section Rows.
Context `{D : JsDate} (gen : nat -> jstr).

(** Every mapped row satisfies the ValidationOutcome invariant. *)
Lemma map_rows_consistent headers rows : Forall row_consistent (map_rows gen headers rows).
Proof.
  unfold map_rows. apply Forall_lookup. intros i r Hr.
  rewrite list_lookup_imap in Hr. destruct (filter row_nonblank rows !! i); [|done].
  injection Hr as <-. apply mapRowToResource_outcome.
Qed.

(** Rows are numbered 2, 3, ... after blank rows are dropped: the number is
    the row's position among the non-blank rows, plus 2. *)
Theorem map_rows_index headers rows :
  index <$> map_rows gen headers rows = seq 2 (length (filter row_nonblank rows)).
Proof. apply imap_index_seq. intros i x. reflexivity. Qed.
End Rows.

Lemma validRows_consistent s :
  Forall row_consistent (parsedRows s) ->
  validRows s = filter (fun r => errors r = []) (parsedRows s).
Proof.
  intros Hc. apply filter_ext_Forall. eapply Forall_impl; [exact Hc|].
  intros r Hr. unfold row_consistent in Hr. naive_solver.
Qed.

(** The batch of valid rows is the list of the resources the rows carry. *)
Lemma omap_filter_valid rows :
  Forall row_consistent rows ->
  omap resource (filter (fun r => errors r = [] /\ is_Some (resource r)) rows) =
  omap resource rows.
Proof.
  induction 1 as [|r rows Hr _ IH]; [done|].
  rewrite filter_cons. unfold row_consistent in Hr. case_decide as Hd; simpl.
  - destruct (resource r); [f_equal|]; exact IH.
  - destruct (resource r) eqn:E; [|done]. exfalso. apply Hd. split; [apply Hr|]; eauto.
Qed.

Lemma omap_validRows s :
  Forall row_consistent (parsedRows s) ->
  omap resource (validRows s) = omap resource (parsedRows s).
Proof. apply omap_filter_valid. Qed.

Lemma valid_invalid_length s :
  Forall row_consistent (parsedRows s) ->
  length (validRows s) + length (invalidRows s) = length (parsedRows s).
Proof.
  intros Hc. rewrite validRows_consistent by done. apply filter_partition_length.
Qed.

(** ** Theorems of [handleImport] *)

Section ImportTheorems.
Context {S : Type} `{B : BackendActor S} (actor_ready : bool).

(** The summary [handleImport] records adds up: every row is counted once,
    as imported or as skipped, with one failure entry per skipped row. *)
Theorem import_summary_counts s :
  Forall row_consistent (parsedRows s) ->
  total (import_summary s) = success (import_summary s) + failed (import_summary s) /\
  length (failedRows (import_summary s)) = failed (import_summary s).
Proof.
  intros Hc. simpl. rewrite length_fmap. split; [|done].
  symmetry. by apply valid_invalid_length.
Qed.

(** C9: No valid row: no call, and the state is unchanged. *)
Theorem handleImport_no_valid_rows s st :
  omap resource (parsedRows s) = [] -> Forall row_consistent (parsedRows s) ->
  handleImport actor_ready s st = (s, st).
Proof.
  intros Hnone Hc. unfold handleImport, handleImport_begin.
  rewrite decide_True; [done|].
  destruct (validRows s) as [|r rs] eqn:E; [done|]. exfalso.
  pose proof (omap_validRows s Hc) as Hom. rewrite E, Hnone in Hom.
  assert (Hr : r ∈ validRows s) by (rewrite E; set_solver).
  apply list_elem_of_filter in Hr as [[_ [r' Hr']] _].
  simpl in Hom. by rewrite Hr' in Hom.
Qed.

Lemma handleImport_begin_batch s :
  Forall row_consistent (parsedRows s) -> omap resource (parsedRows s) <> [] ->
  handleImport_begin s = Some (omap resource (parsedRows s), import_summary s).
Proof.
  intros Hc Hne. unfold handleImport_begin. rewrite omap_validRows by done.
  rewrite decide_False; [done|]. intros Hv. apply Hne.
  by rewrite <- omap_validRows, Hv.
Qed.

(** C7: When the bulk call succeeds, it received exactly the resources of the
    error-free rows, in their order, and the summary is recorded. *)
Theorem handleImport_success s st st' :
  Forall row_consistent (parsedRows s) -> omap resource (parsedRows s) <> [] ->
  bulkAdd actor_ready (omap resource (parsedRows s)) st = Fulfilled st' ->
  handleImport actor_ready s st =
    (handleImport_finish (import_summary s) (Fulfilled tt) s, st').
Proof.
  intros Hc Hne Hok. unfold handleImport. rewrite handleImport_begin_batch by done.
  by rewrite Hok.
Qed.

(** When the bulk call fails, the store is untouched, the rows stay for a
    retry, no summary appears, the error is shown, and a retry submits the
    same batch. *)
Theorem handleImport_failure s st m :
  Forall row_consistent (parsedRows s) -> omap resource (parsedRows s) <> [] ->
  bulkAdd actor_ready (omap resource (parsedRows s)) st = Rejected m ->
  let '(s', st') := handleImport actor_ready s st in
  st' = st /\ parsedRows s' = parsedRows s /\ importResult s' = importResult s /\
  parseError s' = Some (js_or m (str "Import failed. Please try again.")) /\
  handleImport_begin s' = handleImport_begin s.
Proof.
  intros Hc Hne Hko. unfold handleImport. rewrite handleImport_begin_batch by done.
  rewrite Hko. split_and!; try done.
  by rewrite !handleImport_begin_batch by done.
Qed.
End ImportTheorems.

(** ** Theorems of [processFile] *)

(** The missing columns are exactly the required ones no header trims to. *)
Theorem missing_columns_spec headers col :
  col ∈ missing_columns headers <->
  col ∈ required_columns /\ Forall (fun h => trim h <> col) headers.
Proof.
  unfold missing_columns. rewrite list_elem_of_filter, Forall_forall.
  split; intros [Hn Hc]; split; try done.
  - intros h Hh <-. apply Hn. by apply list_elem_of_fmap_2.
  - intros Hin. apply list_elem_of_fmap in Hin as (h & -> & Hh). by apply (Hc h).
Qed.

Section ProcessTheorems.
Context `{D : JsDate} (gen : nat -> jstr).

(** A file that cannot be read or decoded: the error's message (or the
    default) is shown and no row is kept. *)
Theorem processFile_rejected f s m :
  parse_upload f = Rejected m ->
  let s' := processFile gen f s in
  parseError s' = Some (js_or m (str "Failed to parse file. Please check the format.")) /\
  parsedRows s' = [] /\ isParsing s' = false /\ file s' = Some f /\ importResult s' = None.
Proof. intros H. unfold processFile. by rewrite H. Qed.

(** No header row: the empty-file error and no row. *)
Theorem processFile_headerless f s rows :
  parse_upload f = Fulfilled ([], rows) ->
  let s' := processFile gen f s in
  parseError s' = Some (str "The file appears to be empty or has no headers.") /\
  parsedRows s' = [] /\ isParsing s' = false.
Proof. intros H. unfold processFile. by rewrite H. Qed.

(** Missing required columns stop the import before any row is mapped:
    the error names the missing columns in the order [Employee ID], [Name],
    [Email ID], joined with commas, and no row is kept. *)
Theorem processFile_missing_columns f s headers rows :
  parse_upload f = Fulfilled (headers, rows) -> headers <> [] ->
  missing_columns headers <> [] ->
  let s' := processFile gen f s in
  parseError s' =
    Some (str "Missing required columns: " ++ join (str ", ") (missing_columns headers)) /\
  parsedRows s' = [] /\ isParsing s' = false.
Proof.
  intros H Hh Hm. unfold processFile. rewrite H. simpl.
  rewrite decide_False by done. by rewrite decide_True.
Qed.

(** A file with the required columns: its non-blank rows, mapped and
    numbered from 2, and no error. *)
Lemma processFile_rows_mapped f s headers rows :
  parse_upload f = Fulfilled (headers, rows) -> headers <> [] ->
  missing_columns headers = [] ->
  let s' := processFile gen f s in
  parsedRows s' = map_rows gen headers rows /\ parseError s' = None /\
  isParsing s' = false /\ importResult s' = None /\
  Forall row_consistent (parsedRows s').
Proof.
  intros H Hh Hm. unfold processFile. rewrite H. simpl.
  rewrite decide_False by done. rewrite decide_False by (intros Hn; by apply Hn).
  split_and!; try done. apply map_rows_consistent.
Qed.

(** End to end on CSV: a file written in the export layout is read back as
    the rows of the document. *)
Lemma processFile_csv_document f s hdr rows :
  ¬ (file_ext (fname f) = str "xlsx" \/ file_ext (fname f) = str "xls") ->
  ftext f = Fulfilled (csv_document (hdr :: rows)) ->
  Forall (Forall cell_ok) (hdr :: rows) ->
  Forall (fun r => 2 <= length r) (hdr :: rows) ->
  missing_columns hdr = [] ->
  parsedRows (processFile gen f s) = map_rows gen hdr rows.
Proof.
  intros Hext Htext Hok Hlen Hm.
  assert (Hp : parse_upload f = Fulfilled (hdr, rows)).
  { unfold parse_upload. rewrite decide_False by done. rewrite Htext.
    by rewrite csv_document_parses. }
  apply (processFile_rows_mapped f s hdr rows Hp); [|done].
  intros ->. apply Forall_cons in Hlen as [Hl _]. simpl in Hl. lia.
Qed.
End ProcessTheorems.

(** ** Properties and concrete runs *)

(** C6: A file with a header row that names the three required columns:
    after [processFile] the preview holds one row per non-blank data row
    (a row some cell of which is not white space), in file order, the
    [k]-th of them mapped as row number [k + 2] (the header is row 1) with
    the [k]-th generated id; there is no error, no summary, and the spinner
    is off. *)
Theorem processFile_rows `{D : JsDate} (gen : nat -> jstr) f s headers rows :
  parse_upload f = Fulfilled (headers, rows) -> headers <> [] ->
  missing_columns headers = [] ->
  let s' := processFile gen f s in
  length (parsedRows s') = length (filter row_nonblank rows) /\
  (forall k row, filter row_nonblank rows !! k = Some row ->
     parsedRows s' !! k = Some (mapRowToResource headers row (k + 2) (gen k))) /\
  parseError s' = None /\ isParsing s' = false /\ importResult s' = None.
Proof.
  intros Hp Hh Hm. destruct (processFile_rows_mapped gen f s headers rows Hp Hh Hm)
    as (Hpr & He & Hi & Hr & _).
  cbv zeta. rewrite Hpr. unfold map_rows. split_and!; [apply length_imap| |done..].
  intros k row Hk. by rewrite list_lookup_imap, Hk.
Qed.

(** An upload of a [.csv] file with one valid row, one row without an email
    and one blank line. *)
Definition sample_upload : UploadFile :=
  mkUploadFile (str "team.csv")
    (Fulfilled (csv_document
      [[str "Employee ID"; str "Name"; str "Email ID"];
       [str "E1"; str "Ann Lee"; str "ann@x.com"];
       [str "E2"; str "Bo Chan"; []];
       [[]; []; []]]))
    (Rejected (str "not a workbook")).

Definition sample_gen (i : nat) : jstr := str "res_1".

Definition sample_state : ImportState := processFile (D := utc_date) sample_gen sample_upload initialState.

(** The bulk insert of a store that appends the batch. *)
#[local] Instance append_store : BackendActor (list Resource) :=
  {| addBulkResources rs st := Fulfilled (st ++ rs) |}.

Lemma processFile_rows_witness :
  let s' := processFile (D := utc_date) sample_gen sample_upload initialState in
  length (parsedRows s') = 2 /\
  parsedRows s' !! 1 = Some (mapRowToResource (D := utc_date) [str "Employee ID"; str "Name"; str "Email ID"]
                               [str "E2"; str "Bo Chan"; []] 3 (sample_gen 1)).
Proof.
  destruct (processFile_rows (D := utc_date) sample_gen sample_upload initialState
              [str "Employee ID"; str "Name"; str "Email ID"]
              [[str "E1"; str "Ann Lee"; str "ann@x.com"]; [str "E2"; str "Bo Chan"; []]; [[]; []; []]])
    as (Hl & Hk & _); [vm_compute; reflexivity|discriminate|vm_compute; reflexivity|].
  split; [rewrite Hl; vm_compute; reflexivity|]. apply Hk. vm_compute. reflexivity.
Defined.

Lemma processFile_missing_columns_witness :
  let f := mkUploadFile (str "x.CSV") (Fulfilled (str "Name,Phone")) (Rejected []) in
  let s' := processFile (D := utc_date) sample_gen f initialState in
  parseError s' = Some (str "Missing required columns: Employee ID, Email ID") /\
  parsedRows s' = [] /\ isParsing s' = false.
Proof.
  apply (processFile_missing_columns (D := utc_date) sample_gen _ initialState
           [str "Name"; str "Phone"] []); vm_compute; [reflexivity|discriminate|discriminate].
Defined.

(** C8: The summary [handleImport] records adds up on the rows [processFile]
    produced: every row is counted once, as imported or as skipped, and each
    skipped row has one entry with its row number and errors. *)
Theorem import_summary_counts_processFile `{D : JsDate} (gen : nat -> jstr) f s :
  let s' := processFile gen f s in
  total (import_summary s') = success (import_summary s') + failed (import_summary s') /\
  length (failedRows (import_summary s')) = failed (import_summary s').
Proof.
  apply import_summary_counts. unfold processFile, processFile_finish.
  destruct (parse_upload f) as [[headers rows]|m]; [|done].
  repeat case_decide; try done. apply map_rows_consistent.
Qed.

Lemma handleImport_success_witness :
  handleImport true sample_state [] =
    (handleImport_finish (import_summary sample_state) (Fulfilled tt) sample_state,
     omap resource (parsedRows sample_state)).
Proof. apply handleImport_success; by_decide || reflexivity. Defined.

Lemma handleImport_failure_witness :
  let '(s', st') := handleImport (B := append_store) false sample_state [] in
  st' = [] /\ parsedRows s' = parsedRows sample_state /\
  importResult s' = importResult sample_state /\
  parseError s' = Some (js_or (str "Actor not ready") (str "Import failed. Please try again.")) /\
  handleImport_begin s' = handleImport_begin sample_state.
Proof. apply handleImport_failure; by_decide || reflexivity. Defined.

Lemma handleImport_no_valid_rows_witness :
  let s := processFile (D := utc_date) sample_gen
             (mkUploadFile (str "a.csv") (Fulfilled (str "Employee ID,Name,Email ID" ++ [LF] ++ str ",x,"))
                (Rejected [])) initialState in
  handleImport (B := append_store) true s [] = (s, []).
Proof. apply handleImport_no_valid_rows; by_decide. Defined.

(** The sample: two rows are kept (the blank line is dropped), numbered 2 and
    3; the second lacks its email; the summary is 2 = 1 + 1. *)
Example sample_import_summary :
  index <$> parsedRows sample_state = [2; 3] /\
  import_summary sample_state =
    {| total := 2; success := 1; failed := 1; failedRows := [(3, [str "Email ID is required"])] |}.
Proof. by_eval. Qed.

Lemma processFile_rejected_witness :
  let f := mkUploadFile (str "staff.xlsx") (Rejected []) (Rejected (str "Failed to load SheetJS")) in
  let s' := processFile (D := utc_date) sample_gen f sample_state in
  parseError s' = Some (js_or (str "Failed to load SheetJS")
                          (str "Failed to parse file. Please check the format.")) /\
  parsedRows s' = [] /\ isParsing s' = false /\ file s' = Some f /\ importResult s' = None.
Proof. apply processFile_rejected. reflexivity. Defined.

Lemma processFile_headerless_witness :
  let f := mkUploadFile (str "blank.csv") (Fulfilled ([LF] ++ str "  " ++ [CR; LF])) (Rejected []) in
  let s' := processFile (D := utc_date) sample_gen f initialState in
  parseError s' = Some (str "The file appears to be empty or has no headers.") /\
  parsedRows s' = [] /\ isParsing s' = false.
Proof. apply (processFile_headerless _ _ _ []). reflexivity. Defined.
