(* ===== verification/Export.v ===== *)
(** * The CSV export and the import template

    [utils/exportUtils.ts]: [EXPORT_HEADERS], the formatters
    [formatBillabilityStatus], [formatNonBillableStatus],
    [formatResourceStatus], [formatDate], [resourceToRow], and the text
    [exportResourcesAsCSV] builds before handing it to a download link
    ([exportResourcesAsCSV_text]).  From [components/ResourceImportModal.tsx]:
    [COLUMN_HEADERS], [SAMPLE_ROWS] and [generateSampleCSV], the template the
    user downloads.  Both writers use the cell escaping and layout of [Csv].

    Theorems: each label the exporter prints is parsed back by the importer's
    parser to the same value; the export's header row is the import's; a
    record that meets [exportable] survives export then import, up to the
    generated id and the deprecated fields; and what breaks the round trip. *)

From S2P Require Import Prelude JsString Csv Domain JsDate FieldParse RowMapper ImportFlow.

Definition EXPORT_HEADERS : list jstr :=
  [str "Employee ID"; str "Name"; str "Email ID"; str "Contact Number"; str "Location";
   str "Client"; str "Project"; str "Project ID"; str "Project Manager";
   str "Reporting Manager"; str "Delivery Head"; str "Billability Status";
   str "Non-Billable Category"; str "Total Experience"; str "DOJ";
   str "Assignment Start Date"; str "Assignment End Date"; str "Practice";
   str "Primary Skills"; str "Secondary Skills"; str "Status"].

Definition formatBillabilityStatus (b : BillabilityStatus.t) : jstr :=
  match b with
  | BillabilityStatus.billable => str "Billable"
  | BillabilityStatus.nonBillable => str "Non-Billable"
  end.

(** The [map] of [formatNonBillableStatus]. *)
Definition nonBillableLabel (c : NonBillableStatus.t) : jstr :=
  match c with
  | NonBillableStatus.availableForDeployment => str "Available for Deployment"
  | NonBillableStatus.biBench => str "BI Bench"
  | NonBillableStatus.partialBench => str "Partial Bench"
  | NonBillableStatus.benchBlocked => str "Bench Blocked"
  | NonBillableStatus.maternity => str "Maternity"
  | NonBillableStatus.solutionInvestment => str "Solution Investment"
  | NonBillableStatus.deliverySupport => str "Delivery Support"
  | NonBillableStatus.projectBuffer => str "Project Buffer"
  end.

(** [formatNonBillableStatus(status)]: [''] when absent; a value that is not
    an enum string is not a key of [map], so [map[status] ?? ''] is [''] . *)
Definition formatNonBillableStatus (o : option NonBillableValue) : jstr :=
  match o with
  | None => []
  | Some (NBEnum c) => nonBillableLabel c
  | Some (NBObjectProto _) => []
  end.

Definition formatResourceStatus (s : ResourceStatus.t) : jstr :=
  match s with
  | ResourceStatus.active => str "Active"
  | ResourceStatus.inactive => str "Inactive"
  end.

Section Dates.
Context `{D : JsDate}.

(** [formatDate(time)] of the exporter: [''] for 0 and invalid dates, else
    [yyyy-mm-dd] from the local calendar fields. *)
Definition formatDate (time : Time) : jstr :=
  if decide (time = 0%Z) then []
  else match date_of_ns time with
       | None => []
       | Some ms =>
           let '(yyyy, mm, dd) := local_ymd ms in
           js_int_to_string yyyy ++ str "-" ++ pad2 (js_int_to_string mm) ++ str "-" ++
           pad2 (js_int_to_string dd)
       end.

(** [resourceToRow(resource)]. *)
Definition resourceToRow (r : Resource) : list jstr :=
  [employeeId r; name r; email r; contactNumber r; location r; client r; project r;
   projectId r ?? []; projectManager r; reportingManager r; deliveryHead r;
   formatBillabilityStatus (billabilityStatus r);
   formatNonBillableStatus (nonBillableStatus r);
   totalExperience r; formatDate (doj r); formatDate (assignmentStartDate r);
   formatDate (assignmentEndDate r); practice r;
   join (str ";") (primarySkills r); join (str ";") (secondarySkills r);
   formatResourceStatus (status r)].

(** The CSV text of [exportResourcesAsCSV(resources)]. *)
Definition exportResourcesAsCSV_text (rs : list Resource) : jstr :=
  csv_document (EXPORT_HEADERS :: (resourceToRow <$> rs)).
End Dates.

(** The template: [COLUMN_HEADERS], [SAMPLE_ROWS], [generateSampleCSV()]. *)
Definition COLUMN_HEADERS : list jstr :=
  [str "Employee ID"; str "Name"; str "Email ID"; str "Contact Number"; str "Location";
   str "Client"; str "Project"; str "Project ID"; str "Project Manager";
   str "Reporting Manager"; str "Delivery Head"; str "Billability Status";
   str "Non-Billable Category"; str "Total Experience"; str "DOJ";
   str "Assignment Start Date"; str "Assignment End Date"; str "Practice";
   str "Primary Skills"; str "Secondary Skills"; str "Status"].

Definition SAMPLE_ROWS : list (list jstr) :=
  [[str "EMP001"; str "John Smith"; str "john.smith@company.com"; str "+91-9876543210";
    str "Bangalore"; str "Acme Corp"; str "Digital Transformation"; str "PRJ-001";
    str "Alice Johnson"; str "Bob Williams"; str "Carol Davis"; str "Billable"; [];
    str "5 years"; str "2020-01-15"; str "2024-01-01"; str "2024-12-31"; str "Engineering";
    str "Java;Spring Boot;Microservices"; str "Docker;Kubernetes;AWS"; str "Active"];
   [str "EMP002"; str "Priya Sharma"; str "priya.sharma@company.com"; str "+91-9876543211";
    str "Hyderabad"; []; []; []; str "Alice Johnson"; str "Bob Williams"; str "Carol Davis";
    str "Non-Billable"; str "Available for Deployment"; str "3 years"; str "2021-06-01";
    str "2024-01-01"; str "2024-06-30"; str "QA"; str "Automation Testing;Selenium;Java";
    str "Jenkins;Azure DevOps"; str "Active"];
   [str "EMP003"; str "Rahul Verma"; str "rahul.verma@company.com"; str "+91-9876543212";
    str "Mumbai"; str "Beta Ltd"; str "UI Modernization"; str "PRJ-002"; str "David Lee";
    str "Eve Martin"; str "Frank Wilson"; str "Billable"; []; str "7 years"; str "2018-03-10";
    str "2024-02-01"; str "2024-11-30"; str "Frontend"; str "UI;UX;React;TypeScript";
    str "Figma;Adobe XD"; str "Active"]].

Definition generateSampleCSV : jstr := csv_document (COLUMN_HEADERS :: SAMPLE_ROWS).

(** ** Labels and cells *)

(** The import template and the export share their 21 columns, in order. *)
Lemma COLUMN_HEADERS_EXPORT_HEADERS : COLUMN_HEADERS = EXPORT_HEADERS.
Proof. reflexivity. Qed.

Lemma parse_formatBillabilityStatus b :
  parseBillabilityStatus (js_or (trim (formatBillabilityStatus b)) (str "Billable")) = b.
Proof. destruct b; by_eval. Qed.

(** Each category label the exporter prints is read back as that category. *)
Lemma nonBillableLabel_parses c :
  parseNonBillableStatus (nonBillableLabel c) = Some (NBEnum c).
Proof. destruct c; by_eval. Qed.

Lemma parse_formatResourceStatus st :
  parseResourceStatus (js_or (trim (formatResourceStatus st)) (str "Active")) = st.
Proof. destruct st; by_eval. Qed.

Lemma trim_formatNonBillableStatus o :
  trim (formatNonBillableStatus o) = formatNonBillableStatus o.
Proof. destruct o as [[c|p]|]; [destruct c| |]; by_eval. Qed.

Lemma numeral_char_plain c :
  numeral_char c = true -> is_ws c = false /\ bool_decide (c ∈ [LF; CR; ";"%char]) = false.
Proof. intros H. destruct c as [[] [] [] [] [] [] [] []]; vm_compute in H |- *; by try split. Qed.

Section Cells.
Context `{D : JsDate}.

Lemma formatDate_chars t : Forall (fun c => numeral_char c = true) (formatDate t).
Proof.
  unfold formatDate. case_decide; [done|]. destruct (date_of_ns t) as [ms|]; [|done].
  destruct (local_ymd ms) as [[y m] d].
  repeat apply Forall_app_2; auto using js_int_to_string_chars, pad2_chars;
    apply Forall_forall; intros c Hc; vm_compute in Hc; set_solver.
Qed.

Lemma formatDate_trim t : trim (formatDate t) = formatDate t.
Proof.
  apply trim_no_ws. eapply Forall_impl; [apply formatDate_chars|].
  intros c Hc. by apply numeral_char_plain.
Qed.

Lemma formatDate_cell_ok t : cell_ok (formatDate t).
Proof.
  pose proof (formatDate_chars t) as Hf. rewrite Forall_forall in Hf.
  unfold cell_ok. split; intros Hin; pose proof (numeral_char_plain _ (Hf _ Hin)) as [_ Hb];
    rewrite bool_decide_eq_false in Hb; set_solver.
Qed.
End Cells.

(** ** Export then import *)

Lemma EXPORT_HEADERS_nodup : NoDup (trim <$> EXPORT_HEADERS).
Proof. by_decide. Qed.

Lemma EXPORT_HEADERS_trimmed : Forall (fun h => trim h = h) EXPORT_HEADERS.
Proof. by_decide. Qed.

(** Joined skills are their own trim. *)
Lemma trim_join_skills l : Forall skill_ok l -> trim (join [";"%char] l) = join [";"%char] l.
Proof.
  intros Hl. destruct l as [|s0 l0] eqn:E; [done|]. rewrite <- E in *.
  apply trim_fixed.
  - intros c Hc. subst l. apply Forall_cons in Hl as [(Hne & Htr & _) _].
    rewrite join_head in Hc by done. by eapply trim_fixed_head.
  - intros c Hc. destruct (exists_last (l := l)) as (l1 & s1 & ->); [by subst|].
    apply Forall_app in Hl as [_ Hl]. apply Forall_cons in Hl as [(Hne & Htr & _) _].
    rewrite join_last in Hc by done. by eapply trim_fixed_last.
Qed.

Lemma join_cell_ok sep l : Forall cell_ok l -> LF ∉ sep -> CR ∉ sep -> cell_ok (join sep l).
Proof.
  intros Hl Hlf Hcr. rewrite Forall_forall in Hl.
  split; intros Hin; destruct (join_elem _ _ _ Hin) as [?|(w & Hw & Hc)]; try done;
    destruct (Hl w Hw); done.
Qed.

Section Roundtrip.
Context `{D : JsDate}.

Definition text_ok (v : jstr) : Prop := trim v = v /\ cell_ok v.

(** The free-text fields [resourceToRow] writes as they are. *)
Definition text_fields (r : Resource) : list jstr :=
  [employeeId r; name r; email r; contactNumber r; location r; client r; project r;
   projectId r ?? []; projectManager r; reportingManager r; deliveryHead r;
   totalExperience r; practice r].

(** A category the exporter prints and the importer reads back. *)
Definition category_ok (r : Resource) : Prop :=
  match nonBillableStatus r with
  | None => True
  | Some (NBEnum _) => billabilityStatus r = BillabilityStatus.nonBillable
  | Some (NBObjectProto _) => False
  end.

(** What a record needs to survive export then import. *)
Record exportable (r : Resource) : Prop := {
  ex_text : Forall text_ok (text_fields r);
  ex_required : employeeId r <> [] /\ name r <> [] /\ email r <> [];
  ex_projectId : projectId r <> Some [];
  ex_skills : Forall (fun s => skill_ok s /\ cell_ok s) (primarySkills r ++ secondarySkills r);
  ex_category : category_ok r;
  ex_dates : Forall (fun t => parseDateToTime (formatDate t) = t)
               [doj r; assignmentStartDate r; assignmentEndDate r];
}.

Lemma text_trim r v : exportable r -> v ∈ text_fields r -> trim v = v.
Proof. intros Hex Hv. pose proof (ex_text r Hex) as Ht. rewrite Forall_forall in Ht. by apply Ht. Qed.

Lemma row_cell r i v k :
  EXPORT_HEADERS !! i = Some k -> resourceToRow r !! i = Some v ->
  cell (fill_data EXPORT_HEADERS (resourceToRow r) ∅) k = trim v.
Proof.
  intros Hk Hv. pose proof EXPORT_HEADERS_trimmed as Ht. rewrite Forall_lookup in Ht.
  rewrite <- (Ht i k Hk). rewrite (cell_at _ _ i k EXPORT_HEADERS_nodup Hk). by rewrite Hv.
Qed.

Lemma category_roundtrip r b :
  b = billabilityStatus r -> category_ok r ->
  (if decide (b = BillabilityStatus.nonBillable)
   then parseNonBillableStatus (formatNonBillableStatus (nonBillableStatus r)) else None)
  = nonBillableStatus r.
Proof.
  intros ->. unfold category_ok. destruct (nonBillableStatus r) as [[c|p]|]; intros Hc; try done.
  - rewrite decide_True by done. apply nonBillableLabel_parses.
  - case_decide; [by_eval|done].
Qed.

Lemma skills_roundtrip l : Forall (fun s => skill_ok s /\ cell_ok s) l ->
  parseSkills (trim (join (str ";") l)) = l.
Proof.
  intros Hl. assert (Hs : Forall skill_ok l) by (eapply Forall_impl; [exact Hl|]; naive_solver).
  change (str ";") with [";"%char]. rewrite trim_join_skills by done.
  by apply parseSkills_join_skills.
Qed.

(** One exported record is read back as a valid row carrying the same
    record, up to the id and the deprecated fields. *)
Theorem mapRowToResource_resourceToRow r i newId :
  exportable r ->
  errors (mapRowToResource EXPORT_HEADERS (resourceToRow r) i newId) = [] /\
  option_map import_view (resource (mapRowToResource EXPORT_HEADERS (resourceToRow r) i newId))
  = Some (import_view r).
Proof.
  intros Hex. cbn [mapRowToResource errors resource].
  rewrite (row_cell r 0 (employeeId r) (str "Employee ID")) by reflexivity.
  rewrite (row_cell r 1 (name r) (str "Name")) by reflexivity.
  rewrite (row_cell r 2 (email r) (str "Email ID")) by reflexivity.
  rewrite (row_cell r 3 (contactNumber r) (str "Contact Number")) by reflexivity.
  rewrite (row_cell r 4 (location r) (str "Location")) by reflexivity.
  rewrite (row_cell r 5 (client r) (str "Client")) by reflexivity.
  rewrite (row_cell r 6 (project r) (str "Project")) by reflexivity.
  rewrite (row_cell r 7 (projectId r ?? []) (str "Project ID")) by reflexivity.
  rewrite (row_cell r 8 (projectManager r) (str "Project Manager")) by reflexivity.
  rewrite (row_cell r 9 (reportingManager r) (str "Reporting Manager")) by reflexivity.
  rewrite (row_cell r 10 (deliveryHead r) (str "Delivery Head")) by reflexivity.
  rewrite (row_cell r 11 (formatBillabilityStatus (billabilityStatus r)) (str "Billability Status")) by reflexivity.
  rewrite (row_cell r 12 (formatNonBillableStatus (nonBillableStatus r)) (str "Non-Billable Category")) by reflexivity.
  rewrite (row_cell r 13 (totalExperience r) (str "Total Experience")) by reflexivity.
  rewrite (row_cell r 14 (formatDate (doj r)) (str "DOJ")) by reflexivity.
  rewrite (row_cell r 15 (formatDate (assignmentStartDate r)) (str "Assignment Start Date")) by reflexivity.
  rewrite (row_cell r 16 (formatDate (assignmentEndDate r)) (str "Assignment End Date")) by reflexivity.
  rewrite (row_cell r 17 (practice r) (str "Practice")) by reflexivity.
  rewrite (row_cell r 18 (join (str ";") (primarySkills r)) (str "Primary Skills")) by reflexivity.
  rewrite (row_cell r 19 (join (str ";") (secondarySkills r)) (str "Secondary Skills")) by reflexivity.
  rewrite (row_cell r 20 (formatResourceStatus (status r)) (str "Status")) by reflexivity.
  rewrite (text_trim r (employeeId r)) by (done || set_solver).
  rewrite (text_trim r (name r)) by (done || set_solver).
  rewrite (text_trim r (email r)) by (done || set_solver).
  rewrite (text_trim r (contactNumber r)) by (done || set_solver).
  rewrite (text_trim r (location r)) by (done || set_solver).
  rewrite (text_trim r (client r)) by (done || set_solver).
  rewrite (text_trim r (project r)) by (done || set_solver).
  rewrite (text_trim r (projectId r ?? [])) by (done || set_solver).
  rewrite (text_trim r (projectManager r)) by (done || set_solver).
  rewrite (text_trim r (reportingManager r)) by (done || set_solver).
  rewrite (text_trim r (deliveryHead r)) by (done || set_solver).
  rewrite (text_trim r (totalExperience r)) by (done || set_solver).
  rewrite (text_trim r (practice r)) by (done || set_solver).
  rewrite trim_formatNonBillableStatus, !formatDate_trim.
  pose proof (ex_required r Hex) as Hreq.
  rewrite (proj2 (required_errors_nil _ _ _) Hreq). split; [done|]. simpl.
  pose proof (ex_skills r Hex) as Hsk. apply Forall_app in Hsk as [Hp Hs].
  pose proof (ex_dates r Hex) as Hd. rewrite !Forall_cons in Hd. destruct Hd as (H1 & H2 & H3 & _).
  unfold import_view. f_equal.
  cbn [id doj status client assignmentStartDate totalExperience name role skillTags
       projectManager deliveryHead assignmentEndDate email employeeId projectId practice
       primarySkills billabilityStatus contactNumber department secondarySkills location
       nonBillableStatus project reportingManager].
  f_equal.
  all: rewrite ?parse_formatBillabilityStatus, ?parse_formatResourceStatus, ?skills_roundtrip;
    try done.
  - pose proof (ex_projectId r Hex). destruct (projectId r); simpl; try case_decide; naive_solver.
  - apply category_roundtrip; [done|apply ex_category, Hex].
Qed.

Lemma resourceToRow_cells r : exportable r -> Forall cell_ok (resourceToRow r).
Proof.
  intros Hex. pose proof (ex_text r Hex) as Ht. pose proof (ex_skills r Hex) as Hsk.
  apply Forall_app in Hsk as [Hp Hs].
  assert (Hj : forall l, Forall (fun s => skill_ok s /\ cell_ok s) l -> cell_ok (join (str ";") l)).
  { intros l Hl. apply join_cell_ok; [|by_decide|by_decide].
    eapply Forall_impl; [exact Hl|]. naive_solver. }
  unfold text_fields in Ht. rewrite !Forall_cons in Ht.
  destruct Ht as ((_ & ?) & (_ & ?) & (_ & ?) & (_ & ?) & (_ & ?) & (_ & ?) & (_ & ?) &
                  (_ & ?) & (_ & ?) & (_ & ?) & (_ & ?) & (_ & ?) & (_ & ?) & _).
  unfold resourceToRow. repeat apply Forall_cons_2; auto using formatDate_cell_ok.
  - destruct (billabilityStatus r); by_decide.
  - destruct (nonBillableStatus r) as [[c|p]|]; [destruct c| |]; by_decide.
  - destruct (status r); by_decide.
Qed.

Lemma resourceToRow_nonblank r : exportable r -> row_nonblank (resourceToRow r).
Proof.
  intros Hex. apply Exists_cons. left. simpl. rewrite (text_trim r (employeeId r) Hex) by set_solver.
  apply (ex_required r Hex).
Qed.

Lemma imported_rows (rs : list Resource) (g : nat -> nat) (ids : nat -> jstr) :
  Forall exportable rs ->
  let prs := imap (fun i row => mapRowToResource EXPORT_HEADERS row (g i) (ids i))
                  (resourceToRow <$> rs) in
  Forall (fun pr => errors pr = []) prs /\
  import_view <$> omap resource prs = import_view <$> rs.
Proof.
  revert g ids. induction rs as [|r rs IH]; intros g ids Hall; [done|].
  apply Forall_cons in Hall as [Hr Hrs]. cbv zeta. rewrite fmap_cons, imap_cons.
  destruct (mapRowToResource_resourceToRow r (g 0) (ids 0) Hr) as [He Hres].
  pose proof (IH (g ∘ S) (ids ∘ S) Hrs) as [IHe IHr].
  match type of IHr with
  | _ <$> omap resource ?P = _ => change (imap _ (resourceToRow <$> rs)) with P
  end.
  remember (mapRowToResource EXPORT_HEADERS (resourceToRow r) (g 0) (ids 0)) as pr eqn:Epr.
  clear Epr.
  destruct (resource pr) as [r'|] eqn:E; [|done]. cbn [option_map] in Hres. apply (inj Some) in Hres.
  split; [by constructor|]. cbn [omap list_omap]. rewrite E, !fmap_cons, Hres, IHr. reflexivity.
Qed.
End Roundtrip.

(** C1: Export then import: a list of records that meet [exportable], written by
    [exportResourcesAsCSV] and uploaded as a [.csv] file, comes back as one
    error-free row per record, carrying the same records up to the generated
    id and the deprecated fields. *)
Theorem export_import_roundtrip `{D : JsDate} (gen : nat -> jstr) f s rs :
  ¬ (file_ext (fname f) = str "xlsx" \/ file_ext (fname f) = str "xls") ->
  ftext f = Fulfilled (exportResourcesAsCSV_text rs) ->
  Forall exportable rs ->
  Forall (fun pr => errors pr = []) (parsedRows (processFile gen f s)) /\
  import_view <$> omap resource (parsedRows (processFile gen f s)) = import_view <$> rs.
Proof.
  intros Hext Htext Hall.
  rewrite (processFile_csv_document gen f s EXPORT_HEADERS (resourceToRow <$> rs)); try done.
  - unfold map_rows. rewrite filter_all.
    + apply imported_rows, Hall.
    + apply Forall_fmap. eapply Forall_impl; [exact Hall|]. apply resourceToRow_nonblank.
  - constructor; [by_decide|]. apply Forall_fmap. eapply Forall_impl; [exact Hall|].
    apply resourceToRow_cells.
  - constructor; [by_decide|]. apply Forall_fmap, Forall_forall. intros r _. simpl. lia.
Qed.

(** ** Properties and concrete runs *)

(** Each non-billable category label the exporter prints is parsed back
    by the importer to the same category. *)
Theorem parseNonBillableStatus_label c :
  parseNonBillableStatus (nonBillableLabel c) = Some (NBEnum c).
Proof. apply nonBillableLabel_parses. Qed.

(** A record of the template's second sample row, as the backend stores it. *)
Definition sample_resource : Resource := {|
  id := str "res_7"; employeeId := str "EMP002"; name := str "Priya Sharma";
  email := str "priya.sharma@company.com"; contactNumber := str "+91-9876543211";
  location := str "Hyderabad"; client := []; project := []; projectId := None;
  projectManager := str "Alice Johnson"; reportingManager := str "Bob Williams";
  deliveryHead := str "Carol Davis"; billabilityStatus := BillabilityStatus.nonBillable;
  nonBillableStatus := Some (NBEnum NonBillableStatus.availableForDeployment);
  totalExperience := str "3 years";
  doj := (days_from_civil 2021 6 1 * ms_per_day * 1000000)%Z;
  assignmentStartDate := (days_from_civil 2024 1 1 * ms_per_day * 1000000)%Z;
  assignmentEndDate := 0%Z; practice := str "QA";
  primarySkills := [str "Automation Testing"; str "Selenium"];
  secondarySkills := [str "Jenkins"]; status := ResourceStatus.active;
  role := str "QA Lead"; department := str "Quality"; skillTags := [str "qa"] |}.

Definition sample_export_file : UploadFile :=
  mkUploadFile (str "resources_export_2024-06-01.csv")
    (Fulfilled (exportResourcesAsCSV_text (D := utc_date) [sample_resource]))
    (Rejected []).

Lemma sample_resource_exportable : exportable (D := utc_date) sample_resource.
Proof. split; by_decide. Qed.

Lemma export_import_roundtrip_witness :
  Forall (fun pr => errors pr = [])
    (parsedRows (processFile (D := utc_date) sample_gen sample_export_file initialState)) /\
  import_view <$> omap resource
    (parsedRows (processFile (D := utc_date) sample_gen sample_export_file initialState))
  = import_view <$> [sample_resource].
Proof.
  apply export_import_roundtrip; [by_decide|reflexivity|].
  constructor; [apply sample_resource_exportable|constructor].
Defined.

(** The downloaded template imports cleanly: its three sample rows are
    read back as three error-free rows numbered 2 to 4. *)
Theorem template_imports :
  let s := processFile (D := utc_date) sample_gen
             (mkUploadFile (str "resource_import_template.csv")
                (Fulfilled generateSampleCSV) (Rejected [])) initialState in
  index <$> parsedRows s = [2; 3; 4] /\ Forall (fun pr => errors pr = []) (parsedRows s) /\
  length (omap resource (parsedRows s)) = 3.
Proof. cbv zeta. by_decide. Qed.

(** Dates do not survive export then import for a user west of UTC: the
    exporter prints the local calendar date, the importer reads the
    [YYYY-MM-DD] text as UTC midnight.  At UTC-5, 2024-01-15 00:00 UTC is
    printed as 2024-01-14 and imported one day earlier. *)
Theorem date_roundtrip_shift :
  let D := fixed_offset_date (-18000000) in
  let t := (days_from_civil 2024 1 15 * ms_per_day * 1000000)%Z in
  formatDate (D := D) t = str "2024-01-14" /\
  parseDateToTime (D := D) (formatDate (D := D) t) = (t - ms_per_day * 1000000)%Z.
Proof. by_eval. Qed.

(** A cell holding a line break is quoted by the exporter but the
    importer splits the text into lines before reading quotes, so the record
    is cut in two lines and the round trip fails. *)
Theorem line_break_breaks_roundtrip :
  parseCSV (csv_document [[str "Employee ID"; str "Name"]; [str "E1"; str "Ann" ++ [LF] ++ str "Lee"]])
  = ([str "Employee ID"; str "Name"], [[str "E1"; str "Ann"]; [str "Lee"]]).
Proof. by_eval. Qed.
