(* ===== verification/DemoAuth.v ===== *)
(** * The demo session: [hooks/useDemoAuth.ts]

    [useDemoAuth] keeps the demo profile in React state and mirrors it in
    [localStorage] under [teamtrack_demo_session].  The state is a record of
    the stored entry and the in-memory profile; [loginAsDemo] and [logoutDemo]
    are functions on it, and [loadDemoSession] is the initialiser run when the
    page loads.  [JSON.stringify] of a profile and [JSON.parse] back are taken
    to round-trip (the stored entry is the profile itself); any other stored
    text is [Malformed], which [loadDemoSession] reads as no session.

    Theorems: every reachable state (page load followed by any sequence of
    logins and logouts) keeps the in-memory profile equal to what a reload
    would read back; a login yields demo mode with the requested role; a
    logout leaves no session, also after a reload. *)

From S2P Require Import Prelude Domain.

(** What [localStorage.getItem(DEMO_STORAGE_KEY)] returns. *)
Inductive Stored :=
  | StoredProfile (p : UserProfile)   (* the JSON of a profile *)
  | Malformed.                        (* empty, unparsable or foreign text *)

Record DemoState := mkDemoState {
  storage : option Stored;            (* the key, when present *)
  demoProfile : option UserProfile;   (* the React state *)
}.

(** [DEMO_PROFILES[role]]. *)
Definition DEMO_PROFILES (r : UserRole.t) : UserProfile :=
  match r with
  | UserRole.employee => mkUserProfile UserRole.employee (str "Demo Employee")
  | UserRole.pm => mkUserProfile UserRole.pm (str "Demo Manager")
  | UserRole.deliveryHead => mkUserProfile UserRole.deliveryHead (str "Demo Delivery Head")
  | UserRole.pmo => mkUserProfile UserRole.pmo (str "Demo PMO")
  | UserRole.admin => mkUserProfile UserRole.admin (str "Demo Admin")
  | UserRole.management => mkUserProfile UserRole.management (str "Demo Management")
  end.

(** [loadDemoSession()]. *)
Definition loadDemoSession (stored : option Stored) : option UserProfile :=
  match stored with
  | Some (StoredProfile p) => Some p
  | Some Malformed | None => None
  end.

(** The state right after [useState(() => loadDemoSession())]. *)
Definition init_demo (stored : option Stored) : DemoState :=
  mkDemoState stored (loadDemoSession stored).

(** [loginAsDemo(role)]: write the profile to storage, then to the state. *)
Definition loginAsDemo (r : UserRole.t) (s : DemoState) : DemoState :=
  let profile := DEMO_PROFILES r in
  mkDemoState (Some (StoredProfile profile)) (Some profile).

(** [logoutDemo()]: remove the key, then clear the state. *)
Definition logoutDemo (s : DemoState) : DemoState := mkDemoState None None.

(** [isDemoMode: demoProfile !== null]. *)
Definition isDemoMode (s : DemoState) : bool := bool_decide (is_Some (demoProfile s)).

Inductive DemoOp := OpLogin (r : UserRole.t) | OpLogout.

Definition demo_step (o : DemoOp) (s : DemoState) : DemoState :=
  match o with OpLogin r => loginAsDemo r s | OpLogout => logoutDemo s end.

(** States the hook can be in: the initial state of some stored entry, then
    the handlers in any order. *)
Inductive demo_reachable : DemoState -> Prop :=
  | dr_init stored : demo_reachable (init_demo stored)
  | dr_step o s : demo_reachable s -> demo_reachable (demo_step o s).

(** The state agrees with storage: a reload would restore the same session. *)
Definition demo_synced (s : DemoState) : Prop := demoProfile s = loadDemoSession (storage s).

(** ** Theorems *)

Lemma demo_step_synced o s : demo_synced (demo_step o s).
Proof. by destruct o. Qed.

(** Every reachable state of the hook is in sync with [localStorage]. *)
Theorem demo_reachable_synced s : demo_reachable s -> demo_synced s.
Proof. induction 1; [done|apply demo_step_synced]. Qed.

(** A demo login gives demo mode with the profile of the chosen role, and a
    reload keeps it. *)
Theorem loginAsDemo_spec r s :
  isDemoMode (loginAsDemo r s) = true /\
  option_map appRole (demoProfile (loginAsDemo r s)) = Some r /\
  loadDemoSession (storage (loginAsDemo r s)) = demoProfile (loginAsDemo r s).
Proof. by destruct r. Qed.

(** After [logoutDemo] demo mode is off, and a reload does not bring it back. *)
Theorem logoutDemo_spec s :
  isDemoMode (logoutDemo s) = false /\ isDemoMode (init_demo (storage (logoutDemo s))) = false.
Proof. done. Qed.

Lemma demo_reachable_synced_witness :
  demo_synced (demo_step OpLogout (demo_step (OpLogin UserRole.admin) (init_demo (Some Malformed)))).
Proof. apply demo_reachable_synced. repeat constructor. Defined.
