(* ===== verification/Access.v ===== *)
(** * Role-based access: the route table, the guard, the sidebar, Reports

    [App.tsx] gives each [UserRole] its list of paths ([ROLE_ACCESS]) and a
    default route ([getDefaultRoute]); [RouteGuard] renders a page, a spinner,
    nothing, or the access-denied screen.  [components/Layout.tsx] filters its
    sidebar entries ([ALL_NAV_ITEMS]) against the same table with a
    [startsWith] test.  [pages/ReportsPage.tsx] has its own list of roles
    ([ALLOWED_ROLES]).  The authentication inputs (identity provider, demo
    session, profile query) are the record [AuthEnv].

    Theorems: the default route is always allowed; the guard shows a page only
    for a listed path; the sidebar never offers a page the guard refuses; and
    the findings: the Dashboard entry of the sidebar is shown to nobody, and
    the Reports page refuses two roles that the route table and the sidebar
    let in. *)

From S2P Require Import Prelude JsString Domain DemoAuth.

(** [ROLE_ACCESS[role]]. *)
Definition ROLE_ACCESS (r : UserRole.t) : list jstr :=
  match r with
  | UserRole.admin => [str "/dashboard"; str "/resources"; str "/projects"; str "/timesheets"; str "/reports"]
  | UserRole.pmo => [str "/dashboard"; str "/resources"; str "/projects"; str "/timesheets"; str "/reports"]
  | UserRole.pm => [str "/dashboard"; str "/resources"; str "/projects"; str "/timesheets"]
  | UserRole.deliveryHead => [str "/dashboard"; str "/resources"; str "/projects"; str "/timesheets"; str "/reports"]
  | UserRole.management => [str "/dashboard"; str "/reports"]
  | UserRole.employee => [str "/dashboard"; str "/timesheets"]
  end.

(** [getDefaultRoute(role)]: [ROLE_ACCESS[role]?.[0] ?? '/dashboard']. *)
Definition getDefaultRoute (r : UserRole.t) : jstr := ROLE_ACCESS r !! 0 ?? str "/dashboard".

(** What the route guard and the pages read from the hooks: the Internet
    Identity provider, the demo session of [DemoAuth] and the profile query,
    whose [data] is [None] while undefined and [Some None] for a [null]
    profile. *)
Record AuthEnv := mkAuthEnv {
  hasIdentity : bool;                           (* !!identity *)
  isInitializing : bool;
  demo : DemoState;
  profileData : option (option UserProfile);
  profileLoading : bool;
  profileFetched : bool;
}.

Definition env_demo (e : AuthEnv) : bool := isDemoMode (demo e).

Definition userProfile (e : AuthEnv) : option UserProfile :=
  match profileData e with Some (Some p) => Some p | _ => None end.

(** [isDemoMode ? demoProfile : userProfile]. *)
Definition activeProfile (e : AuthEnv) : option UserProfile :=
  if env_demo e then demoProfile (demo e) else userProfile e.

Inductive GuardView :=
  | GNothing
  | GSpinner
  | GDenied (role : UserRole.t) (defaultRoute : jstr)
  | GChildren.

(** [RouteGuard({ path, children })]. *)
Definition RouteGuard (path : jstr) (e : AuthEnv) : GuardView :=
  let isAuthenticated := hasIdentity e || env_demo e in
  let isProfileLoading := if env_demo e then false else isInitializing e || profileLoading e in
  if negb isAuthenticated && negb (isInitializing e) then GNothing
  else if isProfileLoading then GSpinner
  else match activeProfile e with
       | None => GNothing
       | Some p =>
           if decide (path ∈ ROLE_ACCESS (appRole p)) then GChildren
           else GDenied (appRole p) (getDefaultRoute (appRole p))
       end.

Record NavItem := mkNavItem { nav_path : jstr; nav_label : jstr; nav_roles : list UserRole.t }.

(** [ALL_NAV_ITEMS] of the sidebar. *)
Definition ALL_NAV_ITEMS : list NavItem :=
  [mkNavItem (str "/") (str "Dashboard") [UserRole.admin; UserRole.management];
   mkNavItem (str "/resources") (str "Resources") [UserRole.admin; UserRole.pmo; UserRole.deliveryHead];
   mkNavItem (str "/timesheets") (str "Timesheets") [UserRole.admin; UserRole.pm; UserRole.employee];
   mkNavItem (str "/projects") (str "Projects")
     [UserRole.admin; UserRole.pmo; UserRole.pm; UserRole.deliveryHead];
   mkNavItem (str "/reports") (str "Reports") [UserRole.admin; UserRole.management]].

(** [p === '/' ? item.path === '/' : item.path.startsWith(p)]. *)
Definition nav_matches (item : NavItem) (p : jstr) : Prop :=
  if decide (p = str "/") then nav_path item = str "/" else p `prefix_of` nav_path item.

#[global] Instance NavItem_eq_dec : EqDecision NavItem.
Proof. solve_decision. Defined.

#[global] Instance nav_matches_dec item p : Decision (nav_matches item p).
Proof. unfold nav_matches. case_decide; apply _. Defined.

(** [navItems] of [Layout]: the entries some allowed path matches. *)
Definition navItems (r : UserRole.t) : list NavItem :=
  filter (fun item => Exists (nav_matches item) (ROLE_ACCESS r)) ALL_NAV_ITEMS.

Inductive ReportsView :=
  | RNothing
  | RSpinner
  | RDenied (role : option UserRole.t) (defaultRoute : jstr)
  | RPage (isAdmin : bool).

(** [ALLOWED_ROLES] and [ADMIN_ROLES] of [ReportsPage]. *)
Definition ALLOWED_ROLES : list UserRole.t := [UserRole.admin; UserRole.management].
Definition ADMIN_ROLES : list UserRole.t := [UserRole.admin].

(** The access checks at the top of [ReportsPage]. *)
Definition ReportsPage (e : AuthEnv) : ReportsView :=
  if negb (env_demo e) && negb (hasIdentity e) then RNothing
  else if negb (env_demo e) && profileLoading e then RSpinner
  else match option_map appRole (activeProfile e) with
       | Some role =>
           if decide (role ∈ ALLOWED_ROLES) then RPage (bool_decide (role ∈ ADMIN_ROLES))
           else RDenied (Some role) (getDefaultRoute role)
       | None => RDenied None (str "/dashboard")
       end.

(** [IndexRedirect]: the route its effect navigates to, if any. *)
Definition IndexRedirect (e : AuthEnv) : option jstr :=
  if negb (hasIdentity e) && negb (env_demo e) then None
  else getDefaultRoute <$> option_map appRole (activeProfile e).

Inductive RootView :=
  | RootLoading
  | RootLogin
  | RootProfileSetup
  | RootSpinner
  (** [<Layout userProfile={activeProfile}>]: [isDemoMode] is not passed, so
      [Layout] sees its default [false]. *)
  | RootLayoutShown (userProfile : UserProfile) (isDemoModeProp : bool).

(** [RootLayout]. *)
Definition RootLayout (e : AuthEnv) : RootView :=
  let isAuthenticated := hasIdentity e || env_demo e in
  let isProfileLoading := if env_demo e then false else isInitializing e || profileLoading e in
  let isProfileFetched := if env_demo e then true else profileFetched e in
  let showProfileSetup :=
    isAuthenticated && negb isProfileLoading && isProfileFetched && negb (env_demo e) &&
    bool_decide (profileData e = Some None) in
  if isInitializing e && negb (env_demo e) then RootLoading
  else if negb isAuthenticated then RootLogin
  else if showProfileSetup then RootProfileSetup
  else match activeProfile e with
       | None => RootSpinner
       | Some p => RootLayoutShown p false
       end.

(** What [handleLogout] of [Layout] does. *)
Inductive LogoutEffect := ELogoutDemo | ENavigate (to : jstr) | EClearIdentity | EClearQueries.

Definition handleLogout (isDemoModeProp : bool) : list LogoutEffect :=
  if isDemoModeProp then [ELogoutDemo; ENavigate (str "/")] else [EClearIdentity; EClearQueries].

(** The effects on the hooks' state: [clear()] of Internet Identity drops the
    identity, [queryClient.clear()] empties the profile query. *)
Definition apply_effect (e : AuthEnv) (x : LogoutEffect) : AuthEnv :=
  match x with
  | ELogoutDemo => mkAuthEnv (hasIdentity e) (isInitializing e) (logoutDemo (demo e))
                      (profileData e) (profileLoading e) (profileFetched e)
  | ENavigate _ => e
  | EClearIdentity => mkAuthEnv false (isInitializing e) (demo e)
                        (profileData e) (profileLoading e) (profileFetched e)
  | EClearQueries => mkAuthEnv (hasIdentity e) (isInitializing e) (demo e)
                       None (profileLoading e) false
  end.

Definition run_effects (e : AuthEnv) (xs : list LogoutEffect) : AuthEnv :=
  foldl apply_effect e xs.

(** A settled session with the given role: demo or real, profile loaded. *)
Definition signed_in (e : AuthEnv) (r : UserRole.t) : Prop :=
  (hasIdentity e = true \/ env_demo e = true) /\
  (env_demo e = false -> isInitializing e = false /\ profileLoading e = false) /\
  option_map appRole (activeProfile e) = Some r.

(** ** Theorems *)

(** The route [IndexRedirect] sends a user to is one the guard lets through. *)
Theorem getDefaultRoute_allowed r : getDefaultRoute r ∈ ROLE_ACCESS r.
Proof. destruct r; vm_compute; left. Qed.

Lemma signed_in_profile e r :
  signed_in e r -> exists p, activeProfile e = Some p /\ appRole p = r.
Proof.
  intros (_ & _ & Hp). destruct (activeProfile e) as [p|]; [|done].
  injection Hp as <-. eauto.
Qed.

(** For a settled session the guard shows the page exactly when the path is in
    the role's list, and the access-denied screen otherwise. *)
Theorem RouteGuard_signed_in e r path :
  signed_in e r ->
  RouteGuard path e = if decide (path ∈ ROLE_ACCESS r) then GChildren
                      else GDenied r (getDefaultRoute r).
Proof.
  intros Hs. destruct (signed_in_profile e r Hs) as (p & Hp & <-).
  destruct Hs as (Hauth & Hload & _). unfold RouteGuard. rewrite Hp.
  destruct (env_demo e) eqn:Hd.
  - rewrite orb_true_r. done.
  - destruct Hauth as [Hi|]; [|done]. destruct (Hload eq_refl) as [-> ->]. by rewrite Hi.
Qed.

(** The guard never shows a page whose path is not in the role's list. *)
Theorem RouteGuard_children_listed e path :
  RouteGuard path e = GChildren ->
  exists p, activeProfile e = Some p /\ path ∈ ROLE_ACCESS (appRole p).
Proof.
  unfold RouteGuard. repeat case_match; try discriminate; intros _; eauto.
Qed.

(** The sidebar shows exactly the entries whose path is in the role's list
    ([startsWith] never matches a longer path of the table). *)
Lemma navItems_listed r :
  navItems r = filter (fun item => nav_path item ∈ ROLE_ACCESS r) ALL_NAV_ITEMS.
Proof. destruct r; reflexivity. Qed.

Lemma navItems_elem r item :
  item ∈ navItems r <-> item ∈ ALL_NAV_ITEMS /\ nav_path item ∈ ROLE_ACCESS r.
Proof. rewrite navItems_listed, list_elem_of_filter. tauto. Qed.

(** C10: The sidebar never offers an entry the guard refuses to a settled user. *)
Theorem navItems_allowed e r item :
  signed_in e r -> item ∈ navItems r -> RouteGuard (nav_path item) e = GChildren.
Proof.
  intros Hs Hin. rewrite (RouteGuard_signed_in e r) by done.
  apply navItems_elem in Hin as [_ Hin]. by rewrite decide_True.
Qed.

(** The Dashboard entry of the sidebar, whose path is [/], is shown to no
    role: [/] is in no list of [ROLE_ACCESS], and the [startsWith] branch is
    never taken for it. *)
Theorem navItems_no_dashboard r :
  Forall (fun item => nav_label item <> str "Dashboard") (navItems r).
Proof. rewrite navItems_listed. destruct r; by_decide. Qed.

(** For a settled session [ReportsPage] shows the report exactly to the roles
    of [ALLOWED_ROLES], and the access-denied screen to the others. *)
Theorem ReportsPage_signed_in e r :
  signed_in e r ->
  ReportsPage e = if decide (r ∈ ALLOWED_ROLES) then RPage (bool_decide (r ∈ ADMIN_ROLES))
                  else RDenied (Some r) (getDefaultRoute r).
Proof.
  intros Hs. destruct (signed_in_profile e r Hs) as (p & Hp & <-).
  destruct Hs as (Hauth & Hload & _). unfold ReportsPage. rewrite Hp.
  destruct (env_demo e); [done|].
  destruct Hauth as [Hi|]; [|done]. destruct (Hload eq_refl) as [_ ->]. by rewrite Hi.
Qed.

(** C39: PMO and delivery heads are sent to [/reports] by the sidebar and let
    through by the route guard, and then refused by the page itself. *)
Theorem reports_denied_after_guard e r :
  signed_in e r -> r = UserRole.pmo \/ r = UserRole.deliveryHead ->
  Exists (fun item => nav_path item = str "/reports") (navItems r) /\
  RouteGuard (str "/reports") e = GChildren /\
  ReportsPage e = RDenied (Some r) (str "/dashboard").
Proof.
  intros Hs Hr. rewrite (RouteGuard_signed_in e r), (ReportsPage_signed_in e r) by done.
  destruct Hr as [-> | ->]; split_and!; by_decide || reflexivity.
Qed.

(** [IndexRedirect] of a settled session navigates to the role's default
    route, which the guard then lets through. *)
Theorem IndexRedirect_lands e r :
  signed_in e r ->
  IndexRedirect e = Some (getDefaultRoute r) /\ RouteGuard (getDefaultRoute r) e = GChildren.
Proof.
  intros Hs. rewrite (RouteGuard_signed_in e r) by done.
  rewrite decide_True by apply getDefaultRoute_allowed. split; [|done]. destruct (signed_in_profile e r Hs) as (p & Hp & <-).
  unfold IndexRedirect. rewrite Hp. destruct Hs as ([-> | ->] & _); by rewrite ?andb_false_r.
Qed.

(** In demo mode the layout is shown with [isDemoMode] left at [false], so its
    logout button takes the Internet Identity branch: the demo session stays
    and the same layout is shown again.  The demo branch, which [Layout] takes
    only when the prop is [true], would end on the login page. *)
Theorem demo_logout_keeps_session e p :
  demoProfile (demo e) = Some p ->
  RootLayout e = RootLayoutShown p false /\
  RootLayout (run_effects e (handleLogout false)) = RootLayoutShown p false /\
  (hasIdentity e = false -> isInitializing e = false ->
   RootLayout (run_effects e (handleLogout true)) = RootLogin).
Proof.
  intros Hp. unfold RootLayout, activeProfile, env_demo, isDemoMode. simpl.
  rewrite Hp, bool_decide_true by done. simpl. rewrite !andb_false_r, orb_true_r.
  split_and!; [done|done|]. intros -> ->. done.
Qed.

(** ** Concrete sessions *)

(** A demo session with role [r], started from an empty storage. *)
Definition demo_env (r : UserRole.t) : AuthEnv :=
  mkAuthEnv false false (loginAsDemo r (init_demo None)) None false false.

(** A signed-in Internet Identity session whose profile has role [r]. *)
Definition ii_env (r : UserRole.t) : AuthEnv :=
  mkAuthEnv true false (init_demo None) (Some (Some (mkUserProfile r (str "Dana")))) false true.

Lemma navItems_allowed_witness :
  RouteGuard (str "/resources") (ii_env UserRole.pmo) = GChildren.
Proof.
  apply (navItems_allowed (ii_env UserRole.pmo) UserRole.pmo
           (mkNavItem (str "/resources") (str "Resources")
              [UserRole.admin; UserRole.pmo; UserRole.deliveryHead])); by_decide.
Defined.

Lemma RouteGuard_children_listed_witness :
  exists p, activeProfile (demo_env UserRole.employee) = Some p /\
            str "/timesheets" ∈ ROLE_ACCESS (appRole p).
Proof. apply RouteGuard_children_listed. reflexivity. Defined.

Lemma reports_denied_after_guard_witness :
  Exists (fun item => nav_path item = str "/reports") (navItems UserRole.deliveryHead) /\
  RouteGuard (str "/reports") (ii_env UserRole.deliveryHead) = GChildren /\
  ReportsPage (ii_env UserRole.deliveryHead) = RDenied (Some UserRole.deliveryHead) (str "/dashboard").
Proof. apply reports_denied_after_guard; [by_decide|by right]. Defined.

Lemma IndexRedirect_lands_witness :
  IndexRedirect (demo_env UserRole.management) = Some (getDefaultRoute UserRole.management) /\
  RouteGuard (getDefaultRoute UserRole.management) (demo_env UserRole.management) = GChildren.
Proof. apply IndexRedirect_lands. by_decide. Defined.

Lemma demo_logout_keeps_session_witness :
  RootLayout (demo_env UserRole.pm) = RootLayoutShown (DEMO_PROFILES UserRole.pm) false /\
  RootLayout (run_effects (demo_env UserRole.pm) (handleLogout false)) =
    RootLayoutShown (DEMO_PROFILES UserRole.pm) false /\
  (hasIdentity (demo_env UserRole.pm) = false -> isInitializing (demo_env UserRole.pm) = false ->
   RootLayout (run_effects (demo_env UserRole.pm) (handleLogout true)) = RootLogin).
Proof. apply demo_logout_keeps_session. reflexivity. Defined.
