(* ===== verification/MultiSelect.v ===== *)
(** * The skill picker: [hooks/useMultiSelectDropdown.ts]

    [useMultiSelectDropdown] holds four [useState]s ([MSState]).  Its handlers
    read the values of the last render (the closure's [selected]) and write
    either a plain value ([setSearch('')]) or a functional update
    ([setSelected(prev => ...)]) that React applies to the newest pending
    state.  A handler is therefore a function of the rendered state [view]
    and of the pending state [cur]; [ms_batch] runs the events React handles
    before it renders again, all against the same [view].

    [SkillsMultiSelect] of [components/ResourceFormModal.tsx] adds the custom
    entry through [handleAddCustom].

    Theorems: [filteredOptions] are the options matching the search that are
    not selected; when the component renders between events the selection
    stays free of duplicates and of blank or untrimmed entries; [removeItem]
    removes every copy; and the same item added twice before a render is
    kept twice, so the invariant rests on rendering between events. *)

From S2P Require Import Prelude JsString.

(** [SKILL_OPTIONS]. *)
Definition SKILL_OPTIONS : list jstr :=
  [str "UI"; str "UX"; str "Automation Testing"; str "Java"; str "Jenkins"; str "Azure";
   str "Adobe"; str "React"; str "Angular"; str "Vue"; str "Node.js"; str "Python"; str "SQL";
   str "AWS"; str "Docker"; str "Kubernetes"; str "Selenium"; str "Cypress"; str "TypeScript";
   str "JavaScript"; str "C#"; str ".NET"; str "Spring Boot"; str "Microservices"; str "DevOps";
   str "Agile/Scrum"; str "Power BI"; str "Tableau"; str "Salesforce"; str "SAP"].

Record MSState := mkMSState {
  selected : list jstr;
  search : jstr;
  customInput : jstr;
  isOpen : bool;
}.

(** The hook's first render with [initialSelected]. *)
Definition ms_init (initialSelected : list jstr) : MSState :=
  mkMSState initialSelected [] [] false.

(** [filteredOptions] of a render. *)
Definition filteredOptions (options : list jstr) (view : MSState) : list jstr :=
  let q := to_lower (search view) in
  filter (fun opt => str_includes (to_lower opt) q = true /\ opt ∉ selected view) options.

Definition set_selected (l : list jstr) (s : MSState) : MSState :=
  mkMSState l (search s) (customInput s) (isOpen s).

(** [addItem(item)]: the test reads the rendered [selected]; the append is a
    functional update; both inputs are cleared in every case. *)
Definition addItem (view : MSState) (item : jstr) (cur : MSState) : MSState :=
  let trimmed := trim item in
  let cur' := if decide (trimmed <> [] /\ trimmed ∉ selected view)
              then set_selected (selected cur ++ [trimmed]) cur else cur in
  mkMSState (selected cur') [] [] (isOpen cur').

(** [removeItem(item)]: [prev.filter((s) => s !== item)]. *)
Definition removeItem (item : jstr) (cur : MSState) : MSState :=
  set_selected (filter (fun s => s <> item) (selected cur)) cur.

(** [reset(newSelected)]. *)
Definition reset (newSelected : list jstr) (cur : MSState) : MSState :=
  mkMSState newSelected [] [] false.

(** [handleAddCustom] of [SkillsMultiSelect]: add the trimmed custom text if
    it is not blank. *)
Definition handleAddCustom (view : MSState) (cur : MSState) : MSState :=
  if decide (trim (customInput view) <> []) then addItem view (trim (customInput view)) cur
  else cur.

Inductive MSEvent :=
  | EvAdd (item : jstr)           (* a click on an option: onAdd(opt) *)
  | EvAddCustom                   (* Enter or the plus button *)
  | EvRemove (item : jstr)        (* a click on a badge *)
  | EvReset (l : list jstr)       (* the form's useEffect *)
  | EvSearch (v : jstr)
  | EvCustom (v : jstr)
  | EvOpen (b : bool).

Definition ms_handle (view : MSState) (e : MSEvent) (cur : MSState) : MSState :=
  match e with
  | EvAdd item => addItem view item cur
  | EvAddCustom => handleAddCustom view cur
  | EvRemove item => removeItem item cur
  | EvReset l => reset l cur
  | EvSearch v => mkMSState (selected cur) v (customInput cur) (isOpen cur)
  | EvCustom v => mkMSState (selected cur) (search cur) v (isOpen cur)
  | EvOpen b => mkMSState (selected cur) (search cur) (customInput cur) b
  end.

(** Events handled before the next render, all reading the same render. *)
Definition ms_batch (view : MSState) (es : list MSEvent) : MSState :=
  foldl (fun cur e => ms_handle view e cur) view es.

(** A selection without duplicates, blank or untrimmed entries. *)
Definition selection_ok (l : list jstr) : Prop :=
  NoDup l /\ Forall (fun x => x <> [] /\ trim x = x) l.

(** Events whose arguments keep the selection well formed: a reset passes a
    well-formed list (the stored skills of a resource). *)
Definition event_ok (e : MSEvent) : Prop :=
  match e with EvReset l => selection_ok l | _ => True end.

#[global] Instance selection_ok_dec l : Decision (selection_ok l).
Proof. unfold selection_ok. apply _. Defined.

#[global] Instance event_ok_dec e : Decision (event_ok e).
Proof. destruct e; simpl; apply _. Defined.

(** ** Lemmas *)

Lemma addItem_selected view item cur :
  selected (addItem view item cur) =
  if decide (trim item <> [] /\ trim item ∉ selected view)
  then selected cur ++ [trim item] else selected cur.
Proof. unfold addItem. by case_decide. Qed.

Lemma selection_ok_snoc l x :
  selection_ok l -> x <> [] -> trim x = x -> x ∉ l -> selection_ok (l ++ [x]).
Proof.
  intros [Hnd Hf] Hne Htr Hx. split.
  - apply NoDup_app. split_and!; [done| |by apply NoDup_singleton].
    intros y Hy ->%list_elem_of_singleton. done.
  - apply Forall_app. split; [done|]. by repeat constructor.
Qed.

Lemma selection_ok_filter P `{!forall x, Decision (P x)} l :
  selection_ok l -> selection_ok (filter P l).
Proof.
  intros [Hnd Hf]. split; [by apply NoDup_filter|]. by apply Forall_filter_keep.
Qed.

Lemma handleAddCustom_selected view cur :
  selected (handleAddCustom view cur) = selected (addItem view (customInput view) cur) \/
  selected (handleAddCustom view cur) = selected cur.
Proof.
  unfold handleAddCustom. case_decide as H; [left|by right].
  rewrite !addItem_selected, trim_idem. done.
Qed.

(** One event on a fresh render keeps the selection well formed. *)
Lemma ms_handle_ok s e :
  selection_ok (selected s) -> event_ok e -> selection_ok (selected (ms_handle s e s)).
Proof.
  intros Hs He. destruct e; cbn [ms_handle event_ok] in *; try done.
  - rewrite addItem_selected. case_decide as H; [|done].
    destruct H. apply selection_ok_snoc; auto using trim_idem.
  - destruct (handleAddCustom_selected s s) as [->| ->]; [|done].
    rewrite addItem_selected. case_decide as H; [|done].
    destruct H. apply selection_ok_snoc; auto using trim_idem.
  - by apply selection_ok_filter.
Qed.

(** ** Theorems *)

(** The dropdown lists exactly the options that contain the search text
    (ignoring case) and are not already selected, in the order of the
    options. *)
Theorem filteredOptions_spec options view opt :
  opt ∈ filteredOptions options view <->
  opt ∈ options /\ opt ∉ selected view /\
  exists a b, to_lower opt = a ++ to_lower (search view) ++ b.
Proof.
  unfold filteredOptions. rewrite list_elem_of_filter, str_includes_spec. naive_solver.
Qed.

(** When the component renders after every event, the selection stays free of
    duplicates and of blank or untrimmed skills, whatever the events. *)
Theorem ms_render_each_ok s es :
  selection_ok (selected s) -> Forall event_ok es ->
  selection_ok (selected (foldl (fun v e => ms_handle v e v) s es)).
Proof.
  intros Hs Hes. revert s Hs. induction Hes as [|e es He _ IH]; intros s Hs; [done|].
  simpl. apply IH. by apply ms_handle_ok.
Qed.

(** [removeItem] removes every copy of the item and keeps the rest in order. *)
Theorem removeItem_spec item cur x :
  x ∈ selected (removeItem item cur) <-> x ∈ selected cur /\ x <> item.
Proof. simpl. rewrite list_elem_of_filter. tauto. Qed.

(** Two additions of the same skill handled before React renders again both
    pass the duplicate test, which reads the stale render: the skill is
    selected twice. *)
Theorem addItem_same_batch_duplicates :
  selected (ms_batch (ms_init []) [EvAdd (str " React"); EvAdd (str "React ")]) =
  [str "React"; str "React"] /\
  ¬ NoDup (selected (ms_batch (ms_init []) [EvAdd (str " React"); EvAdd (str "React ")])).
Proof. split; [by_eval|]. vm_compute. intros Hnd. apply NoDup_cons in Hnd as [Hn _]. set_solver. Qed.

Lemma ms_render_each_ok_witness :
  selection_ok (selected (foldl (fun v e => ms_handle v e v) (ms_init [str "Java"])
                  [EvAdd (str " React"); EvAdd (str "React"); EvRemove (str "Java");
                   EvCustom (str "  "); EvAddCustom])).
Proof. apply ms_render_each_ok; by_decide. Defined.
