(* ===== verification/ResourceForm.v ===== *)
(** * The resource form: [components/ResourceFormModal.tsx]

    The form's [useState] is the record [ResourceForm] (field [fm_x] holds
    [form.x]); its two skill pickers are [MultiSelect] states.  Opening the
    dialog runs the [useEffect] that fills the form from [initialData]
    ([form_of_resource]) or empties it; every input writes one field through
    [set(field, value)] ([form_edit]); [handleSubmit] validates the form and
    builds the [Resource] handed to [onSubmit], or sets an error.  The date
    helpers [nsToDate], [dateToNs] and [formatDateInput] of [lib/utils.ts]
    go through the [JsDate] interface; [new Date(s)] of an invalid date
    gives NaN and [BigInt(NaN)] throws, which [SubmitThrows] records.

    Theorems: the e-mail test decides the regular expression of the code; a
    submitted resource meets the record invariants (required fields set and
    trimmed, a valid e-mail, a category exactly when non-billable, skill tags
    the concatenated skills); each error branch with its message; editing a
    resource and saving without changes gives the same resource back; the
    billability select keeps the form consistent. *)

From S2P Require Import Prelude JsString Domain JsDate MultiSelect.

(** [NON_BILLABLE_OPTIONS] of the category select. *)
Definition NON_BILLABLE_OPTIONS : list (NonBillableStatus.t * jstr) :=
  [(NonBillableStatus.availableForDeployment, str "Available for Deployment");
   (NonBillableStatus.biBench, str "BI Bench");
   (NonBillableStatus.partialBench, str "Partial Bench");
   (NonBillableStatus.benchBlocked, str "Bench Blocked");
   (NonBillableStatus.maternity, str "Maternity");
   (NonBillableStatus.solutionInvestment, str "Solution Investment");
   (NonBillableStatus.deliverySupport, str "Delivery Support");
   (NonBillableStatus.projectBuffer, str "Project Buffer")].

(** The [form] state; [fm_nonBillableStatus] is [None] for [''] . *)
Record ResourceForm := mkResourceForm {
  fm_employeeId : jstr;
  fm_name : jstr;
  fm_email : jstr;
  fm_contactNumber : jstr;
  fm_location : jstr;
  fm_client : jstr;
  fm_project : jstr;
  fm_projectId : jstr;
  fm_projectManager : jstr;
  fm_reportingManager : jstr;
  fm_deliveryHead : jstr;
  fm_billabilityStatus : BillabilityStatus.t;
  fm_nonBillableStatus : option NonBillableValue;
  fm_totalExperience : jstr;
  fm_doj : jstr;
  fm_assignmentStartDate : jstr;
  fm_assignmentEndDate : jstr;
  fm_practice : jstr;
  fm_status : ResourceStatus.t;
  fm_role : jstr;
  fm_department : jstr;
}.

(** The empty form of [useState] and of the [useEffect] without [initialData]. *)
Definition emptyForm : ResourceForm :=
  mkResourceForm [] [] [] [] [] [] [] [] [] [] [] BillabilityStatus.billable None [] [] [] []
    [] ResourceStatus.active [] [].

(** The text inputs, by the field name [set] receives. *)
Inductive TextField :=
  | FEmployeeId | FName | FEmail | FContactNumber | FLocation | FTotalExperience | FDoj
  | FPractice | FClient | FProject | FProjectId | FProjectManager | FReportingManager
  | FDeliveryHead | FAssignmentStartDate | FAssignmentEndDate.

(** [set(field, value)] on a text field: [setForm((f) => ({ ...f, [field]: value }))]. *)
Definition set_text (fld : TextField) (v : jstr) (f : ResourceForm) : ResourceForm :=
  let 'mkResourceForm e n m c l cl p pid pm rm dh b nb te doj asd aed pr st ro de := f in
  match fld with
  | FEmployeeId => mkResourceForm v n m c l cl p pid pm rm dh b nb te doj asd aed pr st ro de
  | FName => mkResourceForm e v m c l cl p pid pm rm dh b nb te doj asd aed pr st ro de
  | FEmail => mkResourceForm e n v c l cl p pid pm rm dh b nb te doj asd aed pr st ro de
  | FContactNumber => mkResourceForm e n m v l cl p pid pm rm dh b nb te doj asd aed pr st ro de
  | FLocation => mkResourceForm e n m c v cl p pid pm rm dh b nb te doj asd aed pr st ro de
  | FClient => mkResourceForm e n m c l v p pid pm rm dh b nb te doj asd aed pr st ro de
  | FProject => mkResourceForm e n m c l cl v pid pm rm dh b nb te doj asd aed pr st ro de
  | FProjectId => mkResourceForm e n m c l cl p v pm rm dh b nb te doj asd aed pr st ro de
  | FProjectManager => mkResourceForm e n m c l cl p pid v rm dh b nb te doj asd aed pr st ro de
  | FReportingManager => mkResourceForm e n m c l cl p pid pm v dh b nb te doj asd aed pr st ro de
  | FDeliveryHead => mkResourceForm e n m c l cl p pid pm rm v b nb te doj asd aed pr st ro de
  | FTotalExperience => mkResourceForm e n m c l cl p pid pm rm dh b nb v doj asd aed pr st ro de
  | FDoj => mkResourceForm e n m c l cl p pid pm rm dh b nb te v asd aed pr st ro de
  | FAssignmentStartDate => mkResourceForm e n m c l cl p pid pm rm dh b nb te doj v aed pr st ro de
  | FAssignmentEndDate => mkResourceForm e n m c l cl p pid pm rm dh b nb te doj asd v pr st ro de
  | FPractice => mkResourceForm e n m c l cl p pid pm rm dh b nb te doj asd aed v st ro de
  end.

Definition set_billability (v : BillabilityStatus.t) (f : ResourceForm) : ResourceForm :=
  let 'mkResourceForm e n m c l cl p pid pm rm dh _ nb te doj asd aed pr st ro de := f in
  mkResourceForm e n m c l cl p pid pm rm dh v nb te doj asd aed pr st ro de.

Definition set_category (v : option NonBillableValue) (f : ResourceForm) : ResourceForm :=
  let 'mkResourceForm e n m c l cl p pid pm rm dh b _ te doj asd aed pr st ro de := f in
  mkResourceForm e n m c l cl p pid pm rm dh b v te doj asd aed pr st ro de.

Definition set_status (v : ResourceStatus.t) (f : ResourceForm) : ResourceForm :=
  let 'mkResourceForm e n m c l cl p pid pm rm dh b nb te doj asd aed pr _ ro de := f in
  mkResourceForm e n m c l cl p pid pm rm dh b nb te doj asd aed pr v ro de.

Inductive FormEdit :=
  | EditText (fld : TextField) (v : jstr)
  | EditBillability (v : BillabilityStatus.t)   (* the billability select *)
  | EditCategory (c : NonBillableStatus.t)      (* the category select *)
  | EditStatus (v : ResourceStatus.t).

(** The [onChange]/[onValueChange] handlers.  The billability select clears
    the category when it switches to billable; the category select is only
    rendered for a non-billable form ([isNonBillable &&]), so a click on it
    does nothing otherwise. *)
Definition form_edit (x : FormEdit) (f : ResourceForm) : ResourceForm :=
  match x with
  | EditText fld v => set_text fld v f
  | EditBillability v =>
      let f' := set_billability v f in
      if decide (v = BillabilityStatus.billable) then set_category None f' else f'
  | EditCategory c =>
      if decide (fm_billabilityStatus f = BillabilityStatus.nonBillable)
      then set_category (Some (NBEnum c)) f else f
  | EditStatus v => set_status v f
  end.

(** A character [\s] and [@] exclude in the e-mail pattern. *)
Definition email_char (c : ascii) : Prop := is_ws c = false /\ c <> "@"%char.

#[global] Instance email_char_dec c : Decision (email_char c).
Proof. unfold email_char. apply _. Defined.

(** What [/^[^\s@]+@[^\s@]+\.[^\s@]+$/] matches. *)
Definition email_re (s : jstr) : Prop :=
  exists a b c, s = a ++ "@"%char :: b ++ "."%char :: c /\ a <> [] /\ b <> [] /\ c <> [] /\
                Forall email_char (a ++ b ++ c).

(** A dot with at least one character on each side. *)
Definition dot_inside (d : jstr) : bool :=
  match d with [] => false | _ :: rest => bool_decide ("."%char ∈ removelast rest) end.

(** The [test] of the e-mail pattern, decided: one [@], a non-empty local
    part, no white space, and an inner dot after the [@]. *)
Definition email_ok (s : jstr) : bool :=
  match split_on "@"%char s with
  | [a; d] => bool_decide (a <> [] /\ Forall (fun c => is_ws c = false) s) && dot_inside d
  | _ => false
  end.

Section Dates.
Context `{D : JsDate}.

(** [formatDateInput(ns)]: [nsToDate(ns).toISOString().split('T')[0]];
    [toISOString] throws on an invalid date. *)
Definition formatDateInput (t : Time) : option jstr := iso_date <$> date_of_ns t.

(** A date field of [initialData]: [t && t !== 0n ? formatDateInput(t) : ''] . *)
Definition date_input_of (t : Time) : option jstr :=
  if decide (t = 0%Z) then Some [] else formatDateInput t.

(** The [useEffect] with [initialData]: the form and the two skill lists, or
    [None] when a date cannot be formatted (the effect throws). *)
Definition form_of_resource (r : Resource) : option ResourceForm :=
  doj ← date_input_of (doj r);
  asd ← date_input_of (assignmentStartDate r);
  aed ← date_input_of (assignmentEndDate r);
  Some (mkResourceForm (employeeId r) (name r) (email r) (contactNumber r) (location r)
          (client r) (project r) (projectId r ?? []) (projectManager r) (reportingManager r)
          (deliveryHead r) (billabilityStatus r) (nonBillableStatus r) (totalExperience r)
          doj asd aed (practice r) (status r) (role r) (department r)).

(** [form.x ? dateToNs(new Date(form.x)) : 0n]; [None] when [BigInt(NaN)] throws. *)
Definition date_field (v : jstr) : option Time :=
  if decide (v = []) then Some 0%Z else (fun ms => ms * 1000000)%Z <$> date_parse v.

Inductive SubmitOutcome :=
  | SubmitError (msg : jstr)
  | SubmitThrows
  | SubmitOk (r : Resource).

(** [handleSubmit] up to [onSubmit(resource)]: the three checks in order,
    then the resource ([initialData?.id ?? generateId()] is
    [initialId ?? newId]; the skills are the pickers' selections). *)
Definition handleSubmit (f : ResourceForm) (primary secondary : list jstr)
    (initialId : option jstr) (newId : jstr) : SubmitOutcome :=
  if decide (trim (fm_name f) = [] \/ trim (fm_email f) = [] \/ trim (fm_employeeId f) = [])
  then SubmitError (str "Employee ID, Name, and Email are required.")
  else if negb (email_ok (fm_email f))
  then SubmitError (str "Please enter a valid email address.")
  else if decide (fm_billabilityStatus f = BillabilityStatus.nonBillable /\
                  fm_nonBillableStatus f = None)
  then SubmitError (str "Please select a Non-Billable Status.")
  else
    match date_field (fm_doj f), date_field (fm_assignmentStartDate f),
          date_field (fm_assignmentEndDate f) with
    | Some dj, Some sd, Some ed =>
        SubmitOk {|
          id := initialId ?? newId;
          employeeId := trim (fm_employeeId f);
          name := trim (fm_name f);
          email := trim (fm_email f);
          contactNumber := trim (fm_contactNumber f);
          location := trim (fm_location f);
          client := trim (fm_client f);
          project := trim (fm_project f);
          projectId := (let v := trim (fm_projectId f) in if decide (v = []) then None else Some v);
          projectManager := trim (fm_projectManager f);
          reportingManager := trim (fm_reportingManager f);
          deliveryHead := trim (fm_deliveryHead f);
          billabilityStatus := fm_billabilityStatus f;
          nonBillableStatus :=
            if decide (fm_billabilityStatus f = BillabilityStatus.nonBillable)
            then fm_nonBillableStatus f else None;
          totalExperience := trim (fm_totalExperience f);
          doj := dj;
          assignmentStartDate := sd;
          assignmentEndDate := ed;
          practice := trim (fm_practice f);
          primarySkills := primary;
          secondarySkills := secondary;
          status := fm_status f;
          role := trim (fm_role f);
          department := trim (fm_department f);
          skillTags := primary ++ secondary;
        |}
    | _, _, _ => SubmitThrows
    end.

(** The dialog's state: the form, the error line and the two pickers. *)
Record FormModal := mkFormModal {
  form : ResourceForm;
  error : jstr;
  primaryPicker : MSState;
  secondaryPicker : MSState;
}.

(** The [useEffect] run when the dialog opens; [None] when it throws. *)
Definition open_form (initialData : option Resource) (m : FormModal) : option FormModal :=
  match initialData with
  | Some r =>
      f ← form_of_resource r;
      Some (mkFormModal f [] (reset (primarySkills r) (primaryPicker m))
              (reset (secondarySkills r) (secondaryPicker m)))
  | None =>
      Some (mkFormModal emptyForm [] (reset [] (primaryPicker m)) (reset [] (secondaryPicker m)))
  end.

(** A click on Save: the error line after [handleSubmit], and the resource
    passed to [onSubmit] if any. *)
Definition submit_modal (m : FormModal) (initialId : option jstr) (newId : jstr)
    : FormModal * option Resource :=
  match handleSubmit (form m) (selected (primaryPicker m)) (selected (secondaryPicker m))
          initialId newId with
  | SubmitError msg => (mkFormModal (form m) msg (primaryPicker m) (secondaryPicker m), None)
  | SubmitThrows => (mkFormModal (form m) [] (primaryPicker m) (secondaryPicker m), None)
  | SubmitOk r => (mkFormModal (form m) [] (primaryPicker m) (secondaryPicker m), Some r)
  end.
End Dates.

(** ** The e-mail pattern *)

Lemma dot_inside_spec d :
  dot_inside d = true <-> exists b c, d = b ++ "."%char :: c /\ b <> [] /\ c <> [].
Proof.
  destruct d as [|x rest]; simpl.
  - split; [done|]. intros ([|] & c & H & Hb & _); discriminate || done.
  - rewrite bool_decide_eq_true, elem_of_removelast. split.
    + intros (l1 & l2 & -> & Hne). exists (x :: l1), l2. done.
    + intros ([|x' b] & c & H & Hb & Hc); [done|]. injection H as <- ->. eauto.
Qed.

Lemma email_char_app_inv a b c :
  Forall email_char (a ++ b ++ c) ->
  "@"%char ∉ a /\ "@"%char ∉ b /\ "@"%char ∉ c /\ Forall (fun ch => is_ws ch = false) (a ++ b ++ c).
Proof.
  intros H. rewrite Forall_forall in H. split_and!.
  1-3: intros Hin; refine (proj2 (H _ _) eq_refl); set_solver.
  apply Forall_forall. intros ch Hch. apply H, Hch.
Qed.

(** The e-mail test of [handleSubmit] accepts exactly the strings the
    regular expression [/^[^\s@]+@[^\s@]+\.[^\s@]+$/] matches. *)
Lemma email_ok_spec s : email_ok s = true <-> email_re s.
Proof.
  unfold email_ok, email_re. split.
  - destruct (split_on "@"%char s) as [|a [|d [|]]] eqn:E; try done.
    apply split_on_two in E as (-> & Ha & Hd).
    rewrite andb_true_iff, bool_decide_eq_true, dot_inside_spec.
    intros ((Hne & Hws) & (b & c & -> & Hb & Hc)). exists a, b, c. split_and!; try done.
    rewrite Forall_forall in Hws |- *. intros ch Hch. split.
    + apply Hws. set_solver.
    + intros ->. set_solver.
  - intros (a & b & c & -> & Ha & Hb & Hc & Hf).
    destruct (email_char_app_inv a b c Hf) as (Hna & Hnb & Hnc & Hws).
    assert (Hsplit : split_on "@"%char (a ++ "@"%char :: b ++ "."%char :: c) =
                     [a; b ++ "."%char :: c]).
    { apply split_on_two. split_and!; [done|done|]. rewrite elem_of_app, elem_of_cons.
      intros [?|[Heq|?]]; [done|discriminate|done]. }
    rewrite Hsplit, andb_true_iff, bool_decide_eq_true, dot_inside_spec.
    split; [split; [done|]|by exists b, c].
    rewrite !Forall_app in Hws. destruct Hws as (Hwa & Hwb & Hwc).
    repeat (rewrite ?Forall_app, ?Forall_cons); split_and!; done.
Qed.

(** What [email_ok] implies of the characters: no white space at all. *)
Lemma email_ok_no_ws s : email_ok s = true -> Forall (fun c => is_ws c = false) s.
Proof.
  unfold email_ok. destruct (split_on "@"%char s) as [|a [|d [|]]]; try done.
  rewrite andb_true_iff, bool_decide_eq_true. tauto.
Qed.

Lemma email_ok_trim s : email_ok s = true -> trim s = s.
Proof. intros H. by apply trim_no_ws, email_ok_no_ws. Qed.

(** ** Submission *)

Section Submit.
Context `{D : JsDate}.

Definition required_msg : jstr := str "Employee ID, Name, and Email are required.".
Definition email_msg : jstr := str "Please enter a valid email address.".
Definition category_msg : jstr := str "Please select a Non-Billable Status.".

(** C24: A resource [handleSubmit] hands to [onSubmit] meets the record's
    invariants: employee id and name set and trimmed, an e-mail matching the
    pattern, a category exactly when non-billable, the deprecated
    [skillTags] the two skill lists, and the id of the edited record or the
    fresh one. *)
Theorem handleSubmit_ok f prim sec iid nid r :
  handleSubmit f prim sec iid nid = SubmitOk r ->
  employeeId r <> [] /\ trim (employeeId r) = employeeId r /\
  name r <> [] /\ trim (name r) = name r /\ email_re (email r) /\
  (billabilityStatus r = BillabilityStatus.nonBillable <-> is_Some (nonBillableStatus r)) /\
  skillTags r = primarySkills r ++ secondarySkills r /\ id r = iid ?? nid.
Proof.
  unfold handleSubmit. case_decide as Hreq; [done|].
  destruct (email_ok (fm_email f)) eqn:Hem; [|done]. simpl.
  case_decide as Hcat; [done|].
  destruct (date_field (fm_doj f)), (date_field (fm_assignmentStartDate f)), (date_field (fm_assignmentEndDate f)); try done.
  intros [= <-]. cbn.
  rewrite (email_ok_trim _ Hem). split_and!; try apply trim_idem; try tauto.
  - by apply email_ok_spec.
  - case_decide as Hnb; [|split; [done|by intros []]].
    destruct (fm_nonBillableStatus f); [split; eauto|tauto].
Qed.

(** [handleSubmit] reports an error exactly on the three checks of the code,
    tried in order, each with its message. *)
Theorem handleSubmit_error f prim sec iid nid msg :
  handleSubmit f prim sec iid nid = SubmitError msg <->
  (trim (fm_name f) = [] \/ trim (fm_email f) = [] \/ trim (fm_employeeId f) = []) /\
    msg = required_msg \/
  ¬ (trim (fm_name f) = [] \/ trim (fm_email f) = [] \/ trim (fm_employeeId f) = []) /\
    email_ok (fm_email f) = false /\ msg = email_msg \/
  ¬ (trim (fm_name f) = [] \/ trim (fm_email f) = [] \/ trim (fm_employeeId f) = []) /\
    email_ok (fm_email f) = true /\ fm_billabilityStatus f = BillabilityStatus.nonBillable /\
    fm_nonBillableStatus f = None /\ msg = category_msg.
Proof.
  unfold handleSubmit. case_decide as Hreq.
  - split; [intros [= <-]; by left|]. intros [[_ ->]|[[? _]|[? _]]]; done.
  - destruct (email_ok (fm_email f)) eqn:Hem; simpl.
    + case_decide as Hcat.
      * split; [intros [= <-]; right; right; naive_solver|].
        intros [[]|[(_ & ? & _)|(_ & _ & _ & _ & ->)]]; done.
      * split; [by destruct (date_field (fm_doj f)), (date_field (fm_assignmentStartDate f)), (date_field (fm_assignmentEndDate f))|].
        intros [[]|[(_ & ? & _)|(_ & _ & ? & ? & _)]]; try done. by destruct Hcat.
    + split; [intros [= <-]; right; left; naive_solver|].
      intros [[]|[(_ & _ & ->)|(_ & ? & _)]]; done.
Qed.

(** A date a stored resource holds that the form shows and reads back. *)
Definition date_roundtrips (t : Time) : Prop :=
  exists v, date_input_of t = Some v /\ date_field v = Some t.

(** A resource the form can show and save back unchanged. *)
Record editable (r : Resource) : Prop := {
  ed_trimmed : Forall (fun v => trim v = v)
    [employeeId r; name r; contactNumber r; location r; client r; project r;
     projectManager r; reportingManager r; deliveryHead r; totalExperience r; practice r;
     role r; department r];
  ed_required : employeeId r <> [] /\ name r <> [];
  ed_email : email_re (email r);
  ed_projectId : projectId r <> Some [] /\ trim (projectId r ?? []) = projectId r ?? [];
  ed_category : billabilityStatus r = BillabilityStatus.nonBillable <-> is_Some (nonBillableStatus r);
  ed_skillTags : skillTags r = primarySkills r ++ secondarySkills r;
  ed_dates : Forall date_roundtrips [doj r; assignmentStartDate r; assignmentEndDate r];
}.

Lemma projectId_roundtrip (o : option jstr) :
  o <> Some [] -> trim (o ?? []) = o ?? [] ->
  (if decide (trim (o ?? []) = []) then None else Some (trim (o ?? []))) = o.
Proof. intros Hne Htr. rewrite Htr. destruct o as [v|]; simpl; [|done]. by case_decide; subst. Qed.

Lemma category_edit_roundtrip b (o : option NonBillableValue) :
  (b = BillabilityStatus.nonBillable <-> is_Some o) ->
  (if decide (b = BillabilityStatus.nonBillable) then o else None) = o.
Proof. intros H. case_decide; [done|]. destruct o; [|done]. exfalso. apply H0, H. eauto. Qed.

(** Opening the dialog on a stored resource and saving without a change hands
    the same resource to [onSubmit]. *)
Theorem edit_save_unchanged r m nid :
  editable r ->
  exists m', open_form (Some r) m = Some m' /\ snd (submit_modal m' (Some (id r)) nid) = Some r.
Proof.
  intros Hed. pose proof (ed_dates r Hed) as Hd. rewrite !Forall_cons in Hd.
  destruct Hd as ((v1 & H1 & G1) & (v2 & H2 & G2) & (v3 & H3 & G3) & _).
  pose proof (ed_trimmed r Hed) as Ht. rewrite !Forall_cons in Ht.
  destruct Ht as (Te & Tn & Tc & Tl & Tcl & Tp & Tpm & Trm & Tdh & Tte & Tpr & Tro & Tde & _).
  destruct (ed_required r Hed) as [He Hn].
  pose proof (proj2 (email_ok_spec _) (ed_email r Hed)) as Hem.
  destruct (ed_projectId r Hed) as [Hp1 Hp2].
  unfold open_form, form_of_resource. rewrite H1, H2, H3. simpl. eexists; split; [done|].
  unfold submit_modal, handleSubmit. cbn [form selected primaryPicker secondaryPicker reset
    fm_name fm_email fm_employeeId fm_billabilityStatus fm_nonBillableStatus fm_doj
    fm_assignmentStartDate fm_assignmentEndDate].
  rewrite Tn, Te, (email_ok_trim _ Hem), decide_False.
  2: { intros [?|[Hm|?]]; try done. subst. apply email_ok_spec in Hem.
       destruct Hem as (a & b & c & Hm' & _). rewrite Hm in Hm'. by destruct a. }
  rewrite Hem. simpl. rewrite decide_False.
  2: { intros [Hb Hc]. apply (ed_category r Hed) in Hb. rewrite Hc in Hb. by destruct Hb. }
  rewrite G1, G2, G3. simpl.
  rewrite Tc, Tl, Tcl, Tp, Tpm, Trm, Tdh, Tte, Tpr, Tro, Tde.
  rewrite (projectId_roundtrip _ Hp1 Hp2), (category_edit_roundtrip _ _ (ed_category r Hed)).
  rewrite <- (ed_skillTags r Hed). by destruct r.
Qed.
End Submit.

(** ** Editing the form *)

(** A billable form has no category. *)
Definition form_consistent (f : ResourceForm) : Prop :=
  fm_billabilityStatus f = BillabilityStatus.billable -> fm_nonBillableStatus f = None.

Lemma form_edit_consistent x f : form_consistent f -> form_consistent (form_edit x f).
Proof.
  unfold form_consistent. destruct f; destruct x as [fld v|v|c|v]; simpl; [destruct fld| | |];
    simpl; try done; repeat case_decide; simpl; naive_solver.
Qed.

(** Whatever the user types and selects, a form opened empty never holds a
    category while it is billable: switching to billable clears it and the
    category select only acts on a non-billable form. *)
Theorem form_edits_consistent es :
  form_consistent (foldl (fun f x => form_edit x f) emptyForm es).
Proof.
  assert (H : forall f, form_consistent f -> form_consistent (foldl (fun f x => form_edit x f) f es)).
  { induction es as [|x es IH]; intros f Hf; [done|]. apply IH, form_edit_consistent, Hf. }
  apply H. done.
Qed.

(** ** Concrete runs *)

Definition form_sample_resource : Resource := {|
  id := str "res_42"; employeeId := str "EMP042"; name := str "Asha Rao";
  email := str "asha.rao@company.com"; contactNumber := []; location := str "Pune";
  client := str "Acme"; project := str "Portal"; projectId := Some (str "PRJ-9");
  projectManager := str "Lee"; reportingManager := str "Kim"; deliveryHead := str "Ito";
  billabilityStatus := BillabilityStatus.nonBillable;
  nonBillableStatus := Some (NBEnum NonBillableStatus.biBench);
  totalExperience := str "4 years";
  doj := (days_from_civil 2024 1 15 * ms_per_day * 1000000)%Z;
  assignmentStartDate := 0%Z; assignmentEndDate := 0%Z; practice := str "Data";
  primarySkills := [str "SQL"]; secondarySkills := [str "Python"]; status := ResourceStatus.active;
  role := []; department := []; skillTags := [str "SQL"; str "Python"] |}.

Lemma form_sample_editable : editable (D := utc_date) form_sample_resource.
Proof.
  split; try by_decide.
  - exists (str "asha.rao"), (str "company"), (str "com"). split; [reflexivity|by_decide].
  - apply Forall_cons; split; [exists (str "2024-01-15"); by_eval|].
    apply Forall_cons; split; [exists []; by_eval|].
    apply Forall_cons; split; [exists []; by_eval|constructor].
Qed.

Lemma edit_save_unchanged_witness :
  exists m', open_form (D := utc_date) (Some form_sample_resource)
               (mkFormModal emptyForm [] (ms_init []) (ms_init [])) = Some m' /\
             snd (submit_modal (D := utc_date) m' (Some (id form_sample_resource)) (str "fresh")) =
             Some form_sample_resource.
Proof. apply edit_save_unchanged, form_sample_editable. Defined.

Lemma handleSubmit_ok_witness :
  let f := set_text FEmail (str "ann@x.io") (set_text FName (str "Ann") (set_text FEmployeeId (str "E7") emptyForm)) in
  match handleSubmit (D := utc_date) f [str "UI"] [] None (str "r9") with
  | SubmitOk r =>
      employeeId r <> [] /\ trim (employeeId r) = employeeId r /\
      name r <> [] /\ trim (name r) = name r /\ email_re (email r) /\
      (billabilityStatus r = BillabilityStatus.nonBillable <-> is_Some (nonBillableStatus r)) /\
      skillTags r = primarySkills r ++ secondarySkills r /\ id r = None ?? str "r9"
  | _ => False
  end.
Proof.
  cbv zeta. destruct (handleSubmit (D := utc_date) _ _ _ _ _) eqn:E;
    [vm_compute in E; discriminate|vm_compute in E; discriminate|].
  exact (handleSubmit_ok _ _ _ _ _ r E).
Defined.

(** An e-mail typed with a trailing space passes the required check (which
    trims) but fails the pattern (which does not), although the stored
    e-mail would be trimmed. *)
Theorem handleSubmit_email_space :
  handleSubmit (D := utc_date)
    (set_text FEmail (str "ann@x.io ") (set_text FName (str "Ann")
       (set_text FEmployeeId (str "E7") emptyForm))) [] [] None (str "r9")
  = SubmitError email_msg.
Proof. by_eval. Qed.
