(* ===== verification/ResourceList.v ===== *)
(** * The resource list: [pages/ResourcesPage.tsx] and [components/ResourceTableView.tsx]

    [ResourcesPage] filters the resources by a search text, a billability
    choice and a practice ([filtered]); the practice choices are the distinct
    non-empty practices in order of first appearance ([practices]).  The
    page's handlers are in [ResourcesPage].  [ResourceTableView] keeps a sort column
    and direction ([handleSort]) and sorts a copy of the rows with
    [Array.prototype.sort] and a comparator that compares dates as numbers
    and every other column with [localeCompare] ([table_compare]).

    [localeCompare] depends on the user's locale: [Class Collator] states
    what the code relies on (a total preorder), and [codepoint_collator] is
    one instance.  [Array.prototype.sort] with a consistent comparator is a
    stable sort ([sort_by], an insertion sort); when a category holds an
    inherited prototype member (see [FieldParse]) the comparator calls
    [localeCompare] on a function and may throw, which [table_sort] reports
    as [None].

    Theorems: the filter keeps exactly the matching resources and the
    practice list is duplicate-free and complete; a sort is a permutation
    in the order the column promises ([column_le]: the dates' time values or
    the collator on the field's text, reversed when descending), stable on
    ties ([column_tie]), and it is defined unless
    a category holds a prototype member; two clicks on a column restore its
    direction. *)

From S2P Require Import Prelude JsString Domain JsNumber.
From Stdlib Require Import Sorted.

(** ** Filtering *)

(** [Array.from(new Set(resources.map(r => r.practice).filter(Boolean)))]. *)
Fixpoint dedup (seen : list jstr) (l : list jstr) : list jstr :=
  match l with
  | [] => []
  | x :: l' => if decide (x ∈ seen) then dedup seen l' else x :: dedup (x :: seen) l'
  end.

Definition practices (resources : list Resource) : list jstr :=
  dedup [] (filter (fun p => p <> []) (practice <$> resources)).

(** The billability select: [all], [billable] or [nonBillable]. *)
Inductive BillabilityFilter := BFAll | BFBillable | BFNonBillable.

(** The practice select: [all] or one practice. *)
Definition PracticeFilter := option jstr.

(** [matchesSearch]: an empty search, or the lower-cased name, e-mail or
    employee id contains the lower-cased search. *)
Definition matchesSearch (search : jstr) (r : Resource) : bool :=
  bool_decide (search = []) ||
  str_includes (to_lower (name r)) (to_lower search) ||
  str_includes (to_lower (email r)) (to_lower search) ||
  str_includes (to_lower (employeeId r)) (to_lower search).

Definition matchesBillability (bf : BillabilityFilter) (r : Resource) : bool :=
  match bf with
  | BFAll => true
  | BFBillable => bool_decide (billabilityStatus r = BillabilityStatus.billable)
  | BFNonBillable => bool_decide (billabilityStatus r = BillabilityStatus.nonBillable)
  end.

Definition matchesPractice (pf : PracticeFilter) (r : Resource) : bool :=
  match pf with None => true | Some p => bool_decide (practice r = p) end.

(** [filtered] of [ResourcesPage]. *)
Definition filtered (search : jstr) (bf : BillabilityFilter) (pf : PracticeFilter)
    (resources : list Resource) : list Resource :=
  filter (fun r => matchesSearch search r && matchesBillability bf r && matchesPractice pf r = true)
    resources.

(** ** Sorting *)

Inductive SortKey :=
  | SKemployeeId | SKname | SKemail | SKcontactNumber | SKlocation | SKclient | SKproject
  | SKprojectManager | SKreportingManager | SKdeliveryHead | SKassignmentStartDate
  | SKassignmentEndDate | SKbillabilityStatus | SKnonBillableStatus | SKstatus.

#[global] Instance SortKey_eq_dec : EqDecision SortKey.
Proof. solve_decision. Defined.

Inductive SortDir := Asc | Desc.

#[global] Instance SortDir_eq_dec : EqDecision SortDir.
Proof. solve_decision. Defined.

(** [handleSort(key)]: the same column flips the direction, another column
    is sorted ascending. *)
Definition handleSort (key : SortKey) (st : SortKey * SortDir) : SortKey * SortDir :=
  let '(k, d) := st in
  if decide (k = key) then (k, match d with Asc => Desc | Desc => Asc end) else (key, Asc).

(** What the comparator reads from a row: a number for the two date
    columns ([Number] of the nanosecond [bigint], a double; the sign of the
    difference of two doubles is that of their comparison), the text for the others (an enum's string value), or a function
    for a category holding an inherited prototype member. *)
Inductive SortVal := SVNum (n : Z) | SVText (s : jstr) | SVFun.

#[global] Instance SortVal_eq_dec : EqDecision SortVal.
Proof. solve_decision. Defined.

Definition billability_value (b : BillabilityStatus.t) : jstr :=
  match b with
  | BillabilityStatus.billable => str "billable"
  | BillabilityStatus.nonBillable => str "nonBillable"
  end.

Definition category_value (c : NonBillableStatus.t) : jstr :=
  match c with
  | NonBillableStatus.availableForDeployment => str "availableForDeployment"
  | NonBillableStatus.solutionInvestment => str "solutionInvestment"
  | NonBillableStatus.biBench => str "biBench"
  | NonBillableStatus.partialBench => str "partialBench"
  | NonBillableStatus.projectBuffer => str "projectBuffer"
  | NonBillableStatus.benchBlocked => str "benchBlocked"
  | NonBillableStatus.maternity => str "maternity"
  | NonBillableStatus.deliverySupport => str "deliverySupport"
  end.

Definition status_value (s : ResourceStatus.t) : jstr :=
  match s with ResourceStatus.active => str "active" | ResourceStatus.inactive => str "inactive" end.

Definition sort_val (key : SortKey) (r : Resource) : SortVal :=
  match key with
  | SKassignmentStartDate => SVNum (double_round (assignmentStartDate r))
  | SKassignmentEndDate => SVNum (double_round (assignmentEndDate r))
  | SKbillabilityStatus => SVText (billability_value (billabilityStatus r))
  | SKnonBillableStatus =>
      match nonBillableStatus r with
      | None => SVText []
      | Some (NBEnum c) => SVText (category_value c)
      | Some (NBObjectProto _) => SVFun
      end
  | SKstatus => SVText (status_value (status r))
  | SKemployeeId => SVText (employeeId r)
  | SKname => SVText (name r)
  | SKemail => SVText (email r)
  | SKcontactNumber => SVText (contactNumber r)
  | SKlocation => SVText (location r)
  | SKclient => SVText (client r)
  | SKproject => SVText (project r)
  | SKprojectManager => SVText (projectManager r)
  | SKreportingManager => SVText (reportingManager r)
  | SKdeliveryHead => SVText (deliveryHead r)
  end.

(** [String.prototype.localeCompare] of the user's locale: a total preorder. *)
Class Collator := {
  locale_compare : jstr -> jstr -> comparison;
  locale_compare_antisym a b : locale_compare b a = CompOpp (locale_compare a b);
  locale_compare_trans a b c :
    locale_compare a b <> Gt -> locale_compare b c <> Gt -> locale_compare a c <> Gt;
}.

Section Sorting.
Context `{C : Collator}.

(** The comparator of [sorted], before the direction: [None] where it may
    throw ([localeCompare] on a function). *)
Definition val_compare (a b : SortVal) : option comparison :=
  match a, b with
  | SVNum x, SVNum y => Some (Z.compare x y)
  | SVText x, SVText y => Some (locale_compare x y)
  | _, _ => None
  end.

Definition dir_apply (d : SortDir) (c : comparison) : comparison :=
  match d with Asc => c | Desc => CompOpp c end.

Definition table_compare (key : SortKey) (d : SortDir) (a b : Resource) : option comparison :=
  dir_apply d <$> val_compare (sort_val key a) (sort_val key b).

(** A stable sort: each row goes after the rows that do not compare greater. *)
Fixpoint insert_by {A} (cmp : A -> A -> comparison) (x : A) (l : list A) : list A :=
  match l with
  | [] => [x]
  | y :: l' => if decide (cmp x y = Lt) then x :: l else y :: insert_by cmp x l'
  end.

Definition sort_by {A} (cmp : A -> A -> comparison) (l : list A) : list A :=
  foldl (fun acc x => insert_by cmp x acc) [] l.

(** [[...resources].sort(comparator)]: the stable sort when the comparator
    is defined on every pair, [None] otherwise. *)
Definition table_sort (key : SortKey) (d : SortDir) (rs : list Resource) : option (list Resource) :=
  if decide (Forall (fun a => Forall (fun b => is_Some (table_compare key d a b)) rs) rs)
  then Some (sort_by (fun a b => table_compare key d a b ?? Eq) rs)
  else None.

(** ** The order each column promises *)

(** [x] may come before [y] in direction [d] of the order [le]. *)
Definition dir_le {T} (le : T -> T -> Prop) (d : SortDir) (x y : T) : Prop :=
  match d with Asc => le x y | Desc => le y x end.

Definition text_le (x y : jstr) : Prop := locale_compare x y <> Gt.

(** [r.nonBillableStatus ?? ''] when it is a string. *)
Definition category_text (r : Resource) : option jstr :=
  match nonBillableStatus r with
  | None => Some []
  | Some (NBEnum c) => Some (category_value c)
  | Some (NBObjectProto _) => None
  end.

(** Row [a] may precede row [b] in a table sorted by [key] in direction [d]:
    the two date columns by the time value that [Number] gives, every other
    column by the collator on the field's text. *)
Definition column_le (key : SortKey) (d : SortDir) (a b : Resource) : Prop :=
  match key with
  | SKassignmentStartDate =>
      dir_le Z.le d (double_round (assignmentStartDate a)) (double_round (assignmentStartDate b))
  | SKassignmentEndDate =>
      dir_le Z.le d (double_round (assignmentEndDate a)) (double_round (assignmentEndDate b))
  | SKbillabilityStatus =>
      dir_le text_le d (billability_value (billabilityStatus a)) (billability_value (billabilityStatus b))
  | SKnonBillableStatus =>
      match category_text a, category_text b with
      | Some x, Some y => dir_le text_le d x y
      | _, _ => False
      end
  | SKstatus => dir_le text_le d (status_value (status a)) (status_value (status b))
  | SKemployeeId => dir_le text_le d (employeeId a) (employeeId b)
  | SKname => dir_le text_le d (name a) (name b)
  | SKemail => dir_le text_le d (email a) (email b)
  | SKcontactNumber => dir_le text_le d (contactNumber a) (contactNumber b)
  | SKlocation => dir_le text_le d (location a) (location b)
  | SKclient => dir_le text_le d (client a) (client b)
  | SKproject => dir_le text_le d (project a) (project b)
  | SKprojectManager => dir_le text_le d (projectManager a) (projectManager b)
  | SKreportingManager => dir_le text_le d (reportingManager a) (reportingManager b)
  | SKdeliveryHead => dir_le text_le d (deliveryHead a) (deliveryHead b)
  end.

(** Two rows tie on a column when each may precede the other. *)
Definition column_tie (key : SortKey) (a b : Resource) : Prop :=
  column_le key Asc a b /\ column_le key Asc b a.

#[global] Instance text_le_dec x y : Decision (text_le x y).
Proof. unfold text_le. apply _. Defined.

#[global] Instance column_le_dec key d a b : Decision (column_le key d a b).
Proof. destruct key, d; cbn; repeat case_match; apply _. Defined.

#[global] Instance column_tie_dec key a b : Decision (column_tie key a b).
Proof. unfold column_tie. apply _. Defined.
End Sorting.

(** ** The code-point collator *)

(** Comparison by code units, the order of [<] on strings. *)
Fixpoint lex_compare (a b : jstr) : comparison :=
  match a, b with
  | [], [] => Eq
  | [], _ => Lt
  | _, [] => Gt
  | x :: a', y :: b' =>
      match N.compare (N_of_ascii x) (N_of_ascii y) with
      | Eq => lex_compare a' b'
      | c => c
      end
  end.

Lemma lex_compare_antisym a b : lex_compare b a = CompOpp (lex_compare a b).
Proof.
  revert b. induction a as [|x a IH]; intros [|y b]; simpl; try done.
  rewrite (N.compare_antisym (N_of_ascii x) (N_of_ascii y)).
  destruct (N.compare (N_of_ascii x) (N_of_ascii y)); simpl; auto.
Qed.

Lemma lex_compare_trans a b c :
  lex_compare a b <> Gt -> lex_compare b c <> Gt -> lex_compare a c <> Gt.
Proof.
  revert b c. induction a as [|x a IH]; intros [|y b] [|z c]; simpl; try done.
  destruct (N.compare_spec (N_of_ascii x) (N_of_ascii y)) as [Hxy|Hxy|Hxy];
  destruct (N.compare_spec (N_of_ascii y) (N_of_ascii z)) as [Hyz|Hyz|Hyz];
  destruct (N.compare_spec (N_of_ascii x) (N_of_ascii z)) as [Hxz|Hxz|Hxz];
    try done; try lia. apply IH.
Qed.

#[global] Instance codepoint_collator : Collator :=
  {| locale_compare := lex_compare;
     locale_compare_antisym := lex_compare_antisym;
     locale_compare_trans := lex_compare_trans |}.

(** ** Lemmas *)

Lemma dedup_elem seen l x : x ∈ dedup seen l <-> x ∈ l /\ x ∉ seen.
Proof.
  revert seen. induction l as [|y l IH]; intros seen; simpl; [set_solver|].
  case_decide as Hy.
  - rewrite IH, elem_of_cons. split; [tauto|]. intros [[->|?] ?]; [done|tauto].
  - rewrite elem_of_cons, IH, !elem_of_cons. split; [intros [->|[? ?]]; tauto|].
    intros [[->|Hx] Hs]; [by left|]. destruct (decide (x = y)) as [->|]; [by left|right; tauto].
Qed.

Lemma dedup_nodup seen l : NoDup (dedup seen l).
Proof.
  revert seen. induction l as [|y l IH]; intros seen; simpl; [constructor|].
  case_decide; [apply IH|]. constructor; [|apply IH].
  rewrite dedup_elem, elem_of_cons. tauto.
Qed.

Lemma insert_by_perm {A} (cmp : A -> A -> comparison) x l : insert_by cmp x l ≡ₚ x :: l.
Proof.
  induction l as [|y l IH]; simpl; [done|]. case_decide; [done|].
  rewrite IH. apply perm_swap.
Qed.

Lemma sort_by_perm {A} (cmp : A -> A -> comparison) l : sort_by cmp l ≡ₚ l.
Proof.
  unfold sort_by. assert (H : forall acc, foldl (fun acc x => insert_by cmp x acc) acc l ≡ₚ acc ++ l).
  { induction l as [|x l IH]; intros acc; simpl; [by rewrite app_nil_r|].
    rewrite IH, insert_by_perm. simpl. apply Permutation_middle. }
  apply H.
Qed.

Lemma Sorted_weaken {A} (R1 R2 : A -> A -> Prop) l :
  (forall a b, R1 a b -> R2 a b) -> Sorted R1 l -> Sorted R2 l.
Proof.
  intros HR. induction 1 as [|a l Hs IH Hhd]; constructor; [done|].
  destruct Hhd; constructor. by apply HR.
Qed.

Section SortedSection.
Context {A : Type} (cmp : A -> A -> comparison) (P : A -> Prop).
Hypothesis cmp_antisym : forall a b, P a -> P b -> cmp b a = CompOpp (cmp a b).

Lemma insert_by_hd y x l :
  HdRel (fun a b => cmp a b <> Gt) y l -> cmp y x <> Gt ->
  HdRel (fun a b => cmp a b <> Gt) y (insert_by cmp x l).
Proof.
  intros Hhd Hyx. destruct l as [|z l]; simpl; [by constructor|].
  case_decide; constructor; [done|]. by inversion Hhd.
Qed.

Lemma insert_by_sorted x l :
  P x -> Forall P l -> Sorted (fun a b => cmp a b <> Gt) l ->
  Sorted (fun a b => cmp a b <> Gt) (insert_by cmp x l).
Proof.
  intros Hx. induction l as [|y l IH]; intros Hl Hs; simpl; [by repeat constructor|].
  apply Forall_cons in Hl as [Hy Hl]. case_decide as Hc.
  - constructor; [done|]. constructor. by rewrite Hc.
  - apply Sorted_inv in Hs as [Hs Hhd]. constructor; [by apply IH|].
    apply insert_by_hd; [done|]. rewrite (cmp_antisym x y Hx Hy). by destruct (cmp x y).
Qed.

(** Sorting with a comparator antisymmetric on the rows gives rows in
    order: no row compares greater than the next. *)
Lemma sort_by_sorted l :
  Forall P l -> Sorted (fun a b => cmp a b <> Gt) (sort_by cmp l).
Proof.
  unfold sort_by. assert (H : forall acc, Forall P acc -> Sorted (fun a b => cmp a b <> Gt) acc ->
                       Forall P l -> Sorted (fun a b => cmp a b <> Gt)
                                      (foldl (fun acc x => insert_by cmp x acc) acc l)).
  { induction l as [|x l IH]; intros acc Hacc Hs Hl; simpl; [done|].
    apply Forall_cons in Hl as [Hx Hl]. apply IH; [|by apply insert_by_sorted|done].
    rewrite (insert_by_perm cmp x acc). by constructor. }
  intros Hl. apply H; [constructor|constructor|done].
Qed.
End SortedSection.

Lemma Sorted_weaken_in {A} (R1 R2 : A -> A -> Prop) l :
  (forall a b, a ∈ l -> b ∈ l -> R1 a b -> R2 a b) -> Sorted R1 l -> Sorted R2 l.
Proof.
  intros HR Hs. induction Hs as [|a l Hs IH Hhd]; constructor.
  - apply IH. intros x y Hx Hy. apply HR; by apply elem_of_cons; right.
  - destruct Hhd as [|b l' Hab]; constructor. apply HR; [by left|by right; left|done].
Qed.

Section StableSection.
Context {A : Type} (cmp : A -> A -> comparison) (P : A -> Prop).
Hypothesis cmp_antisym : forall a b, P a -> P b -> cmp b a = CompOpp (cmp a b).
Hypothesis cmp_trans : forall a b c, P a -> P b -> P c -> cmp a b <> Gt -> cmp b c <> Gt -> cmp a c <> Gt.

Lemma cmp_lt_le a b c : P a -> P b -> P c -> cmp a b = Lt -> cmp b c <> Gt -> cmp a c = Lt.
Proof.
  intros Ha Hb Hc Hab Hbc. pose proof (cmp_trans a b c Ha Hb Hc ltac:(by rewrite Hab) Hbc) as Hac.
  destruct (cmp a c) eqn:E; [|done|done]. exfalso.
  assert (cmp c a <> Gt) as Hca by (rewrite (cmp_antisym a c Ha Hc), E; done).
  apply (cmp_trans b c a Hb Hc Ha Hbc Hca). by rewrite (cmp_antisym a b Ha Hb), Hab.
Qed.

Lemma cmp_le_lt a b c : P a -> P b -> P c -> cmp a b <> Gt -> cmp b c = Lt -> cmp a c = Lt.
Proof.
  intros Ha Hb Hc Hab Hbc. pose proof (cmp_trans a b c Ha Hb Hc Hab ltac:(by rewrite Hbc)) as Hac.
  destruct (cmp a c) eqn:E; [|done|done]. exfalso.
  assert (cmp c a <> Gt) as Hca by (rewrite (cmp_antisym a c Ha Hc), E; done).
  apply (cmp_trans c a b Hc Ha Hb Hca Hab). by rewrite (cmp_antisym b c Hb Hc), Hbc.
Qed.

(** In a sorted list, a value below the head is below every element. *)
Lemma sorted_all_above x y l :
  P x -> Forall P (y :: l) -> Sorted (fun a b => cmp a b <> Gt) (y :: l) -> cmp x y = Lt ->
  Forall (fun z => cmp x z = Lt) (y :: l).
Proof.
  revert y. induction l as [|z l IH]; intros y Hx Hl Hs Hxy; [by repeat constructor|].
  apply Forall_cons in Hl as [Hy Hl]. apply Sorted_inv in Hs as [Hs Hhd]. inversion Hhd; subst.
  constructor; [done|]. apply IH; [done|done|done|].
  apply (cmp_lt_le x y z); [done|done|by apply Forall_inv in Hl|done|done].
Qed.

Lemma filter_none {B} (Q : B -> Prop) `{!forall z, Decision (Q z)} l :
  Forall (fun z => ¬ Q z) l -> filter Q l = [].
Proof. induction 1; [done|]. by rewrite filter_cons_False. Qed.

Lemma filter_Forall_iff {B} (Q1 Q2 : B -> Prop) `{!forall z, Decision (Q1 z)} `{!forall z, Decision (Q2 z)} l :
  Forall (fun z => Q1 z <-> Q2 z) l -> filter Q1 l = filter Q2 l.
Proof.
  induction 1 as [|z l Hz _ IH]; [done|]. rewrite !filter_cons, IH.
  by destruct (decide (Q1 z)), (decide (Q2 z)); naive_solver.
Qed.

(** Inserting [x] into a sorted list puts it after the elements that tie
    with it: the ties of [x0] keep their order, [x] last. *)
Lemma insert_by_stable x0 x l :
  P x0 -> P x -> Forall P l -> Sorted (fun a b => cmp a b <> Gt) l ->
  filter (fun y => cmp x0 y = Eq) (insert_by cmp x l) =
    filter (fun y => cmp x0 y = Eq) l ++ filter (fun y => cmp x0 y = Eq) [x].
Proof.
  intros H0 Hx. induction l as [|y l IH]; intros Hl Hs; [done|]. cbn [insert_by].
  case_decide as Hxy.
  - rewrite filter_cons, (filter_cons (fun y => cmp x0 y = Eq) x []), filter_nil. case_decide as Ht; [|by rewrite app_nil_r].
    rewrite filter_none; [done|].
    pose proof (sorted_all_above x y l Hx Hl Hs Hxy) as Hall.
    apply Forall_forall. intros z Hz Hz0. rewrite Forall_forall in Hall, Hl.
    enough (cmp x0 z = Lt) by congruence.
    apply (cmp_le_lt x0 x z); [done|done|by apply Hl|by rewrite Ht|by apply Hall].
  - apply Forall_cons in Hl as [Hy Hl]. apply Sorted_inv in Hs as [Hs _].
    rewrite !filter_cons, IH by done. by case_decide.
Qed.

(** The sort is stable: the elements that tie with [x0] come out in the
    order they went in. *)
Lemma sort_by_stable x0 l :
  P x0 -> Forall P l ->
  filter (fun y => cmp x0 y = Eq) (sort_by cmp l) = filter (fun y => cmp x0 y = Eq) l.
Proof.
  intros H0. unfold sort_by.
  enough (forall acc, Forall P acc -> Sorted (fun a b => cmp a b <> Gt) acc -> Forall P l ->
    filter (fun y => cmp x0 y = Eq) (foldl (fun acc x => insert_by cmp x acc) acc l) =
    filter (fun y => cmp x0 y = Eq) acc ++ filter (fun y => cmp x0 y = Eq) l) as H.
  { intros Hl. by rewrite (H []); [| constructor..|]. }
  induction l as [|x l IH]; intros acc Hacc Hs Hl; cbn [foldl]; [by rewrite filter_nil, app_nil_r|].
  apply Forall_cons in Hl as [Hx Hl].
  rewrite IH; [|rewrite (insert_by_perm cmp x acc); by constructor|by apply (insert_by_sorted cmp P cmp_antisym)|done].
  rewrite insert_by_stable by done. rewrite <- app_assoc. f_equal.
  change (x :: l) with ([x] ++ l). by rewrite filter_app.
Qed.
End StableSection.

(** ** Theorems *)

(** The page shows exactly the resources matching the search, billability
    and practice filters, in the order of the backend's list. *)
Theorem filtered_spec search bf pf rs :
  filtered search bf pf rs `sublist_of` rs /\
  forall r, r ∈ filtered search bf pf rs <->
    r ∈ rs /\ matchesSearch search r = true /\ matchesBillability bf r = true /\
    matchesPractice pf r = true.
Proof.
  split; [apply sublist_filter|]. intros r. unfold filtered.
  rewrite list_elem_of_filter, !andb_true_iff. tauto.
Qed.

(** The practice select offers each non-empty practice of the list once. *)
Theorem practices_spec rs :
  NoDup (practices rs) /\
  forall p, p ∈ practices rs <-> p <> [] /\ exists r, r ∈ rs /\ practice r = p.
Proof.
  split; [apply dedup_nodup|]. intros p. unfold practices.
  rewrite dedup_elem, list_elem_of_filter, list_elem_of_fmap. set_solver.
Qed.

Section SortTheorems.
Context `{C : Collator}.

Lemma val_compare_antisym a b : val_compare b a = CompOpp <$> val_compare a b.
Proof.
  destruct a, b; simpl; try done; f_equal.
  - apply Z.compare_antisym.
  - apply locale_compare_antisym.
Qed.

Lemma table_compare_antisym key d a b :
  (table_compare key d b a ?? Eq) = CompOpp (table_compare key d a b ?? Eq).
Proof.
  unfold table_compare. rewrite val_compare_antisym.
  destruct (val_compare _ _) as [c|]; simpl; [|done]. by destruct d, c.
Qed.

Lemma val_compare_defined key a b :
  sort_val key a <> SVFun -> sort_val key b <> SVFun ->
  is_Some (val_compare (sort_val key a) (sort_val key b)).
Proof.
  destruct key; simpl; try (intros; eexists; reflexivity).
  destruct (nonBillableStatus a) as [[]|], (nonBillableStatus b) as [[]|];
    simpl; intros Ha Hb; try done; eexists; reflexivity.
Qed.

Lemma dir_apply_le {T} (cmp : T -> T -> comparison)
    (Hanti : forall x y, cmp y x = CompOpp (cmp x y)) d x y :
  dir_apply d (cmp x y) <> Gt <-> dir_le (fun x y => cmp x y <> Gt) d x y.
Proof. destruct d; cbn; [done|]. by rewrite (Hanti x y). Qed.

(** The comparator orders two rows as the column promises. *)
Lemma column_le_iff key d a b :
  sort_val key a <> SVFun -> sort_val key b <> SVFun ->
  ((table_compare key d a b ?? Eq) <> Gt <-> column_le key d a b).
Proof.
  pose proof (dir_apply_le locale_compare locale_compare_antisym d) as Ht.
  pose proof (dir_apply_le Z.compare (fun x y => Z.compare_antisym x y) d) as Hz.
  unfold table_compare, column_le, category_text.
  destruct key; cbn -[dir_apply]; try (intros; apply Ht); try (intros; apply Hz).
  destruct (nonBillableStatus a) as [[]|], (nonBillableStatus b) as [[]|];
    cbn -[dir_apply]; intros; try done; apply Ht.
Qed.

Lemma column_le_trans key d a b c :
  column_le key d a b -> column_le key d b c -> column_le key d a c.
Proof.
  pose proof locale_compare_trans as Htr. unfold column_le, text_le.
  destruct key, d; cbn; try lia; try (intros; by eapply Htr);
    repeat case_match; simplify_eq; try done; intros; by eapply Htr.
Qed.

(** Two rows tie for the comparator exactly when they tie on the column. *)
Lemma column_tie_iff key d a b :
  sort_val key a <> SVFun -> sort_val key b <> SVFun ->
  ((table_compare key d a b ?? Eq) = Eq <-> column_tie key a b).
Proof.
  intros Ha Hb. unfold column_tie. rewrite <- !(column_le_iff key Asc) by done.
  unfold table_compare. rewrite (val_compare_antisym (sort_val key a)).
  destruct (val_compare_defined key a b Ha Hb) as [c ->]. destruct c, d; cbn; naive_solver.
Qed.

Lemma table_sort_rows key d rs :
  Forall (fun a => Forall (fun b => is_Some (table_compare key d a b)) rs) rs ->
  Forall (fun r => sort_val key r <> SVFun) rs.
Proof.
  rewrite !Forall_forall. intros H a Ha Hf. specialize (H a Ha). rewrite Forall_forall in H.
  destruct (H a Ha) as [c Hc]. unfold table_compare in Hc. by rewrite Hf in Hc.
Qed.

(** C37: A sort of the table is a reordering of the rows, in the order the
    column promises (by the dates' time values, or by the collator on the
    field's text, reversed for a descending sort), and stable: rows that tie
    on the column keep the order they had. *)
Theorem table_sort_ok key d rs l :
  table_sort key d rs = Some l ->
  l ≡ₚ rs /\ Sorted (column_le key d) l /\
  forall x, x ∈ rs -> filter (column_tie key x) l = filter (column_tie key x) rs.
Proof.
  unfold table_sort. case_decide as Hdef; [|done]. intros [= <-].
  pose proof (table_sort_rows key d rs Hdef) as HP. pose proof HP as HP'. rewrite Forall_forall in HP'.
  assert (forall a b, sort_val key a <> SVFun -> sort_val key b <> SVFun ->
    (table_compare key d b a ?? Eq) = CompOpp (table_compare key d a b ?? Eq)) as Hanti
    by (intros; apply table_compare_antisym).
  assert (forall a b c, sort_val key a <> SVFun -> sort_val key b <> SVFun -> sort_val key c <> SVFun ->
    (table_compare key d a b ?? Eq) <> Gt -> (table_compare key d b c ?? Eq) <> Gt ->
    (table_compare key d a c ?? Eq) <> Gt) as Htrans
    by (intros a b c Ha Hb Hc Hab Hbc; apply column_le_iff in Hab, Hbc; try done;
        apply column_le_iff; [done|done|]; by eapply column_le_trans).
  split_and!; [apply sort_by_perm| |].
  - eapply Sorted_weaken_in; [|by apply (sort_by_sorted _ _ Hanti)].
    intros a b Ha Hb. rewrite sort_by_perm in Ha, Hb. apply column_le_iff; by apply HP'.
  - intros x Hx.
    assert (forall l', l' ≡ₚ rs -> filter (column_tie key x) l' =
              filter (fun y => (table_compare key d x y ?? Eq) = Eq) l') as Hf.
    { intros l' Hl'. apply filter_Forall_iff, Forall_forall. intros y Hy. rewrite Hl' in Hy.
      symmetry. apply column_tie_iff; by apply HP'. }
    rewrite !Hf by (done || apply sort_by_perm).
    by apply (sort_by_stable _ _ Hanti Htrans); [apply HP'|].
Qed.

(** The sort is defined whenever no row's value for the column is a
    function: on every column but the category always, and on the category
    unless a prototype member was imported. *)
Theorem table_sort_defined key d rs :
  Forall (fun r => sort_val key r <> SVFun) rs -> is_Some (table_sort key d rs).
Proof.
  intros Hrs. unfold table_sort. rewrite decide_True; [eauto|].
  rewrite Forall_forall in Hrs. apply Forall_forall. intros a Ha.
  apply Forall_forall. intros b Hb. unfold table_compare.
  destruct (val_compare_defined key a b (Hrs a Ha) (Hrs b Hb)) as [c ->]. by eexists.
Qed.
End SortTheorems.

(** A click on the sorted column flips the direction and a second click
    restores it; a click on another column sorts it ascending. *)
Theorem handleSort_spec key st :
  (fst st = key -> handleSort key (handleSort key st) = st /\ snd (handleSort key st) <> snd st) /\
  (fst st <> key -> handleSort key st = (key, Asc)).
Proof.
  destruct st as [k d]. simpl. split; intros Hk.
  - subst. unfold handleSort. rewrite !decide_True by done. by destruct d.
  - unfold handleSort. by rewrite decide_False.
Qed.

(** The date columns sort by the exact dates: [Number] rounds a nanosecond
    timestamp to a double, but for dates within 2^62 ns of 1970 (until the
    year 2116) two timestamps more than 2^9 ns apart, and in particular two
    distinct millisecond timestamps, keep their order. *)
Theorem date_compare_exact key d a b :
  key = SKassignmentStartDate \/ key = SKassignmentEndDate ->
  let ta := (if decide (key = SKassignmentStartDate) then assignmentStartDate a else assignmentEndDate a) in
  let tb := (if decide (key = SKassignmentStartDate) then assignmentStartDate b else assignmentEndDate b) in
  (Z.abs ta < 2 ^ 62)%Z -> (Z.abs tb < 2 ^ 62)%Z -> (2 ^ 9 < Z.abs (ta - tb))%Z ->
  table_compare (C := codepoint_collator) key d a b = Some (dir_apply d (Z.compare ta tb)).
Proof.
  intros [-> | ->]; simpl; intros Ha Hb Hd; unfold table_compare; simpl;
    by rewrite double_round_compare.
Qed.

(** ** Concrete runs *)

Definition list_row (eid nm : jstr) (cat : option NonBillableValue) : Resource := {|
  id := eid; employeeId := eid; name := nm; email := []; contactNumber := []; location := [];
  client := []; project := []; projectId := None; projectManager := []; reportingManager := [];
  deliveryHead := []; billabilityStatus := BillabilityStatus.nonBillable;
  nonBillableStatus := cat; totalExperience := []; doj := 0%Z; assignmentStartDate := 0%Z;
  assignmentEndDate := 0%Z; practice := []; primarySkills := []; secondarySkills := [];
  status := ResourceStatus.active; role := []; department := []; skillTags := [] |}.

(** Three rows, two of them named alike. *)
Definition sort_rows : list Resource :=
  [list_row (str "E1") (str "Al") None; list_row (str "E2") (str "Zoe") None;
   list_row (str "E3") (str "Al") None].

(** Sorted by name, descending: [Zoe] first, the two [Al] rows in their
    original order. *)
Lemma table_sort_ok_witness :
  table_sort SKname Desc sort_rows = Some [list_row (str "E2") (str "Zoe") None;
    list_row (str "E1") (str "Al") None; list_row (str "E3") (str "Al") None] /\
  Sorted (column_le SKname Desc) [list_row (str "E2") (str "Zoe") None;
    list_row (str "E1") (str "Al") None; list_row (str "E3") (str "Al") None].
Proof.
  split; [reflexivity|]. exact (proj1 (proj2 (table_sort_ok SKname Desc sort_rows _ eq_refl))).
Defined.

Lemma table_sort_defined_witness :
  is_Some (table_sort SKnonBillableStatus Asc
    [list_row (str "E2") (str "Zoe") (Some (NBEnum NonBillableStatus.maternity));
     list_row (str "E1") (str "Al") None]).
Proof. apply table_sort_defined. by_decide. Defined.

(** A row whose category is the inherited [constructor] (see
    [FieldParse.parseNonBillableStatus_prototype]) leaves the category sort
    undetermined: its comparator calls [localeCompare] on a function. *)
Example table_sort_prototype_category :
  table_sort SKnonBillableStatus Asc
    [list_row (str "E2") (str "Zoe") (Some (NBObjectProto (str "constructor")));
     list_row (str "E1") (str "Al") None] = None.
Proof. by_eval. Qed.

(** A row assigned from [t] (ns). *)
Definition row_from (t : Time) (eid : jstr) : Resource :=
  let r := list_row eid (str "X") None in
  {| id := id r; employeeId := employeeId r; name := name r; email := email r;
     contactNumber := contactNumber r; location := location r; client := client r;
     project := project r; projectId := projectId r; projectManager := projectManager r;
     reportingManager := reportingManager r; deliveryHead := deliveryHead r;
     billabilityStatus := billabilityStatus r; nonBillableStatus := nonBillableStatus r;
     totalExperience := totalExperience r; doj := doj r; assignmentStartDate := t;
     assignmentEndDate := assignmentEndDate r; practice := practice r;
     primarySkills := primarySkills r; secondarySkills := secondarySkills r; status := status r;
     role := role r; department := department r; skillTags := skillTags r |}.

Lemma date_compare_exact_witness :
  table_compare (C := codepoint_collator) SKassignmentStartDate Desc
    (row_from 1705276800000000000 (str "E1")) (row_from 1705363200000000000 (str "E2")) =
  Some (dir_apply Desc (Z.compare 1705276800000000000 1705363200000000000)).
Proof.
  apply (date_compare_exact SKassignmentStartDate Desc); [by left|reflexivity..].
Defined.

(** Near the end of the [Date] range two timestamps one millisecond apart
    round to the same double and the date sort sees them as equal. *)
Example date_compare_collision :
  table_compare (C := codepoint_collator) SKassignmentStartDate Asc
    (row_from (8639999999999017 * 1000000) (str "E1"))
    (row_from (8639999999999018 * 1000000) (str "E2")) = Some Eq.
Proof. vm_compute. reflexivity. Qed.
