(* ===== verification/ImportModal.v ===== *)
(** * The import dialog as a state machine: interleavings of its handlers

    [ImportFlow] gives each handler of [ResourceImportModal] as a function.
    Here they are composed into a transition system over everything a user
    can reach:
    - [mounted] and [generation]: [ResourcesPage] renders the dialog only
      while [showImportModal] holds, so closing it unmounts the component and
      opening it mounts a fresh one with the initial state;
    - [ui]: the dialog's [useState]s ([ImportState]);
    - [jobs]: the continuations of [processFile] and [handleImport] still
      waiting for their promise, each tagged with the generation of the
      component that started it.  A continuation of an unmounted component
      runs (the backend call completes) but its [setState]s are dropped;
    - [store]: the backend's store, through [BackendActor].
    A user event ([msys_user]) is enabled only when the JSX renders its
    control: the drop zone while no file is chosen and no summary is shown,
    Change file and Cancel when not parsing, Import more beside a summary,
    the Import button with valid rows while no import of this dialog is
    pending.  A settle step ([msys_settle]) runs one pending continuation.

    Theorems: an invariant of every reachable state (the preview rows keep
    the ValidationOutcome invariant, the spinner is on only while a parse of
    this dialog is pending, at most one import of this dialog is in flight,
    every summary adds up and counts the records it submitted); from every
    reachable state the pending promises can settle and the spinner stops;
    [handleImport] of [ImportFlow] is a run of the machine.  And the races the code leaves
    open: Cancel during an import does not cancel it, so the records are
    stored and the summary of the cancelled rows later replaces the preview
    of a newly chosen file; closing the dialog during an import stores the
    records and no summary is ever shown. *)

From S2P Require Import Prelude JsString Csv Domain JsDate FieldParse RowMapper ImportFlow.

Inductive Job :=
  | JParse (g : nat) (f : UploadFile)
  | JImport (g : nat) (rs : list Resource) (summary : ImportResult).

Record ModalSys (St : Type) := mkModalSys {
  mounted : bool;
  generation : nat;
  ui : ImportState;
  jobs : list Job;
  store : St;
}.
Arguments mkModalSys {St}.
Arguments mounted {St}.
Arguments generation {St}.
Arguments ui {St}.
Arguments jobs {St}.
Arguments store {St}.

Definition job_gen (j : Job) : nat := match j with JParse g _ | JImport g _ _ => g end.

(** A pending [handleImport] of the component of generation [g]. *)
Definition is_import_of (g : nat) (j : Job) : Prop :=
  match j with JImport g' _ _ => g' = g | JParse _ _ => False end.

#[global] Instance is_import_of_dec g j : Decision (is_import_of g j).
Proof. destruct j; simpl; apply _. Defined.

(** A state update of a continuation: applied only to the component that
    started it, if it is still mounted. *)
Definition deliver {St} (g : nat) (upd : ImportState -> ImportState) (m : ModalSys St)
    : ImportState :=
  if decide (mounted m = true /\ g = generation m) then upd (ui m) else ui m.

(** [handleDragOver] and [handleDragLeave]. *)
Definition set_dragging (b : bool) (s : ImportState) : ImportState :=
  {| isDragging := b; file := file s; parsedRows := parsedRows s; parseError := parseError s;
     isParsing := isParsing s; importResult := importResult s |}.

(** The settled promise of [mutateAsync] as [handleImport] sees it, and the
    store after the call. *)
Definition import_outcome {St} (r : Settled St) : Settled unit :=
  match r with Fulfilled _ => Fulfilled tt | Rejected m => Rejected m end.

Definition store_after {St} (r : Settled St) (st : St) : St :=
  match r with Fulfilled st' => st' | Rejected _ => st end.

(** What the JSX renders: the summary block, the drop zone (inside the
    [!importResult] block), Change file, and the action bar with Cancel and
    Import. *)
Definition result_shown (u : ImportState) : Prop := importResult u <> None.
Definition dropzone_shown (u : ImportState) : Prop := importResult u = None /\ file u = None.
Definition change_file_shown (u : ImportState) : Prop :=
  importResult u = None /\ file u <> None /\ isParsing u = false.
Definition actions_shown (u : ImportState) : Prop :=
  importResult u = None /\ parsedRows u <> [] /\ isParsing u = false.

Section System.
Context `{D : JsDate} {St : Type} `{B : BackendActor St}.
Variable ids : nat -> jstr.
Variable actor_ready : bool.

(** The user's events. *)
Inductive msys_user : ModalSys St -> ModalSys St -> Prop :=
  (** The Import button of [ResourcesPage]: a fresh component. *)
  | st_open g u js st :
      msys_user (mkModalSys false g u js st) (mkModalSys true (S g) initialState js st)
  (** [handleClose] (Done, the close button, Escape): [resetState()], then
      the page unmounts the dialog. *)
  | st_close g u js st :
      msys_user (mkModalSys true g u js st) (mkModalSys false g (resetState u) js st)
  (** The drop zone's [handleDragOver] and [handleDragLeave]. *)
  | st_drag g u js st b :
      dropzone_shown u ->
      msys_user (mkModalSys true g u js st) (mkModalSys true g (set_dragging b u) js st)
  (** [handleFileChange] (the file picker inside the drop zone). *)
  | st_pick g u js st f :
      dropzone_shown u ->
      msys_user (mkModalSys true g u js st)
                (mkModalSys true g (processFile_begin f u) (JParse g f :: js) st)
  (** [handleDrop]. *)
  | st_drop g u js st f :
      dropzone_shown u ->
      msys_user (mkModalSys true g u js st)
                (mkModalSys true g (processFile_begin f (set_dragging false u)) (JParse g f :: js) st)
  (** Import more, beside the summary: [resetState]. *)
  | st_import_more g u js st :
      result_shown u ->
      msys_user (mkModalSys true g u js st) (mkModalSys true g (resetState u) js st)
  (** Change file and Cancel: [resetState]. *)
  | st_reset g u js st :
      change_file_shown u \/ actions_shown u ->
      msys_user (mkModalSys true g u js st) (mkModalSys true g (resetState u) js st)
  (** The Import button: in the action bar, disabled without valid rows
      ([handleImport_begin] is [None]) or while [bulkAddMutation.isPending]. *)
  | st_import g u js st rs sm :
      actions_shown u ->
      filter (is_import_of g) js = [] ->
      handleImport_begin u = Some (rs, sm) ->
      msys_user (mkModalSys true g u js st) (mkModalSys true g u (JImport g rs sm :: js) st).

(** A pending continuation runs. *)
Inductive msys_settle : ModalSys St -> ModalSys St -> Prop :=
  (** [processFile] after its [await]: the [setState]s reach only its own
      component. *)
  | st_parsed mt g u js1 js2 st g' f :
      msys_settle (mkModalSys mt g u (js1 ++ JParse g' f :: js2) st)
                  (mkModalSys mt g
                     (deliver g' (processFile_finish ids (parse_upload f))
                        (mkModalSys mt g u (js1 ++ js2) st)) (js1 ++ js2) st)
  (** [handleImport] after its [await]: the store changes on success whether
      or not the dialog is still there. *)
  | st_imported mt g u js1 js2 st g' rs sm :
      msys_settle (mkModalSys mt g u (js1 ++ JImport g' rs sm :: js2) st)
                  (mkModalSys mt g
                     (deliver g' (handleImport_finish sm (import_outcome (bulkAdd actor_ready rs st)))
                        (mkModalSys mt g u (js1 ++ js2) st))
                     (js1 ++ js2) (store_after (bulkAdd actor_ready rs st) st)).

Inductive msys_step (m m' : ModalSys St) : Prop :=
  | ms_user : msys_user m m' -> msys_step m m'
  | ms_settle : msys_settle m m' -> msys_step m m'.

(** The states a session reaches from a closed dialog and a store. *)
Inductive msys_reachable : ModalSys St -> Prop :=
  | mr_init st : msys_reachable (mkModalSys false 0 initialState [] st)
  | mr_step m m' : msys_reachable m -> msys_step m m' -> msys_reachable m'.
End System.

(** ** The invariant *)

(** A pending import carries a summary that adds up and counts exactly the
    records it submits, at least one. *)
Definition summary_ok (sm : ImportResult) : Prop :=
  total sm = success sm + failed sm /\ length (failedRows sm) = failed sm.

Definition job_ok (j : Job) : Prop :=
  match j with
  | JParse _ _ => True
  | JImport _ rs sm => summary_ok sm /\ length rs = success sm /\ 0 < success sm
  end.

Record msys_inv {St} (m : ModalSys St) : Prop := {
  inv_rows : Forall row_consistent (parsedRows (ui m));
  inv_gens : Forall (fun j => job_gen j <= generation m) (jobs m);
  inv_spinner : isParsing (ui m) = true ->
                mounted m = true /\ exists f, JParse (generation m) f ∈ jobs m;
  inv_jobs : Forall job_ok (jobs m);
  inv_summary : from_option summary_ok True (importResult (ui m));
  inv_one_import : length (filter (is_import_of (generation m)) (jobs m)) <= 1;
}.

Lemma deliver_cases {St} g upd (m : ModalSys St) :
  (mounted m = true /\ g = generation m /\ deliver g upd m = upd (ui m)) \/
  (¬ (mounted m = true /\ g = generation m) /\ deliver g upd m = ui m).
Proof. unfold deliver. case_decide; [left|right]; tauto. Qed.

Section Preservation.
Context `{D : JsDate} (ids : nat -> jstr).

Lemma processFile_finish_inv o u :
  Forall row_consistent (parsedRows u) ->
  Forall row_consistent (parsedRows (processFile_finish ids o u)) /\
  isParsing (processFile_finish ids o u) = false /\
  importResult (processFile_finish ids o u) = importResult u.
Proof.
  intros Hc. unfold processFile_finish.
  destruct o as [[headers rows]|msg]; [|done].
  repeat case_decide; simpl; auto using map_rows_consistent.
Qed.
End Preservation.

Lemma handleImport_finish_inv sm o u :
  parsedRows (handleImport_finish sm o u) = parsedRows u /\
  isParsing (handleImport_finish sm o u) = isParsing u /\
  (importResult (handleImport_finish sm o u) = Some sm \/
   importResult (handleImport_finish sm o u) = importResult u).
Proof. destruct o; simpl; auto. Qed.

Lemma length_omap_resource rows :
  Forall (fun r => is_Some (resource r)) rows -> length (omap resource rows) = length rows.
Proof.
  induction 1 as [|r rows [x Hx] _ IH]; [done|]. simpl. rewrite Hx. simpl. by f_equal.
Qed.

(** The batch and the summary [handleImport] submits satisfy [job_ok]. *)
Lemma handleImport_begin_ok u rs sm :
  Forall row_consistent (parsedRows u) -> handleImport_begin u = Some (rs, sm) ->
  summary_ok sm /\ length rs = success sm /\ 0 < success sm.
Proof.
  intros Hc. unfold handleImport_begin. case_decide as Hv; [done|].
  intros [= <- <-]. split; [by apply import_summary_counts|]. simpl.
  split; [|destruct (validRows u); [done|simpl; lia]].
  apply length_omap_resource, Forall_forall. intros r Hr.
  apply list_elem_of_filter in Hr. tauto.
Qed.

Lemma filter_import_of_none g js :
  Forall (fun j => job_gen j <= g) js -> filter (is_import_of (S g)) js = [].
Proof.
  induction 1 as [|j js Hj _ IH]; [done|].
  rewrite filter_cons, decide_False; [done|]. destruct j; simpl in *; lia.
Qed.

(** After a continuation leaves the queue, the spinner still has a parse of
    its own component pending unless the one that left was that parse. *)
Lemma spinner_remove (mt : bool) g u js1 js2 j :
  (isParsing u = true -> mt = true /\ exists f, JParse g f ∈ js1 ++ j :: js2) ->
  (forall f, j = JParse g f -> mt = true -> isParsing u = false) ->
  isParsing u = true -> mt = true /\ exists f, JParse g f ∈ js1 ++ js2.
Proof.
  intros Hs Hj Hp. destruct (Hs Hp) as [Hm [f Hf]]. split; [done|]. exists f.
  apply (elem_of_remove_ne _ j); [done|]. intros Heq.
  rewrite (Hj f (eq_sym Heq) Hm) in Hp. discriminate.
Qed.

(** [resetState] re-establishes every part of the invariant that reads the
    dialog's state. *)
Lemma msys_inv_reset {St} mt mt' g u js (st : St) :
  msys_inv (mkModalSys mt g u js st) -> msys_inv (mkModalSys mt' g (resetState u) js st).
Proof. intros [Hr Hg Hs Hj Hsum Hone]. by split. Qed.

(** A new parse of the mounted dialog: the spinner is on and that parse is
    pending. *)
Lemma msys_inv_begin {St} g u u' js f (st : St) :
  msys_inv (mkModalSys true g u js st) ->
  msys_inv (mkModalSys true g (processFile_begin f u') (JParse g f :: js) st).
Proof.
  intros [Hr Hg Hs Hj Hsum Hone].
  split; simpl; [by constructor|constructor; [simpl; lia|done]
                |intros _; split; [done|exists f; by left]|by constructor|done
                |rewrite filter_cons, decide_False; [exact Hone|intros []]].
Qed.

Section Steps.
Context `{D : JsDate} {St : Type} `{B : BackendActor St}.
Variable ids : nat -> jstr.
Variable actor_ready : bool.

Lemma msys_user_inv (m m' : ModalSys St) :
  msys_inv m -> msys_user m m' -> msys_inv m'.
Proof.
  intros Hinv Hst. destruct Hst as [g u js st|g u js st|g u js st b|g u js st f _|g u js st f _
    |g u js st _|g u js st _|g u js st rs sm [_ [_ Hp]] Hnone Hbeg];
    try by eapply msys_inv_reset.
  all: try by eapply msys_inv_begin.
  all: destruct Hinv as [Hr Hg Hs Hj Hsum Hone]; simpl in *.
  - split; simpl; try done.
    + eapply Forall_impl; [exact Hg|]. simpl. lia.
    + rewrite filter_import_of_none by exact Hg. simpl. lia.
  - by split.
  - split; simpl; try done.
    + by constructor.
    + intros Hp'. congruence.
    + constructor; [|done]. by apply (handleImport_begin_ok u).
    + rewrite filter_cons, decide_True, Hnone; done.
Qed.

Lemma msys_settle_inv (m m' : ModalSys St) :
  msys_inv m -> msys_settle ids actor_ready m m' -> msys_inv m'.
Proof.
  intros [Hr Hg Hs Hj Hsum Hone] Hst.
  destruct Hst as [mt g u js1 js2 st g' f|mt g u js1 js2 st g' rs sm]; simpl in *;
    apply Forall_remove in Hg as [_ Hg]; apply Forall_remove in Hj as [Hjob Hj].
  - destruct (deliver_cases g' (processFile_finish ids (parse_upload f))
                (mkModalSys mt g u (js1 ++ js2) st)) as [(_ & _ & ->)|(Hnd & ->)]; simpl.
    + destruct (processFile_finish_inv ids (parse_upload f) u Hr) as (Hr' & Hp' & Hi').
      split; simpl; try done.
      * by rewrite Hp'.
      * by rewrite Hi'.
      * etrans; [apply filter_remove_length|exact Hone].
    + split; simpl; try done.
      * apply (spinner_remove mt g u js1 js2 (JParse g' f) Hs).
        intros f' [= -> _] ->. exfalso. by apply Hnd.
      * etrans; [apply filter_remove_length|exact Hone].
  - destruct (deliver_cases g' (handleImport_finish sm (import_outcome (bulkAdd actor_ready rs st)))
                (mkModalSys mt g u (js1 ++ js2) st)) as [(_ & _ & ->)|(_ & ->)]; simpl.
    + destruct (handleImport_finish_inv sm (import_outcome (bulkAdd actor_ready rs st)) u)
        as (Hr' & Hp' & Hi').
      split; simpl.
      * by rewrite Hr'.
      * done.
      * rewrite Hp'. apply (spinner_remove mt g u js1 js2 _ Hs). by intros ? [=].
      * done.
      * destruct Hi' as [-> | ->]; [apply Hjob|done].
      * etrans; [apply filter_remove_length|exact Hone].
    + split; simpl; try done.
      * apply (spinner_remove mt g u js1 js2 _ Hs). by intros ? [=].
      * etrans; [apply filter_remove_length|exact Hone].
Qed.

(** C20: Every reachable state of the dialog satisfies [msys_inv]. *)
Theorem msys_reachable_inv (m : ModalSys St) :
  msys_reachable ids actor_ready m -> msys_inv m.
Proof.
  induction 1 as [st|m m' _ IH [Hu|Hs]].
  - split; simpl; try done. lia.
  - by eapply msys_user_inv.
  - by eapply msys_settle_inv.
Qed.
End Steps.

(** ** Runs *)

Lemma deliver_mounted {St} g upd u js (st : St) :
  deliver g upd (mkModalSys true g u js st) = upd u.
Proof. unfold deliver. by rewrite decide_True. Qed.

Section Runs.
Context `{D : JsDate} {St : Type} `{B : BackendActor St}.
Variable ids : nat -> jstr.
Variable actor_ready : bool.

Lemma msys_reachable_rtc (m m' : ModalSys St) :
  msys_reachable ids actor_ready m -> rtc (msys_step ids actor_ready) m m' ->
  msys_reachable ids actor_ready m'.
Proof. intros Hr Hrun. induction Hrun; eauto using mr_step. Qed.

(** The pending continuations can all run, in queue order. *)
Lemma settle_all mt g u js (st : St) :
  exists u' st', rtc (msys_step ids actor_ready) (mkModalSys mt g u js st) (mkModalSys mt g u' [] st').
Proof.
  induction js as [|j js IH] in u, st |- *; [exists u, st; apply rtc_refl|].
  destruct j as [g' f|g' rs sm].
  - destruct (IH (deliver g' (processFile_finish ids (parse_upload f)) (mkModalSys mt g u js st)) st)
      as (u' & st' & H).
    exists u', st'. eapply rtc_l; [|exact H].
    apply ms_settle. exact (st_parsed ids actor_ready mt g u [] js st g' f).
  - destruct (IH (deliver g' (handleImport_finish sm (import_outcome (bulkAdd actor_ready rs st)))
                    (mkModalSys mt g u js st)) (store_after (bulkAdd actor_ready rs st) st))
      as (u' & st' & H).
    exists u', st'. eapply rtc_l; [|exact H].
    apply ms_settle. exact (st_imported ids actor_ready mt g u [] js st g' rs sm).
Qed.

(** C21: From every reachable state the pending promises can all
    settle, and then the spinner is off. *)
Theorem spinner_stops (m : ModalSys St) :
  msys_reachable ids actor_ready m ->
  exists m', rtc (msys_step ids actor_ready) m m' /\ msys_reachable ids actor_ready m' /\
             jobs m' = [] /\ isParsing (ui m') = false.
Proof.
  intros Hr. destruct m as [mt g u js st].
  destruct (settle_all mt g u js st) as (u' & st' & Hrun).
  assert (Hr' : msys_reachable ids actor_ready (mkModalSys mt g u' [] st'))
    by (eapply msys_reachable_rtc; eauto).
  exists (mkModalSys mt g u' [] st'). split_and!; try done.
  destruct (isParsing u') eqn:E; [|done].
  destruct (inv_spinner _ (msys_reachable_inv ids actor_ready _ Hr') E) as [_ [f Hf]].
  simpl in Hf. set_solver.
Qed.

(** [handleImport] of [ImportFlow], run from the Import button
    while no import of this dialog is pending, is a run of the machine: the
    click, then the bulk call settling. *)
Theorem handleImport_refines g u js (st : St) rs sm :
  actions_shown u -> filter (is_import_of g) js = [] -> handleImport_begin u = Some (rs, sm) ->
  rtc (msys_step ids actor_ready) (mkModalSys true g u js st)
      (mkModalSys true g (handleImport actor_ready u st).1 js (handleImport actor_ready u st).2).
Proof.
  intros Ha Hn Hb. eapply rtc_l; [apply ms_user, st_import; eauto|]. apply rtc_once, ms_settle.
  pose proof (st_imported ids actor_ready true g u [] js st g rs sm) as H.
  rewrite deliver_mounted in H. unfold handleImport. rewrite Hb.
  destruct (bulkAdd actor_ready rs st); exact H.
Qed.
End Runs.

(** ** The races the code leaves open *)

Section Reach.
Context `{D : JsDate} {St : Type} `{B : BackendActor St}.
Variable ids : nat -> jstr.
Variable actor_ready : bool.

Lemma reach_user (m m' : ModalSys St) :
  msys_reachable ids actor_ready m -> msys_user m m' -> msys_reachable ids actor_ready m'.
Proof. intros Hr H. exact (mr_step ids actor_ready m m' Hr (ms_user ids actor_ready m m' H)). Qed.

Lemma reach_settle (m m' : ModalSys St) :
  msys_reachable ids actor_ready m -> msys_settle ids actor_ready m m' ->
  msys_reachable ids actor_ready m'.
Proof. intros Hr H. exact (mr_step ids actor_ready m m' Hr (ms_settle ids actor_ready m m' H)). Qed.
End Reach.

(** A second file, with one valid row. *)
Definition second_upload : UploadFile :=
  mkUploadFile (str "more.csv")
    (Fulfilled (str "Employee ID,Name,Email ID" ++ [LF] ++ str "E9,Zed Ray,zed@x.com"))
    (Rejected (str "not a workbook")).

(** A store that appends each batch. *)
#[local] Instance modal_store : BackendActor (list Resource) :=
  {| addBulkResources rs st := Fulfilled (st ++ rs) |}.

(** The dialog opened, [sample_upload] parsed, and its import in flight. *)
Lemma import_in_flight_reachable :
  msys_reachable (D := utc_date) sample_gen true
    (mkModalSys true 1 sample_state
       [JImport 1 (omap resource (validRows sample_state)) (import_summary sample_state)] []).
Proof.
  pose proof (mr_init (D := utc_date) (B := modal_store) sample_gen true []) as R.
  eapply reach_user in R; [|apply st_open].
  eapply reach_user in R; [|apply (st_pick 1 initialState [] [] sample_upload); by split].
  eapply reach_settle in R;
    [|exact (st_parsed sample_gen true true 1 _ [] [] [] 1 sample_upload)].
  eapply reach_user in R; [exact R|]. apply st_import; [split_and!; vm_compute; [reflexivity|discriminate|reflexivity]|reflexivity|vm_compute; reflexivity].
Qed.

(** C22: Cancel does not cancel an import in flight.  After Cancel the
    user chooses [second_upload]; its rows are previewed, then the cancelled
    import settles: the records of the cancelled file are stored, and its
    summary replaces the preview of the new file, whose rows were never
    submitted. *)
Theorem cancel_import_stale_summary :
  exists m, msys_reachable (D := utc_date) (B := modal_store) sample_gen true m /\
    mounted m = true /\ file (ui m) = Some second_upload /\
    importResult (ui m) = Some (import_summary sample_state) /\
    importResult (ui m) <> Some (import_summary (ui m)) /\
    store m = omap resource (parsedRows sample_state).
Proof.
  pose proof import_in_flight_reachable as R.
  eapply reach_user in R; [|apply st_reset; right; split_and!; vm_compute;
                            [reflexivity|discriminate|reflexivity]].
  eapply reach_user in R; [|apply (st_pick 1 _ _ [] second_upload); by split].
  eapply reach_settle in R; [|exact (st_parsed sample_gen true true 1 _ [] _ [] 1 second_upload)].
  eapply reach_settle in R; [|exact (st_imported sample_gen true true 1 _ [] [] [] 1 _ _)].
  eexists; split; [exact R|]. split_and!; vm_compute; try reflexivity. discriminate.
Qed.

(** C23: Closing the dialog while an import is in flight does not stop it: once
    it settles the records are stored, and the reopened dialog is empty, with
    nothing pending, so no summary or error of that import is ever shown. *)
Theorem close_during_import_stores :
  exists m, msys_reachable (D := utc_date) (B := modal_store) sample_gen true m /\
    mounted m = true /\ jobs m = [] /\ ui m = initialState /\
    store m = omap resource (parsedRows sample_state) /\ store m <> [].
Proof.
  pose proof import_in_flight_reachable as R.
  eapply reach_user in R; [|apply st_close].
  eapply reach_settle in R; [|exact (st_imported sample_gen true false 1 _ [] [] [] 1 _ _)].
  eapply reach_user in R; [|apply st_open].
  eexists; split; [exact R|]. split_and!; vm_compute; try reflexivity. discriminate.
Qed.

(** ** Witnesses *)

Lemma msys_reachable_inv_witness :
  msys_inv (mkModalSys true 1 sample_state
              [JImport 1 (omap resource (validRows sample_state)) (import_summary sample_state)]
              ([] : list Resource)).
Proof. exact (msys_reachable_inv (D := utc_date) (B := modal_store) sample_gen true _
                import_in_flight_reachable). Defined.

Lemma spinner_stops_witness :
  exists m', rtc (msys_step (D := utc_date) (B := modal_store) sample_gen true)
               (mkModalSys true 1 sample_state
                  [JImport 1 (omap resource (validRows sample_state)) (import_summary sample_state)] [])
               m' /\
             msys_reachable (D := utc_date) (B := modal_store) sample_gen true m' /\
             jobs m' = [] /\ isParsing (ui m') = false.
Proof. exact (spinner_stops (D := utc_date) (B := modal_store) sample_gen true _
                import_in_flight_reachable). Defined.

Lemma handleImport_refines_witness :
  actions_shown sample_state /\
  rtc (msys_step (D := utc_date) (B := modal_store) sample_gen true)
      (mkModalSys true 1 sample_state [] [])
      (mkModalSys true 1 (handleImport (B := modal_store) true sample_state []).1 []
                  (handleImport (B := modal_store) true sample_state []).2).
Proof.
  assert (Ha : actions_shown sample_state)
    by (split_and!; vm_compute; [reflexivity|discriminate|reflexivity]).
  split; [exact Ha|].
  apply (handleImport_refines (D := utc_date) (B := modal_store) sample_gen true 1 sample_state [] []
           (omap resource (validRows sample_state)) (import_summary sample_state) Ha);
    [reflexivity|vm_compute; reflexivity].
Defined.
