(* ===== verification/ImportPreview.v ===== *)
(** * What the import dialog shows: the body of [ResourceImportModal]

    [ImportFlow] and [ImportModal] model the dialog's state and handlers and
    which controls exist.  Here is what the body displays from that state:
    the summary of a finished import ([result_view]), and otherwise the
    parsing indicator, the parse error, the chosen file, the preview table
    of the parsed rows ([preview_row]) and the action bar with the Import
    button's label ([preview_view], [dialog_body]).

    Theorem: the number the Import button shows is the number of records
    [handleImport] submits and reports as imported. *)

From S2P Require Import Prelude JsString Domain JsDate FieldParse RowMapper ImportFlow Export.

(** The status cell of a preview row. *)
Inductive StatusCell := StOK | StError (first title : jstr).

Record PreviewRow := mkPreviewRow {
  pr_index : nat;
  pr_cells : list jstr;            (* [COLUMN_HEADERS.map((h) => row.data[h] || '')] *)
  pr_status : StatusCell;
}.

Definition preview_row (r : ParsedRow) : PreviewRow :=
  mkPreviewRow (index r) ((fun h => cell (data r) h) <$> COLUMN_HEADERS)
    (match errors r with
     | [] => StOK
     | e :: _ => StError e (join (str "; ") (errors r))
     end).

Record PreviewView := mkPreviewView {
  pv_valid : nat;                  (* "{validRows.length} valid" *)
  pv_invalid : option nat;         (* ", {invalidRows.length} with errors" when some *)
  pv_badge : nat;                  (* "{parsedRows.length} rows" *)
  pv_head : list jstr;
  pv_rows : list PreviewRow;
  pv_note : option nat;            (* "{n} record(s) will be imported." or "No valid records" *)
  pv_import_count : nat;           (* "Import {n} Record{s}" *)
  pv_import_plural : bool;
  pv_import_enabled : bool;
}.

(** The preview and the action bar, shown when there are parsed rows and no
    parse is running; [pending] is [bulkAddMutation.isPending]. *)
Definition preview_view (pending : bool) (s : ImportState) : option PreviewView :=
  let nv := length (validRows s) in
  let ni := length (invalidRows s) in
  if bool_decide (parsedRows s <> []) && negb (isParsing s) then
    Some (mkPreviewView nv (if decide (0 < ni) then Some ni else None) (length (parsedRows s))
            (str "#" :: COLUMN_HEADERS ++ [str "Status"]) (preview_row <$> parsedRows s)
            (if decide (0 < nv) then Some nv else None) nv (bool_decide (nv <> 1))
            (negb (bool_decide (nv = 0) || pending)))
  else None.

(** The summary block of a finished import. *)
Record ResultView := mkResultView {
  rv_success : nat;
  rv_total : nat;
  rv_skipped : option nat;         (* "{failed} record(s) were skipped ..." when some *)
  rv_lines : list (nat * jstr);    (* "Row {fr.row}: {fr.errors.join(', ')}" *)
}.

Definition result_view (r : ImportResult) : ResultView :=
  mkResultView (success r) (total r) (if decide (0 < failed r) then Some (failed r) else None)
    ((fun fr : nat * list jstr => (fr.1, join (str ", ") fr.2)) <$> failedRows r).

(** The body below the header. *)
Inductive DialogBody :=
  | BResult (v : ResultView)
  | BFlow (parsing : bool) (error : option jstr) (fileName : option jstr) (preview : option PreviewView).

Definition dialog_body (pending : bool) (s : ImportState) : DialogBody :=
  match importResult s with
  | Some r => BResult (result_view r)
  | None =>
      BFlow (isParsing s) (parseError s)
        (if negb (isParsing s) then fname <$> file s else None)
        (preview_view pending s)
  end.

(** ** Lemmas *)

(** Every valid row carries its resource. *)
Lemma validRows_resources s : length (omap resource (validRows s)) = length (validRows s).
Proof.
  assert (Forall (fun r => is_Some (resource r)) (validRows s)) as Hall.
  { apply Forall_forall. intros r Hr. by apply list_elem_of_filter in Hr as [[_ ?] _]. }
  induction (validRows s) as [|r rs IH]; [done|].
  apply Forall_cons in Hall as [[x Hx] Hrs].
  change (omap resource (r :: rs)) with (omap resource ([r] ++ rs)). rewrite omap_app.
  cbn. rewrite Hx. cbn. by rewrite IH.
Qed.

(** ** Theorems *)

(** The number the Import button shows, when it is enabled, is the number
    of records [handleImport] hands to the bulk call and the [success] count
    of the summary it records. *)
Theorem import_button_count pending s v :
  preview_view pending s = Some v -> pv_import_enabled v = true ->
  exists rs summary, handleImport_begin s = Some (rs, summary) /\
    length rs = pv_import_count v /\ success summary = pv_import_count v.
Proof.
  unfold preview_view. case_match; [|done]. intros [= <-]. cbn [pv_import_enabled pv_import_count].
  intros [Hv _]%negb_true_iff%orb_false_iff. apply bool_decide_eq_false in Hv.
  unfold handleImport_begin. rewrite decide_False by (intros Heq; by rewrite Heq in Hv).
  do 2 eexists. split_and!; [reflexivity|apply validRows_resources|reflexivity].
Qed.

(** ** A concrete preview *)

Lemma import_button_count_witness :
  exists v, preview_view false (sample_state) = Some v /\ pv_import_enabled v = true /\
    exists rs summary, handleImport_begin sample_state = Some (rs, summary) /\
      length rs = pv_import_count v /\ success summary = pv_import_count v.
Proof.
  eexists. split; [reflexivity|]. split; [reflexivity|].
  apply (import_button_count false); reflexivity.
Defined.
