(* ===== verification/ResourcesPage.v ===== *)
(** * The resources page: [pages/ResourcesPage.tsx] with its dialogs

    [ResourcesPage] keeps eight [useState]s ([Page]) and reads the stored
    list through [useResources].  It mounts [ResourceFormModal] while
    [showFormModal] holds (the dialog's own state is [formModal], filled by
    its [useEffect] from [initialData = editingResource ?? undefined]), the
    import dialog while [showImportModal] holds (see [ImportModal]), and an
    alert dialog while a deletion is pending.  The dialogs are modal: while
    one is open the page's own controls are covered.

    The backend is reached through [useResources] and [useAddResource]
    ([hooks/useQueries.ts]); the actor is an interface ([ResourceBackend])
    since its code is not in the repository.  Saving the form awaits the
    insert and closes the dialog when it resolves; the dialog's buttons are
    disabled while it is pending, so the two halves are one step here.  When
    the dialog's [useEffect] throws (a stored date [toISOString] cannot
    print) the page is torn down: [page_step] gives [None].

    Theorems: in every reachable state at most one dialog is open and the
    form dialog's state exists exactly while it is shown, with no resource
    being edited when it is closed; hence Add always opens an empty form.
    Editing a resource and saving without a change sends that same resource
    to [addResource]; a failed insert leaves the dialog open with the user's
    input; and confirming a deletion only closes the dialog. *)

From S2P Require Import Prelude JsString Domain JsDate MultiSelect ResourceForm ResourceList.
From S2P Require Import ImportFlow.

(** What the actor promises the page: the stored list and a single insert. *)
Class ResourceBackend (S : Type) := {
  getResources : S -> list Resource;
  addResource : Resource -> S -> Settled S;
}.

Inductive ViewMode := VTable | VCard.

(** The props of [ResourcesPage], each [true] by default. *)
Record PageProps := mkPageProps {
  canEdit : bool;
  canDelete : bool;
  canCreate : bool;
  canImport : bool;
}.

Definition default_props : PageProps := mkPageProps true true true true.

Record Page := mkPage {
  viewMode : ViewMode;
  pg_search : jstr;
  billabilityFilter : BillabilityFilter;
  practiceFilter : PracticeFilter;
  showFormModal : bool;
  showImportModal : bool;
  editingResource : option Resource;
  deletingResourceId : option jstr;
  formModal : option FormModal;
}.

(** The first render. *)
Definition page_init : Page := mkPage VTable [] BFAll None false false None None None.

(** A freshly mounted [ResourceFormModal] before its [useEffect]. *)
Definition fresh_form : FormModal := mkFormModal emptyForm [] (ms_init []) (ms_init []).

(** [open={!!deletingResourceId}]: the alert dialog shows for a non-empty id. *)
Definition delete_open (p : Page) : bool :=
  match deletingResourceId p with Some (_ :: _) => true | _ => false end.

(** No dialog covers the page. *)
Definition no_dialog (p : Page) : Prop :=
  showFormModal p = false /\ showImportModal p = false /\ delete_open p = false.

#[global] Instance no_dialog_dec p : Decision (no_dialog p).
Proof. unfold no_dialog. apply _. Defined.

Definition set_filters (v : jstr) (bf : BillabilityFilter) (pf : PracticeFilter) (vm : ViewMode)
    (p : Page) : Page :=
  mkPage vm v bf pf (showFormModal p) (showImportModal p) (editingResource p)
    (deletingResourceId p) (formModal p).

Definition set_dialogs (sf si : bool) (er : option Resource) (del : option jstr)
    (fm : option FormModal) (p : Page) : Page :=
  mkPage (viewMode p) (pg_search p) (billabilityFilter p) (practiceFilter p) sf si er del fm.

Inductive PageEvent :=
  | PSearch (v : jstr)                  (* the search input *)
  | PBillability (bf : BillabilityFilter)
  | PPractice (pf : PracticeFilter)
  | PView (vm : ViewMode)               (* the table and card buttons *)
  | PAdd                                (* Add Resource *)
  | PImport                             (* Import *)
  | PImportClosed                       (* the import dialog's onOpenChange(false) *)
  | PEdit (r : Resource)                (* a row's edit button *)
  | PDelete (rid : jstr)                (* a row's delete button *)
  | PConfirmDelete                      (* Delete in the alert dialog *)
  | PCancelDelete                       (* Cancel or Escape in the alert dialog *)
  | PFormClose                          (* the form's onClose *)
  | PFormEdit (x : FormEdit)            (* an input of the form *)
  | PFormPicker (primary : bool) (e : MSEvent)  (* an event of a skill picker *)
  | PSave (newId : jstr).               (* Save: handleSubmit, then handleFormSubmit *)

Section Page.
Context `{D : JsDate} {S : Type} `{RB : ResourceBackend S}.
(** Whether [useActor] has an actor. *)
Variable actor_ready : bool.
Variable props : PageProps.

(** [resources ?? []]: the query is disabled without an actor. *)
Definition page_resources (st : S) : list Resource :=
  if actor_ready then getResources st else [].

(** The rows on screen. *)
Definition shown (p : Page) (st : S) : list Resource :=
  filtered (pg_search p) (billabilityFilter p) (practiceFilter p) (page_resources st).

(** The [mutationFn] of [useAddResource]. *)
Definition add_resource (r : Resource) (st : S) : Settled S :=
  if actor_ready then addResource r st else Rejected (str "Actor not ready").

(** Mounting the form dialog: its [useEffect] on [initialData]. *)
Definition mount_form (p : Page) (er : option Resource) : option Page :=
  fm ← open_form er fresh_form;
  Some (set_dialogs true (showImportModal p) er (deletingResourceId p) (Some fm) p).

Definition update_picker (primary : bool) (e : MSEvent) (m : FormModal) : FormModal :=
  if primary
  then mkFormModal (form m) (error m) (ms_handle (primaryPicker m) e (primaryPicker m)) (secondaryPicker m)
  else mkFormModal (form m) (error m) (primaryPicker m) (ms_handle (secondaryPicker m) e (secondaryPicker m)).

(** The page's handlers and the dialogs' callbacks. *)
Definition page_step (e : PageEvent) (p : Page) (st : S) : option (Page * S) :=
  match e with
  | PSearch v =>
      Some (if decide (no_dialog p)
            then set_filters v (billabilityFilter p) (practiceFilter p) (viewMode p) p else p, st)
  | PBillability bf =>
      Some (if decide (no_dialog p)
            then set_filters (pg_search p) bf (practiceFilter p) (viewMode p) p else p, st)
  | PPractice pf =>
      Some (if decide (no_dialog p)
            then set_filters (pg_search p) (billabilityFilter p) pf (viewMode p) p else p, st)
  | PView vm =>
      Some (if decide (no_dialog p)
            then set_filters (pg_search p) (billabilityFilter p) (practiceFilter p) vm p else p, st)
  | PAdd =>
      if decide (no_dialog p /\ canCreate props = true)
      then p' ← mount_form p (editingResource p); Some (p', st)
      else Some (p, st)
  | PImport =>
      Some (if decide (no_dialog p /\ canImport props = true)
            then set_dialogs (showFormModal p) true (editingResource p) (deletingResourceId p)
                   (formModal p) p
            else p, st)
  | PImportClosed =>
      Some (set_dialogs (showFormModal p) false (editingResource p) (deletingResourceId p)
              (formModal p) p, st)
  | PEdit r =>
      if decide (no_dialog p /\ canEdit props = true /\ r ∈ shown p st)
      then p' ← mount_form p (Some r); Some (p', st)
      else Some (p, st)
  | PDelete rid =>
      Some (if decide (no_dialog p /\ canDelete props = true /\ rid ∈ id <$> shown p st)
            then set_dialogs (showFormModal p) (showImportModal p) (editingResource p) (Some rid)
                   (formModal p) p
            else p, st)
  | PConfirmDelete | PCancelDelete =>
      Some (set_dialogs (showFormModal p) (showImportModal p) (editingResource p) None
              (formModal p) p, st)
  | PFormClose =>
      Some (set_dialogs false (showImportModal p) None (deletingResourceId p) None p, st)
  | PFormEdit x =>
      Some (match formModal p with
            | Some m =>
                set_dialogs (showFormModal p) (showImportModal p) (editingResource p)
                  (deletingResourceId p)
                  (Some (mkFormModal (form_edit x (form m)) (error m) (primaryPicker m)
                           (secondaryPicker m))) p
            | None => p
            end, st)
  | PFormPicker b ev =>
      Some (match formModal p with
            | Some m =>
                set_dialogs (showFormModal p) (showImportModal p) (editingResource p)
                  (deletingResourceId p) (Some (update_picker b ev m)) p
            | None => p
            end, st)
  | PSave nid =>
      match formModal p with
      | None => Some (p, st)
      | Some m =>
          let '(m', out) := submit_modal m (id <$> editingResource p) nid in
          let kept := set_dialogs (showFormModal p) (showImportModal p) (editingResource p)
                        (deletingResourceId p) (Some m') p in
          match out with
          | None => Some (kept, st)
          | Some r =>
              match add_resource r st with
              | Fulfilled st' =>
                  Some (set_dialogs false (showImportModal p) None (deletingResourceId p) None p, st')
              | Rejected _ => Some (kept, st)
              end
          end
      end
  end.

(** The states a visit of the page reaches. *)
Inductive page_reachable : Page -> S -> Prop :=
  | pr_init st : page_reachable page_init st
  | pr_step e p st p' st' :
      page_reachable p st -> page_step e p st = Some (p', st') -> page_reachable p' st'.
End Page.

(** ** The invariant *)

(** The number of dialogs on screen. *)
Definition dialogs_open (p : Page) : nat :=
  Nat.b2n (showFormModal p) + Nat.b2n (showImportModal p) + Nat.b2n (delete_open p).

Record page_inv (p : Page) : Prop := {
  pi_closed : showFormModal p = false -> editingResource p = None /\ formModal p = None;
  pi_open : showFormModal p = true -> is_Some (formModal p);
  pi_one : dialogs_open p <= 1;
}.

Lemma no_dialog_open p : no_dialog p -> dialogs_open p = 0.
Proof. intros (H1 & H2 & H3). unfold dialogs_open. by rewrite H1, H2, H3. Qed.

Lemma mount_form_spec `{D : JsDate} p er p' :
  mount_form p er = Some p' ->
  showFormModal p' = true /\ is_Some (formModal p') /\ editingResource p' = er /\
  showImportModal p' = showImportModal p /\ deletingResourceId p' = deletingResourceId p.
Proof. unfold mount_form. destruct (open_form er fresh_form); simpl; [intros [= <-]|done]. eauto. Qed.

Lemma mount_form_inv `{D : JsDate} p er p' :
  no_dialog p -> mount_form p er = Some p' -> page_inv p'.
Proof.
  intros Hn Hm. apply mount_form_spec in Hm as (Hs & Hf & _ & Hi & Hd).
  destruct Hn as (_ & Hi0 & Hd0). split; [by rewrite Hs|done|].
  unfold dialogs_open, delete_open in *. rewrite Hs, Hi, Hd, Hi0, Hd0. simpl. lia.
Qed.

(** The form dialog's state changes while it stays open. *)
Lemma keep_form_inv p m m' :
  page_inv p -> formModal p = Some m ->
  page_inv (set_dialogs (showFormModal p) (showImportModal p) (editingResource p)
              (deletingResourceId p) (Some m') p).
Proof.
  intros [Hc Ho Hone] Hm. split; [|by eexists|done].
  simpl. intros Hf. destruct (Hc Hf) as [_ Hn]. congruence.
Qed.

Lemma delete_open_keep sf si er fm p :
  delete_open (set_dialogs sf si er (deletingResourceId p) fm p) = delete_open p.
Proof. reflexivity. Qed.

Ltac count_dialogs :=
  unfold dialogs_open in *; rewrite ?delete_open_keep;
  cbn [set_dialogs showFormModal showImportModal] in *;
  destruct (showFormModal _), (showImportModal _), (delete_open _); simpl in *; lia.

(** A dialog closes. *)
Lemma close_form_inv p :
  page_inv p -> page_inv (set_dialogs false (showImportModal p) None (deletingResourceId p) None p).
Proof. intros [Hc Ho Hone]. split; [done|simpl; intros [=]|]. count_dialogs. Qed.

Lemma close_import_inv p :
  page_inv p ->
  page_inv (set_dialogs (showFormModal p) false (editingResource p) (deletingResourceId p)
              (formModal p) p).
Proof. intros [Hc Ho Hone]. split; [done|done|]. count_dialogs. Qed.

Lemma close_delete_inv p :
  page_inv p ->
  page_inv (set_dialogs (showFormModal p) (showImportModal p) (editingResource p) None
              (formModal p) p).
Proof. intros [Hc Ho Hone]. split; [done|done|]. unfold dialogs_open in *. simpl in *.
  destruct (showFormModal p), (showImportModal p), (delete_open p); simpl in *; lia. Qed.

(** A dialog opens over an uncovered page. *)
Lemma open_import_inv p :
  page_inv p -> no_dialog p ->
  page_inv (set_dialogs (showFormModal p) true (editingResource p) (deletingResourceId p)
              (formModal p) p).
Proof.
  intros [Hc Ho Hone] (H1 & H2 & H3). split; [done|done|].
  unfold dialogs_open, delete_open in *. simpl. rewrite H1. simpl in H3. rewrite H3. done.
Qed.

Lemma open_delete_inv p rid :
  page_inv p -> no_dialog p ->
  page_inv (set_dialogs (showFormModal p) (showImportModal p) (editingResource p) (Some rid)
              (formModal p) p).
Proof.
  intros [Hc Ho Hone] (H1 & H2 & H3). split; [done|done|].
  unfold dialogs_open, delete_open. simpl. rewrite H1, H2. destruct rid; simpl; lia.
Qed.

(** Saving reads only the form and the two selections: a failed save can
    be retried as it was. *)
Lemma submit_modal_keeps `{D : JsDate} m iid nid :
  form (fst (submit_modal m iid nid)) = form m /\
  primaryPicker (fst (submit_modal m iid nid)) = primaryPicker m /\
  secondaryPicker (fst (submit_modal m iid nid)) = secondaryPicker m.
Proof. unfold submit_modal. by destruct (handleSubmit _ _ _ _ _). Qed.

Lemma submit_modal_snd_ext `{D : JsDate} m1 m2 iid nid :
  form m1 = form m2 -> primaryPicker m1 = primaryPicker m2 -> secondaryPicker m1 = secondaryPicker m2 ->
  snd (submit_modal m1 iid nid) = snd (submit_modal m2 iid nid).
Proof. intros H1 H2 H3. unfold submit_modal. by rewrite H1, H2, H3. Qed.

Section PageTheorems.
Context `{D : JsDate} {S : Type} `{RB : ResourceBackend S}.
Variable actor_ready : bool.
Variable props : PageProps.

Lemma page_step_inv e p st p' st' :
  page_inv p -> page_step actor_ready props e p st = Some (p', st') -> page_inv p'.
Proof.
  intros Hi. destruct e as [v|bf|pf|vm| | | |r|rid| | | |x|b ev|nid]; simpl.
  1-4: intros [= <- _]; case_decide; [|done]; destruct Hi; by split.
  - case_decide as Hd; [|by intros [= <- _]].
    destruct (mount_form p (editingResource p)) eqn:E; [|done]. intros [= <- _].
    by eapply mount_form_inv; [apply Hd|].
  - intros [= <- _]. case_decide as Hd; [|done]. apply open_import_inv; [done|apply Hd].
  - intros [= <- _]. by apply close_import_inv.
  - case_decide as Hd; [|by intros [= <- _]].
    destruct (mount_form p (Some r)) eqn:E; [|done]. intros [= <- _].
    by eapply mount_form_inv; [apply Hd|].
  - intros [= <- _]. case_decide as Hd; [|done]. apply open_delete_inv; [done|apply Hd].
  - intros [= <- _]. by apply close_delete_inv.
  - intros [= <- _]. by apply close_delete_inv.
  - intros [= <- _]. by apply close_form_inv.
  - intros [= <- _]. destruct (formModal p) eqn:E; [|done]. by eapply keep_form_inv.
  - intros [= <- _]. destruct (formModal p) eqn:E; [|done]. by eapply keep_form_inv.
  - destruct (formModal p) as [m|] eqn:E; [|by intros [= <- _]].
    destruct (submit_modal m _ nid) as [m' [r|]].
    + destruct (add_resource actor_ready r st); intros [= <- _];
        [by apply close_form_inv|by eapply keep_form_inv].
    + intros [= <- _]. by eapply keep_form_inv.
Qed.

(** C25: In every reachable state of the page at most one dialog is open, the
    form dialog's state exists while it is shown, and when it is closed no
    resource is being edited and no form state is left. *)
Theorem page_reachable_inv p st :
  page_reachable actor_ready props p st -> page_inv p.
Proof.
  induction 1 as [st|e p st p' st' _ IH Hs].
  - split; [done|intros [=]|unfold dialogs_open; simpl; lia].
  - by eapply page_step_inv.
Qed.

(** Add opens an empty form: the dialog's [onClose] and a successful save
    both forget the edited resource, so [initialData] is [undefined]. *)
Theorem page_add_opens_empty p st :
  page_reachable actor_ready props p st -> no_dialog p -> canCreate props = true ->
  page_step actor_ready props PAdd p st =
    Some (set_dialogs true (showImportModal p) None (deletingResourceId p)
            (Some (mkFormModal emptyForm [] (ms_init []) (ms_init []))) p, st).
Proof.
  intros Hr Hn Hc. destruct (page_reachable_inv _ _ Hr) as [Hcl _ _].
  destruct (Hcl (proj1 Hn)) as [He _]. simpl. rewrite decide_True by done.
  unfold mount_form. rewrite He. reflexivity.
Qed.

(** Editing a resource the form can show and saving without a change sends
    that same resource to [addResource]; when the insert resolves the dialog
    closes and nothing is being edited. *)
Theorem page_edit_save_unchanged p st r nid st' :
  editable r -> no_dialog p -> canEdit props = true -> r ∈ shown actor_ready p st ->
  add_resource actor_ready r st = Fulfilled st' ->
  exists p1, page_step actor_ready props (PEdit r) p st = Some (p1, st) /\
    editingResource p1 = Some r /\
    page_step actor_ready props (PSave nid) p1 st =
      Some (set_dialogs false (showImportModal p) None (deletingResourceId p) None p, st').
Proof.
  intros Hed Hn Hc Hin Hadd.
  destruct (edit_save_unchanged r fresh_form nid Hed) as (m' & Hopen & Hsub).
  simpl. rewrite decide_True by done. unfold mount_form. rewrite Hopen. simpl.
  eexists; split; [reflexivity|]. split; [reflexivity|]. simpl.
  destruct (submit_modal m' (Some (id r)) nid) as [m'' out]. simpl in Hsub. subst out.
  by rewrite Hadd.
Qed.

(** A rejected insert keeps the dialog open with the user's input, and
    saving again submits the same resource. *)
Theorem page_save_rejected p st m nid r msg :
  formModal p = Some m -> snd (submit_modal m (id <$> editingResource p) nid) = Some r ->
  add_resource actor_ready r st = Rejected msg ->
  exists m', page_step actor_ready props (PSave nid) p st =
      Some (set_dialogs (showFormModal p) (showImportModal p) (editingResource p)
              (deletingResourceId p) (Some m') p, st) /\
    form m' = form m /\ snd (submit_modal m' (id <$> editingResource p) nid) = Some r.
Proof.
  intros Hm Hsub Hrej. simpl. rewrite Hm.
  pose proof (submit_modal_keeps m (id <$> editingResource p) nid) as (Hf & Hp & Hs).
  destruct (submit_modal m (id <$> editingResource p) nid) as [m' out] eqn:E.
  simpl in Hsub, Hf, Hp, Hs. subst out. rewrite Hrej. exists m'. split_and!; [done|done|].
  by rewrite (submit_modal_snd_ext m' m _ _ Hf Hp Hs), E.
Qed.

(** Delete in the dialog that warns the action cannot be undone only closes
    the dialog: the store is unchanged. *)
Theorem confirmDelete_keeps_resources p st rid :
  exists p1 p2, page_step actor_ready props (PDelete rid) p st = Some (p1, st) /\
    page_step actor_ready props PConfirmDelete p1 st = Some (p2, st) /\
    deletingResourceId p2 = None /\
    (no_dialog p -> canDelete props = true -> rid ∈ id <$> shown actor_ready p st ->
     deletingResourceId p1 = Some rid).
Proof.
  do 2 eexists. split_and!; [reflexivity|reflexivity|reflexivity|].
  intros Hn Hc Hin. by rewrite decide_True.
Qed.
End PageTheorems.

(** ** Concrete runs *)

(** A store that appends every insert. *)
#[local] Instance list_backend : ResourceBackend (list Resource) :=
  {| getResources st := st; addResource r st := Fulfilled (st ++ [r]) |}.

(** The dialog of Add, filled with an employee id, a name and an e-mail. *)
Definition sample_form_modal : FormModal :=
  mkFormModal (set_text FEmail (str "ann@x.io") (set_text FName (str "Ann")
                 (set_text FEmployeeId (str "E7") emptyForm))) [] (ms_init []) (ms_init []).

Definition sample_form_page : Page :=
  set_dialogs true false None None (Some sample_form_modal) page_init.

(** The resource its Save builds. *)
Definition sample_new_resource : Resource :=
  match snd (submit_modal (D := utc_date) sample_form_modal None (str "r9")) with
  | Some r => r
  | None => form_sample_resource
  end.

Lemma page_reachable_inv_witness :
  page_inv (set_dialogs true false None None (Some fresh_form) page_init).
Proof.
  apply (page_reachable_inv (D := utc_date) (RB := list_backend) true default_props _ []).
  apply (pr_step true default_props PAdd page_init [] _ [] (pr_init true default_props [])).
  reflexivity.
Defined.

Lemma page_add_opens_empty_witness :
  page_step (D := utc_date) (RB := list_backend) true default_props PAdd page_init [] =
    Some (set_dialogs true false None None
            (Some (mkFormModal emptyForm [] (ms_init []) (ms_init []))) page_init, []).
Proof.
  apply (page_add_opens_empty (RB := list_backend) true default_props page_init []);
    [apply pr_init|split_and!; reflexivity|reflexivity].
Defined.

Lemma page_edit_save_unchanged_witness :
  exists p1, page_step (D := utc_date) true default_props (PEdit form_sample_resource) page_init
               [form_sample_resource] = Some (p1, [form_sample_resource]) /\
    editingResource p1 = Some form_sample_resource /\
    page_step (D := utc_date) true default_props (PSave (str "fresh")) p1 [form_sample_resource] =
      Some (set_dialogs false false None None None page_init,
            [form_sample_resource; form_sample_resource]).
Proof.
  apply (page_edit_save_unchanged (RB := list_backend) true default_props page_init
           [form_sample_resource] form_sample_resource (str "fresh")
           [form_sample_resource; form_sample_resource] form_sample_editable);
    [split_and!; reflexivity|reflexivity|by_decide|reflexivity].
Defined.

Lemma page_save_rejected_witness :
  exists m', page_step (D := utc_date) (RB := list_backend) false default_props (PSave (str "r9"))
               sample_form_page [] =
      Some (set_dialogs true false None None (Some m') sample_form_page, []) /\
    form m' = form sample_form_modal /\
    snd (submit_modal (D := utc_date) m' None (str "r9")) = Some sample_new_resource.
Proof.
  apply (page_save_rejected (RB := list_backend) false default_props sample_form_page []
           sample_form_modal (str "r9") sample_new_resource (str "Actor not ready"));
    [reflexivity|vm_compute; reflexivity|reflexivity].
Defined.
