(* ===== verification/Queries.v ===== *)
(** * The data hooks: [hooks/useQueries.ts]

    Every hook reads or writes the backend actor of [useActor] through React
    Query.  The actor's methods are the interface [Class Actor] (its code is
    not in the repository); it discharges the narrower interfaces the
    components are written against ([BackendActor] of the import dialog,
    [ResourceBackend] of the resources page).

    - A query hook ([Query]) has a key ([query_key]) and a query function
      ([query_fn]).  React Query keeps the data it read per key ([Cache]); a
      read returns the cached data or fetches it ([read]).
    - A mutation hook ([MutationCall]) has a [mutationFn] that throws
      [Actor not ready] without an actor and otherwise calls the actor, or,
      for the project, milestone and timesheet hooks and [useDeleteResource],
      resolves without calling it; on success its [onSuccess] invalidates the
      queries under one key prefix ([mutation_key], [invalidate]).

    Theorems: a failed mutation changes nothing; the cache stays coherent
    with the backend (every cached datum is what its query would read now)
    under any sequence of reads and mutations, provided each actor method
    changes only the data under the key its hook invalidates; and the
    project and timesheet hooks report success without storing anything. *)

From S2P Require Import Prelude JsString Domain JsDate ImportFlow ResourcesPage.

(** The methods of [backendInterface] the hooks call. *)
Class Actor (S : Type) := {
  act_getResources : S -> list Resource;
  act_addResource : Resource -> S -> Settled S;
  act_addBulkResources : list Resource -> S -> Settled S;
  act_getProjects : option ProjectStatus.t -> option jstr -> option Time -> option Time -> S -> list Project;
  act_getTimesheetEntries : option jstr -> option jstr -> option Time -> option Time -> S ->
                            list TimesheetEntry;
  act_getCallerUserProfile : S -> option UserProfile;
  act_saveCallerUserProfile : UserProfile -> S -> Settled S;
  act_getPowerBIEmbedUrl : S -> option jstr;
  act_setPowerBIEmbedUrl : jstr -> S -> Settled S;
}.

(** The actor implements what the import dialog and the page rely on. *)
#[global] Instance actor_bulk {St : Type} `{Actor St} : BackendActor St :=
  {| addBulkResources := act_addBulkResources |}.
#[global] Instance actor_resources {St : Type} `{Actor St} : ResourceBackend St :=
  {| getResources := act_getResources; addResource := act_addResource |}.

(** ** Queries *)

Inductive Query :=
  | QResources                                   (* useResources *)
  | QProjects (status : option ProjectStatus.t)  (* useProjects(status) *)
  | QTimesheets (sd ed : option Time)            (* useTimesheetEntries, in ns *)
  | QAllTimesheets                               (* useAllTimesheetEntries *)
  | QProfile                                     (* useGetCallerUserProfile *)
  | QPowerBI.                                    (* useGetPowerBIEmbedUrl *)

#[global] Instance Query_eq_dec : EqDecision Query.
Proof. solve_decision. Defined.

Inductive QueryData :=
  | DResources (rs : list Resource)
  | DProjects (ps : list Project)
  | DTimesheets (ts : list TimesheetEntry)
  | DProfile (p : option UserProfile)
  | DUrl (u : option jstr).

(** A key is an array of strings, an element [undefined] being [None]. *)
Definition QueryKey := list (option jstr).

Definition status_string (s : ProjectStatus.t) : jstr :=
  match s with
  | ProjectStatus.active => str "active"
  | ProjectStatus.completed => str "completed"
  | ProjectStatus.onHold => str "onHold"
  | ProjectStatus.planning => str "planning"
  end.

Section Hooks.
Context {S : Type} `{A : Actor S}.

(** A query hook: its [queryKey] and its [queryFn], run while the actor is
    there ([enabled: !!actor]). *)
Record QueryHook := mkQueryHook {
  q_key : QueryKey;
  q_fn : S -> QueryData;
}.

Definition useResources : QueryHook :=
  mkQueryHook [Some (str "resources")] (fun st => DResources (act_getResources st)).

Definition useProjects (status : option ProjectStatus.t) : QueryHook :=
  mkQueryHook [Some (str "projects"); Some (from_option status_string (str "all") status)]
    (fun st => DProjects (act_getProjects status None None None st)).

(** [useTimesheetEntries(startDate, endDate)], the dates already in ns. *)
Definition useTimesheetEntries (sd ed : option Time) : QueryHook :=
  mkQueryHook [Some (str "timesheets"); js_int_to_string <$> sd; js_int_to_string <$> ed]
    (fun st => DTimesheets (act_getTimesheetEntries None None sd ed st)).

Definition useAllTimesheetEntries : QueryHook :=
  mkQueryHook [Some (str "timesheets"); Some (str "all")]
    (fun st => DTimesheets (act_getTimesheetEntries None None None None st)).

Definition useGetCallerUserProfile : QueryHook :=
  mkQueryHook [Some (str "currentUserProfile")] (fun st => DProfile (act_getCallerUserProfile st)).

Definition useGetPowerBIEmbedUrl : QueryHook :=
  mkQueryHook [Some (str "powerBIEmbedUrl")] (fun st => DUrl (act_getPowerBIEmbedUrl st)).

Definition query_hook (q : Query) : QueryHook :=
  match q with
  | QResources => useResources
  | QProjects status => useProjects status
  | QTimesheets sd ed => useTimesheetEntries sd ed
  | QAllTimesheets => useAllTimesheetEntries
  | QProfile => useGetCallerUserProfile
  | QPowerBI => useGetPowerBIEmbedUrl
  end.

Definition query_key (q : Query) : QueryKey := q_key (query_hook q).
Definition query_fn (q : Query) (st : S) : QueryData := q_fn (query_hook q) st.

(** Whether [useActor] has an actor. *)
Variable actor_ready : bool.

(** [if (!actor) throw new Error('Actor not ready')]. *)
Definition with_actor (call : S -> Settled S) (st : S) : Settled S :=
  if actor_ready then call st else Rejected (str "Actor not ready").

(** A mutation hook: its [mutationFn] and the key its [onSuccess] invalidates. *)
Record MutationHook := mkMutationHook {
  m_fn : S -> Settled S;
  m_key : QueryKey;
}.

Definition resources_key : QueryKey := [Some (str "resources")].
Definition projects_key : QueryKey := [Some (str "projects")].
Definition timesheets_key : QueryKey := [Some (str "timesheets")].

Definition useAddResource (r : Resource) :=
  mkMutationHook (with_actor (act_addResource r)) resources_key.
Definition useBulkAddResources (rs : list Resource) :=
  mkMutationHook (with_actor (act_addBulkResources rs)) resources_key.
(** [useUpdateResource]: the backend has no update; it calls [addResource]. *)
Definition useUpdateResource (rid : jstr) (r : Resource) :=
  mkMutationHook (with_actor (act_addResource r)) resources_key.
Definition useDeleteResource (rid : jstr) := mkMutationHook (with_actor Fulfilled) resources_key.
Definition useAddProject (p : Project) := mkMutationHook (with_actor Fulfilled) projects_key.
Definition useUpdateProject (pid : jstr) (p : Project) :=
  mkMutationHook (with_actor Fulfilled) projects_key.
Definition useDeleteProject (pid : jstr) := mkMutationHook (with_actor Fulfilled) projects_key.
Definition useToggleMilestone (pid mid : jstr) := mkMutationHook (with_actor Fulfilled) projects_key.
Definition useAddMilestone (pid : jstr) (m : Milestone) :=
  mkMutationHook (with_actor Fulfilled) projects_key.
Definition useAddTimesheetEntry (e : TimesheetEntry) :=
  mkMutationHook (with_actor Fulfilled) timesheets_key.
Definition useUpdateTimesheetEntry (tid : jstr) (e : TimesheetEntry) :=
  mkMutationHook (with_actor Fulfilled) timesheets_key.
Definition useDeleteTimesheetEntry (tid : jstr) := mkMutationHook (with_actor Fulfilled) timesheets_key.
Definition useSubmitTimesheet (tid : jstr) := mkMutationHook (with_actor Fulfilled) timesheets_key.
Definition useSaveCallerUserProfile (p : UserProfile) :=
  mkMutationHook (with_actor (act_saveCallerUserProfile p)) [Some (str "currentUserProfile")].
Definition useSetPowerBIEmbedUrl (url : jstr) :=
  mkMutationHook (with_actor (act_setPowerBIEmbedUrl url)) [Some (str "powerBIEmbedUrl")].
End Hooks.

Inductive MutationCall :=
  | MAddResource (r : Resource)
  | MBulkAddResources (rs : list Resource)
  | MUpdateResource (rid : jstr) (r : Resource)
  | MDeleteResource (rid : jstr)
  | MAddProject (p : Project)
  | MUpdateProject (pid : jstr) (p : Project)
  | MDeleteProject (pid : jstr)
  | MToggleMilestone (pid mid : jstr)
  | MAddMilestone (pid : jstr) (m : Milestone)
  | MAddTimesheetEntry (e : TimesheetEntry)
  | MUpdateTimesheetEntry (tid : jstr) (e : TimesheetEntry)
  | MDeleteTimesheetEntry (tid : jstr)
  | MSubmitTimesheet (tid : jstr)
  | MSaveCallerUserProfile (p : UserProfile)
  | MSetPowerBIEmbedUrl (url : jstr).

Section Cache.
Context {S : Type} `{A : Actor S}.
Variable actor_ready : bool.

Definition mutation_hook (m : MutationCall) : MutationHook :=
  match m with
  | MAddResource r => useAddResource actor_ready r
  | MBulkAddResources rs => useBulkAddResources actor_ready rs
  | MUpdateResource rid r => useUpdateResource actor_ready rid r
  | MDeleteResource rid => useDeleteResource actor_ready rid
  | MAddProject p => useAddProject actor_ready p
  | MUpdateProject pid p => useUpdateProject actor_ready pid p
  | MDeleteProject pid => useDeleteProject actor_ready pid
  | MToggleMilestone pid mid => useToggleMilestone actor_ready pid mid
  | MAddMilestone pid ms => useAddMilestone actor_ready pid ms
  | MAddTimesheetEntry e => useAddTimesheetEntry actor_ready e
  | MUpdateTimesheetEntry tid e => useUpdateTimesheetEntry actor_ready tid e
  | MDeleteTimesheetEntry tid => useDeleteTimesheetEntry actor_ready tid
  | MSubmitTimesheet tid => useSubmitTimesheet actor_ready tid
  | MSaveCallerUserProfile p => useSaveCallerUserProfile actor_ready p
  | MSetPowerBIEmbedUrl url => useSetPowerBIEmbedUrl actor_ready url
  end.

Definition mutation_fn (m : MutationCall) : S -> Settled S := m_fn (mutation_hook m).
Definition mutation_key (m : MutationCall) : QueryKey := m_key (mutation_hook m).

(** React Query's cache: the data last read under each query. *)
Definition Cache := Query -> option QueryData.

Definition cache_empty : Cache := fun _ => None.

Definition cache_set (q : Query) (d : QueryData) (c : Cache) : Cache :=
  fun q' => if decide (q' = q) then Some d else c q'.

(** [invalidateQueries({ queryKey })]: every query whose key starts with it. *)
Definition invalidate (k : QueryKey) (c : Cache) : Cache :=
  fun q => if decide (k `prefix_of` query_key q) then None else c q.

(** A component reading a query: the cached data, or a fetch. *)
Definition read (q : Query) (c : Cache) (st : S) : QueryData * Cache :=
  match c q with
  | Some d => (d, c)
  | None => let d := query_fn q st in (d, cache_set q d c)
  end.

(** [mutateAsync]: the call, then [onSuccess] on success. *)
Definition mutate (m : MutationCall) (c : Cache) (st : S) : Settled unit * (Cache * S) :=
  match mutation_fn m st with
  | Fulfilled st' => (Fulfilled tt, (invalidate (mutation_key m) c, st'))
  | Rejected msg => (Rejected msg, (c, st))
  end.

(** Every cached datum is what its query reads from the backend now. *)
Definition coherent (c : Cache) (st : S) : Prop :=
  forall q d, c q = Some d -> d = query_fn q st.
End Cache.

(** A component's use of the hooks: a read of a query or a mutation. *)
Inductive HookOp :=
  | ORead (q : Query)
  | OMutate (m : MutationCall).

Section Run.
Context {S : Type} `{A : Actor S}.
Variable actor_ready : bool.

Definition hook_step (o : HookOp) (c : Cache) (st : S) : Cache * S :=
  match o with
  | ORead q => ((read q c st).2, st)
  | OMutate m => (mutate actor_ready m c st).2
  end.

(** The caches and stores a session reaches from an empty cache. *)
Inductive hooks_reachable : Cache -> S -> Prop :=
  | hr_init st : hooks_reachable cache_empty st
  | hr_step o c st : hooks_reachable c st ->
      hooks_reachable (hook_step o c st).1 (hook_step o c st).2.
End Run.

(** ** Lemmas *)

Section CacheLemmas.
Context {S : Type} `{A : Actor S}.

(** The backend changes nothing a query outside the key [k] reads. *)
Definition same_outside (k : QueryKey) (st st' : S) : Prop :=
  forall q, ¬ k `prefix_of` query_key q -> query_fn q st' = query_fn q st.

Lemma same_outside_refl k st : same_outside k st st.
Proof. done. Qed.

Lemma invalidate_coherent k c st st' :
  coherent c st -> same_outside k st st' -> coherent (invalidate k c) st'.
Proof.
  intros Hc Hs q d. unfold invalidate. case_decide as Hk; [done|].
  intros Hq. rewrite Hs by done. by apply Hc.
Qed.

Lemma read_coherent q c st :
  coherent c st -> coherent (read q c st).2 st /\ (read q c st).1 = query_fn q st.
Proof.
  intros Hc. unfold read. destruct (c q) as [d|] eqn:E; simpl.
  - split; [done|]. by apply Hc.
  - split; [|done]. intros q' d'. unfold cache_set. case_decide; [intros [= <-]; by subst|].
    apply Hc.
Qed.
End CacheLemmas.

(** ** Theorems *)

Section CacheTheorems.
Context {S : Type} `{A : Actor S}.
Variable actor_ready : bool.

(** Without an actor every mutation hook rejects with [Actor not ready] and
    neither the cache nor the backend changes. *)
Lemma mutate_no_actor m (c : Cache) (st : S) :
  mutate false m c st = (Rejected (str "Actor not ready"), (c, st)).
Proof. by destruct m. Qed.

Hypothesis addResource_frame :
  forall r st st', act_addResource r st = Fulfilled st' -> same_outside [Some (str "resources")] st st'.
Hypothesis addBulkResources_frame :
  forall rs st st', act_addBulkResources rs st = Fulfilled st' ->
  same_outside [Some (str "resources")] st st'.
Hypothesis saveCallerUserProfile_frame :
  forall p st st', act_saveCallerUserProfile p st = Fulfilled st' ->
  same_outside [Some (str "currentUserProfile")] st st'.
Hypothesis setPowerBIEmbedUrl_frame :
  forall u st st', act_setPowerBIEmbedUrl u st = Fulfilled st' ->
  same_outside [Some (str "powerBIEmbedUrl")] st st'.

Lemma mutation_frame m (st st' : S) :
  mutation_fn actor_ready m st = Fulfilled st' -> same_outside (mutation_key actor_ready m) st st'.
Proof.
  destruct actor_ready; [|by destruct m].
  destruct m; unfold mutation_fn, mutation_key; simpl;
    unfold with_actor, resources_key, projects_key, timesheets_key;
    try (intros [= <-]; apply same_outside_refl); eauto.
Qed.

Lemma hook_step_coherent o c (st : S) :
  coherent c st -> coherent (hook_step actor_ready o c st).1 (hook_step actor_ready o c st).2.
Proof.
  intros Hc. destruct o as [q|m]; simpl.
  - by apply read_coherent.
  - unfold mutate. destruct (mutation_fn actor_ready m st) eqn:E; simpl; [|done].
    eapply invalidate_coherent; [done|]. by apply mutation_frame.
Qed.

(** C31: React Query's cache stays coherent with the backend: along any sequence
    of reads and mutations through the hooks, every cached datum is what its
    query reads from the backend now, so every read shows current data,
    provided each actor method changes only the data under the key its hook
    invalidates. *)
Theorem hooks_cache_coherent c (st : S) :
  hooks_reachable actor_ready c st -> coherent c st /\
  forall q, (read q c st).1 = query_fn q st.
Proof.
  intros Hr. assert (Hc : coherent c st).
  { induction Hr as [st|o c st _ IH]; [done|]. by apply hook_step_coherent. }
  split; [done|]. intros q. by apply read_coherent.
Qed.
End CacheTheorems.

(** ** An in-memory backend *)

(** A backend that keeps each kind of record in its own field. *)
Record MemDb := mkMemDb {
  db_resources : list Resource;
  db_projects : list Project;
  db_timesheets : list TimesheetEntry;
  db_profile : option UserProfile;
  db_url : option jstr;
}.

#[export] Instance mem_actor : Actor MemDb := {|
  act_getResources := db_resources;
  act_addResource r d :=
    Fulfilled (mkMemDb (db_resources d ++ [r]) (db_projects d) (db_timesheets d) (db_profile d) (db_url d));
  act_addBulkResources rs d :=
    Fulfilled (mkMemDb (db_resources d ++ rs) (db_projects d) (db_timesheets d) (db_profile d) (db_url d));
  act_getProjects st _ _ _ d :=
    filter (fun p => from_option (fun s => bool_decide (pr_status p = s)) true st = true)
      (db_projects d);
  act_getTimesheetEntries _ _ sd ed d :=
    filter (fun t => from_option (fun s => bool_decide (s <= ts_date t)%Z) true sd &&
                     from_option (fun e => bool_decide (ts_date t <= e)%Z) true ed = true)
      (db_timesheets d);
  act_getCallerUserProfile := db_profile;
  act_saveCallerUserProfile p d :=
    Fulfilled (mkMemDb (db_resources d) (db_projects d) (db_timesheets d) (Some p) (db_url d));
  act_getPowerBIEmbedUrl := db_url;
  act_setPowerBIEmbedUrl u d :=
    Fulfilled (mkMemDb (db_resources d) (db_projects d) (db_timesheets d) (db_profile d) (Some u));
|}.

(** Each of its writes changes only the data under the key its hook
    invalidates. *)
Lemma mem_actor_frames :
  (forall r st st', act_addResource r st = Fulfilled st' -> same_outside [Some (str "resources")] st st') /\
  (forall rs st st', act_addBulkResources rs st = Fulfilled st' ->
     same_outside [Some (str "resources")] st st') /\
  (forall p st st', act_saveCallerUserProfile p st = Fulfilled st' ->
     same_outside [Some (str "currentUserProfile")] st st') /\
  (forall u st st', act_setPowerBIEmbedUrl u st = Fulfilled st' ->
     same_outside [Some (str "powerBIEmbedUrl")] st st').
Proof.
  split_and!; intros x st st' H q Hq; cbn in H; injection H as <-; destruct q; try reflexivity;
    exfalso; apply Hq; by eexists.
Qed.

Definition sample_db : MemDb := mkMemDb [] [] [] None None.

Lemma hooks_cache_coherent_witness :
  let c := (hook_step true (ORead QResources) cache_empty sample_db).1 in
  let st := (hook_step true (ORead QResources) cache_empty sample_db).2 in
  let c' := (hook_step true (OMutate (MSetPowerBIEmbedUrl (str "https://bi"))) c st).1 in
  let st' := (hook_step true (OMutate (MSetPowerBIEmbedUrl (str "https://bi"))) c st).2 in
  coherent c' st' /\ forall q, (read q c' st').1 = query_fn q st'.
Proof.
  destruct mem_actor_frames as (H1 & H2 & H3 & H4).
  apply (hooks_cache_coherent true H1 H2 H3 H4). repeat constructor.
Defined.

(** A project added through [useAddProject] is not in the projects the page
    reads back after the hook reports success. *)
Example add_project_not_stored (p : Project) :
  let '(out, (c, st)) := mutate true (MAddProject p) cache_empty sample_db in
  out = Fulfilled tt /\ (read (QProjects None) c st).1 = DProjects [].
Proof. cbn. split; reflexivity. Qed.

Definition sample_project : Project :=
  mkProject (str "p1") ProjectStatus.active [] 0%Z (str "Portal") [] 0%Z 0%Z [] (str "Lee").

