(* ===== verification/Dashboard.v ===== *)
(** * The dashboard: [pages/DashboardPage.tsx], [components/DashboardDateFilter.tsx]
    and [isDateInPeriod] of [lib/utils.ts]

    [DashboardPage] keeps a period ([FilterState]: a month and year, or one
    specific day) and shows, for the resources, projects and timesheet
    entries whose date falls in it ([filteredResources] and the like): four
    counts ([activeResources], [activeProjects], [totalHours],
    [pendingApprovals]), the hours per project ([hoursPerProject]) and an
    activity feed ([activityEvents]).  [DashboardDateFilter] edits the
    period ([handleMonthChange], [handleYearChange], [handleDateChange],
    [clearDate]).

    Dates go through the [JsDate] interface: [nsToDate] is [date_of_ns]
    ([None] for an invalid date, whose calendar fields are NaN and compare
    unequal to everything), the calendar fields are [local_ymd].  Hours are
    summed as doubles ([JsNumber]).  [hoursPerProject] accumulates into a
    plain object: a project name that names an [Object.prototype] member
    reads the inherited member instead of [undefined] ([HourVal], [obj_get],
    [obj_set]), and [Object.entries] lists array-index keys first.

    Theorems: choosing a specific date also selects its month and year, so
    the day's entries are among the month's; while a date is chosen the
    month and year selects do not change what is shown; the chart's hours
    add up to [totalHours] when no project is named after an
    [Object.prototype] member (and otherwise a [__proto__] project's hours
    are lost); the feed holds at most eight events, newest first. *)

From Stdlib Require Import Sorting.Sorted.
From S2P Require Import Prelude JsString Domain JsDate JsNumber FieldParse ResourceList.

(** ** The period *)

(** [FilterState]; [selectedDate] is the time value of the chosen day. *)
Record FilterState := mkFilterState {
  selectedMonth : Z;
  selectedYear : Z;
  selectedDate : option Z;
}.

(** [MONTHS] of the month select. *)
Definition MONTHS : list (Z * jstr) :=
  [(1, str "January"); (2, str "February"); (3, str "March"); (4, str "April");
   (5, str "May"); (6, str "June"); (7, str "July"); (8, str "August");
   (9, str "September"); (10, str "October"); (11, str "November"); (12, str "December")]%Z.

Section Period.
Context `{D : JsDate}.

(** The first render: the current month and year, no day. *)
Definition initial_filter (now : Z) : FilterState :=
  let '(y, m, _) := local_ymd now in mkFilterState m y None.

(** [getYearRange()]: two years either side of the current one. *)
Definition getYearRange (now : Z) : list Z :=
  let '(y, _, _) := local_ymd now in [y - 2; y - 1; y; y + 1; y + 2]%Z.

(** [isDateInPeriod(date, month, year, specificDate)]; an invalid [date]
    ([None]) has NaN fields and matches nothing. *)
Definition isDateInPeriod (date : option Z) (month year : Z) (specificDate : option Z) : bool :=
  match date with
  | None => false
  | Some ms =>
      let '(y, m, d) := local_ymd ms in
      match specificDate with
      | Some sd => let '(y', m', d') := local_ymd sd in
                   bool_decide (y = y' /\ m = m' /\ d = d')
      | None => bool_decide (y = year /\ m = month)
      end
  end.

(** [nsToDate(t)]. *)
Definition nsToDate (t : Time) : option Z := date_of_ns t.

Definition in_period (f : FilterState) (t : Time) : bool :=
  isDateInPeriod (nsToDate t) (selectedMonth f) (selectedYear f) (selectedDate f).

Definition filteredResources (f : FilterState) (rs : list Resource) : list Resource :=
  filter (fun r => in_period f (assignmentStartDate r) = true) rs.

Definition filteredProjects (f : FilterState) (ps : list Project) : list Project :=
  filter (fun p => in_period f (pr_startDate p) = true) ps.

Definition filteredTimesheets (f : FilterState) (ts : list TimesheetEntry) : list TimesheetEntry :=
  filter (fun t => in_period f (ts_date t) = true) ts.

(** [handleMonthChange], [handleYearChange], [clearDate]. *)
Definition handleMonthChange (v : Z) (f : FilterState) : FilterState :=
  mkFilterState v (selectedYear f) (selectedDate f).

Definition handleYearChange (v : Z) (f : FilterState) : FilterState :=
  mkFilterState (selectedMonth f) v (selectedDate f).

Definition clearDate (f : FilterState) : FilterState :=
  mkFilterState (selectedMonth f) (selectedYear f) None.

(** [handleDateChange] of the date input's text [raw]: an empty input clears
    the day; a valid date selects it with its month and year; an invalid one
    changes nothing. *)
Definition handleDateChange (raw : jstr) (f : FilterState) : FilterState :=
  if decide (raw = []) then clearDate f
  else match date_parse (raw ++ str "T00:00:00") with
       | Some ms => let '(y, m, _) := local_ymd ms in mkFilterState m y (Some ms)
       | None => f
       end.
End Period.

(** ** The counts *)

Definition activeResources (rs : list Resource) : nat :=
  length (filter (fun r => status r = ResourceStatus.active) rs).

Definition activeProjects (ps : list Project) : nat :=
  length (filter (fun p => pr_status p = ProjectStatus.active) ps).

(** [reduce((sum, t) => sum + Number(t.hoursLogged), 0)] in doubles. *)
Definition totalHours (ts : list TimesheetEntry) : Z :=
  foldl (fun sum t => double_round (sum + double_round (ts_hoursLogged t))) 0%Z ts.

Definition pendingApprovals (ts : list TimesheetEntry) : nat :=
  length (filter (fun t => ts_status t = TimesheetStatus.submitted) ts).

(** ** Hours per project *)

(** The value of a property of [map]: a number, or a string once a number
    was added to an inherited member. *)
Inductive HourVal := HNum (n : Z) | HText (s : jstr).

(** [map] as its own properties in creation order. *)
Definition Obj := list (jstr * HourVal).

(** What [map[k]] reads: an own property, an inherited member of
    [Object.prototype], or [undefined]. *)
Inductive ObjRead := ROwn (v : HourVal) | RInherited (k : jstr) | RUndefined.

Definition obj_get (o : Obj) (k : jstr) : ObjRead :=
  match list_find (fun kv => kv.1 = k) o with
  | Some (_, (_, v)) => ROwn v
  | None => if decide (k ∈ objectPrototypeProps) then RInherited k else RUndefined
  end.

(** [String(x)] of an inherited member: [__proto__] is [Object.prototype]
    and the others are built-in functions. *)
Definition proto_text (k : jstr) : jstr :=
  if decide (k = str "__proto__") then str "[object Object]"
  else if decide (k = str "constructor") then str "function Object() { [native code] }"
  else str "function " ++ k ++ str "() { [native code] }".

(** [(map[k] ?? 0) + n]. *)
Definition add_hours (r : ObjRead) (n : Z) : HourVal :=
  match r with
  | ROwn (HNum m) => HNum (double_round (m + n))
  | ROwn (HText s) => HText (s ++ js_int_to_string n)
  | RInherited k => HText (proto_text k ++ js_int_to_string n)
  | RUndefined => HNum (double_round (0 + n))
  end.

(** [map[k] = v]: assigning a primitive to [__proto__] is ignored; any
    other key gets an own property, in place when it exists. *)
Definition obj_set (o : Obj) (k : jstr) (v : HourVal) : Obj :=
  if decide (k = str "__proto__") then o
  else if decide (k ∈ o.*1) then (fun kv => if decide (kv.1 = k) then (k, v) else kv) <$> o
  else o ++ [(k, v)].

(** A canonical array index: the decimal text of an integer below 2^32 - 1. *)
Definition array_index (k : jstr) : option Z :=
  match k with
  | [] => None
  | "0"%char :: _ :: _ => None
  | _ => n ← digits_value 0 k; if bool_decide (n < 4294967295)%Z then Some n else None
  end.

(** [Object.entries]: the array-index keys in increasing order, then the
    other keys in creation order. *)
Definition object_entries (o : Obj) : list (jstr * HourVal) :=
  sort_by (fun a b => Z.compare (array_index a.1 ?? 0%Z) (array_index b.1 ?? 0%Z))
    (filter (fun kv => is_Some (array_index kv.1)) o) ++
  filter (fun kv => ¬ is_Some (array_index kv.1)) o.

Section Chart.
Context `{D : JsDate}.

(** [project?.name ?? t.projectId] of a filtered project. *)
Definition project_label (ps : list Project) (t : TimesheetEntry) : jstr :=
  match list_find (fun p => pr_id p = ts_projectId t) ps with
  | Some (_, p) => pr_name p
  | None => ts_projectId t
  end.

(** The body of the [forEach]: [map[name] = (map[name] ?? 0) + Number(t.hoursLogged)]. *)
Definition hours_add (ps : list Project) (o : Obj) (t : TimesheetEntry) : Obj :=
  let k := project_label ps t in
  obj_set o k (add_hours (obj_get o k) (double_round (ts_hoursLogged t))).

(** [hoursPerProject] of the filtered entries and projects. *)
Definition hours_map (ps : list Project) (ts : list TimesheetEntry) : Obj :=
  foldl (hours_add ps) [] ts.

Definition hoursPerProject (ps : list Project) (ts : list TimesheetEntry) : list (jstr * HourVal) :=
  object_entries (hours_map ps ts).
End Chart.

(** The hours the chart draws: the sum of its numeric values. *)
Definition hv_num (v : HourVal) : Z := match v with HNum n => n | HText _ => 0%Z end.

Definition chart_total (l : list (jstr * HourVal)) : Z :=
  foldr (fun kv acc => hv_num kv.2 + acc)%Z 0%Z l.

(** The exact sum of the hours of a list of entries. *)
Definition hours_sum (ts : list TimesheetEntry) : Z :=
  foldr (fun t acc => ts_hoursLogged t + acc)%Z 0%Z ts.

(** ** The activity feed *)

Inductive EventType := timesheet_submitted | timesheet_approved | project_updated | resource_added.

(** The parts of the feed's description templates:
    [`${resource} — ${project} (${hours}h)`] and
    [`Status: ${status} · Manager: ${manager}`]. *)
Inductive EventDesc :=
  | DTimesheet (resourceName projectName : jstr) (hours : Z)
  | DProject (st : ProjectStatus.t) (manager : jstr).

(** [ActivityEvent]; [ev_timestamp] is [None] for an invalid date. *)
Record ActivityEvent := mkActivityEvent {
  ev_id : jstr;
  ev_type : EventType;
  ev_title : jstr;
  ev_description : EventDesc;
  ev_timestamp : option Z;
}.

(** [arr.slice(-n)]: the last [n] elements. *)
Definition slice_last {A} (n : nat) (l : list A) : list A := drop (length l - n) l.

Section Feed.
Context `{D : JsDate}.

Definition timesheet_event (rs : list Resource) (ps : list Project) (t : TimesheetEntry) : ActivityEvent :=
  let approved := bool_decide (ts_status t = TimesheetStatus.approved) in
  let rname := match list_find (fun r => id r = ts_resourceId t) rs with
               | Some (_, r) => name r | None => str "Unknown" end in
  mkActivityEvent (ts_id t)
    (if approved then timesheet_approved else timesheet_submitted)
    (if approved then str "Timesheet Approved" else str "Timesheet Submitted")
    (DTimesheet rname (project_label ps t) (double_round (ts_hoursLogged t)))
    (nsToDate (ts_date t)).

Definition project_event (p : Project) : ActivityEvent :=
  mkActivityEvent (str "proj-" ++ pr_id p) project_updated (str "Project: " ++ pr_name p)
    (DProject (pr_status p) (pr_managerName p)) (nsToDate (pr_startDate p)).

(** The events before sorting: the last five submitted or approved entries,
    then the last three projects. *)
Definition feed_events (rs : list Resource) (ps : list Project) (ts : list TimesheetEntry) : list ActivityEvent :=
  (timesheet_event rs ps <$>
     slice_last 5 (filter (fun t => ts_status t = TimesheetStatus.submitted \/
                                    ts_status t = TimesheetStatus.approved) ts)) ++
  (project_event <$> slice_last 3 ps).

(** [activityEvents]: sorted newest first and cut to eight.  The comparator
    [b.timestamp.getTime() - a.timestamp.getTime()] is NaN as soon as one
    date is invalid, and the order [sort] then gives is left to the engine:
    the model returns [None] there. *)
Definition activityEvents (rs : list Resource) (ps : list Project) (ts : list TimesheetEntry)
    : option (list ActivityEvent) :=
  let evs := feed_events rs ps ts in
  if decide (Forall (fun e => is_Some (ev_timestamp e)) evs)
  then Some (take 8 (sort_by (fun a b => Z.compare (ev_timestamp b ?? 0%Z) (ev_timestamp a ?? 0%Z)) evs))
  else None.
End Feed.

(** ** The page *)

Definition MONTHS_SHORT : list jstr :=
  [str "Jan"; str "Feb"; str "Mar"; str "Apr"; str "May"; str "Jun";
   str "Jul"; str "Aug"; str "Sep"; str "Oct"; str "Nov"; str "Dec"].

Section Page.
Context `{D : JsDate}.

(** [formatPeriodLabel(month, year, specificDate)] in the [en-US] locale:
    ["Jan 15, 2024"] for a day, ["Jan 2024"] for a month; [new Date(year,
    month - 1, 1)] carries a month outside 1..12 into the year.  Intl writes
    years before 1 with an era, which the model leaves out ([None]). *)
Definition formatPeriodLabel (month year : Z) (specificDate : option Z) : option jstr :=
  match specificDate with
  | Some sd =>
      let '(y, m, d) := local_ymd sd in
      if bool_decide (1 <= y)%Z then
        Some (default [] (MONTHS_SHORT !! Z.to_nat (m - 1)) ++ str " " ++ js_int_to_string d ++
              str ", " ++ js_int_to_string y)
      else None
  | None =>
      let y := (year + (month - 1) `div` 12)%Z in
      let m := ((month - 1) `mod` 12)%Z in
      if bool_decide (1 <= y)%Z then
        Some (default [] (MONTHS_SHORT !! Z.to_nat m) ++ str " " ++ js_int_to_string y)
      else None
  end.

(** What [DashboardPage] renders from the filter and the three queries'
    data ([None] while a query has no data, read as [[]]). *)
Record DashboardView := mkDashboardView {
  dv_isLoading : bool;
  dv_periodLabel : option jstr;
  dv_activeResources : nat;
  dv_activeProjects : nat;
  dv_totalHours : Z;
  dv_pendingApprovals : nat;
  dv_hoursPerProject : list (jstr * HourVal);
  dv_activityEvents : option (list ActivityEvent);
}.

Definition dashboard_view (f : FilterState)
    (resources : option (list Resource)) (projects : option (list Project))
    (timesheetEntries : option (list TimesheetEntry))
    (resourcesLoading projectsLoading timesheetsLoading : bool) : DashboardView :=
  let rs := filteredResources f (default [] resources) in
  let ps := filteredProjects f (default [] projects) in
  let ts := filteredTimesheets f (default [] timesheetEntries) in
  mkDashboardView (resourcesLoading || projectsLoading || timesheetsLoading)
    (formatPeriodLabel (selectedMonth f) (selectedYear f) (selectedDate f))
    (activeResources rs) (activeProjects ps) (totalHours ts) (pendingApprovals ts)
    (hoursPerProject ps ts) (activityEvents rs ps ts).
End Page.

(** A day and the selects agree: the chosen day lies in the selected month
    and year. *)
Definition synced `{JsDate} (f : FilterState) : Prop :=
  match selectedDate f with
  | Some sd => let '(y, m, _) := local_ymd sd in y = selectedYear f /\ m = selectedMonth f
  | None => True
  end.

(** Newest first. *)
Definition newer_first (a b : ActivityEvent) : Prop :=
  (ev_timestamp b ?? 0 <= ev_timestamp a ?? 0)%Z.

(** ** Lemmas *)

Section PeriodLemmas.
Context `{D : JsDate}.

Lemma synced_in_month f t : synced f -> in_period f t = true -> in_period (clearDate f) t = true.
Proof.
  unfold synced, in_period, isDateInPeriod, clearDate; simpl.
  destruct (selectedDate f) as [sd|]; [|done]. destruct (nsToDate t) as [ms|]; [|done].
  destruct (local_ymd sd) as [[y' m'] d']. destruct (local_ymd ms) as [[y m] d].
  intros [-> ->]. rewrite !bool_decide_eq_true. naive_solver.
Qed.

Lemma handleDateChange_valid raw f ms :
  raw <> [] -> date_parse (raw ++ str "T00:00:00") = Some ms ->
  selectedDate (handleDateChange raw f) = Some ms /\ synced (handleDateChange raw f).
Proof.
  intros Hr Hp. unfold handleDateChange. rewrite decide_False by done. rewrite Hp.
  destruct (local_ymd ms) as [[y m] d] eqn:E. unfold synced; simpl. by rewrite E.
Qed.

Lemma in_period_valid f t : in_period f t = true -> is_Some (nsToDate t).
Proof. unfold in_period, isDateInPeriod. destruct (nsToDate t); [done|discriminate]. Qed.

Lemma in_period_day f g t :
  selectedDate f = selectedDate g -> selectedDate f <> None -> in_period f t = in_period g t.
Proof.
  unfold in_period, isDateInPeriod. intros <- Hs.
  destruct (nsToDate t); [|done]. destruct (local_ymd z) as [[y m] d].
  by destruct (selectedDate f).
Qed.
End PeriodLemmas.

Lemma filter_sublist_impl {A} (P Q : A -> Prop) `{!forall x, Decision (P x)} `{!forall x, Decision (Q x)} l :
  (forall x, x ∈ l -> P x -> Q x) -> filter P l `sublist_of` filter Q l.
Proof.
  induction l as [|x l IH]; intros HPQ; [done|]. rewrite !filter_cons.
  assert (IH' : filter P l `sublist_of` filter Q l) by (apply IH; intros; apply HPQ; [apply elem_of_cons; by right|done]).
  case_decide; case_decide.
  - by apply sublist_skip.
  - exfalso. match goal with h : ¬ Q x |- _ => apply h end. apply HPQ; [apply elem_of_cons; by left|done].
  - by apply sublist_cons.
  - done.
Qed.

(** *** The chart's object *)

Definition num_vals (o : Obj) : Prop := Forall (fun kv => exists n, kv.2 = HNum n /\ (0 <= n)%Z) o.

Lemma chart_total_app l1 l2 : chart_total (l1 ++ l2) = (chart_total l1 + chart_total l2)%Z.
Proof. induction l1; simpl; lia. Qed.

Lemma chart_total_cons kv l : chart_total (kv :: l) = (hv_num kv.2 + chart_total l)%Z.
Proof. done. Qed.

#[global] Instance chart_total_perm : Proper ((≡ₚ) ==> eq) chart_total.
Proof. induction 1; simpl; lia. Qed.

#[global] Instance num_vals_perm : Proper ((≡ₚ) ==> iff) num_vals.
Proof. intros l1 l2 Hp. unfold num_vals. by rewrite Hp. Qed.

Lemma object_entries_perm o : object_entries o ≡ₚ o.
Proof. unfold object_entries. rewrite sort_by_perm. apply filter_app_complement. Qed.

Lemma hours_sum_nonneg ts : Forall (fun t => 0 <= ts_hoursLogged t)%Z ts -> (0 <= hours_sum ts)%Z.
Proof. induction 1; simpl; lia. Qed.

Lemma num_vals_total o : num_vals o -> (0 <= chart_total o)%Z.
Proof. induction 1 as [|kv o [n [Hv ?]] Ho IH]; simpl; [lia|]. rewrite Hv. simpl. lia. Qed.

Lemma num_vals_le o k m : num_vals o -> (k, HNum m) ∈ o -> (m <= chart_total o)%Z.
Proof.
  induction 1 as [|[k' v] o [n [Hv Hn]] Ho IH]; [by intros ?%elem_of_nil|].
  simpl in Hv. subst v. pose proof (num_vals_total o Ho).
  intros [[=<- <-]|?]%elem_of_cons; simpl; [lia|]. specialize (IH ltac:(done)). lia.
Qed.

Section Replace.
Variables (k : jstr) (v : HourVal).
Let repl (kv : jstr * HourVal) := if decide (kv.1 = k) then (k, v) else kv.

Lemma replace_absent o : k ∉ o.*1 -> repl <$> o = o.
Proof.
  induction o as [|[k' v'] o IH]; intros Hk; [done|]. rewrite fmap_cons, not_elem_of_cons in Hk.
  simpl. unfold repl at 1. simpl. rewrite decide_False by naive_solver. f_equal. naive_solver.
Qed.

Lemma replace_keys o : (repl <$> o).*1 = o.*1.
Proof.
  induction o as [|kv o IH]; [done|]. rewrite !fmap_cons, IH. f_equal.
  unfold repl. case_decide; simpl; congruence.
Qed.

Lemma replace_total o m :
  NoDup o.*1 -> (k, HNum m) ∈ o -> chart_total (repl <$> o) = (chart_total o - m + hv_num v)%Z.
Proof.
  induction o as [|[k' v'] o IH]; intros Hn Hin; [by apply elem_of_nil in Hin|].
  simpl in Hn. apply NoDup_cons in Hn as [Hk' Hn].
  rewrite fmap_cons, !chart_total_cons. unfold repl at 1. cbn [fst snd].
  apply elem_of_cons in Hin as [[=<- <-]|Hin].
  - rewrite decide_True, replace_absent by done. simpl. lia.
  - assert (k ∈ o.*1) by (by eapply (list_elem_of_fmap_2' _ _ (k, HNum m))).
    rewrite decide_False by (intros ->; contradiction). rewrite IH by done. simpl. lia.
Qed.

Lemma replace_num_vals o n : num_vals o -> v = HNum n -> (0 <= n)%Z -> num_vals (repl <$> o).
Proof.
  intros Ho -> Hn. apply Forall_fmap. eapply Forall_impl; [exact Ho|].
  intros kv Hkv. unfold repl. simpl. case_decide; eauto.
Qed.
End Replace.

Lemma proto_not_key k : k ∉ objectPrototypeProps -> k <> str "__proto__".
Proof. intros Hk ->. apply Hk. apply (bool_decide_unpack _). by vm_compute. Qed.

(** One [forEach] step on a key that is no [Object.prototype] member adds
    the hours exactly and keeps one numeric property per key. *)
Lemma hours_step o k n :
  NoDup o.*1 -> num_vals o -> k ∉ objectPrototypeProps -> (0 <= n)%Z ->
  (chart_total o + n <= 2 ^ 53)%Z ->
  let o' := obj_set o k (add_hours (obj_get o k) n) in
  NoDup o'.*1 /\ num_vals o' /\ chart_total o' = (chart_total o + n)%Z.
Proof.
  intros Hn Hv Hk Hn0 Hb. pose proof (num_vals_total o Hv).
  unfold obj_set, obj_get. rewrite decide_False by (by apply proto_not_key).
  destruct (list_find (fun kv => kv.1 = k) o) as [[i [k' v]]|] eqn:Ef.
  - apply list_find_Some in Ef as (Hi & Hk' & _). simpl in Hk'. subst k'.
    apply list_elem_of_lookup_2 in Hi.
    destruct (proj1 (Forall_forall _ _) Hv _ Hi) as (m & Hm & Hm0). simpl in Hm. subst v.
    pose proof (num_vals_le o k m Hv Hi).
    cbn [add_hours]. rewrite double_round_small by lia.
    rewrite decide_True by (apply list_elem_of_fmap; by exists (k, HNum m)).
    split_and!; [by rewrite replace_keys|eapply replace_num_vals; eauto; lia|].
    rewrite (replace_total _ _ _ m) by done. simpl. lia.
  - apply list_find_None in Ef.
    assert (Hko : k ∉ o.*1).
    { intros (kv & -> & Hkv)%list_elem_of_fmap. by apply (proj1 (Forall_forall _ _) Ef kv). }
    rewrite (decide_False (P := k ∈ objectPrototypeProps)) by done. cbn [add_hours]. rewrite double_round_small by lia.
    rewrite decide_False by done. rewrite fmap_app, chart_total_app. simpl.
    split_and!; [|apply Forall_app_2; [done|repeat constructor; eauto]|lia].
    apply NoDup_app. split_and!; [done|set_solver|apply NoDup_singleton].
Qed.

Lemma hours_fold_spec ps ts o :
  NoDup o.*1 -> num_vals o -> Forall (fun t => project_label ps t ∉ objectPrototypeProps) ts ->
  Forall (fun t => 0 <= ts_hoursLogged t)%Z ts ->
  (chart_total o + hours_sum ts <= 2 ^ 53)%Z ->
  let o' := foldl (hours_add ps) o ts in
  NoDup o'.*1 /\ num_vals o' /\ chart_total o' = (chart_total o + hours_sum ts)%Z.
Proof.
  revert o. induction ts as [|t ts IH]; intros o Hn Hv Hk Hh Hb; cbn [foldl] in *;
    [split_and!; [done|done|simpl; lia]|].
  apply Forall_cons in Hh as [Ht Hh]. apply Forall_cons in Hk as [Hkt Hk].
  change (hours_sum (t :: ts)) with (ts_hoursLogged t + hours_sum ts)%Z in *.
  pose proof (hours_sum_nonneg ts Hh). pose proof (num_vals_total o Hv).
  assert (E : hours_add ps o t = obj_set o (project_label ps t)
                (add_hours (obj_get o (project_label ps t)) (ts_hoursLogged t)))
    by (unfold hours_add; by rewrite (double_round_small (ts_hoursLogged t)) by lia).
  destruct (hours_step o (project_label ps t) (ts_hoursLogged t)) as (Hn' & Hv' & Ht');
    [done|done|done|done|lia|].
  rewrite <- E in Hn', Hv', Ht'.
  destruct (IH _ Hn' Hv' Hk Hh) as (? & ? & Hc); [lia|]. split_and!; [done|done|lia].
Qed.

Lemma totalHours_acc acc ts :
  (0 <= acc)%Z -> Forall (fun t => 0 <= ts_hoursLogged t)%Z ts -> (acc + hours_sum ts <= 2 ^ 53)%Z ->
  foldl (fun sum t => double_round (sum + double_round (ts_hoursLogged t))) acc ts = (acc + hours_sum ts)%Z.
Proof.
  revert acc. induction ts as [|t ts IH]; intros acc Ha Hh Hb; cbn [foldl] in *; [simpl in *; lia|].
  change (hours_sum (t :: ts)) with (ts_hoursLogged t + hours_sum ts)%Z in *.
  apply Forall_cons in Hh as [Ht Hh]. pose proof (hours_sum_nonneg ts Hh).
  rewrite (double_round_small (ts_hoursLogged t)), double_round_small by lia.
  rewrite IH; [lia|lia|done|lia].
Qed.

(** *** The feed *)

Lemma slice_last_length {A} n (l : list A) : length (slice_last n l) <= n.
Proof. unfold slice_last. rewrite length_drop. lia. Qed.

Lemma feed_events_length `{JsDate} rs ps ts : length (feed_events rs ps ts) <= 8.
Proof.
  unfold feed_events. rewrite length_app, !length_fmap.
  pose proof (slice_last_length 5 (filter (fun t => ts_status t = TimesheetStatus.submitted \/
                                                   ts_status t = TimesheetStatus.approved) ts)).
  pose proof (slice_last_length 3 ps). lia.
Qed.

Section FeedLemmas.
Context `{D : JsDate}.

Lemma filtered_valid {A} (date : A -> Time) f (l : list A) :
  Forall (fun x => is_Some (nsToDate (date x))) (filter (fun x => in_period f (date x) = true) l).
Proof. apply Forall_forall. intros x [Hx _]%list_elem_of_filter. by eapply in_period_valid. Qed.

(** Everything the filters keep has a valid date, so every event of the
    feed has a timestamp. *)
Lemma feed_valid f rs ps ts :
  Forall (fun e => is_Some (ev_timestamp e))
    (feed_events (filteredResources f rs) (filteredProjects f ps) (filteredTimesheets f ts)).
Proof.
  unfold feed_events. apply Forall_app; split; apply Forall_fmap, Forall_drop.
  - apply Forall_forall. intros t [_ Ht]%list_elem_of_filter.
    exact (proj1 (Forall_forall _ _) (filtered_valid ts_date f ts) t Ht).
  - eapply Forall_impl; [apply (filtered_valid pr_startDate)|]. done.
Qed.

Lemma synced_sublist {A} (date : A -> Time) f (l : list A) :
  synced f ->
  filter (fun x => in_period f (date x) = true) l `sublist_of`
  filter (fun x => in_period (clearDate f) (date x) = true) l.
Proof. intros Hs. apply filter_sublist_impl. intros x _. by apply synced_in_month. Qed.

Lemma day_filter_same {A} (date : A -> Time) f g (l : list A) :
  selectedDate f = selectedDate g -> selectedDate f <> None ->
  filter (fun x => in_period f (date x) = true) l = filter (fun x => in_period g (date x) = true) l.
Proof. intros E Hn. apply list_filter_iff. intros x. by rewrite (in_period_day f g). Qed.
End FeedLemmas.

(** ** Theorems *)

Section DashboardTheorems.
Context `{D : JsDate}.

(** choosing a valid day in the date input selects that day and
    syncs the month and year selects to it, so the resources, projects and
    entries the dashboard shows for the day are among those of its month. *)
Theorem handleDateChange_day_in_month raw f ms rs ps ts :
  raw <> [] -> date_parse (raw ++ str "T00:00:00") = Some ms ->
  let f' := handleDateChange raw f in
  selectedDate f' = Some ms /\
  filteredResources f' rs `sublist_of` filteredResources (clearDate f') rs /\
  filteredProjects f' ps `sublist_of` filteredProjects (clearDate f') ps /\
  filteredTimesheets f' ts `sublist_of` filteredTimesheets (clearDate f') ts.
Proof.
  intros Hr Hp f'. destruct (handleDateChange_valid raw f ms Hr Hp) as [Hd Hs].
  split_and!; [done|apply synced_sublist..]; done.
Qed.

(** while a specific day is chosen, the month and year selects
    change their value but not what the dashboard shows. *)
Theorem month_select_ignored f v rs ps ts :
  selectedDate f <> None ->
  selectedMonth (handleMonthChange v f) = v /\ selectedYear (handleYearChange v f) = v /\
  filteredResources (handleMonthChange v f) rs = filteredResources f rs /\
  filteredProjects (handleMonthChange v f) ps = filteredProjects f ps /\
  filteredTimesheets (handleMonthChange v f) ts = filteredTimesheets f ts /\
  filteredResources (handleYearChange v f) rs = filteredResources f rs /\
  filteredProjects (handleYearChange v f) ps = filteredProjects f ps /\
  filteredTimesheets (handleYearChange v f) ts = filteredTimesheets f ts.
Proof. intros Hn. split_and!; try done; apply day_filter_same; done. Qed.

(** C27: the activity feed is always computed (every shown item has a
    valid date), holds the last five submitted or approved entries and the
    last three projects, at most eight events, newest first. *)
Theorem activityEvents_sorted f rs ps ts :
  let rs' := filteredResources f rs in
  let ps' := filteredProjects f ps in
  let ts' := filteredTimesheets f ts in
  exists evs, activityEvents rs' ps' ts' = Some evs /\ evs ≡ₚ feed_events rs' ps' ts' /\
              length evs <= 8 /\ Sorted newer_first evs.
Proof.
  intros rs' ps' ts'. unfold activityEvents. rewrite decide_True by apply feed_valid.
  set (cmp := fun a b : ActivityEvent => Z.compare (ev_timestamp b ?? 0%Z) (ev_timestamp a ?? 0%Z)).
  pose proof (sort_by_perm cmp (feed_events rs' ps' ts')) as Hp.
  pose proof (feed_events_length rs' ps' ts') as Hl.
  rewrite take_ge by (rewrite Hp; done). eexists; split_and!; [done|done|by rewrite Hp|].
  eapply Sorted_weaken; [|apply (sort_by_sorted cmp (fun _ => True))].
  - intros a b Hc. by apply Z.compare_le_iff in Hc.
  - intros a b _ _. apply Z.compare_antisym.
  - by apply Forall_true.
Qed.
End DashboardTheorems.

(** below 2^53 the double sum of the hours is exact. *)
Theorem totalHours_exact ts :
  Forall (fun t => 0 <= ts_hoursLogged t)%Z ts -> (hours_sum ts <= 2 ^ 53)%Z ->
  totalHours ts = hours_sum ts.
Proof. intros Hh Hb. unfold totalHours. rewrite totalHours_acc; [lia|lia|done|lia]. Qed.

(** C26: when no entry's project is named after an [Object.prototype]
    member and the hours stay below 2^53, the chart has one numeric bar per
    project and its bars add up to the total hours. *)
Theorem chart_hours_total ps ts :
  Forall (fun t => project_label ps t ∉ objectPrototypeProps) ts ->
  Forall (fun t => 0 <= ts_hoursLogged t)%Z ts -> (hours_sum ts <= 2 ^ 53)%Z ->
  NoDup (hoursPerProject ps ts).*1 /\ num_vals (hoursPerProject ps ts) /\
  chart_total (hoursPerProject ps ts) = totalHours ts.
Proof.
  intros Hk Hh Hb. unfold hoursPerProject, hours_map.
  destruct (hours_fold_spec ps ts [] (NoDup_nil_2) (Forall_nil_2 _) Hk Hh) as (Hn & Hv & Hc);
    [simpl; lia|].
  unfold totalHours. rewrite totalHours_acc by (done || lia).
  rewrite !object_entries_perm. split_and!; [done|done|]. rewrite Hc. simpl. lia.
Qed.

(** ** Concrete runs *)

(** The runs below use an engine whose local time is UTC. *)
#[local] Existing Instance utc_date.

Definition sample_project (pid nm : jstr) (start : Time) : Project :=
  mkProject pid ProjectStatus.active [] start nm [] 0 start [] (str "Dana").

Definition sample_entry (tid pid : jstr) (h : Z) (date : Time) : TimesheetEntry :=
  mkTimesheetEntry tid TimesheetStatus.submitted (str "r1") date [] pid h.

(** 2024-01-15T00:00:00Z in nanoseconds and milliseconds. *)
Definition jan15_ns : Time := 1705276800000000000%Z.
Definition jan15_ms : Z := 1705276800000%Z.

Definition sample_day_filter : FilterState := mkFilterState 1 2024 (Some jan15_ms).

Definition sample_entries : list TimesheetEntry :=
  [sample_entry (str "t1") (str "p1") 5 jan15_ns; sample_entry (str "t2") (str "p2") 3 jan15_ns].

Definition sample_projects : list Project := [sample_project (str "p1") (str "Alpha") jan15_ns].

Lemma handleDateChange_day_in_month_witness :
  str "2024-01-15" <> [] /\
  date_parse (JsDate := utc_date) (str "2024-01-15" ++ str "T00:00:00") = Some jan15_ms /\
  let f' := handleDateChange (D := utc_date) (str "2024-01-15") sample_day_filter in
  selectedDate f' = Some jan15_ms /\
  filteredResources f' [] `sublist_of` filteredResources (clearDate f') [] /\
  filteredProjects f' sample_projects `sublist_of` filteredProjects (clearDate f') sample_projects /\
  filteredTimesheets f' sample_entries `sublist_of` filteredTimesheets (clearDate f') sample_entries.
Proof.
  assert (Hp : date_parse (JsDate := utc_date) (str "2024-01-15" ++ str "T00:00:00") = Some jan15_ms)
    by reflexivity.
  split; [discriminate|]. split; [exact Hp|].
  exact (handleDateChange_day_in_month (D := utc_date) (str "2024-01-15") sample_day_filter
           jan15_ms [] sample_projects sample_entries ltac:(discriminate) Hp).
Defined.

Lemma month_select_ignored_witness :
  selectedDate sample_day_filter <> None /\
  filteredTimesheets (D := utc_date) (handleMonthChange 3 sample_day_filter) sample_entries =
  filteredTimesheets (D := utc_date) sample_day_filter sample_entries.
Proof.
  split; [discriminate|].
  exact (proj1 (proj2 (proj2 (proj2 (proj2 (month_select_ignored (D := utc_date) sample_day_filter 3
           [] sample_projects sample_entries ltac:(discriminate))))))).
Defined.

Lemma totalHours_exact_witness :
  Forall (fun t => 0 <= ts_hoursLogged t)%Z sample_entries /\ (hours_sum sample_entries <= 2 ^ 53)%Z /\
  totalHours sample_entries = 8%Z.
Proof.
  assert (Hh : Forall (fun t => 0 <= ts_hoursLogged t)%Z sample_entries)
    by (repeat constructor; simpl; lia).
  assert (Hb : (hours_sum sample_entries <= 2 ^ 53)%Z) by (simpl; lia).
  split; [exact Hh|]. split; [exact Hb|]. exact (totalHours_exact sample_entries Hh Hb).
Defined.

Lemma chart_hours_total_witness :
  Forall (fun t => project_label sample_projects t ∉ objectPrototypeProps) sample_entries /\
  chart_total (hoursPerProject sample_projects sample_entries) = totalHours sample_entries.
Proof.
  assert (Hk : Forall (fun t => project_label sample_projects t ∉ objectPrototypeProps) sample_entries)
    by (apply (bool_decide_unpack _); vm_compute; reflexivity).
  split; [exact Hk|].
  refine (proj2 (proj2 (chart_hours_total sample_projects sample_entries Hk _ _)));
    [repeat constructor; simpl; lia|simpl; lia].
Defined.

(** A project named [__proto__] loses its hours (assigning a number to
    [__proto__] is ignored) and one named [constructor] becomes a string
    bar: the chart shows 2 of the 14 hours logged. *)
Example proto_project_hours_lost :
  let ps := [sample_project (str "p1") (str "__proto__") jan15_ns;
             sample_project (str "p2") (str "constructor") jan15_ns] in
  let ts := [sample_entry (str "t1") (str "p1") 8 jan15_ns; sample_entry (str "t2") (str "p2") 4 jan15_ns;
             sample_entry (str "t3") (str "p3") 2 jan15_ns] in
  hoursPerProject ps ts =
    [(str "constructor", HText (str "function Object() { [native code] }4")); (str "p3", HNum 2)] /\
  chart_total (hoursPerProject ps ts) = 2%Z /\ totalHours ts = 14%Z.
Proof. vm_compute. split_and!; reflexivity. Qed.

(** Above 2^53 the double sum drops hours. *)
Example totalHours_rounds :
  totalHours [sample_entry (str "t1") (str "p1") (2 ^ 53) jan15_ns; sample_entry (str "t2") (str "p1") 1 jan15_ns]
  = (2 ^ 53)%Z.
Proof. vm_compute. reflexivity. Qed.

(** The period label of a day and of a month; month 13 of 2024 is
    January 2025. *)
Example formatPeriodLabel_samples :
  formatPeriodLabel 1 2024 (Some jan15_ms) = Some (str "Jan 15, 2024") /\
  formatPeriodLabel 13 2024 None = Some (str "Jan 2025").
Proof. split; vm_compute; reflexivity. Qed.
