(* ===== verification/DashboardWidgets.v ===== *)
(** * The dashboard's widgets: [components/SummaryCard.tsx],
      [components/HoursChart.tsx], [components/ActivityFeed.tsx], the
      component [components/DashboardDateFilter.tsx] and the render of
      [pages/DashboardPage.tsx]

    [dashboard_render] is what the page shows from its [Dashboard.DashboardView]:
    skeletons while loading, otherwise four [SummaryCard]s, the
    [HoursChart] of the hours per project and the [ActivityFeed] of the
    recent events.  The chart shortens a project name longer than twelve
    characters with a suffix that the source writes as the three characters
    U+00E2 U+20AC U+00A6 (the UTF-8 bytes of an ellipsis read as
    Windows-1252); labels are kept as UTF-16 code units ([list N]) since
    U+20AC is outside Latin-1.  The feed's [timeAgo] computes in doubles
    ([JsNumber.js_floor_div]) against [Date.now()], an input.

    [DashboardDateFilter] is the filter bar: [DFState] pairs the page's
    [filter] (its [value] prop) with the component's [dateInput] state;
    [df_step] runs a handler ([Dashboard.handleMonthChange] and the others,
    with [setDateInput]) and then the [useEffect] on [value.selectedDate]
    when that dependency changed identity; [DashboardDateFilter] is what it
    renders, the year select's items from [getYearRange()].

    Theorems: [timeAgo] is the
    integer-arithmetic reading of its code for ages below 2^53 ms; the date
    input always shows the chosen day (empty when none); and a day more than
    two years away leaves the year select on a value none of its items has. *)

From S2P Require Import Prelude JsString Domain JsDate JsNumber Dashboard.

(** ** [SummaryCard] *)

Inductive Accent := amber | blue | green | purple.

Record SummaryCardView := mkSummaryCardView {
  sc_label : jstr;
  sc_value : Z;
  sc_trend : option jstr;          (* [trend && <p>{trend}</p>] *)
  sc_accent : Accent;
}.

Definition SummaryCard (label : jstr) (value : Z) (trend : option jstr) (accent : Accent) : SummaryCardView :=
  mkSummaryCardView label value (match trend with Some (_ :: _) => trend | _ => None end) accent.

(** ** [HoursChart] *)

(** The suffix written in [tickFormatter], as UTF-16 code units. *)
Definition WRITTEN_ELLIPSIS : list N := [0xE2; 0x20AC; 0xA6]%N.

(** [(v) => v.length > 12 ? v.slice(0, 12) + '...' : v], with the suffix as
    the source has it. *)
Definition tickFormatter (v : jstr) : list N :=
  if decide (12 < length v) then (N_of_ascii <$> take 12 v) ++ WRITTEN_ELLIPSIS else N_of_ascii <$> v.

(** [periodLabel ? ` in ${periodLabel}` : ' for this period']. *)
Definition period_suffix (periodLabel : option jstr) : jstr :=
  match periodLabel with Some ((_ :: _) as l) => str " in " ++ l | _ => str " for this period" end.

Record BarView := mkBarView { bar_tick : list N; bar_hours : HourVal; bar_color : nat }.

Inductive ChartView := ChartEmpty (msg : jstr) | ChartBars (bars : list BarView).

(** [COLORS[index % COLORS.length]] is the bar's colour index. *)
Definition HoursChart (data : list (jstr * HourVal)) (periodLabel : option jstr) : ChartView :=
  match data with
  | [] => ChartEmpty (str "No hours logged" ++ period_suffix periodLabel)
  | _ => ChartBars (imap (fun i (kv : jstr * HourVal) => mkBarView (tickFormatter kv.1) kv.2 (i mod 5)) data)
  end.

(** ** [ActivityFeed] *)

(** [timeAgo(date)] with [Date.now()] = [now], both in ms. *)
Definition timeAgo (now t : Z) : jstr :=
  let diff := double_round (now - t) in
  let mins := js_floor_div diff 60000 in
  if (mins <? 1)%Z then str "just now"
  else if (mins <? 60)%Z then js_int_to_string mins ++ str "m ago"
  else
    let hrs := js_floor_div mins 60 in
    if (hrs <? 24)%Z then js_int_to_string hrs ++ str "h ago"
    else js_int_to_string (js_floor_div hrs 24) ++ str "d ago".

(** An invalid date's [getTime()] is NaN, every comparison with it fails. *)
Definition timeAgo_opt (now : Z) (t : option Z) : jstr :=
  match t with Some t => timeAgo now t | None => str "NaNd ago" end.

Record FeedItem := mkFeedItem {
  fi_type : EventType;             (* the icon and colours of [iconMap] *)
  fi_title : jstr;
  fi_description : EventDesc;
  fi_ago : jstr;
}.

Inductive FeedView := FeedEmpty (msg : jstr) | FeedItems (items : list FeedItem).

Definition ActivityFeed (now : Z) (events : list ActivityEvent) (periodLabel : option jstr) : FeedView :=
  match events with
  | [] => FeedEmpty (str "No activity" ++ period_suffix periodLabel)
  | _ => FeedItems ((fun ev => mkFeedItem (ev_type ev) (ev_title ev) (ev_description ev)
                                 (timeAgo_opt now (ev_timestamp ev))) <$> events)
  end.

(** ** [DashboardDateFilter] *)

Section DateFilter.
Context `{D : JsDate}.

(** What the filter bar shows: each [Select]'s [value] and the values and
    labels of its items, the date input's text and the clear button. *)
Record DFView := mkDFView {
  df_month_value : jstr;
  df_month_items : list (jstr * jstr);
  df_year_value : jstr;
  df_year_items : list jstr;
  df_date_input : jstr;
  df_clear_button : bool;          (* [value.selectedDate && <Button .../>] *)
}.

(** The render, with [new Date()] at [now] for [getYearRange()]. *)
Definition DashboardDateFilter (now : Z) (value : FilterState) (dateInput : jstr) : DFView :=
  mkDFView (js_int_to_string (selectedMonth value))
    ((fun m : Z * jstr => (js_int_to_string m.1, m.2)) <$> MONTHS)
    (js_int_to_string (selectedYear value)) (js_int_to_string <$> getYearRange now)
    dateInput (bool_decide (is_Some (selectedDate value))).

(** The parent's [value] (the page's [filter], which [onChange] sets) and the
    component's [dateInput]. *)
Record DFState := mkDFState { dfs_value : FilterState; dfs_dateInput : jstr }.

(** A select's [onValueChange] carries [Number] of the chosen item's value. *)
Inductive DFEvent := DFMonth (v : Z) | DFYear (v : Z) | DFDate (raw : jstr) | DFClear.

(** Whether [handleDateChange raw] gives [selectedDate] a new identity: a
    valid date is a fresh [Date] object, clearing changes it when a day was
    chosen, an invalid text leaves [value] alone. *)
Definition date_identity_changed (raw : jstr) (v : FilterState) : bool :=
  if decide (raw = []) then bool_decide (is_Some (selectedDate v))
  else bool_decide (is_Some (date_parse (raw ++ str "T00:00:00"))).

(** The handlers: the new state and whether [value.selectedDate], the
    effect's dependency, changed. *)
Definition df_handler (e : DFEvent) (s : DFState) : DFState * bool :=
  let v := dfs_value s in
  match e with
  | DFMonth m => (mkDFState (handleMonthChange m v) (dfs_dateInput s), false)
  | DFYear y => (mkDFState (handleYearChange y v) (dfs_dateInput s), false)
  | DFDate raw => (mkDFState (handleDateChange raw v) raw, date_identity_changed raw v)
  | DFClear => (mkDFState (clearDate v) [], bool_decide (is_Some (selectedDate v)))
  end.

(** [useEffect(() => { if (!value.selectedDate) setDateInput('') },
    [value.selectedDate])], run after a render whose dependency changed. *)
Definition df_sync_effect (changed : bool) (s : DFState) : DFState :=
  if changed && bool_decide (selectedDate (dfs_value s) = None) then mkDFState (dfs_value s) [] else s.

Definition df_step (e : DFEvent) (s : DFState) : DFState :=
  let '(s', changed) := df_handler e s in df_sync_effect changed s'.

(** The page's first filter and the input's first text. *)
Definition df_init (now : Z) : DFState := mkDFState (initial_filter now) [].

(** What [<input type="date">] reports: empty, or a day [new Date] reads. *)
Definition date_input_value (raw : jstr) : Prop :=
  raw = [] \/ is_Some (date_parse (raw ++ str "T00:00:00")).

Definition df_event_ok (e : DFEvent) : Prop :=
  match e with DFDate raw => date_input_value raw | _ => True end.

(** The input shows the chosen day, and nothing when none is chosen. *)
Definition df_inv (s : DFState) : Prop :=
  match selectedDate (dfs_value s) with
  | Some ms => date_parse (dfs_dateInput s ++ str "T00:00:00") = Some ms
  | None => dfs_dateInput s = []
  end.
End DateFilter.

(** ** The page's render *)

Inductive DashboardBody :=
  | DBLoading                                  (* the skeletons *)
  | DBShown (cards : list SummaryCardView) (chart : ChartView) (feed : option FeedView).

(** [feed] is [None] where the events' order is left to the engine
    ([Dashboard.activityEvents]). *)
Definition dashboard_render (now : Z) (v : DashboardView) : DashboardBody :=
  if dv_isLoading v then DBLoading
  else DBShown
    [SummaryCard (str "Active Resources") (Z.of_nat (dv_activeResources v)) (dv_periodLabel v) amber;
     SummaryCard (str "Active Projects") (Z.of_nat (dv_activeProjects v)) (dv_periodLabel v) blue;
     SummaryCard (str "Hours Logged") (dv_totalHours v) (dv_periodLabel v) green;
     SummaryCard (str "Pending Approvals") (Z.of_nat (dv_pendingApprovals v)) (dv_periodLabel v) purple]
    (HoursChart (dv_hoursPerProject v) (dv_periodLabel v))
    ((fun evs => ActivityFeed now evs (dv_periodLabel v)) <$> dv_activityEvents v).


(** ** Lemmas *)

Section DateFilterLemmas.
Context `{D : JsDate}.

(** The effect keeps [value] and at most empties the input where no day is
    chosen. *)
Lemma df_sync_effect_inv c s : df_inv s -> df_inv (df_sync_effect c s).
Proof.
  unfold df_sync_effect. destruct (c && _) eqn:E; [|done].
  apply andb_true_iff in E as [_ E%bool_decide_eq_true]. unfold df_inv. cbn. by rewrite E.
Qed.

Lemma df_handler_inv e s : df_event_ok e -> df_inv s -> df_inv (df_handler e s).1.
Proof.
  unfold df_inv. destruct e as [m|y|raw|]; cbn; try done.
  intros Hok _. destruct (decide (raw = [])) as [->|Hr].
  - by unfold handleDateChange; rewrite decide_True.
  - destruct Hok as [|[ms Hms]]; [done|].
    by destruct (handleDateChange_valid raw (dfs_value s) ms Hr Hms) as [-> _].
Qed.

(** The year select's value is one of its items exactly when the selected
    year is within two years of the current one. *)
Lemma year_select_listed now v i :
  df_year_value (DashboardDateFilter now v i) ∈ df_year_items (DashboardDateFilter now v i) <->
  selectedYear v ∈ getYearRange now.
Proof.
  cbn. rewrite list_elem_of_fmap. split.
  - by intros (y & ->%js_int_to_string_inj & Hy).
  - intros Hy. by eexists.
Qed.
End DateFilterLemmas.

(** ** Theorems *)


(** C28: The date input always shows the day the filter has chosen, and is empty
    when no day is chosen, whatever the sequence of selections, date inputs
    and clears from the first render, as long as the input reports only
    empty or readable dates. *)
Theorem date_input_shows_day `{D : JsDate} now es :
  Forall df_event_ok es -> df_inv (foldl (fun s e => df_step e s) (df_init now) es).
Proof.
  assert (df_inv (df_init now)) as Hinit by (unfold df_inv, df_init, initial_filter; by destruct (local_ymd now) as [[? ?] ?]).
  revert Hinit. generalize (df_init now). induction es as [|e es IH]; intros s Hs Hes; [done|].
  apply Forall_cons in Hes as [He Hes]. apply IH; [|done].
  unfold df_step. destruct (df_handler e s) as [s' c] eqn:Eh.
  apply df_sync_effect_inv. change s' with (s', c).1. rewrite <- Eh. by apply df_handler_inv.
Qed.

(** C29: Choosing a day in a year more than two years away from the current one
    selects that year, which the year select does not list: its value
    matches none of its items. *)
Theorem year_select_blank `{D : JsDate} now s raw ms y m d :
  raw <> [] -> date_parse (raw ++ str "T00:00:00") = Some ms -> local_ymd ms = (y, m, d) ->
  y ∉ getYearRange now ->
  let w := DashboardDateFilter now (dfs_value (df_step (DFDate raw) s)) (dfs_dateInput (df_step (DFDate raw) s)) in
  (df_year_value w ∉ df_year_items w) /\ df_date_input w = raw.
Proof.
  intros Hr Hp Hymd Hy. destruct (handleDateChange_valid raw (dfs_value s) ms Hr Hp) as [Hsd _].
  unfold df_step, df_handler, df_sync_effect. cbn [dfs_value].
  rewrite Hsd, andb_false_r. cbn -[DashboardDateFilter].
  split; [|done]. rewrite year_select_listed.
  unfold handleDateChange. rewrite decide_False, Hp, Hymd by done. done.
Qed.


#[local] Existing Instance utc_date.

Lemma date_input_shows_day_witness :
  df_inv (foldl (fun s e => df_step e s) (df_init jan15_ms)
                           [DFDate (str "2024-01-20"); DFMonth 3; DFClear]).
Proof. apply date_input_shows_day. apply Forall_cons_2; [right; vm_compute; by eexists|]. repeat constructor. Defined.

Lemma year_select_blank_witness :
  let s := df_step (DFDate (str "2030-01-15")) (df_init jan15_ms) in
  let w := DashboardDateFilter jan15_ms (dfs_value s) (dfs_dateInput s) in
  (df_year_value w ∉ df_year_items w) /\ df_date_input w = str "2030-01-15".
Proof.
  apply (year_select_blank (D := utc_date) jan15_ms _ (str "2030-01-15") 1894665600000 2030 1 15);
    [discriminate|vm_compute; reflexivity|vm_compute; reflexivity|].
  vm_compute. intros Hin. repeat (apply elem_of_cons in Hin as [Hin|Hin]; [discriminate|]).
  by apply elem_of_nil in Hin.
Defined.

