(* ===== verification/Timesheets.v ===== *)
(** * Timesheets: [pages/TimesheetsPage.tsx], [components/WeeklyTimesheetView.tsx],
    [components/TimesheetEntryFormModal.tsx] and the week helpers of [lib/utils.ts]

    [TimesheetsPage] reads every timesheet entry ([useTimesheetEntries()]
    without dates) and hands them to [WeeklyTimesheetView], which lays out the
    current week: [getWeekStart] gives the Monday, [weekDays] the seven days,
    [entriesByDay] the entries of each day (keyed by [toDateString], i.e. by
    local calendar day), [hoursPerDay] their hours and [totalHours] the hours
    of all entries.  The page's [Log Time] button and [handleEdit] set state
    that nothing renders, [handleDelete] and [handleSubmit] are empty.

    [TimesheetEntryFormModal] is a form whose [handleSubmit] checks the fields,
    reads the hours with [parseInt] ([parseInt], the ECMAScript algorithm with
    no radix: leading white space, a sign, a [0x] prefix, the longest prefix
    of digits) and builds the entry.

    The week arithmetic needs the local day of a time value and local
    midnight, which [Class JsDate] does not provide: it is modelled for an
    engine with a fixed offset [off] from UTC, as [JsDate.fixed_offset_date]
    (no daylight saving time).  [Date.prototype.setDate] with a day outside
    the month rolls into the neighbouring month, so it is day arithmetic.

    Theorems: [getWeekStart] is the local midnight of the Monday of the
    current week; the day columns add up, with the entries outside the week,
    to the total the page shows; a submitted entry has 1 to 24 hours, both
    ids set and a trimmed description; and [parseInt] takes [8.5] for 8
    hours and [0x10] for 16. *)

From S2P Require Import Prelude JsString Domain JsDate JsNumber Dashboard.

(** ** [parseInt] with no radix *)

Definition hex_digit_value (c : ascii) : option Z :=
  let n := N_of_ascii c in
  if bool_decide (48 <= n <= 57)%N then Some (Z.of_N (n - 48))
  else if bool_decide (65 <= n <= 70)%N then Some (Z.of_N (n - 55))
  else if bool_decide (97 <= n <= 102)%N then Some (Z.of_N (n - 87))
  else None.

(** The longest prefix of digits of radix [16] (when [hex]) or [10]: its
    value and whether it is non-empty. *)
Fixpoint digit_prefix (hex : bool) (acc : Z) (nonempty : bool) (s : jstr) : Z * bool :=
  match s with
  | [] => (acc, nonempty)
  | c :: r =>
      match (if hex then hex_digit_value c else digit_value c) with
      | Some d => digit_prefix hex (acc * (if hex then 16 else 10) + d)%Z true r
      | None => (acc, nonempty)
      end
  end.

(** [parseInt(s)]: [None] is NaN.  The value is rounded to a double (the
    standard allows an approximation beyond 20 decimal digits, which only
    concerns values far above the bounds the code tests). *)
Definition parseInt (s : jstr) : option Z :=
  let s := trim_start s in
  let '(sign, s) := match s with
                    | "-"%char :: r => ((-1)%Z, r)
                    | "+"%char :: r => (1%Z, r)
                    | _ => (1%Z, s)
                    end in
  let '(hex, s) := match s with
                   | "0"%char :: "x"%char :: r | "0"%char :: "X"%char :: r => (true, r)
                   | _ => (false, s)
                   end in
  let '(v, ok) := digit_prefix hex 0 false s in
  if ok then Some (sign * double_round v)%Z else None.

(** ** The entry form *)

(** The form's [useState]. *)
Record TsForm := mkTsForm {
  tf_resourceId : jstr;
  tf_projectId : jstr;
  tf_date : jstr;
  tf_hoursLogged : jstr;
  tf_description : jstr;
}.

(** The empty form; [today] is [new Date().toISOString().split('T')[0]]. *)
Definition ts_empty_form (today : jstr) : TsForm := mkTsForm [] [] today (str "8") [].

Inductive TsField := TFResource | TFProject | TFDate | TFHours | TFDescription.

(** [setForm((f) => ({ ...f, x: v }))] of each input. *)
Definition ts_form_edit (fld : TsField) (v : jstr) (f : TsForm) : TsForm :=
  match fld with
  | TFResource => mkTsForm v (tf_projectId f) (tf_date f) (tf_hoursLogged f) (tf_description f)
  | TFProject => mkTsForm (tf_resourceId f) v (tf_date f) (tf_hoursLogged f) (tf_description f)
  | TFDate => mkTsForm (tf_resourceId f) (tf_projectId f) v (tf_hoursLogged f) (tf_description f)
  | TFHours => mkTsForm (tf_resourceId f) (tf_projectId f) (tf_date f) v (tf_description f)
  | TFDescription => mkTsForm (tf_resourceId f) (tf_projectId f) (tf_date f) (tf_hoursLogged f) v
  end.

(** What a submission does besides setting [error]. *)
Inductive TsSubmit :=
  | TsNoSubmit                       (* a validation error *)
  | TsThrows                         (* [BigInt(NaN)] of an invalid date *)
  | TsSubmitted (e : TimesheetEntry). (* [onSubmit(entry)] *)

Definition fill_msg : jstr := str "Please fill in all required fields.".
Definition hours_msg : jstr := str "Hours must be between 1 and 24.".

Section Form.
Context `{D : JsDate}.

(** The [useEffect] on [initialData] and [open]; [None] when a date cannot be
    printed ([toISOString] throws).  [String(Number(h))] is the decimal text
    below 10^21, where [Number] prints no exponent. *)
Definition ts_form_of (today : jstr) (initialData : option TimesheetEntry) : option TsForm :=
  match initialData with
  | None => Some (ts_empty_form today)
  | Some e =>
      d ← iso_date <$> date_of_ns (ts_date e);
      let h := double_round (ts_hoursLogged e) in
      if bool_decide (Z.abs h < 10 ^ 21)%Z
      then Some (mkTsForm (ts_resourceId e) (ts_projectId e) d (js_int_to_string h) (ts_description e))
      else None
  end.

(** [handleSubmit]: the new [error] text and what is submitted; [newId] is
    [generateId()]. *)
Definition ts_handleSubmit (newId : jstr) (initialData : option TimesheetEntry) (f : TsForm)
    : jstr * TsSubmit :=
  if decide (tf_resourceId f = [] \/ tf_projectId f = [] \/ tf_date f = [] \/ tf_hoursLogged f = [])
  then (fill_msg, TsNoSubmit)
  else match parseInt (tf_hoursLogged f) with
       | None => (hours_msg, TsNoSubmit)
       | Some h =>
           if decide (h < 1 \/ 24 < h)%Z then (hours_msg, TsNoSubmit)
           else match date_parse (tf_date f) with
                | None => ([], TsThrows)
                | Some ms =>
                    ([], TsSubmitted
                           (mkTimesheetEntry
                              (match initialData with Some e => ts_id e | None => newId end)
                              (match initialData with Some e => ts_status e | None => TimesheetStatus.draft end)
                              (tf_resourceId f) (ms * 1000000)%Z (trim (tf_description f))
                              (tf_projectId f) h))
                end
       end.
End Form.

(** ** The week *)

Section Week.
(** The engine's offset of local time from UTC, in milliseconds. *)
Variable off : Z.

Local Instance week_date : JsDate := fixed_offset_date off.

(** The local calendar day of a time value: what [toDateString] prints, one
    text per day. *)
Definition local_day (ms : Z) : Z := ((ms + off) / ms_per_day)%Z.

(** [getDay()]: 0 for Sunday; 1970-01-01 was a Thursday. *)
Definition getDay (ms : Z) : Z := ((local_day ms + 4) mod 7)%Z.

(** [getWeekStart(date)]: [setDate(getDate() - day + (day === 0 ? -6 : 1))]
    moves to the Monday, [setHours(0, 0, 0, 0)] to its local midnight. *)
Definition getWeekStart (now : Z) : Z :=
  let day := getDay now in
  let monday := (local_day now - day + (if Z.eqb day 0 then -6 else 1))%Z in
  (monday * ms_per_day - off)%Z.

(** [weekDays]: [new Date(weekStart)] with [setDate(weekStart.getDate() + i)]. *)
Definition weekDays (now : Z) : list Z :=
  (fun i => getWeekStart now + Z.of_nat i * ms_per_day)%Z <$> seq 0 7.

(** The local day of an entry, [None] for an invalid date ([toDateString]
    is [Invalid Date], which is no key of [map]). *)
Definition entry_day (e : TimesheetEntry) : option Z := local_day <$> nsToDate (ts_date e).

(** [entriesByDay[d.toDateString()]]: the entries of day [d], in order. *)
Definition entriesOfDay (entries : list TimesheetEntry) (d : Z) : list TimesheetEntry :=
  filter (fun e => entry_day e = Some (local_day d)) entries.

(** [hoursPerDay]. *)
Definition hoursPerDay (now : Z) (entries : list TimesheetEntry) : list Z :=
  (fun d => totalHours (entriesOfDay entries d)) <$> weekDays now.

(** An entry dated on one of the [n] local days from day [m]. *)
Definition in_days (m : Z) (n : nat) (e : TimesheetEntry) : Prop :=
  match entry_day e with Some k => (m <= k < m + Z.of_nat n)%Z | None => False end.

#[global] Instance in_days_dec m n e : Decision (in_days m n e).
Proof. unfold in_days. destruct (entry_day e); apply _. Defined.

(** An entry dated in the displayed week. *)
Definition in_week (now : Z) (e : TimesheetEntry) : Prop := in_days (local_day (getWeekStart now)) 7 e.

#[global] Instance in_week_dec now e : Decision (in_week now e).
Proof. unfold in_week. apply _. Defined.
End Week.

(** ** The view and the page *)

(** [statusConfig[entry.status]]: the badge of each status. *)
Definition status_label (s : TimesheetStatus.t) : jstr :=
  match s with
  | TimesheetStatus.draft => str "Draft"
  | TimesheetStatus.submitted => str "Submitted"
  | TimesheetStatus.approved => str "Approved"
  end.

Inductive EntryAction := AEdit | ASubmit | ADelete | AApprove.

(** The buttons of an entry's row. *)
Definition entry_actions (showApprovalActions : bool) (e : TimesheetEntry) : list EntryAction :=
  match ts_status e with
  | TimesheetStatus.draft => [AEdit; ASubmit; ADelete]
  | TimesheetStatus.submitted => if showApprovalActions then [AApprove] else []
  | TimesheetStatus.approved => []
  end.

(** What [WeeklyTimesheetView] shows: the seven day totals, the entry count
    and total of the header, and each row with its badge and buttons. *)
Record WeekView := mkWeekView {
  wv_hoursPerDay : list Z;
  wv_count : nat;
  wv_totalHours : Z;
  wv_rows : list (TimesheetEntry * jstr * list EntryAction);
}.

Definition week_view (off now : Z) (showApprovalActions : bool) (entries : list TimesheetEntry) : WeekView :=
  mkWeekView (hoursPerDay off now entries) (length entries) (totalHours entries)
    ((fun e => (e, status_label (ts_status e), entry_actions showApprovalActions e)) <$> entries).

(** [TimesheetsPage]'s two [useState]s. *)
Record TsPage := mkTsPage { showLogModal : bool; editingEntry : option TimesheetEntry }.

Definition ts_page_init : TsPage := mkTsPage false None.

Inductive TsPageEvent := TPLogTime | TPEdit (e : TimesheetEntry) | TPDelete (id : jstr) | TPSubmit (id : jstr).

(** The page's handlers; without [canLogTime] the button is hidden and the
    row callbacks are [() => {}]. *)
Definition ts_page_step (canLogTime : bool) (ev : TsPageEvent) (p : TsPage) : TsPage :=
  if canLogTime then
    match ev with
    | TPLogTime => mkTsPage true (editingEntry p)
    | TPEdit e => mkTsPage true (Some e)
    | TPDelete _ | TPSubmit _ => p
    end
  else p.

(** What the page renders: the view of every entry ([timesheetEntries ?? []]);
    its state is not read. *)
Definition ts_page_view (off now : Z) (showApprovalActions : bool)
    (timesheetEntries : option (list TimesheetEntry)) (_ : TsPage) : WeekView :=
  week_view off now showApprovalActions (default [] timesheetEntries).

(** ** Lemmas *)

Lemma hours_sum_cons t ts : hours_sum (t :: ts) = (ts_hoursLogged t + hours_sum ts)%Z.
Proof. done. Qed.

Section HoursSum.
Context (P Q : TimesheetEntry -> Prop) `{!forall x, Decision (P x)} `{!forall x, Decision (Q x)}.

Lemma hours_sum_filter_split l :
  hours_sum l = (hours_sum (filter P l) + hours_sum (filter (fun x => ¬ P x) l))%Z.
Proof.
  induction l as [|t l IH]; [done|]. rewrite !filter_cons, hours_sum_cons.
  case_decide; case_decide; rewrite ?hours_sum_cons; try tauto; lia.
Qed.

Lemma hours_sum_filter_none l : (forall x, ¬ P x) -> hours_sum (filter P l) = 0%Z.
Proof. intros HP. induction l as [|t l IH]; [done|]. rewrite filter_cons, decide_False; auto. Qed.

Lemma hours_sum_filter_disj l :
  (forall x, P x -> Q x -> False) ->
  hours_sum (filter (fun x => P x \/ Q x) l) = (hours_sum (filter P l) + hours_sum (filter Q l))%Z.
Proof.
  intros Hd. induction l as [|t l IH]; [done|]. rewrite !filter_cons.
  case_decide as H1; case_decide as H2; case_decide as H3; rewrite ?hours_sum_cons;
    try (exfalso; naive_solver); lia.
Qed.

Lemma hours_sum_filter_le l :
  Forall (fun t => 0 <= ts_hoursLogged t)%Z l -> (hours_sum (filter P l) <= hours_sum l)%Z.
Proof.
  intros Hl. rewrite (hours_sum_filter_split l).
  pose proof (hours_sum_nonneg (filter (fun x => ¬ P x) l) (Forall_filter_keep _ _ l Hl)). lia.
Qed.
End HoursSum.

Lemma foldr_add_fmap {A} (h : A -> Z) l :
  foldr Z.add 0%Z (h <$> l) = foldr (fun x acc => h x + acc)%Z 0%Z l.
Proof. induction l as [|x l IH]; [done|]. rewrite fmap_cons. cbn [foldr]. by rewrite IH. Qed.

Lemma foldr_add_acc {A} (g : A -> Z) a l :
  foldr (fun x acc => g x + acc)%Z a l = (foldr (fun x acc => g x + acc)%Z 0%Z l + a)%Z.
Proof. induction l; simpl; lia. Qed.

Section WeekLemmas.
Variable off : Z.

Lemma local_day_shift x i : local_day off (x + i * ms_per_day) = (local_day off x + i)%Z.
Proof.
  unfold local_day. rewrite <- Z.add_assoc, (Z.add_comm (i * _)), Z.add_assoc.
  rewrite Z.div_add; [done|]. unfold ms_per_day. lia.
Qed.

Lemma local_day_midnight k : local_day off (k * ms_per_day - off) = k.
Proof. unfold local_day. rewrite Z.sub_add, Z.div_mul; [done|]. unfold ms_per_day. lia. Qed.

(** The day columns from day [x] on partition the entries of those days. *)
Lemma day_sums x l (n : nat) :
  foldr (fun i acc => hours_sum (entriesOfDay off l (x + Z.of_nat i * ms_per_day)) + acc)%Z
    0%Z (seq 0 n) = hours_sum (filter (in_days off (local_day off x) n) l).
Proof.
  induction n as [|n IH].
  - simpl. symmetry. apply hours_sum_filter_none. intros e. unfold in_days.
    destruct (entry_day off e); lia.
  - rewrite seq_S, foldr_app. simpl. rewrite foldr_add_acc, IH.
    unfold entriesOfDay. rewrite local_day_shift. set (m := local_day off x).
    rewrite (list_filter_iff (in_days off m (S n))
               (fun e => in_days off m n e \/ entry_day off e = Some (m + Z.of_nat n)%Z)).
    + rewrite hours_sum_filter_disj; [lia|]. intros e. unfold in_days.
      destruct (entry_day off e); [intros ? [= ->]; lia|done].
    + intros e. unfold in_days. destruct (entry_day off e); [|naive_solver].
      split; [intros ?; destruct (decide (z = m + Z.of_nat n)%Z); [right; congruence|left; lia]|].
      intros [?|[= ->]]; lia.
Qed.

Lemma day_total_exact entries d :
  Forall (fun t => 0 <= ts_hoursLogged t)%Z entries -> (hours_sum entries <= 2 ^ 53)%Z ->
  totalHours (entriesOfDay off entries d) = hours_sum (entriesOfDay off entries d).
Proof.
  intros Hh Hb. unfold totalHours, entriesOfDay.
  pose proof (hours_sum_filter_le (fun e => entry_day off e = Some (local_day off d)) entries Hh).
  pose proof (hours_sum_nonneg _ (Forall_filter_keep (fun e => entry_day off e = Some (local_day off d)) _ entries Hh)).
  rewrite totalHours_acc; [lia|lia|by apply Forall_filter_keep|lia].
Qed.
End WeekLemmas.

(** ** Theorems *)

(** C33: [getWeekStart] is the local midnight of a Monday, and the week
    it starts holds the current time. *)
Theorem getWeekStart_monday off now :
  let ws := getWeekStart off now in
  getDay off ws = 1%Z /\ ((ws + off) mod ms_per_day = 0)%Z /\ (ws <= now < ws + 7 * ms_per_day)%Z.
Proof.
  intros ws. unfold ws, getWeekStart, getDay. rewrite local_day_midnight.
  set (L := local_day off now).
  assert (HL : (L * ms_per_day <= now + off < L * ms_per_day + ms_per_day)%Z).
  { unfold L, local_day. pose proof (Z.div_mod (now + off) ms_per_day ltac:(done)).
    pose proof (Z.mod_pos_bound (now + off) ms_per_day ltac:(done)). lia. }
  pose proof (Z.div_mod (L + 4) 7 ltac:(done)). pose proof (Z.mod_pos_bound (L + 4) 7 ltac:(done)).
  set (day := ((L + 4) mod 7)%Z) in *. set (k := ((L + 4) / 7)%Z) in *.
  unfold ms_per_day in *.
  destruct (Z.eqb_spec day 0) as [Hd|Hd]; split_and!.
  - replace (L - day + -6 + 4)%Z with (1 + (k - 1) * 7)%Z by lia. by rewrite Z.mod_add.
  - rewrite Z.sub_add. by apply Z.mod_mul.
  - lia.
  - lia.
  - replace (L - day + 1 + 4)%Z with (1 + k * 7)%Z by lia. by rewrite Z.mod_add.
  - rewrite Z.sub_add. by apply Z.mod_mul.
  - lia.
  - lia.
Qed.

(** C32: the seven day columns of the week view add up, with the hours
    of the entries dated outside the displayed week, to the total the header
    shows (hours non-negative, the sum below 2^53). *)
Theorem week_hours_split off now entries :
  Forall (fun t => 0 <= ts_hoursLogged t)%Z entries -> (hours_sum entries <= 2 ^ 53)%Z ->
  (foldr Z.add 0%Z (hoursPerDay off now entries) +
   hours_sum (filter (fun e => ¬ in_week off now e) entries))%Z = totalHours entries.
Proof.
  intros Hh Hb. pose proof (hours_sum_nonneg entries Hh).
  unfold totalHours. rewrite totalHours_acc; [|lia|done|lia].
  unfold hoursPerDay.
  rewrite (list_fmap_ext _ (fun d => hours_sum (entriesOfDay off entries d)))
    by (intros; by apply day_total_exact).
  unfold weekDays. rewrite <- list_fmap_compose, foldr_add_fmap. unfold compose.
  rewrite day_sums, (hours_sum_filter_split (in_week off now) entries).
  rewrite (list_filter_iff (in_days off _ 7) (in_week off now)) by done. lia.
Qed.

Section FormTheorems.
Context `{D : JsDate}.

(** a submitted entry has the form's resource and project (both
    set), between 1 and 24 hours read by [parseInt], the date of the form in
    nanoseconds, the trimmed description, and the id and status of the edited
    entry or a new id and [draft]; the error text is cleared. *)
Theorem ts_handleSubmit_ok newId init f err e :
  ts_handleSubmit newId init f = (err, TsSubmitted e) ->
  err = [] /\ ts_resourceId e = tf_resourceId f /\ tf_resourceId f <> [] /\
  ts_projectId e = tf_projectId f /\ tf_projectId f <> [] /\
  parseInt (tf_hoursLogged f) = Some (ts_hoursLogged e) /\ (1 <= ts_hoursLogged e <= 24)%Z /\
  (exists ms, date_parse (tf_date f) = Some ms /\ ts_date e = (ms * 1000000)%Z) /\
  ts_description e = trim (tf_description f) /\
  ts_id e = match init with Some i => ts_id i | None => newId end /\
  ts_status e = match init with Some i => ts_status i | None => TimesheetStatus.draft end.
Proof.
  unfold ts_handleSubmit. case_decide as Hf; [discriminate|].
  destruct (parseInt (tf_hoursLogged f)) as [h|] eqn:Hp; [|discriminate].
  case_decide as Hh; [discriminate|].
  destruct (date_parse (tf_date f)) as [ms|] eqn:Hd; [|discriminate].
  intros [= <- <-]. simpl. split_and!; eauto; lia.
Qed.
End FormTheorems.

(** ** Concrete runs *)

Definition sample_ts_entry (tid : jstr) (h : Z) (date : Time) : TimesheetEntry :=
  mkTimesheetEntry tid TimesheetStatus.submitted (str "r1") date [] (str "p1") h.

(** 2024-01-17 (a Wednesday) at noon UTC, in milliseconds. *)
Definition wed_noon : Z := 1705492800000%Z.

(** One entry on Monday 2024-01-15, one on Wednesday 2024-01-17, one the
    week before. *)
Definition sample_week_entries : list TimesheetEntry :=
  [sample_ts_entry (str "t1") 8 1705276800000000000; sample_ts_entry (str "t2") 5 1705492800000000000;
   sample_ts_entry (str "t3") 7 1704931200000000000].

Lemma week_hours_split_witness :
  Forall (fun t => 0 <= ts_hoursLogged t)%Z sample_week_entries /\
  (hours_sum sample_week_entries <= 2 ^ 53)%Z /\
  (foldr Z.add 0%Z (hoursPerDay 0 wed_noon sample_week_entries) +
   hours_sum (filter (fun e => ¬ in_week 0 wed_noon e) sample_week_entries))%Z =
  totalHours sample_week_entries.
Proof.
  assert (Hh : Forall (fun t => 0 <= ts_hoursLogged t)%Z sample_week_entries)
    by (repeat constructor; simpl; lia).
  assert (Hb : (hours_sum sample_week_entries <= 2 ^ 53)%Z) by (simpl; lia).
  split; [exact Hh|]. split; [exact Hb|]. exact (week_hours_split 0 wed_noon sample_week_entries Hh Hb).
Defined.

(** The header counts three entries and 20 hours for a week whose columns
    hold 13: the entry of the week before is counted too. *)
Example week_header_counts_other_weeks :
  hoursPerDay 0 wed_noon sample_week_entries = [8; 0; 5; 0; 0; 0; 0]%Z /\
  week_view 0 wed_noon false sample_week_entries =
    mkWeekView [8; 0; 5; 0; 0; 0; 0]%Z 3 20
      ((fun e => (e, str "Submitted", [])) <$> sample_week_entries).
Proof. split; vm_compute; reflexivity. Qed.

Definition sample_ts_form (hours : jstr) : TsForm :=
  mkTsForm (str "r1") (str "p1") (str "2024-01-15") hours (str " standup ").

Lemma ts_handleSubmit_ok_witness :
  ts_handleSubmit (D := utc_date) (str "id1") None (sample_ts_form (str "8")) =
    ([], TsSubmitted (mkTimesheetEntry (str "id1") TimesheetStatus.draft (str "r1")
                       1705276800000000000 (str "standup") (str "p1") 8)) /\
  (1 <= 8 <= 24)%Z.
Proof.
  assert (H : ts_handleSubmit (D := utc_date) (str "id1") None (sample_ts_form (str "8")) =
    ([], TsSubmitted (mkTimesheetEntry (str "id1") TimesheetStatus.draft (str "r1")
                       1705276800000000000 (str "standup") (str "p1") 8))) by (vm_compute; reflexivity).
  split; [exact H|]. exact (proj1 (proj2 (proj2 (proj2 (proj2 (proj2 (proj2
    (ts_handleSubmit_ok (D := utc_date) _ _ _ _ _ H)))))))).
Defined.

(** [parseInt] reads the leading integer: [8.5] is logged as 8 hours,
    [0x10] as 16, [12abc] as 12, while [abc] is rejected. *)
Example parseInt_hours_accepted :
  let sub h := snd (ts_handleSubmit (D := utc_date) (str "id1") None (sample_ts_form h)) in
  parseInt (str "8.5") = Some 8%Z /\ parseInt (str "0x10") = Some 16%Z /\
  parseInt (str " 12abc") = Some 12%Z /\ parseInt (str "abc") = None /\
  (exists e, sub (str "8.5") = TsSubmitted e /\ ts_hoursLogged e = 8%Z) /\
  (exists e, sub (str "0x10") = TsSubmitted e /\ ts_hoursLogged e = 16%Z) /\
  sub (str "abc") = TsNoSubmit.
Proof. vm_compute. split_and!; try reflexivity; eexists; split; reflexivity. Qed.

(** The page's handlers change only state that nothing renders. *)
Example log_time_shows_nothing :
  ts_page_step true TPLogTime ts_page_init = mkTsPage true None /\
  ts_page_view 0 wed_noon false (Some sample_week_entries) (ts_page_step true TPLogTime ts_page_init) =
  ts_page_view 0 wed_noon false (Some sample_week_entries) ts_page_init.
Proof. split; reflexivity. Qed.
