(* ===== verification/Projects.v ===== *)
(** * Projects: [pages/ProjectsPage.tsx], [components/ProjectKanbanBoard.tsx],
    [components/ProjectFormModal.tsx], [components/ProjectDetailModal.tsx],
    [components/MilestoneChecklist.tsx] and the formatters of [lib/utils.ts]

    [ProjectsPage] keeps four [useState]s ([PPage]) and shows the projects on
    a board of four status columns ([kanban_columns]); a card opens the detail
    dialog, its buttons the form or the delete confirmation.  The form
    ([ProjectFormModal]) has its own state, filled by a [useEffect]
    ([project_form_of]), edited field by field and by [toggleResource], and
    its [handleSubmit] builds the [Project] handed to the page, which awaits
    [useAddProject] or [useUpdateProject] (stubs that resolve, see [Queries])
    and closes the form.  The detail dialog and [MilestoneChecklist] show the
    milestone progress, computed in doubles ([progress]: [completed / total]
    rounded, times 100 rounded, [Math.round]).

    Theorems: the board's columns partition the projects; the progress is the
    exact percentage rounded half up for up to 39 milestones, and 23 of 40 is
    shown as 57; a submitted project has a trimmed name and manager; toggling
    a resource twice restores the selection and keeps it duplicate-free; and
    editing from the detail dialog leaves it open under the form. *)

From S2P Require Import Prelude JsString Domain JsDate JsNumber ResourceForm Dashboard Timesheets.

(** ** The board *)

(** [COLUMNS]: the status and label of each column, in order. *)
Definition COLUMNS : list (ProjectStatus.t * jstr) :=
  [(ProjectStatus.planning, str "Planning"); (ProjectStatus.active, str "Active");
   (ProjectStatus.onHold, str "On Hold"); (ProjectStatus.completed, str "Completed")].

(** [colProjects] of each column. *)
Definition kanban_columns (projects : list Project) : list (jstr * list Project) :=
  (fun col => (col.2, filter (fun p => pr_status p = col.1) projects)) <$> COLUMNS.

(** [Math.round((completed / total) * 100)], or 0 without milestones. *)
Definition progress (completed total : Z) : Z :=
  if (total <=? 0)%Z then 0%Z
  else if (completed =? 0)%Z then 0%Z
  else math_round (dbl_mul_int (round_div completed total) 100).

Definition milestone_progress (ms : list Milestone) : Z :=
  progress (Z.of_nat (length (filter (fun m => ms_completed m = true) ms))) (Z.of_nat (length ms)).

(** What a [KanbanCard] shows. *)
Record CardView := mkCardView {
  cv_name : jstr;
  cv_description : option jstr;
  cv_progress : option Z;
  cv_manager : jstr;
  cv_members : nat;
  cv_edit : bool;
  cv_delete : bool;
}.

(** [onEdit] and [onDelete] are optional props: their buttons show whenever
    a callback is passed, whatever it does. *)
Definition kanban_card (has_onEdit has_onDelete : bool) (p : Project) : CardView :=
  mkCardView (pr_name p)
    (if decide (pr_description p = []) then None else Some (pr_description p))
    (if decide (pr_milestones p = []) then None else Some (milestone_progress (pr_milestones p)))
    (pr_managerName p) (length (pr_assignedResourceIds p)) has_onEdit has_onDelete.

(** The board of [ProjectsPage], which always passes [onEdit] and [onDelete]
    ([noopEdit] and [noopDelete] without the rights). *)
Definition projects_board (projects : list Project) : list (jstr * list CardView) :=
  (fun col : jstr * list Project => (col.1, kanban_card true true <$> col.2)) <$> kanban_columns projects.

(** ** The project form *)

(** The form's [useState]. *)
Record PForm := mkPForm {
  pf_name : jstr;
  pf_description : jstr;
  pf_status : ProjectStatus.t;
  pf_startDate : jstr;
  pf_endDate : jstr;
  pf_budget : jstr;
  pf_managerName : jstr;
  pf_assignedResourceIds : list jstr;
}.

(** The empty form; [today] is the module-level constant
    [new Date().toISOString().split('T')[0]], fixed when the module loads. *)
Definition project_empty_form (today : jstr) : PForm :=
  mkPForm [] [] ProjectStatus.planning today today (str "0") [] [].

Inductive PField := PFName | PFDescription | PFManager | PFStart | PFEnd | PFBudget.

(** [setForm((f) => ({ ...f, x: v }))] of the text inputs. *)
Definition project_form_edit (fld : PField) (v : jstr) (f : PForm) : PForm :=
  match fld with
  | PFName => mkPForm v (pf_description f) (pf_status f) (pf_startDate f) (pf_endDate f) (pf_budget f) (pf_managerName f) (pf_assignedResourceIds f)
  | PFDescription => mkPForm (pf_name f) v (pf_status f) (pf_startDate f) (pf_endDate f) (pf_budget f) (pf_managerName f) (pf_assignedResourceIds f)
  | PFManager => mkPForm (pf_name f) (pf_description f) (pf_status f) (pf_startDate f) (pf_endDate f) (pf_budget f) v (pf_assignedResourceIds f)
  | PFStart => mkPForm (pf_name f) (pf_description f) (pf_status f) v (pf_endDate f) (pf_budget f) (pf_managerName f) (pf_assignedResourceIds f)
  | PFEnd => mkPForm (pf_name f) (pf_description f) (pf_status f) (pf_startDate f) v (pf_budget f) (pf_managerName f) (pf_assignedResourceIds f)
  | PFBudget => mkPForm (pf_name f) (pf_description f) (pf_status f) (pf_startDate f) (pf_endDate f) v (pf_managerName f) (pf_assignedResourceIds f)
  end.

(** The status select. *)
Definition project_form_status (s : ProjectStatus.t) (f : PForm) : PForm :=
  mkPForm (pf_name f) (pf_description f) s (pf_startDate f) (pf_endDate f) (pf_budget f) (pf_managerName f) (pf_assignedResourceIds f).

(** [toggleResource(id)]: remove every copy when present, else append. *)
Definition toggle_id (id : jstr) (l : list jstr) : list jstr :=
  if decide (id ∈ l) then filter (fun r => r <> id) l else l ++ [id].

Definition toggleResource (id : jstr) (f : PForm) : PForm :=
  mkPForm (pf_name f) (pf_description f) (pf_status f) (pf_startDate f) (pf_endDate f) (pf_budget f)
    (pf_managerName f) (toggle_id id (pf_assignedResourceIds f)).

(** [BigInt(parseInt(form.budget) || 0)]: NaN and -0 give 0; a value that
    rounds to Infinity makes [BigInt] throw ([None]). *)
Definition budget_of (s : jstr) : option Z :=
  match parseInt s with
  | None => Some 0%Z
  | Some v => if (2 ^ 1024 <=? Z.abs v)%Z then None else Some v
  end.

Inductive PSubmit := PNoSubmit | PThrows | PSubmitted (p : Project).

Definition name_manager_msg : jstr := str "Name and Manager are required.".

Section ProjectForm.
Context `{D : JsDate}.

(** The [useEffect] on [initialData] and [open]; [None] when it throws (a
    date [toISOString] cannot print).  [String(Number(budget))] is the decimal
    text below 10^21. *)
Definition project_form_of (today : jstr) (initialData : option Project) : option PForm :=
  match initialData with
  | None => Some (project_empty_form today)
  | Some p =>
      sd ← formatDateInput (pr_startDate p);
      ed ← formatDateInput (pr_endDate p);
      let b := double_round (pr_budget p) in
      if bool_decide (Z.abs b < 10 ^ 21)%Z
      then Some (mkPForm (pr_name p) (pr_description p) (pr_status p) sd ed (js_int_to_string b)
                   (pr_managerName p) (pr_assignedResourceIds p))
      else None
  end.

(** [handleSubmit]: the new [error] text and what is submitted.  The object
    literal's fields are evaluated in order, so an invalid date or an
    infinite budget throws. *)
Definition project_handleSubmit (newId : jstr) (initialData : option Project) (f : PForm)
    : jstr * PSubmit :=
  if decide (trim (pf_name f) = [] \/ trim (pf_managerName f) = [])
  then (name_manager_msg, PNoSubmit)
  else match date_parse (pf_startDate f), date_parse (pf_endDate f), budget_of (pf_budget f) with
       | Some sd, Some ed, Some b =>
           ([], PSubmitted
                  (mkProject (match initialData with Some p => pr_id p | None => newId end)
                     (pf_status f) (pf_assignedResourceIds f) (ed * 1000000)%Z (trim (pf_name f))
                     (trim (pf_description f)) b (sd * 1000000)%Z
                     (match initialData with Some p => pr_milestones p | None => [] end)
                     (trim (pf_managerName f))))
       | _, _, _ => ([], PThrows)
       end.
End ProjectForm.

(** ** Formatters of [lib/utils.ts] and the detail dialog *)

(** [toUpperCase] of a Latin-1 character; [None] when the result leaves
    Latin-1 (µ and ÿ). *)
Definition to_upper_char (c : ascii) : option jstr :=
  let n := N_of_ascii c in
  if bool_decide (97 <= n <= 122)%N then Some [ascii_of_N (n - 32)]
  else if bool_decide (n = 223)%N then Some (str "SS")
  else if bool_decide (n = 181 \/ n = 255)%N then None
  else if bool_decide (224 <= n <= 254 /\ n <> 247)%N then Some [ascii_of_N (n - 32)]
  else Some [c].

Definition to_upper (s : jstr) : option jstr := mjoin <$> mapM to_upper_char s.

(** [r.name.split(' ').map((n) => n[0]).join('').slice(0, 2).toUpperCase()];
    [n[0]] of an empty word is [undefined], which [join] writes as nothing. *)
Definition initials (nm : jstr) : option jstr :=
  to_upper (take 2 (mjoin (take 1 <$> split_on " "%char nm))).

(** Digits in groups of three: [1234567] is [1,234,567]. *)
Fixpoint group3_rev (s : jstr) : jstr :=
  match s with
  | a :: b :: c :: ((_ :: _) as r) => a :: b :: c :: ","%char :: group3_rev r
  | _ => s
  end.

Definition group3 (s : jstr) : jstr := reverse (group3_rev (reverse s)).

(** [formatCurrency(amount)]: [Intl.NumberFormat('en-US', { style:
    'currency', currency: 'USD', maximumFractionDigits: 0 })] of
    [Number(amount)], which prints the double's exact integer value. *)
Definition formatCurrency (amount : Z) : jstr :=
  let v := double_round amount in
  (if (v <? 0)%Z then str "-$" else str "$") ++ group3 (js_int_to_string (Z.abs v)).

Section Detail.
Context `{D : JsDate}.

(** [formatDate(ns)]: [toLocaleDateString('en-US', { year, month: 'short',
    day })]; an invalid date prints [Invalid Date]; years before 1 carry an
    era and are left out ([None]). *)
Definition formatDate (t : Time) : option jstr :=
  match nsToDate t with
  | None => Some (str "Invalid Date")
  | Some ms =>
      let '(y, m, d) := local_ymd ms in
      if bool_decide (1 <= y)%Z
      then Some (default [] (MONTHS_SHORT !! Z.to_nat (m - 1)) ++ str " " ++ js_int_to_string d ++
                 str ", " ++ js_int_to_string y)
      else None
  end.

(** A row of [MilestoneChecklist]: title, done, due date, checkbox enabled. *)
Definition checklist_row (m : Milestone) : jstr * bool * option jstr * bool :=
  (ms_title m, ms_completed m, formatDate (ms_dueDate m), true).

(** [MilestoneChecklist]: [None] shows [No milestones defined]; otherwise
    the completed count, the total, the progress and the rows. *)
Definition milestone_checklist (ms : list Milestone)
    : option (nat * nat * Z * list (jstr * bool * option jstr * bool)) :=
  if decide (ms = []) then None
  else Some (length (filter (fun m => ms_completed m = true) ms), length ms,
             milestone_progress ms, checklist_row <$> ms).

(** [statusConfig[project.status]]. *)
Definition project_status_label (s : ProjectStatus.t) : jstr :=
  match s with
  | ProjectStatus.planning => str "Planning"
  | ProjectStatus.active => str "Active"
  | ProjectStatus.onHold => str "On Hold"
  | ProjectStatus.completed => str "Completed"
  end.

(** What [ProjectDetailModal] shows. *)
Record DetailView := mkDetailView {
  dt_name : jstr;
  dt_label : jstr;
  dt_progress : option Z;
  dt_edit : bool;
  dt_delete : bool;
  dt_description : option jstr;
  dt_manager : jstr;
  dt_budget : jstr;
  dt_start : option jstr;
  dt_end : option jstr;
  dt_team : list (option jstr * jstr * jstr);
  dt_milestones : option (nat * nat * Z * list (jstr * bool * option jstr * bool));
}.

Definition project_detail (canEdit canDelete : bool) (resources : list Resource) (p : Project) : DetailView :=
  let team := filter (fun r => id r ∈ pr_assignedResourceIds p) resources in
  mkDetailView (pr_name p) (project_status_label (pr_status p))
    (if decide (pr_milestones p = []) then None else Some (milestone_progress (pr_milestones p)))
    canEdit canDelete
    (if decide (pr_description p = []) then None else Some (pr_description p))
    (pr_managerName p) (formatCurrency (pr_budget p))
    (formatDate (pr_startDate p)) (formatDate (pr_endDate p))
    ((fun r => (initials (name r), name r, role r)) <$> team)
    (milestone_checklist (pr_milestones p)).
End Detail.

(** ** The page *)

(** The mounted [ProjectFormModal]: its form and [error]. *)
Record PFormModal := mkPFormModal { pfm_form : PForm; pfm_error : jstr }.

(** [ProjectsPage]'s four [useState]s and the mounted form dialog. *)
Record PPage := mkPPage {
  showFormModal : bool;
  editingProject : option Project;
  viewingProject : option Project;
  deletingProjectId : option jstr;
  pp_form : option PFormModal;
}.

Definition pp_init : PPage := mkPPage false None None None None.

(** [open={!!deletingProjectId}]. *)
Definition delete_dialog_open (p : PPage) : bool :=
  match deletingProjectId p with Some (_ :: _) => true | _ => false end.

(** No dialog covers the board. *)
Definition board_enabled (p : PPage) : bool :=
  negb (showFormModal p) && bool_decide (viewingProject p = None) && negb (delete_dialog_open p).

Inductive PPageEvent :=
  | PPNew                          (* New Project *)
  | PPView (pr : Project)          (* a card *)
  | PPCardEdit (pr : Project)      (* a card's Edit *)
  | PPCardDelete (rid : jstr)      (* a card's Delete *)
  | PPDetailEdit                   (* the detail dialog's Edit *)
  | PPDetailDelete                 (* the detail dialog's Delete *)
  | PPDetailClose
  | PPConfirmDelete
  | PPCancelDelete
  | PPFormClose
  | PPFormEdit (fld : PField) (v : jstr)
  | PPFormStatus (s : ProjectStatus.t)
  | PPFormToggle (rid : jstr)
  | PPFormSubmit (newId : jstr).

Section Page.
Context `{D : JsDate}.
Variables (canEdit canDelete canCreate : bool) (today : jstr) (actor_ready : bool).

(** Mount the form (or rerun its effect) with [initialData = editingProject ?? undefined]. *)
Definition mount_project_form (p : PPage) (init : option Project) : option PPage :=
  f ← project_form_of today init;
  Some (mkPPage true init (viewingProject p) (deletingProjectId p) (Some (mkPFormModal f []))).

Definition close_project_form (p : PPage) : PPage :=
  mkPPage false None (viewingProject p) (deletingProjectId p) None.

Definition set_form (p : PPage) (m : PFormModal) : PPage :=
  mkPPage (showFormModal p) (editingProject p) (viewingProject p) (deletingProjectId p) (Some m).

(** [handleEdit], also from the detail dialog, which stays open. *)
Definition handle_edit (p : PPage) (pr : Project) : option PPage :=
  if canEdit then mount_project_form p (Some pr) else Some p.

Definition handle_delete (p : PPage) (rid : jstr) : PPage :=
  if canDelete then mkPPage (showFormModal p) (editingProject p) (viewingProject p) (Some rid) (pp_form p)
  else p.

(** One event; [None] when an effect throws and the page is torn down.
    Saving awaits [useAddProject] or [useUpdateProject], which resolve
    without storing anything when the actor is ready and reject otherwise. *)
Definition pp_step (e : PPageEvent) (p : PPage) : option PPage :=
  match e, pp_form p, viewingProject p with
  | PPNew, _, _ => if canCreate && board_enabled p then mount_project_form p (editingProject p) else Some p
  | PPView pr, _, _ => Some (if board_enabled p
                             then mkPPage (showFormModal p) (editingProject p) (Some pr) (deletingProjectId p) (pp_form p)
                             else p)
  | PPCardEdit pr, _, _ => if board_enabled p then handle_edit p pr else Some p
  | PPCardDelete rid, _, _ => Some (if board_enabled p then handle_delete p rid else p)
  | PPDetailEdit, None, Some pr => if canEdit then handle_edit p pr else Some p
  | PPDetailDelete, None, Some pr =>
      Some (if canDelete
            then mkPPage (showFormModal p) (editingProject p) None (Some (pr_id pr)) (pp_form p)
            else p)
  | PPDetailClose, None, Some _ =>
      Some (mkPPage (showFormModal p) (editingProject p) None (deletingProjectId p) (pp_form p))
  | (PPConfirmDelete | PPCancelDelete), None, _ =>
      Some (if delete_dialog_open p
            then mkPPage (showFormModal p) (editingProject p) (viewingProject p) None (pp_form p) else p)
  | PPFormClose, Some _, _ => Some (close_project_form p)
  | PPFormEdit fld v, Some m, _ => Some (set_form p (mkPFormModal (project_form_edit fld v (pfm_form m)) (pfm_error m)))
  | PPFormStatus s, Some m, _ => Some (set_form p (mkPFormModal (project_form_status s (pfm_form m)) (pfm_error m)))
  | PPFormToggle rid, Some m, _ => Some (set_form p (mkPFormModal (toggleResource rid (pfm_form m)) (pfm_error m)))
  | PPFormSubmit nid, Some m, _ =>
      let '(err, out) := project_handleSubmit nid (editingProject p) (pfm_form m) in
      let p' := set_form p (mkPFormModal (pfm_form m) err) in
      match out with
      | PSubmitted _ => Some (if actor_ready then close_project_form p' else p')
      | _ => Some p'
      end
  | _, _, _ => Some p
  end.

Inductive pp_reachable : PPage -> Prop :=
  | ppr_init : pp_reachable pp_init
  | ppr_step e p p' : pp_reachable p -> pp_step e p = Some p' -> pp_reachable p'.
End Page.

(** ** Lemmas *)

Lemma toggle_id_absent (id : jstr) (l : list jstr) : id ∉ l -> toggle_id id l = l ++ [id].
Proof. intros H. unfold toggle_id. by rewrite decide_False. Qed.

Lemma filter_neq_absent (id : jstr) (l : list jstr) : id ∉ l -> filter (fun r => r <> id) l = l.
Proof.
  intros H. apply filter_all. apply Forall_forall. intros x Hx ->. done.
Qed.

Lemma toggle_id_nodup (id : jstr) (l : list jstr) : NoDup l -> NoDup (toggle_id id l).
Proof.
  intros Hl. unfold toggle_id. case_decide.
  - by apply NoDup_filter.
  - apply NoDup_app. split_and!; [done|set_solver|apply NoDup_singleton].
Qed.

(** ** Theorems *)

(** C35: the board's four columns hold every project exactly once, each
    column the projects of its status. *)
Theorem kanban_partition projects :
  mjoin (snd <$> kanban_columns projects) ≡ₚ projects /\
  Forall (fun col => exists st, (st, col.1) ∈ COLUMNS /\ Forall (fun p => pr_status p = st) col.2)
    (kanban_columns projects).
Proof.
  split.
  - induction projects as [|pr ps IH]; [done|]. unfold kanban_columns in *. simpl in *.
    rewrite !filter_cons. rewrite !app_nil_r in *.
    destruct (pr_status pr); repeat (rewrite decide_True by done || rewrite decide_False by discriminate);
      simpl; (etrans; [|apply perm_skip; exact IH]); rewrite ?app_assoc, ?Permutation_middle; by rewrite ?app_assoc.
  - repeat constructor; eexists; (split; [by repeat constructor|]);
      apply Forall_forall; intros p [? _]%list_elem_of_filter; done.
Qed.

(** The progress agrees with the percentage rounded half up for every
    count up to 39 milestones (checked by evaluation). *)
Lemma progress_table :
  forallb (fun t => forallb (fun c => Z.eqb (progress (Z.of_nat c) (Z.of_nat t))
                                         ((200 * Z.of_nat c + Z.of_nat t) / (2 * Z.of_nat t)))
                      (seq 0 (S t)))
    (seq 1 39) = true.
Proof. vm_compute. reflexivity. Qed.

(** C36: with at most 39 milestones the progress shown is the exact
    percentage of completed milestones rounded half up; the double
    arithmetic of [Math.round((completed / total) * 100)] first departs from
    it at 40 milestones. *)
Theorem progress_exact_small c t :
  (0 <= c <= t)%Z -> (1 <= t <= 39)%Z -> progress c t = ((200 * c + t) / (2 * t))%Z.
Proof.
  intros Hc Ht. pose proof progress_table as H. rewrite forallb_forall in H.
  specialize (H (Z.to_nat t) ltac:(apply in_seq; lia)). rewrite forallb_forall in H.
  specialize (H (Z.to_nat c) ltac:(apply in_seq; lia)). apply Z.eqb_eq in H.
  by rewrite !Z2Nat.id in H by lia.
Qed.

Lemma toggle_id_twice_absent (rid : jstr) l : rid ∉ l -> toggle_id rid (toggle_id rid l) = l.
Proof.
  intros Hout. rewrite (toggle_id_absent rid l) by done. unfold toggle_id.
  rewrite decide_True by set_solver.
  rewrite filter_app, filter_cons_False, filter_nil, app_nil_r by naive_solver.
  by apply filter_neq_absent.
Qed.

Lemma nodup_split_filter (rid : jstr) l :
  NoDup l -> rid ∈ l -> l ≡ₚ rid :: filter (fun r => r <> rid) l.
Proof.
  intros Hn Hin. apply list_elem_of_split in Hin as (l1 & l2 & ->).
  apply NoDup_app in Hn as (Hn1 & Hd & Hn2). apply NoDup_cons in Hn2 as [Hr Hn2].
  assert (rid ∉ l1) by (intros H; by apply (Hd rid H), elem_of_cons; left).
  rewrite filter_app, filter_cons_False by naive_solver.
  rewrite !filter_neq_absent by done. by rewrite Permutation_middle.
Qed.

(** [toggleResource] keeps the selection duplicate-free, toggling
    a resource twice gives the selection back (up to order when it was
    selected: it moves to the end), and exactly when it was not selected. *)
Theorem toggleResource_twice rid f :
  NoDup (pf_assignedResourceIds f) ->
  NoDup (pf_assignedResourceIds (toggleResource rid f)) /\
  pf_assignedResourceIds (toggleResource rid (toggleResource rid f)) ≡ₚ pf_assignedResourceIds f /\
  (rid ∉ pf_assignedResourceIds f -> toggleResource rid (toggleResource rid f) = f).
Proof.
  destruct f as [n d s sd ed b m l]. simpl. intros Hn.
  split; [by apply toggle_id_nodup|].
  destruct (decide (rid ∈ l)) as [Hin|Hout].
  - unfold toggle_id at 2. rewrite decide_True by done.
    rewrite toggle_id_absent by (intros [Hne _]%list_elem_of_filter; by apply Hne).
    split; [|intros Hno; by destruct Hno]. rewrite (nodup_split_filter rid l Hn Hin) at 2.
    by rewrite Permutation_app_comm.
  - assert (E : toggle_id rid (toggle_id rid l) = l) by by apply toggle_id_twice_absent.
    split; [by rewrite E|]. intros _. unfold toggleResource. simpl. by rewrite E.
Qed.

(** The form dialog is mounted exactly while [showFormModal] holds, and a
    project is being edited only while it is shown. *)
Definition pp_inv (p : PPage) : Prop :=
  (is_Some (pp_form p) <-> showFormModal p = true) /\
  (is_Some (editingProject p) -> showFormModal p = true).

Section PageTheorems.
Context `{D : JsDate}.
Variables (canEdit canDelete canCreate : bool) (today : jstr) (actor_ready : bool).

Lemma mount_inv p init p' : mount_project_form today p init = Some p' -> pp_inv p'.
Proof.
  unfold mount_project_form. destruct (project_form_of today init); [|done].
  intros [= <-]. split; simpl; [done|auto].
Qed.

Lemma handle_edit_inv p pr p' : pp_inv p -> handle_edit canEdit today p pr = Some p' -> pp_inv p'.
Proof. unfold handle_edit. intros Hi H. destruct canEdit; [by eapply mount_inv|congruence]. Qed.

Lemma pp_step_inv e p p' :
  pp_inv p -> pp_step canEdit canDelete canCreate today actor_ready e p = Some p' -> pp_inv p'.
Proof.
  intros Hi. destruct p as [sf ep vp dp fm]. unfold pp_step. simpl.
  destruct e; destruct fm as [m|]; destruct vp as [vpr|];
    repeat case_match; intros Hs; simplify_eq;
    try (by eapply mount_inv); try (by eapply handle_edit_inv);
    unfold pp_inv, handle_delete, set_form, close_project_form in *; repeat case_match; simpl in *;
    naive_solver.
Qed.

(** C34: in every reachable state of the projects page the form dialog
    is mounted exactly while it is shown, and a project is being edited only
    while the form is shown. *)
Theorem pp_reachable_inv p :
  pp_reachable canEdit canDelete canCreate today actor_ready p -> pp_inv p.
Proof.
  induction 1 as [|e p p' _ IH Hs]; [split; simpl; naive_solver|].
  by eapply pp_step_inv.
Qed.

(** Edit in the detail dialog opens the form without closing the
    detail dialog: both dialogs are open at once, the detail one showing the
    project as it was before the edit. *)
Theorem detail_edit_stacks_form pr f :
  canEdit = true -> project_form_of today (Some pr) = Some f ->
  pp_reachable canEdit canDelete canCreate today actor_ready
    (mkPPage true (Some pr) (Some pr) None (Some (mkPFormModal f []))).
Proof.
  intros He Hf.
  assert (R1 : pp_reachable canEdit canDelete canCreate today actor_ready
                 (mkPPage false None (Some pr) None None)).
  { eapply (ppr_step _ _ _ _ _ (PPView pr)); [constructor|reflexivity]. }
  eapply (ppr_step _ _ _ _ _ PPDetailEdit); [exact R1|].
  cbn. unfold handle_edit, mount_project_form. rewrite He, Hf. reflexivity.
Qed.
End PageTheorems.

(** ** Concrete runs *)

#[local] Existing Instance utc_date.

Definition sample_project : Project :=
  mkProject (str "p1") ProjectStatus.active [str "r1"] 1706745600000000000 (str "Portal")
    (str "Customer portal") 250000 1705276800000000000
    [mkMilestone (str "m1") (str "Design") true 1705968000000000000;
     mkMilestone (str "m2") (str "Build") false 1706745600000000000;
     mkMilestone (str "m3") (str "Launch") false 1706745600000000000]
    (str "Dana").

Lemma progress_exact_small_witness :
  (0 <= 2 <= 3)%Z /\ (1 <= 3 <= 39)%Z /\ progress 2 3 = 67%Z.
Proof.
  split; [lia|]. split; [lia|].
  rewrite (progress_exact_small 2 3) by lia. reflexivity.
Defined.

(** 23 of 40 milestones is 57.5%, shown as 57: [23 / 40] rounds below
    0.575 and the product below 57.5. *)
Example progress_23_of_40 : progress 23 40 = 57%Z /\ ((200 * 23 + 40) / (2 * 40))%Z = 58%Z.
Proof. split; vm_compute; reflexivity. Qed.

Lemma toggleResource_twice_witness :
  NoDup (pf_assignedResourceIds (project_empty_form (str "2024-01-15"))) /\
  toggleResource (str "r1") (toggleResource (str "r1") (project_empty_form (str "2024-01-15"))) =
  project_empty_form (str "2024-01-15").
Proof.
  assert (H : NoDup (pf_assignedResourceIds (project_empty_form (str "2024-01-15")))) by constructor.
  split; [exact H|].
  apply (toggleResource_twice (str "r1") _ H). simpl. apply not_elem_of_nil.
Defined.

Lemma pp_reachable_inv_witness :
  pp_reachable true true true (str "2024-01-15") true pp_init /\ pp_inv pp_init.
Proof.
  assert (R : pp_reachable true true true (str "2024-01-15") true pp_init) by constructor.
  split; [exact R|]. exact (pp_reachable_inv true true true (str "2024-01-15") true pp_init R).
Defined.

Definition sample_project_form : PForm :=
  mkPForm (str "Portal") (str "Customer portal") ProjectStatus.active (str "2024-01-15")
    (str "2024-02-01") (str "250000") (str "Dana") [str "r1"].

Lemma detail_edit_stacks_form_witness :
  project_form_of (str "2024-01-15") (Some sample_project) = Some sample_project_form /\
  pp_reachable true true true (str "2024-01-15") true
    (mkPPage true (Some sample_project) (Some sample_project) None (Some (mkPFormModal sample_project_form []))).
Proof.
  assert (Hf : project_form_of (str "2024-01-15") (Some sample_project) = Some sample_project_form)
    by (vm_compute; reflexivity).
  split; [exact Hf|].
  exact (detail_edit_stacks_form true true true (str "2024-01-15") true sample_project sample_project_form
           eq_refl Hf).
Defined.

(** The detail dialog's texts for the sample project. *)
Example project_detail_sample :
  let v := project_detail true true
             [mkResource (str "r1") 0 ResourceStatus.active [] 0 [] (str "ada  lovelace") (str "Engineer")
                [] [] [] 0 [] [] None [] [] BillabilityStatus.billable [] [] [] [] None [] []] sample_project in
  dt_progress v = Some 33%Z /\ dt_budget v = str "$250,000" /\
  dt_start v = Some (str "Jan 15, 2024") /\ dt_team v = [(Some (str "AL"), str "ada  lovelace", str "Engineer")].
Proof. vm_compute. split_and!; reflexivity. Qed.

(** [formatCurrency] of a negative amount, [initials] of a name starting
    with ß (two letters once upper-cased) and of one starting with ÿ (whose
    capital is outside Latin-1). *)
Example formatters_edge_cases :
  formatCurrency (-1234567) = str "-$1,234,567" /\ formatCurrency 0 = str "$0" /\
  initials [ascii_of_N 223; "e"%char; "t"%char; "a"%char] = Some (str "SS") /\
  initials [ascii_of_N 255] = None.
Proof. vm_compute. split_and!; reflexivity. Qed.
