(* ===== verification/Login.v ===== *)
(** * Signing in: [components/LoginPage.tsx] inside [RootLayout] of [App.tsx]

    [RootLayout] ([Access.RootLayout]) renders [LoginPage] while nobody is
    signed in ([RootLogin]) and [LoginPage initialShowProfileSetup] when an
    Internet Identity user has no profile yet ([RootProfileSetup]).  Both are
    the same element in the same place, so React keeps the component's state
    when the root view goes from one to the other and mounts a fresh one only
    when it comes from another view.

    [LoginPage] keeps three [useState]s ([LoginState]).  Its demo tab signs
    in with one of four roles ([DEMO_ROLES], through [DemoAuth.loginAsDemo]);
    its identity tab calls [login()] of Internet Identity; its profile form
    saves a name and a role chosen among [ROLE_LABELS] through
    [useSaveCallerUserProfile], whose [onSuccess] refetches the profile.  The
    role select holds the option's string and casts it ([v as UserRole]);
    [role_of_string] reads it back.

    The session ([Session]) is the hooks' state ([Access.AuthEnv]), the
    profile stored by the backend, and the mounted [LoginPage]'s state.  The
    hooks change on their own (the identity provider initialising, the
    profile query loading and settling): [sess_env] takes any new [AuthEnv]
    and applies React's mount rule.

    Theorems: the role select's cast is sound (every option is a role and
    every role an option) and the role held by a mounted [LoginPage] is
    always a role; a blank name saves nothing; and any Internet Identity user
    without a profile can give themselves the admin role and reach every
    page, Reports included. *)

From S2P Require Import Prelude JsString Domain DemoAuth Access.

(** ** Roles as strings *)

(** The string value of each [UserRole] of [backend.d.ts]. *)
Definition role_string (r : UserRole.t) : jstr :=
  match r with
  | UserRole.pm => str "pm"
  | UserRole.pmo => str "pmo"
  | UserRole.admin => str "admin"
  | UserRole.deliveryHead => str "deliveryHead"
  | UserRole.employee => str "employee"
  | UserRole.management => str "management"
  end.

Definition all_roles : list UserRole.t :=
  [UserRole.pm; UserRole.pmo; UserRole.admin; UserRole.deliveryHead; UserRole.employee; UserRole.management].

(** The role a string names, if any. *)
Definition role_of_string (s : jstr) : option UserRole.t :=
  (fun p : nat * UserRole.t => p.2) <$> list_find (fun r => role_string r = s) all_roles.

(** [ROLE_LABELS], in the order its keys were written. *)
Definition ROLE_LABELS : list (UserRole.t * jstr) :=
  [(UserRole.admin, str "Admin"); (UserRole.pmo, str "PMO"); (UserRole.pm, str "Project Manager");
   (UserRole.deliveryHead, str "Delivery Head"); (UserRole.management, str "Management");
   (UserRole.employee, str "Employee")].

(** [Object.entries(ROLE_LABELS)]: none of the keys is an array index, so
    they come in creation order; each option's value is the key. *)
Definition role_options : list (jstr * jstr) := (fun rl => (role_string rl.1, rl.2)) <$> ROLE_LABELS.

(** [DEMO_ROLES]: role, label and description of each demo button. *)
Definition DEMO_ROLES : list (UserRole.t * jstr * jstr) :=
  [(UserRole.employee, str "Employee", str "View dashboard and log timesheets");
   (UserRole.pm, str "Manager / PM", str "Manage projects, resources, and timesheets");
   (UserRole.deliveryHead, str "Delivery Head", str "Full access including reports");
   (UserRole.pmo, str "PMO", str "Full access to all modules")].

(** ** The page *)

(** [LoginPage]'s [useState]s; [profileRole] holds the select's string. *)
Record LoginState := mkLoginState {
  showProfileSetup : bool;
  profileName : jstr;
  profileRole : jstr;
}.

Definition login_init (initialShowProfileSetup : bool) : LoginState :=
  mkLoginState initialShowProfileSetup [] (role_string UserRole.employee).

Inductive LoginView :=
  | LVSetup (name role : jstr) (continue_enabled : bool)   (* the profile form *)
  | LVTabs.                                                 (* the demo and identity tabs *)

(** What [LoginPage] renders: the form when [showProfileSetup && !userProfile]. *)
Definition login_view (e : AuthEnv) (st : LoginState) : LoginView :=
  if showProfileSetup st && bool_decide (userProfile e = None)
  then LVSetup (profileName st) (profileRole st) (bool_decide (trim (profileName st) <> []))
  else LVTabs.

Inductive LoginEvent :=
  | LName (v : jstr)                 (* the name input *)
  | LRole (v : jstr)                 (* an option of the role select *)
  | LSave                            (* Continue *)
  | LDemo (r : UserRole.t)           (* a demo button *)
  | LIdentity (ok : bool).           (* Connect: [login()] resolves or throws *)

(** The session: the hooks, the profile the backend stores for the identity,
    and the mounted [LoginPage]. *)
Record Session := mkSession {
  sess_auth : AuthEnv;
  stored_profile : option UserProfile;
  login_page : option LoginState;
}.

Definition login_mounted (v : RootView) : option bool :=
  match v with RootLogin => Some false | RootProfileSetup => Some true | _ => None end.

(** React's rule: the page keeps its state while the root view stays on it,
    a fresh page mounts when the view comes to it, and it unmounts otherwise. *)
Definition remount (old : option LoginState) (e : AuthEnv) : option LoginState :=
  match login_mounted (RootLayout e), old with
  | None, _ => None
  | Some _, Some st => Some st
  | Some init, None => Some (login_init init)
  end.

(** The hooks change: a new [AuthEnv]. *)
Definition sess_env (e' : AuthEnv) (s : Session) : Session :=
  mkSession e' (stored_profile s) (remount (login_page s) e').

Definition set_auth (s : Session) (e : AuthEnv) : Session :=
  mkSession e (stored_profile s) (remount (login_page s) e).

(** The profile query after [invalidateQueries] refetched it. *)
Definition with_profile (e : AuthEnv) (p : UserProfile) : AuthEnv :=
  mkAuthEnv (hasIdentity e) (isInitializing e) (demo e) (Some (Some p)) false true.

(** [handleLogin]: [login()] resolves with an identity, or throws and the
    [catch] swallows the error. *)
Definition handleLogin (ok : bool) (e : AuthEnv) : AuthEnv :=
  if ok then mkAuthEnv true (isInitializing e) (demo e) (profileData e) (profileLoading e) (profileFetched e)
  else e.

(** A demo button: [onClick={() => loginAsDemo(role)}], offered for the
    roles of [DEMO_ROLES] only. *)
Definition demo_listed (r : UserRole.t) : bool := bool_decide (r ∈ (fun d => d.1.1) <$> DEMO_ROLES).

Definition demo_click (r : UserRole.t) (e : AuthEnv) : AuthEnv :=
  mkAuthEnv (hasIdentity e) (isInitializing e) (loginAsDemo r (demo e))
    (profileData e) (profileLoading e) (profileFetched e).

Section Step.
Variable actor_ready : bool.

(** [handleSaveProfile]: nothing for a blank name; otherwise
    [mutateAsync] saves the profile and, in [onSuccess], refetches it; then
    [setShowProfileSetup(false)].  Without an actor the mutation rejects and
    nothing changes. *)
Definition handleSaveProfile (st : LoginState) (s : Session) : Session :=
  if bool_decide (trim (profileName st) = []) then s
  else match role_of_string (profileRole st) with
       | Some r =>
           if actor_ready then
             let p := mkUserProfile r (trim (profileName st)) in
             let s' := set_auth s (with_profile (sess_auth s) p) in
             mkSession (sess_auth s') (Some p)
               ((fun st' => mkLoginState false (profileName st') (profileRole st')) <$> login_page s')
           else s
       | None => s
       end.

(** One event of the mounted page; each control exists only in the view
    that renders it. *)
Definition login_step (ev : LoginEvent) (s : Session) : Session :=
  match login_page s with
  | None => s
  | Some st =>
      let setup := match login_view (sess_auth s) st with LVSetup _ _ _ => true | LVTabs => false end in
      match ev with
      | LName v => if negb setup then s else mkSession (sess_auth s) (stored_profile s)
                     (Some (mkLoginState (showProfileSetup st) v (profileRole st)))
      | LRole v =>
          if setup && bool_decide (v ∈ role_options.*1)
          then mkSession (sess_auth s) (stored_profile s)
                 (Some (mkLoginState (showProfileSetup st) (profileName st) v))
          else s
      | LSave => if setup then handleSaveProfile st s else s
      | LDemo r => if negb setup && demo_listed r then set_auth s (demo_click r (sess_auth s)) else s
      | LIdentity ok => if negb setup then set_auth s (handleLogin ok (sess_auth s)) else s
      end
  end.

Inductive sess_reachable (s0 : Session) : Session -> Prop :=
  | sr_init : sess_reachable s0 s0
  | sr_user ev s : sess_reachable s0 s -> sess_reachable s0 (login_step ev s)
  | sr_env e' s : sess_reachable s0 s -> sess_reachable s0 (sess_env e' s).
End Step.

(** The role held by a mounted page names a role. *)
Definition page_role_ok (s : Session) : Prop :=
  forall st, login_page s = Some st -> is_Some (role_of_string (profileRole st)).

(** ** Lemmas *)

(** Every option of the role select names a role, and every role is an
    option, each once. *)
Lemma role_options_decode v : v ∈ role_options.*1 -> exists r, role_of_string v = Some r /\ role_string r = v.
Proof.
  cbn. intros Hv. repeat (apply elem_of_cons in Hv as [->|Hv]; [eexists; split; reflexivity|]).
  by apply elem_of_nil in Hv.
Qed.

Lemma role_options_complete r : role_string r ∈ role_options.*1.
Proof. destruct r; cbn; repeat (apply elem_of_cons; (left; reflexivity) || right). Qed.

Lemma remount_ok old e :
  (forall st, old = Some st -> is_Some (role_of_string (profileRole st))) ->
  forall st, remount old e = Some st -> is_Some (role_of_string (profileRole st)).
Proof.
  intros Hold st. unfold remount. destruct (login_mounted (RootLayout e)); [|done].
  destruct old as [st0|]; intros [= <-]; [by apply Hold|]. eexists; reflexivity.
Qed.

Lemma set_auth_ok s e : page_role_ok s -> page_role_ok (set_auth s e).
Proof. intros H. unfold page_role_ok, set_auth. simpl. by apply remount_ok. Qed.

Lemma login_step_ok a ev s : page_role_ok s -> page_role_ok (login_step a ev s).
Proof.
  intros Hs. unfold login_step, handleSaveProfile. destruct (login_page s) as [st|] eqn:Hp; [|done].
  pose proof (Hs st Hp) as Hst.
  destruct ev; repeat case_match; try done; try (by apply set_auth_ok);
    intros st' Hst'; simplify_eq/=; try done.
  - match goal with Hb : bool_decide _ = true |- _ => apply bool_decide_eq_true in Hb; rename Hb into Hv end.
    destruct (role_options_decode v Hv) as (r & -> & _). by eexists.
  - apply fmap_Some in Hst' as (st1 & E & ->). simpl.
    exact (set_auth_ok s _ Hs st1 E).
Qed.

Lemma sess_env_ok e s : page_role_ok s -> page_role_ok (sess_env e s).
Proof. apply set_auth_ok. Qed.

(** What [RootLayout] checked before it rendered the profile form. *)
Lemma RootLayout_setup_inv e :
  RootLayout e = RootProfileSetup ->
  hasIdentity e = true /\ isInitializing e = false /\ env_demo e = false /\
  profileData e = Some None /\ profileLoading e = false /\ profileFetched e = true.
Proof.
  destruct e as [hi ini d pd pl pf]. unfold RootLayout. cbn. intros H.
  destruct (env_demo _), hi, ini, pl, pf; cbn in H; try discriminate;
    repeat case_bool_decide; try discriminate; try (by subst); repeat case_match; discriminate.
Qed.

(** ** Theorems *)

(** C15: The role select's [v as UserRole] cast is well typed in every
    session the page can reach: from a session whose mounted page holds a
    role, whatever the user does and however the hooks change, the string a
    mounted [LoginPage] holds in [profileRole] names a [UserRole]. *)
Theorem login_role_wf a s0 s :
  page_role_ok s0 -> sess_reachable a s0 s -> page_role_ok s.
Proof.
  intros H0 Hr. induction Hr; [done | by apply login_step_ok | by apply sess_env_ok].
Qed.

(** C14: Profile setup lets anyone choose admin.  An Internet Identity user
    who reaches the profile form (no profile stored yet) types a non-blank
    name, picks "admin" and presses Continue: the backend stores an admin
    profile, the page unmounts, the layout opens with that profile, and the
    route guard and [ReportsPage] let them into the reports with the admin
    controls. *)
Theorem self_assign_admin s0 e nm :
  login_page s0 = None -> RootLayout e = RootProfileSetup -> trim nm <> [] ->
  let s := login_step true LSave (login_step true (LRole (str "admin"))
             (login_step true (LName nm) (sess_env e s0))) in
  let p := mkUserProfile UserRole.admin (trim nm) in
  stored_profile s = Some p /\ login_page s = None /\
  RootLayout (sess_auth s) = RootLayoutShown p false /\
  RouteGuard (str "/reports") (sess_auth s) = GChildren /\
  ReportsPage (sess_auth s) = RPage true.
Proof.
  intros H0 HR Hnm s p. pose proof (RootLayout_setup_inv e HR) as (Hi & Hini & Hd & Hpd & Hpl & Hpf).
  unfold s, sess_env, remount. rewrite H0, HR.
  destruct e as [hi ini d pd pl pf]; cbn in *; subst. unfold env_demo in Hd; cbn in Hd.
  cbn -[role_of_string]. rewrite ?Hd. cbn -[role_of_string].
  rewrite bool_decide_true by exact (role_options_complete UserRole.admin).
  cbn -[role_of_string]. unfold handleSaveProfile. case_bool_decide; [done|]. cbn -[role_of_string]. rewrite ?Hd.
  change (role_of_string (str "admin")) with (Some UserRole.admin).
  unfold with_profile, remount, RootLayout, RouteGuard, ReportsPage, activeProfile, env_demo.
  cbn. rewrite !Hd. by split_and!.
Qed.

(** ** Concrete sessions *)

(** Nobody signed in, nothing in storage. *)
Definition signed_out : Session :=
  mkSession (mkAuthEnv false false (init_demo None) None false false) None None.

(** An Internet Identity user whose profile query settled with [null]. *)
Definition setup_env : AuthEnv :=
  mkAuthEnv true false (init_demo None) (Some None) false true.

Lemma login_role_wf_witness :
  page_role_ok (login_step true (LRole (str "pmo")) (sess_env setup_env signed_out)).
Proof.
  apply (login_role_wf true signed_out); [by intros ? ? | apply sr_user, sr_env, sr_init].
Defined.

Lemma self_assign_admin_witness :
  RootLayout setup_env = RootProfileSetup /\
  ReportsPage (sess_auth (login_step true LSave (login_step true (LRole (str "admin"))
     (login_step true (LName (str " Eve")) (sess_env setup_env signed_out))))) = RPage true.
Proof.
  split; [reflexivity|].
  destruct (self_assign_admin signed_out setup_env (str " Eve")) as (_ & _ & _ & _ & H);
    [reflexivity | reflexivity | vm_compute; discriminate | exact H].
Defined.
