(* ===== verification/AccessDenied.v ===== *)
(** * The access-denied screen: [components/AccessDeniedScreen.tsx]

    [RouteGuard] ([Access.GDenied]) and [ReportsPage] ([Access.RDenied])
    render [AccessDeniedScreen role defaultRoute].  It shows the role's label
    from its own [ROLE_LABELS] when [role] is not empty, a button back to
    [defaultRoute], and a logout button that, unlike [Layout]'s, reads
    [isDemoMode] from the demo context.

    Theorems: every access-denied screen of a settled session sends the user
    back to a page the guard lets through, and its logout signs the user out
    in both modes, the demo mode included. *)

From S2P Require Import Prelude JsString Domain DemoAuth Access Login.

(** [ROLE_LABELS] of the screen, keyed by the role's string. *)
Definition DENIED_ROLE_LABELS : list (jstr * jstr) :=
  [(role_string UserRole.admin, str "Admin"); (role_string UserRole.pmo, str "PMO");
   (role_string UserRole.pm, str "Manager / PM");
   (role_string UserRole.deliveryHead, str "Delivery Head");
   (role_string UserRole.management, str "Management"); (role_string UserRole.employee, str "Employee")].

(** [ROLE_LABELS[role] ?? role]; [role] is a role's string or empty, never
    the name of an [Object.prototype] member. *)
Definition roleLabel (role : jstr) : jstr := assoc role DENIED_ROLE_LABELS ?? role.

Record DeniedView := mkDeniedView {
  dv_role_line : option jstr;      (* [role && <p>Your current role: ...</p>] *)
  dv_logout_label : jstr;
}.

Definition AccessDeniedScreen (e : AuthEnv) (role : jstr) : DeniedView :=
  mkDeniedView (match role with [] => None | _ => Some (roleLabel role) end)
    (if env_demo e then str "Exit Demo" else str "Logout").

(** [handleGoBack]: [navigate({ to: defaultRoute })]. *)
Definition handleGoBack (defaultRoute : jstr) : list LogoutEffect := [ENavigate defaultRoute].

(** [handleLogout] of the screen: [Layout]'s two branches, chosen by the
    context's [isDemoMode]. *)
Definition denied_handleLogout (e : AuthEnv) : list LogoutEffect := handleLogout (env_demo e).

(** The screens [RouteGuard] and [ReportsPage] render: the role's string
    ([role ?? ''] for [ReportsPage]) and the default route. *)
Definition guard_denied (g : GuardView) : option (jstr * jstr) :=
  match g with GDenied r d => Some (role_string r, d) | _ => None end.

Definition reports_denied (v : ReportsView) : option (jstr * jstr) :=
  match v with RDenied ro d => Some (default [] (role_string <$> ro), d) | _ => None end.

(** The route a navigation effect list ends on, if it navigates. *)
Definition nav_target (xs : list LogoutEffect) : option jstr :=
  foldl (fun acc x => match x with ENavigate to => Some to | _ => acc end) None xs.

(** ** Theorems *)

(** C40: The logout button of the access-denied screen signs the user out
    in either mode: once the identity provider has initialised, and unless
    the user is in both modes at once, after its calls [RootLayout] shows
    the login page, for a demo session as for an Internet Identity one
    (where [Layout]'s button, which reads its [isDemoMode] prop, keeps a
    demo session). *)
Theorem denied_logout_signs_out e :
  isInitializing e = false -> hasIdentity e && env_demo e = false ->
  RootLayout (run_effects e (denied_handleLogout e)) = RootLogin.
Proof.
  intros Hi Hboth. unfold denied_handleLogout.
  destruct (env_demo e) eqn:Hd; cbn.
  - rewrite andb_true_r in Hboth. unfold RootLayout, env_demo. cbn. by rewrite Hi, Hboth.
  - unfold RootLayout, env_demo. cbn. unfold env_demo in Hd. by rewrite Hi, Hd.
Qed.

(** Every access-denied screen of a settled session, the guard's or
    the reports page's, has a Go back button to a route the guard lets
    through. *)
Theorem denied_go_back_admitted e r path role d :
  signed_in e r ->
  guard_denied (RouteGuard path e) = Some (role, d) \/ reports_denied (ReportsPage e) = Some (role, d) ->
  nav_target (handleGoBack d) = Some d /\ RouteGuard d e = GChildren.
Proof.
  intros Hs Hden. split; [done|]. rewrite (RouteGuard_signed_in e r) by done.
  assert (d = getDefaultRoute r) as ->.
  { destruct Hden as [Hg|Hg]; [rewrite (RouteGuard_signed_in e r) in Hg by done
                              |rewrite (ReportsPage_signed_in e r) in Hg by done];
      repeat case_match; simplify_eq/=; done. }
  by rewrite decide_True by apply getDefaultRoute_allowed.
Qed.

(** ** Concrete sessions *)

Lemma denied_logout_signs_out_witness :
  RootLayout (demo_env UserRole.pm) = RootLayoutShown (DEMO_PROFILES UserRole.pm) false /\
  RootLayout (run_effects (demo_env UserRole.pm) (denied_handleLogout (demo_env UserRole.pm))) = RootLogin.
Proof.
  split; [reflexivity|].
  apply denied_logout_signs_out; reflexivity.
Defined.

Lemma denied_go_back_admitted_witness :
  nav_target (handleGoBack (str "/dashboard")) = Some (str "/dashboard") /\
  RouteGuard (str "/dashboard") (ii_env UserRole.pmo) = GChildren.
Proof.
  apply (denied_go_back_admitted (ii_env UserRole.pmo) UserRole.pmo (str "/reports") (role_string UserRole.pmo));
    [split_and!; [by left|intros _; done|reflexivity] | right; reflexivity].
Defined.
