(* ===== verification/LayoutView.v ===== *)
(** * The signed-in layout: [components/Layout.tsx]

    [Layout] keeps one [useState], [sidebarOpen], and renders the sidebar
    (the entries of [Access.navItems], the highlighted one, the user's name
    and role, the logout button, the collapse toggle) and a top bar whose
    title is the label of the highlighted entry.  [isDemoMode] is a prop
    that [RootLayout] never passes ([Access.RootLayoutShown]).

    Theorems: at most one sidebar entry is highlighted, whatever the path,
    and the title is its label; the role shown is the profile's role's
    label; the collapse toggle only changes what is shown, not the entries;
    and the demo badge and the "Exit Demo" label never show under
    [RootLayout]. *)

From S2P Require Import Prelude JsString Domain DemoAuth Access Login.

(** [ROLE_LABELS] of the layout, keyed by the role's string. *)
Definition LAYOUT_ROLE_LABELS : list (jstr * jstr) :=
  [(role_string UserRole.admin, str "Admin"); (role_string UserRole.pmo, str "PMO");
   (role_string UserRole.pm, str "Manager / PM");
   (role_string UserRole.deliveryHead, str "Delivery Head");
   (role_string UserRole.management, str "Management"); (role_string UserRole.employee, str "Employee")].

(** [ROLE_LABELS[userProfile.appRole] ?? userProfile.appRole]. *)
Definition layout_roleLabel (r : UserRole.t) : jstr :=
  assoc (role_string r) LAYOUT_ROLE_LABELS ?? role_string r.

(** [path === '/' ? currentPath === '/' : currentPath.startsWith(path)]. *)
Definition nav_active (currentPath : jstr) (item : NavItem) : bool :=
  if decide (nav_path item = str "/") then bool_decide (currentPath = str "/")
  else bool_decide (nav_path item `prefix_of` currentPath).

(** A sidebar link: its target, its label when the sidebar is open, and
    whether it is highlighted. *)
Record NavLink := mkNavLink { nl_to : jstr; nl_label : option jstr; nl_active : bool }.

Record LayoutView := mkLayoutView {
  lv_links : list NavLink;
  lv_demo_badge : bool;            (* [isDemoMode && sidebarOpen] *)
  lv_user : option (jstr * jstr);  (* name and role label, when open *)
  lv_logout_label : option jstr;   (* when open *)
  lv_title : jstr;                 (* the top bar *)
  lv_top_demo : bool;              (* the top bar's Demo tag *)
  lv_top_user : jstr * jstr;
}.

(** The top bar's title: the first entry that is highlighted, or the app's
    name. *)
Definition layout_title (currentPath : jstr) (items : list NavItem) : jstr :=
  match list_find (fun i => nav_active currentPath i = true) items with
  | Some (_, i) => nav_label i
  | None => str "TeamTrack"
  end.

Definition Layout (userProfile : UserProfile) (isDemoMode : bool) (sidebarOpen : bool)
    (currentPath : jstr) : LayoutView :=
  let items := navItems (appRole userProfile) in
  let roleLabel := layout_roleLabel (appRole userProfile) in
  mkLayoutView
    ((fun i => mkNavLink (nav_path i) (if sidebarOpen then Some (nav_label i) else None)
                 (nav_active currentPath i)) <$> items)
    (isDemoMode && sidebarOpen)
    (if sidebarOpen then Some (up_name userProfile, roleLabel) else None)
    (if sidebarOpen then Some (if isDemoMode then str "Exit Demo" else str "Logout") else None)
    (layout_title currentPath items)
    isDemoMode
    (up_name userProfile, roleLabel).

(** [onClick={() => setSidebarOpen((v) => !v)}]. *)
Definition toggle_sidebar (sidebarOpen : bool) : bool := negb sidebarOpen.

(** [Layout] as [RootLayout] mounts it. *)
Definition root_layout_view (v : RootView) (sidebarOpen : bool) (currentPath : jstr) : option LayoutView :=
  match v with
  | RootLayoutShown p isDemoModeProp => Some (Layout p isDemoModeProp sidebarOpen currentPath)
  | _ => None
  end.

(** ** Lemmas *)

(** Away from [/], two highlighted entries are not the root entry and
    have paths one of which starts the other. *)
Lemma nav_active_related c i j :
  c <> str "/" -> nav_active c i = true -> nav_active c j = true ->
  nav_path i <> str "/" /\ nav_path j <> str "/" /\
  (nav_path i `prefix_of` nav_path j \/ nav_path j `prefix_of` nav_path i).
Proof.
  unfold nav_active. intros Hc Ha Hb.
  destruct (decide (nav_path i = str "/")) as [Hi|Hi], (decide (nav_path j = str "/")) as [Hj|Hj];
    apply bool_decide_eq_true in Ha, Hb; try done.
  split_and!; [done|done|]. by apply (prefix_weak_total _ _ c).
Qed.

(** Apart from the root entry, no two entries of [ALL_NAV_ITEMS] have
    related paths, and at [/] only the root entry is highlighted. *)
Lemma ALL_NAV_ITEMS_prefix_free :
  Forall (fun i => Forall (fun j => i = j \/ nav_path i = str "/" \/ nav_path j = str "/" \/
    ~ (nav_path i `prefix_of` nav_path j \/ nav_path j `prefix_of` nav_path i)) ALL_NAV_ITEMS) ALL_NAV_ITEMS /\
  filter (fun i => nav_active (str "/") i = true) ALL_NAV_ITEMS = take 1 ALL_NAV_ITEMS.
Proof. split; [by_decide | reflexivity]. Qed.

(** At most one entry of [ALL_NAV_ITEMS] is highlighted. *)
Lemma nav_active_unique c i j :
  i ∈ ALL_NAV_ITEMS -> j ∈ ALL_NAV_ITEMS -> nav_active c i = true -> nav_active c j = true -> i = j.
Proof.
  intros Hi Hj Ha Hb. destruct ALL_NAV_ITEMS_prefix_free as [H Hroot].
  destruct (decide (c = str "/")) as [->|Hc].
  - assert (i ∈ take 1 ALL_NAV_ITEMS) as Hi' by (rewrite <- Hroot; by apply list_elem_of_filter).
    assert (j ∈ take 1 ALL_NAV_ITEMS) as Hj' by (rewrite <- Hroot; by apply list_elem_of_filter).
    cbn in Hi', Hj'. apply list_elem_of_singleton in Hi', Hj'. by subst.
  - destruct (nav_active_related c i j Hc Ha Hb) as (Hi0 & Hj0 & Hrel).
    rewrite Forall_forall in H. specialize (H i Hi). rewrite Forall_forall in H.
    destruct (H j Hj) as [|[|[|Hn]]]; done.
Qed.

(** A duplicate-free list whose elements are all equal has at most one. *)
Lemma NoDup_all_equal_length {A} (l : list A) :
  NoDup l -> (forall x y, x ∈ l -> y ∈ l -> x = y) -> length l <= 1.
Proof.
  destruct l as [|x [|y l]]; cbn; [lia|lia|]. intros Hnd Heq.
  assert (x = y) as <- by (apply Heq; set_solver).
  apply NoDup_cons in Hnd as [Hx _]. set_solver.
Qed.

Lemma navItems_sub r i : i ∈ navItems r -> i ∈ ALL_NAV_ITEMS.
Proof. unfold navItems. rewrite list_elem_of_filter. naive_solver. Qed.

(** ** Theorems *)

(** C11: At most one sidebar entry is highlighted, whatever the path; the top
    bar's title is the highlighted entry's label, or [TeamTrack] when no
    entry is highlighted. *)
Theorem layout_title_active p isDemoMode sidebarOpen c :
  let v := Layout p isDemoMode sidebarOpen c in
  length (filter (fun l => nl_active l = true) (lv_links v)) <= 1 /\
  (forall i, i ∈ navItems (appRole p) -> nav_active c i = true -> lv_title v = nav_label i) /\
  ((forall i, i ∈ navItems (appRole p) -> nav_active c i = false) -> lv_title v = str "TeamTrack").
Proof.
  cbn [Layout lv_links lv_title]. split_and!.
  - rewrite filter_fmap_comm, length_fmap. apply NoDup_all_equal_length.
    + apply NoDup_filter, NoDup_filter. by_decide.
    + intros x y Hx Hy. apply list_elem_of_filter in Hx as [Hx Hx'], Hy as [Hy Hy'].
      apply (nav_active_unique c); [by eapply navItems_sub..|done|done].
  - intros i Hi Ha. unfold layout_title.
    destruct (list_find _ _) as [[k j]|] eqn:Hf.
    + apply list_find_Some in Hf as (Hj & Hja & _). f_equal.
      apply (nav_active_unique c); [eapply navItems_sub, list_elem_of_lookup_2; done
                                    |by eapply navItems_sub|done|done].
    + apply list_find_None in Hf. rewrite Forall_forall in Hf. by destruct (Hf i Hi).
  - intros Hn. unfold layout_title. destruct (list_find _ _) as [[k j]|] eqn:Hf; [|done].
    apply list_find_Some in Hf as (Hj & Hja & _).
    rewrite (Hn j) in Hja; [done|]. by eapply list_elem_of_lookup_2.
Qed.

(** Under [RootLayout] the layout never shows the demo badges nor the
    "Exit Demo" label: [isDemoMode] is never passed. *)
Theorem root_layout_no_demo_badge e sidebarOpen c v :
  root_layout_view (RootLayout e) sidebarOpen c = Some v ->
  lv_demo_badge v = false /\ lv_top_demo v = false /\ lv_logout_label v <> Some (str "Exit Demo").
Proof.
  unfold RootLayout. repeat case_match; intros; simplify_eq/=; split_and!; try done;
    destruct sidebarOpen; cbn; intros Hl; simplify_eq.
Qed.

(** ** Concrete layouts *)

(** A demo session: the layout shows no demo badge and offers "Logout". *)
Lemma root_layout_no_demo_badge_witness :
  root_layout_view (RootLayout (demo_env UserRole.pm)) true (str "/projects") =
    Some (Layout (DEMO_PROFILES UserRole.pm) false true (str "/projects")) /\
  lv_demo_badge (Layout (DEMO_PROFILES UserRole.pm) false true (str "/projects")) = false.
Proof.
  split; [reflexivity|].
  exact (proj1 (root_layout_no_demo_badge (demo_env UserRole.pm) true (str "/projects") _ eq_refl)).
Defined.

(** At [/projects/42] a project manager's sidebar highlights Projects, which
    titles the page. *)
Lemma layout_title_active_witness :
  lv_title (Layout (DEMO_PROFILES UserRole.pm) false true (str "/projects/42")) = str "Projects".
Proof.
  apply (proj1 (proj2 (layout_title_active (DEMO_PROFILES UserRole.pm) false true (str "/projects/42")))
           (mkNavItem (str "/projects") (str "Projects")
              [UserRole.admin; UserRole.pmo; UserRole.pm; UserRole.deliveryHead])).
  - by_decide.
  - reflexivity.
Defined.
