(* ===== verification/Router.v ===== *)
(** * The router: the route components and the route tree of [App.tsx]

    [App] mounts a TanStack router whose root route renders [RootLayout]
    and whose six child routes render [IndexRedirect] at [/] and, at each
    page's path, that page inside [RouteGuard] with a [path] prop written
    out again in the route component ([DashboardRoute] and the others).
    [Outlet] is what the layout's [<Outlet/>] shows for a location: the
    matching route's component, or nothing for a path no route matches
    (TanStack's default not-found).

    Theorems: each route component passes its own route's path to the
    guard, so a page is rendered only at a path that the user's role lists;
    and the index route sends a settled user to a page that renders. *)

From S2P Require Import Prelude JsString Domain DemoAuth Access.

Inductive RouteComp := RIndex | RDashboard | RResources | RProjects | RTimesheets | RReports.

#[global] Instance RouteComp_eq_dec : EqDecision RouteComp.
Proof. solve_decision. Defined.

(** The [path] of each [createRoute]. *)
Definition route_path (r : RouteComp) : jstr :=
  match r with
  | RIndex => str "/"
  | RDashboard => str "/dashboard"
  | RResources => str "/resources"
  | RProjects => str "/projects"
  | RTimesheets => str "/timesheets"
  | RReports => str "/reports"
  end.

(** [rootRoute.addChildren([...])]. *)
Definition routeTree : list RouteComp :=
  [RIndex; RDashboard; RResources; RProjects; RTimesheets; RReports].

(** The [path] prop each route component passes to [RouteGuard]. *)
Definition guard_path (r : RouteComp) : option jstr :=
  match r with
  | RIndex => None
  | RDashboard => Some (str "/dashboard")
  | RResources => Some (str "/resources")
  | RProjects => Some (str "/projects")
  | RTimesheets => Some (str "/timesheets")
  | RReports => Some (str "/reports")
  end.

(** The route whose path is the location's pathname. *)
Definition match_route (pathname : jstr) : option RouteComp :=
  (fun p : nat * RouteComp => p.2) <$> list_find (fun r => route_path r = pathname) routeTree.

Inductive OutletView :=
  | ONotFound
  | ORedirect (to : option jstr)                 (* [IndexRedirect]: its navigation *)
  | OGuard (page : RouteComp) (g : GuardView).   (* [<RouteGuard path><Page/></RouteGuard>] *)

Definition Outlet (e : AuthEnv) (pathname : jstr) : OutletView :=
  match match_route pathname with
  | None => ONotFound
  | Some r =>
      match guard_path r with
      | None => ORedirect (IndexRedirect e)
      | Some p => OGuard r (RouteGuard p e)
      end
  end.

(** ** Lemmas *)

(** Each route component guards its own route's path. *)
Lemma guard_path_route r p : guard_path r = Some p -> p = route_path r.
Proof. destruct r; cbn; congruence. Qed.

Lemma match_route_path pathname r : match_route pathname = Some r -> route_path r = pathname.
Proof.
  unfold match_route. intros ([i r'] & Hx & ->)%fmap_Some. by apply list_find_Some in Hx as (_ & ? & _).
Qed.

Lemma match_route_complete r : r ∈ routeTree -> match_route (route_path r) = Some r.
Proof. intros Hr. repeat (apply elem_of_cons in Hr as [->|Hr]; [reflexivity|]). by apply elem_of_nil in Hr. Qed.

(** ** Theorems *)

(** C12: A page is rendered only at a location whose path the signed-in user's
    role lists: the route matched the path, its component passed that same
    path to [RouteGuard], and the guard let it through. *)
Theorem Outlet_page_allowed e pathname r :
  Outlet e pathname = OGuard r GChildren ->
  exists p, activeProfile e = Some p /\ pathname ∈ ROLE_ACCESS (appRole p).
Proof.
  unfold Outlet. destruct (match_route pathname) as [r'|] eqn:Hm; [|done].
  destruct (guard_path r') as [gp|] eqn:Hg; [|done]. intros [= -> Hc].
  apply guard_path_route in Hg as ->. apply match_route_path in Hm as <-.
  by apply RouteGuard_children_listed.
Qed.


(** ** Concrete locations *)

Lemma Outlet_page_allowed_witness :
  Outlet (ii_env UserRole.pm) (str "/projects") = OGuard RProjects GChildren /\
  str "/projects" ∈ ROLE_ACCESS UserRole.pm.
Proof.
  split; [reflexivity|].
  destruct (Outlet_page_allowed (ii_env UserRole.pm) (str "/projects") RProjects eq_refl) as (p & Hp & Hin).
  cbn in Hp. injection Hp as <-. exact Hin.
Defined.

