(* ===== verification/Reports.v ===== *)
(** * The reports page: [pages/ReportsPage.tsx] and [components/PowerBIConfigModal.tsx]

    Past its access checks ([Access.ReportsPage] is [RPage isAdmin]) the
    page shows the Power BI report whose embed URL the backend stores.  It
    reads the URL through [useGetPowerBIEmbedUrl] (the React Query cache of
    [Queries]) and keeps two [useState]s, [configOpen] and [iframeKey]; the
    [PowerBIConfigModal] it mounts for admins keeps the edited [url], which
    an effect on [[open, currentUrl]] resets to the stored URL, and saves it
    through [useSetPowerBIEmbedUrl], whose [onSuccess] refetches the URL.

    [RState] is the page's state, the modal's, the cache and the backend
    ([Actor]); [reports_step] is one event: the handler's updates, then the
    modal's effect.  The cache has no datum for the URL while its first
    fetch is in flight ([urlLoading]); [RSettle] is that fetch completing.

    Theorems: a user who is not an admin never changes the stored URL; an
    admin's save stores the trimmed URL, closes the dialog and shows the
    report; a rejected save keeps the dialog as it was; and a URL typed
    while the first fetch is in flight is overwritten when it completes. *)

From S2P Require Import Prelude JsString Domain ImportFlow Queries.

Inductive Toast := ToastSuccess (msg : jstr) | ToastError (msg : jstr).

(** What the page shows under its header. *)
Inductive ReportsContent :=
  | CSkeleton
  | CIframe (key : Z) (src : jstr)
  | CNoReport (message : jstr) (configureButton : bool).

Record ModalView := mkModalView {
  mv_open : bool;
  mv_url : jstr;
  mv_preview : option jstr;      (* the "Preview URL in new tab" link *)
  mv_save_enabled : bool;
}.

Record ReportsRender := mkReportsRender {
  rr_configure : bool;           (* the header's Configure button *)
  rr_content : ReportsContent;
  rr_modal : option ModalView;   (* [isAdmin && <PowerBIConfigModal/>] *)
}.

(** [data: embedUrl] of [useGetPowerBIEmbedUrl]: [None] while nothing was
    read (undefined), else the backend's [string | null]. *)
Definition embedUrl (c : Cache) : option (option jstr) :=
  match c QPowerBI with Some (DUrl u) => Some u | _ => None end.

Definition urlLoading (c : Cache) : bool := bool_decide (embedUrl c = None).

(** [currentUrl={embedUrl ?? null}]. *)
Definition currentUrl (c : Cache) : option jstr :=
  match embedUrl c with Some u => u | None => None end.

Definition save_ok_msg : jstr := str "Power BI embed URL saved successfully.".
Definition save_err_msg : jstr := str "Failed to save the embed URL. Please try again.".

Section Page.
Context {S : Type} `{A : Actor S}.
Variable actor_ready : bool.
Variable isAdmin : bool.

Record RState := mkRState {
  configOpen : bool;
  iframeKey : Z;
  url : jstr;
  cache : Cache;
  backend : S;
  toasts : list Toast;
}.

Definition reports_init (c : Cache) (st : S) : RState := mkRState false 0 [] c st [].

Definition set_open (b : bool) (s : RState) : RState :=
  mkRState b (iframeKey s) (url s) (cache s) (backend s) (toasts s).
Definition set_url (v : jstr) (s : RState) : RState :=
  mkRState (configOpen s) (iframeKey s) v (cache s) (backend s) (toasts s).
Definition push_toast (t : Toast) (s : RState) : RState :=
  mkRState (configOpen s) (iframeKey s) (url s) (cache s) (backend s) (toasts s ++ [t]).

(** The modal's [useEffect]: when [open] or [currentUrl] changed since the
    last render and the dialog is open, [setUrl(currentUrl ?? '')]. *)
Definition modal_effect (prev next : RState) : RState :=
  if configOpen next &&
     (negb (Bool.eqb (configOpen prev) (configOpen next)) ||
      negb (bool_decide (currentUrl (cache prev) = currentUrl (cache next))))
  then set_url (default [] (currentUrl (cache next))) next
  else next.

(** [handleSave]: nothing for a blank URL; otherwise [mutateAsync] with the
    trimmed URL, whose [onSuccess] invalidates the URL query and waits for
    its refetch (a render, and the effect, in between); then a toast and
    [onClose()], or the error toast when the mutation rejects. *)
Definition handleSave (s : RState) : RState :=
  if bool_decide (trim (url s) = []) then s
  else match mutate actor_ready (MSetPowerBIEmbedUrl (trim (url s))) (cache s) (backend s) with
       | (Fulfilled _, (c', st')) =>
           let s1 := mkRState (configOpen s) (iframeKey s) (url s) (read QPowerBI c' st').2 st' (toasts s) in
           set_open false (push_toast (ToastSuccess save_ok_msg) (modal_effect s s1))
       | (Rejected _, _) => push_toast (ToastError save_err_msg) s
       end.

(** [handleRefresh]: a new iframe key and a refetch of the URL. *)
Definition handleRefresh (s : RState) : RState :=
  mkRState (configOpen s) (iframeKey s + 1) (url s)
    (cache_set QPowerBI (query_fn QPowerBI (backend s)) (cache s)) (backend s) (toasts s).

Inductive REvent :=
  | RRefresh            (* the Refresh button *)
  | ROpenConfig         (* either Configure button *)
  | RUrl (v : jstr)     (* the URL input *)
  | RSave               (* Save URL *)
  | RClose              (* Cancel, or the dialog's onOpenChange(false) *)
  | RSettle.            (* the URL query's fetch completes *)

(** The handler of an event; the modal's controls exist only for admins and
    only while the dialog is open. *)
Definition reports_handler (ev : REvent) (s : RState) : RState :=
  match ev with
  | RRefresh => handleRefresh s
  | ROpenConfig => if isAdmin then set_open true s else s
  | RUrl v => if isAdmin && configOpen s then set_url v s else s
  | RSave => if isAdmin && configOpen s then handleSave s else s
  | RClose => if isAdmin && configOpen s then set_open false s else s
  | RSettle => mkRState (configOpen s) (iframeKey s) (url s) (read QPowerBI (cache s) (backend s)).2
                 (backend s) (toasts s)
  end.

Definition reports_step (ev : REvent) (s : RState) : RState :=
  modal_effect s (reports_handler ev s).

Definition reports_run (evs : list REvent) (s : RState) : RState :=
  foldl (fun s ev => reports_step ev s) s evs.

Inductive rp_reachable (s0 : RState) : RState -> Prop :=
  | rp_init : rp_reachable s0 s0
  | rp_step ev s : rp_reachable s0 s -> rp_reachable s0 (reports_step ev s).

(** What the page renders below its access checks. *)
Definition reports_render (s : RState) : ReportsRender :=
  let noReport :=
    CNoReport (if isAdmin
               then str "Configure a Power BI embed URL to display your analytics dashboard here."
               else str "The analytics dashboard has not been configured yet. Please contact your administrator.")
              isAdmin in
  mkReportsRender isAdmin
    (if urlLoading (cache s) then CSkeleton
     else match embedUrl (cache s) with
          | Some (Some u) => if bool_decide (u = []) then noReport else CIframe (iframeKey s) u
          | _ => noReport
          end)
    (if isAdmin
     then Some (mkModalView (configOpen s) (url s)
                  (if bool_decide (trim (url s) = []) then None else Some (trim (url s)))
                  (bool_decide (trim (url s) <> [])))
     else None).
End Page.

Arguments RState : clear implicits.

(** ** Lemmas *)

Section Lemmas.
Context {S : Type} `{A : Actor S}.

Lemma modal_effect_backend (p n : RState S) : backend (modal_effect p n) = backend n.
Proof. unfold modal_effect. by case_match. Qed.

Lemma modal_effect_open (p n : RState S) : configOpen (modal_effect p n) = configOpen n.
Proof. unfold modal_effect. by case_match. Qed.

Lemma modal_effect_cache (p n : RState S) : cache (modal_effect p n) = cache n.
Proof. unfold modal_effect. by case_match. Qed.

Lemma modal_effect_toasts (p n : RState S) : toasts (modal_effect p n) = toasts n.
Proof. unfold modal_effect. by case_match. Qed.

Lemma modal_effect_key (p n : RState S) : iframeKey (modal_effect p n) = iframeKey n.
Proof. unfold modal_effect. by case_match. Qed.

(** The effect does nothing when neither [open] nor [currentUrl] changed. *)
Lemma modal_effect_same (p n : RState S) :
  configOpen p = configOpen n -> currentUrl (cache p) = currentUrl (cache n) -> modal_effect p n = n.
Proof.
  intros Ho Hc. unfold modal_effect. rewrite Ho, Hc, Bool.eqb_reflx, bool_decide_true by done.
  by rewrite andb_false_r.
Qed.

(** [read] fetches the URL when the cache has nothing for it. *)
Lemma read_url_fetch (c : Cache) st :
  c QPowerBI = None -> embedUrl (read QPowerBI c st).2 = Some (act_getPowerBIEmbedUrl st).
Proof. intros Hc. unfold read, embedUrl, cache_set. rewrite Hc. cbn. by rewrite decide_True. Qed.

Lemma invalidate_url (c : Cache) : invalidate [Some (str "powerBIEmbedUrl")] c QPowerBI = None.
Proof. unfold invalidate. by rewrite decide_True. Qed.

(** An admin opens the closed dialog and types [v]: the dialog is open with
    [v], and nothing else changed. *)
Lemma open_then_type ar (s : RState S) v :
  configOpen s = false ->
  let s2 := reports_step ar true (RUrl v) (reports_step ar true ROpenConfig s) in
  configOpen s2 = true /\ url s2 = v /\ backend s2 = backend s /\ cache s2 = cache s /\
  toasts s2 = toasts s /\ iframeKey s2 = iframeKey s.
Proof.
  intros Hc s2. unfold s2, reports_step, reports_handler, modal_effect. cbn. rewrite Hc. cbn.
  by rewrite !bool_decide_true.
Qed.

(** [handleSave] when the backend accepts the trimmed URL. *)
Lemma save_fulfilled (s : RState S) st' :
  configOpen s = true -> trim (url s) <> [] ->
  act_setPowerBIEmbedUrl (trim (url s)) (backend s) = Fulfilled st' ->
  let s' := reports_step true true RSave s in
  backend s' = st' /\ configOpen s' = false /\ toasts s' = toasts s ++ [ToastSuccess save_ok_msg] /\
  iframeKey s' = iframeKey s /\ embedUrl (cache s') = Some (act_getPowerBIEmbedUrl st').
Proof.
  intros Hc Hu Hset s'. unfold s', reports_step. cbn [reports_handler]. rewrite Hc.
  unfold handleSave. rewrite bool_decide_false by done.
  unfold mutate, mutation_fn, mutation_hook, useSetPowerBIEmbedUrl, with_actor. cbn [m_fn m_key].
  rewrite Hset. cbn.
  rewrite modal_effect_backend, modal_effect_toasts, modal_effect_key, modal_effect_cache; cbn.
  by split_and!.
Qed.
End Lemmas.

#[export] Hint Rewrite @modal_effect_backend @modal_effect_open @modal_effect_cache
  @modal_effect_toasts @modal_effect_key : tt_rw.

(** ** Theorems *)

Section Theorems.
Context {S : Type} `{A : Actor S}.

(** C17: A user who reaches the page without the admin role never changes
    the stored embed URL, whatever they do: the dialog and its Save button
    are mounted for admins only. *)
Theorem non_admin_keeps_url ar (s0 s : RState S) :
  rp_reachable ar false s0 s -> backend s = backend s0.
Proof.
  induction 1 as [|ev s _ IH]; [done|]. unfold reports_step. rewrite modal_effect_backend.
  destruct ev; cbn; done.
Qed.

(** C16: An admin who opens the dialog, types a URL that is not blank and
    saves it, with the backend accepting it, gets the trimmed URL stored, a
    success toast, the dialog closed, and the report shown in the iframe
    with that URL. *)
Theorem admin_save_shows_report (s : RState S) v st' :
  configOpen s = false -> trim v <> [] ->
  act_setPowerBIEmbedUrl (trim v) (backend s) = Fulfilled st' ->
  act_getPowerBIEmbedUrl st' = Some (trim v) ->
  let s' := reports_run true true [ROpenConfig; RUrl v; RSave] s in
  backend s' = st' /\ configOpen s' = false /\
  toasts s' = toasts s ++ [ToastSuccess save_ok_msg] /\
  rr_content (reports_render true s') = CIframe (iframeKey s) (trim v).
Proof.
  intros Hc Hv Hset Hget s'. unfold s', reports_run. cbn [foldl].
  destruct (open_then_type true s v Hc) as (Ho & Hu & Hb & _ & Ht & Hk).
  set (s2 := reports_step true true (RUrl v) (reports_step true true ROpenConfig s)) in *.
  assert (Hset' : act_setPowerBIEmbedUrl (trim (url s2)) (backend s2) = Fulfilled st') by (by rewrite Hu, Hb).
  destruct (save_fulfilled s2 st' Ho ltac:(by rewrite Hu) Hset') as (-> & -> & -> & Hk' & He).
  rewrite Ht. split_and!; try done. unfold reports_render, urlLoading. cbn.
  rewrite He, Hget, Hk', Hk. rewrite bool_decide_false by done. cbn. by rewrite bool_decide_false.
Qed.

(** C18: A save the backend rejects (no actor yet, or the call fails) leaves
    the stored URL, the dialog and the typed URL as they were and adds the
    error toast. *)
Theorem save_rejected_keeps_dialog ar (s : RState S) msg :
  configOpen s = true -> trim (url s) <> [] ->
  mutation_fn ar (MSetPowerBIEmbedUrl (trim (url s))) (backend s) = Rejected msg ->
  reports_step ar true RSave s = push_toast (ToastError save_err_msg) s.
Proof.
  intros Hc Hu Hrej. unfold reports_step. cbn [reports_handler]. rewrite Hc.
  unfold handleSave. rewrite bool_decide_false by done. unfold mutate. rewrite Hrej.
  by apply modal_effect_same.
Qed.

(** C19: An admin who opens the dialog while the first fetch of the URL is
    still in flight and types a URL loses it when the fetch completes: the
    modal's effect sees [currentUrl] change and replaces the typed text by
    the stored URL. *)
Theorem settle_overwrites_typed_url ar (s : RState S) v u :
  configOpen s = false -> cache s QPowerBI = None ->
  act_getPowerBIEmbedUrl (backend s) = Some u ->
  url (reports_run ar true [ROpenConfig; RUrl v; RSettle] s) = u.
Proof.
  intros Hc Hq Hget. unfold reports_run. cbn [foldl].
  destruct (open_then_type ar s v Hc) as (Ho & _ & Hb & Hcs & _ & _).
  set (s2 := reports_step ar true (RUrl v) (reports_step ar true ROpenConfig s)) in *.
  unfold reports_step at 1. cbn [reports_handler]. unfold modal_effect, currentUrl. cbn.
  rewrite Ho, Hcs, Hb, read_url_fetch, Hget by done. unfold embedUrl. rewrite Hq.
  by rewrite bool_decide_false.
Qed.
End Theorems.

(** ** Concrete sessions, on the in-memory backend of [Queries] *)

Definition db_with_url (u : option jstr) : MemDb := mkMemDb [] [] [] None u.

Lemma non_admin_keeps_url_witness :
  let s0 := reports_init cache_empty (db_with_url None) in
  backend (reports_step true false RSave (reports_step true false (RUrl (str "https://x"))
    (reports_step true false ROpenConfig s0))) = backend s0.
Proof.
  apply (non_admin_keeps_url true). apply rp_step, rp_step, rp_step, rp_init.
Defined.

Lemma admin_save_shows_report_witness :
  rr_content (reports_render true (reports_run true true
    [ROpenConfig; RUrl (str " https://bi "); RSave] (reports_init cache_empty (db_with_url None))))
  = CIframe 0 (str "https://bi").
Proof.
  destruct (admin_save_shows_report (reports_init cache_empty (db_with_url None)) (str " https://bi ")
              (db_with_url (Some (str "https://bi")))) as (_ & _ & _ & H);
    [reflexivity | vm_compute; discriminate | reflexivity | reflexivity | exact H].
Defined.

Lemma save_rejected_keeps_dialog_witness :
  let s := mkRState true 0 (str "https://bi") cache_empty (db_with_url None) [] in
  reports_step false true RSave s = push_toast (ToastError save_err_msg) s.
Proof.
  apply (save_rejected_keeps_dialog false _ (str "Actor not ready"));
    [reflexivity | vm_compute; discriminate | reflexivity].
Defined.

Lemma settle_overwrites_typed_url_witness :
  url (reports_run true true [ROpenConfig; RUrl (str "https://new"); RSettle]
         (reports_init cache_empty (db_with_url (Some (str "https://old"))))) = str "https://old".
Proof. apply settle_overwrites_typed_url; reflexivity. Defined.
