(* ===== verification/ResourceTable.v ===== *)
(** * The resource list's two views: [components/ResourceTableView.tsx] and
      [components/ResourceCard.tsx]

    [ResourcesPage] shows its filtered resources either as the table
    ([table_view]: sortable headers, one row per resource in the order of
    [ResourceList.table_sort]) or as a grid of cards ([ResourceCard]).  A
    row ([RowView]) and a card ([CardView]) are what they display, cell by
    cell, with the em dash the code writes for an empty value as [TDash],
    and the two callbacks their buttons call.

    Theorems: the rows' Edit and Delete buttons are one pair per resource;
    the skill cells show the first three skills and a count of the others;
    exactly one sortable header shows an arrow; and a card shows the
    deprecated [skillTags], which the import leaves empty, so an imported
    resource shows its skills in the table but none on its card. *)

From S2P Require Import Prelude JsString Domain JsDate FieldParse RowMapper ResourceList Projects.

(** A text cell: the text, or the em dash of [value || '—']. *)
Inductive Text := TStr (s : jstr) | TDash.

#[global] Instance Text_eq_dec : EqDecision Text.
Proof. solve_decision. Defined.

Definition or_dash (s : jstr) : Text := match s with [] => TDash | _ => TStr s end.

(** [SortIcon]. *)
Inductive SortIconView := IconNeutral | IconUp | IconDown.

#[global] Instance SortIconView_eq_dec : EqDecision SortIconView.
Proof. solve_decision. Defined.

Definition SortIcon (col sortKey : SortKey) (sortDir : SortDir) : SortIconView :=
  if decide (col = sortKey) then match sortDir with Asc => IconUp | Desc => IconDown end
  else IconNeutral.

(** The header row: each column's label and, for a [SortableHead], its key. *)
Definition TABLE_HEADS : list (jstr * option SortKey) :=
  [(str "Employee ID", Some SKemployeeId); (str "Name", Some SKname); (str "Email ID", None);
   (str "Contact Number", Some SKcontactNumber); (str "Location", Some SKlocation);
   (str "Client", Some SKclient); (str "Project", Some SKproject); (str "Project ID", None);
   (str "PM", Some SKprojectManager); (str "RM", Some SKreportingManager);
   (str "Delivery Head", Some SKdeliveryHead);
   (str "Assignment Start Date", Some SKassignmentStartDate);
   (str "Assignment End Date", Some SKassignmentEndDate);
   (str "Billability Status", Some SKbillabilityStatus);
   (str "Non-Billable Category", Some SKnonBillableStatus);
   (str "Primary Skills", None); (str "Secondary Skills", None); (str "Practice", None);
   (str "Experience", None); (str "Active Status", Some SKstatus); (str "Actions", None)].

Definition table_headers (sortKey : SortKey) (sortDir : SortDir) : list (jstr * option SortIconView) :=
  (fun h : jstr * option SortKey => (h.1, (fun col => SortIcon col sortKey sortDir) <$> h.2)) <$> TABLE_HEADS.

(** [NON_BILLABLE_LABELS], keyed by the enum's string values. *)
Definition NON_BILLABLE_LABELS : list (jstr * jstr) :=
  [(str "availableForDeployment", str "Available for Deployment"); (str "biBench", str "BI Bench");
   (str "partialBench", str "Partial Bench"); (str "benchBlocked", str "Bench Blocked");
   (str "maternity", str "Maternity"); (str "solutionInvestment", str "Solution Investment");
   (str "deliverySupport", str "Delivery Support"); (str "projectBuffer", str "Project Buffer")].

(** The category cell.  An inherited member of [Object.prototype] (see
    [FieldParse]) is truthy, is no key of the labels, and is then rendered
    as a child, which React refuses ([NBCInherited]). *)
Inductive CategoryCell := NBCDash | NBCLabel (l : jstr) | NBCInherited (k : jstr).

Definition category_cell (v : option NonBillableValue) : CategoryCell :=
  match v with
  | None => NBCDash
  | Some (NBEnum c) =>
      NBCLabel (assoc (category_value c) NON_BILLABLE_LABELS ?? category_value c)
  | Some (NBObjectProto k) => NBCInherited k
  end.

(** A skills cell: the first [n] tags, [+k] for the others, a dash when
    there is none. *)
Record TagsView := mkTagsView { tv_shown : list jstr; tv_more : option nat; tv_dash : bool }.

Definition tags_view (n : nat) (l : list jstr) : TagsView :=
  mkTagsView (take n l) (if decide (n < length l) then Some (length l - n) else None)
    (bool_decide (length l = 0)).

Section Rows.
Context `{D : JsDate}.

(** A date cell: [d && d !== 0n ? formatDate(d) : '—']; [None] where
    [formatDate] prints an era. *)
Definition date_cell (d : Time) : option Text :=
  if decide (d = 0%Z) then Some TDash else TStr <$> formatDate d.

(** One row of the table body. *)
Record RowView := mkRowView {
  rv_employeeId : jstr;            (* employeeId || id *)
  rv_initials : option jstr;       (* the avatar *)
  rv_name : jstr;
  rv_email : jstr;
  rv_contact : Text; rv_location : Text; rv_client : Text; rv_project : Text;
  rv_projectId : Text; rv_pm : Text; rv_rm : Text; rv_dh : Text;
  rv_start : option Text; rv_end : option Text;
  rv_billable : bool;              (* BillabilityBadge: Billable / Non-Billable *)
  rv_category : CategoryCell;
  rv_primary : TagsView; rv_secondary : TagsView;
  rv_practice : Text; rv_experience : Text;
  rv_active : bool;                (* StatusBadge: Active / Inactive *)
  rv_onEdit : Resource;            (* onClick={() => onEdit(resource)} *)
  rv_onDelete : jstr;              (* onClick={() => onDelete(resource.id)} *)
}.

Definition row_view (r : Resource) : RowView :=
  {| rv_employeeId := js_or (employeeId r) (id r);
     rv_initials := initials (name r);
     rv_name := name r;
     rv_email := email r;
     rv_contact := or_dash (contactNumber r); rv_location := or_dash (location r);
     rv_client := or_dash (client r); rv_project := or_dash (project r);
     rv_projectId := or_dash (default [] (projectId r));
     rv_pm := or_dash (projectManager r); rv_rm := or_dash (reportingManager r);
     rv_dh := or_dash (deliveryHead r);
     rv_start := date_cell (assignmentStartDate r); rv_end := date_cell (assignmentEndDate r);
     rv_billable := bool_decide (billabilityStatus r = BillabilityStatus.billable);
     rv_category := category_cell (nonBillableStatus r);
     rv_primary := tags_view 3 (primarySkills r); rv_secondary := tags_view 3 (secondarySkills r);
     rv_practice := or_dash (practice r); rv_experience := or_dash (totalExperience r);
     rv_active := bool_decide (status r = ResourceStatus.active);
     rv_onEdit := r; rv_onDelete := id r |}.

Inductive TableBody := TBEmpty | TBRows (rows : list RowView).

Record TableView := mkTableView { tv_heads : list (jstr * option SortIconView); tv_body : TableBody }.

Section Table.
Context `{C : Collator}.

(** [ResourceTableView] with its sort state; [None] when [sorted] throws. *)
Definition table_view (sortKey : SortKey) (sortDir : SortDir) (resources : list Resource)
    : option TableView :=
  sorted ← table_sort sortKey sortDir resources;
  Some (mkTableView (table_headers sortKey sortDir)
          (match sorted with [] => TBEmpty | _ => TBRows (row_view <$> sorted) end)).
End Table.
End Rows.

(** One card of the grid. *)
Record CardView := mkCardView {
  cv_initials : option jstr;
  cv_name : jstr;
  cv_role : jstr;
  cv_active : bool;
  cv_department : jstr;
  cv_email : jstr;
  cv_tags : option TagsView;       (* [skillTags.length > 0 && ...] *)
  cv_onEdit : Resource;
  cv_onDelete : jstr;
}.

Definition ResourceCard (r : Resource) : CardView :=
  {| cv_initials := initials (name r);
     cv_name := name r;
     cv_role := role r;
     cv_active := bool_decide (status r = ResourceStatus.active);
     cv_department := department r;
     cv_email := email r;
     cv_tags := if decide (0 < length (skillTags r)) then Some (tags_view 4 (skillTags r)) else None;
     cv_onEdit := r; cv_onDelete := id r |}.

(** ** Lemmas *)

Lemma table_sort_perm `{C : Collator} key d rs l : table_sort key d rs = Some l -> l ≡ₚ rs.
Proof. unfold table_sort. case_decide; [|done]. intros [= <-]. apply sort_by_perm. Qed.

(** ** Theorems *)

(** The table's rows are the resources, reordered: their Edit buttons
    pass each resource once and their Delete buttons each id once, and the
    "No resources found" row shows exactly when there is none. *)
Theorem table_actions `{D : JsDate} `{C : Collator} key d rs tv :
  table_view key d rs = Some tv ->
  match tv_body tv with
  | TBEmpty => rs = []
  | TBRows rows => rv_onEdit <$> rows ≡ₚ rs /\ rv_onDelete <$> rows ≡ₚ id <$> rs
  end.
Proof.
  unfold table_view. destruct (table_sort key d rs) as [l|] eqn:Hs; [|done]. cbn.
  intros [= <-]. apply table_sort_perm in Hs. cbn. destruct l as [|r l].
  - by apply Permutation_nil in Hs.
  - rewrite <- !list_fmap_compose. cbn. rewrite list_fmap_id. split; [done|].
    by rewrite <- Hs.
Qed.

(** A skills cell shows the first [n] skills and a [+k] for exactly the
    others, and the dash exactly when there is no skill. *)
Theorem tags_view_count n l :
  tv_shown (tags_view n l) = take n l /\
  length (tv_shown (tags_view n l)) + default 0 (tv_more (tags_view n l)) = length l /\
  (tv_dash (tags_view n l) = true <-> l = []).
Proof.
  cbn. rewrite length_take. split_and!; [done| |].
  - case_decide; cbn; lia.
  - rewrite bool_decide_eq_true, length_zero_iff_nil. done.
Qed.

(** Exactly one header shows the sort direction, the sorted column's;
    sorted by the e-mail column, which has no sortable header, none does. *)
Theorem one_sort_arrow key d :
  length (filter (fun h : jstr * option SortIconView => is_Some h.2 /\ h.2 <> Some IconNeutral)
            (table_headers key d))
  = if decide (key = SKemail) then 0 else 1.
Proof. destruct key, d; vm_compute; reflexivity. Qed.

(** C38: A resource created by the import has its skills only in
    [primarySkills] and [secondarySkills]: the table shows them, while its
    card, which reads the deprecated [skillTags], shows no skill at all. *)
Theorem imported_card_no_skills `{D : JsDate} headers row i nid r :
  resource (mapRowToResource headers row i nid) = Some r ->
  cv_tags (ResourceCard r) = None /\ rv_primary (row_view r) = tags_view 3 (primarySkills r).
Proof.
  unfold mapRowToResource. cbn. case_decide; [|done]. intros [= <-]. done.
Qed.

(** ** Concrete tables *)

Lemma table_actions_witness :
  match table_view (D := utc_date) SKname Asc
          [list_row (str "E2") (str "Zoe") None; list_row (str "E1") (str "Al") None] with
  | Some tv =>
      match tv_body tv with
      | TBEmpty => False
      | TBRows rows => rv_onDelete <$> rows ≡ₚ
          id <$> [list_row (str "E2") (str "Zoe") None; list_row (str "E1") (str "Al") None]
      end
  | None => False
  end.
Proof.
  destruct (table_view (D := utc_date) SKname Asc _) as [tv|] eqn:E; [|vm_compute in E; discriminate].
  pose proof (table_actions (D := utc_date) SKname Asc _ tv E) as H.
  destruct (tv_body tv); [vm_compute in H; discriminate|exact (proj2 H)].
Defined.

Lemma imported_card_no_skills_witness :
  match resource (mapRowToResource (D := utc_date)
          [str "Employee ID"; str "Name"; str "Email ID"; str "Primary Skills"]
          [str "E9"; str "Ann"; str "ann@x.com"; str "SQL;Python"] 2 (str "r1")) with
  | Some r => cv_tags (ResourceCard r) = None /\
              tv_shown (rv_primary (row_view (D := utc_date) r)) = [str "SQL"; str "Python"]
  | None => False
  end.
Proof.
  destruct (resource (mapRowToResource (D := utc_date) _ _ 2 (str "r1"))) as [r|] eqn:E;
    [|vm_compute in E; discriminate].
  destruct (imported_card_no_skills (D := utc_date) _ _ 2 (str "r1") r E) as [H1 H2].
  split; [exact H1|]. rewrite H2. revert E. vm_compute. intros [= <-]. reflexivity.
Defined.
